(** * The native-extension bridge: protocol dispatch and argument binding

    A shallow embedding of the parts of [ext/Objects/abstract.cpp] and
    [ext/Python/getargs.cpp] that the specification's properties are about,
    and the proofs of those properties.

    Conventions.
    - C integers are [Z]; the data model is LP64 ([int] has 32 bits, [long],
      [Py_ssize_t] and the runtime's [word] have 64).
    - Native code runs in the monad [M]: a state transformer whose result is
      a return, an abort ([Py_FatalError]) or undefined behaviour of the C
      program (a read of an uninitialised cell, a write past an array).
    - The managed runtime is not part of these files.  Its entry points are
      the fields of the class [Runtime]; theorems are stated for every
      runtime, and [ref_runtime] is one small instance used to run the code
      on concrete inputs. *)

From Stdlib Require Import Ascii String.
From stdpp Require Import base gmap strings list pretty.

Open Scope string_scope.
Open Scope Z_scope.
Open Scope list_scope.

(** ** Objects *)

(** A managed object as it appears behind a handle.  Builtin kinds carry
    their value; [PyInstance] is an instance of any other class, identified
    by the class name and an identity. *)
#[warnings="-register-all"]
Inductive PyObject : Type :=
| PyNone
| PyBool (b : bool)
| PyLong (v : Z)
| PyFloat (d : Z)
| PyComplex (re im : Z)
| PyUnicode (s : string)
| PyBytes (s : string)
| PyByteArray (s : string)
| PyTuple (items : list PyObject)
| PyList (items : list PyObject)
| PyDict (items : list (PyObject * PyObject))
| PyMemoryView (buffer : PyObject) (length : Z)
| PyPointer (cptr : Z)
| PyArray (data : string)
| PyTypeObject (name : string)
| PyInstance (cls : string) (id : Z).

(** What a runtime call hands back: an object, or one of the two error
    markers ([Error::notFound()], [Error::exception()]). *)
Inductive RawObject : Type :=
| Obj (o : PyObject)
| ErrorNotFound
| ErrorException.

Definition isError (r : RawObject) : bool :=
  match r with Obj _ => false | _ => true end.

Definition isErrorNotFound (r : RawObject) : bool :=
  match r with ErrorNotFound => true | _ => false end.

Inductive LayoutId : Type :=
| kTypeError | kValueError | kOverflowError | kSystemError | kBufferError
| kMemoryError.

Definition layoutName (l : LayoutId) : string :=
  match l with
  | kTypeError => "TypeError"
  | kValueError => "ValueError"
  | kOverflowError => "OverflowError"
  | kSystemError => "SystemError"
  | kBufferError => "BufferError"
  | kMemoryError => "MemoryError"
  end.

Definition typeAt (l : LayoutId) : PyObject := PyTypeObject (layoutName l).

(** ** Machine integers *)

Definition kBitsPerWord : Z := 64.
Definition kMaxWord : Z := 2 ^ 63 - 1.
Definition kMinWord : Z := - 2 ^ 63.
Definition INT_MAX : Z := 2 ^ 31 - 1.
Definition INT_MIN : Z := - 2 ^ 31.
Definition UCHAR_MAX : Z := 255.
Definition SHRT_MAX : Z := 32767.
Definition SHRT_MIN : Z := -32768.

(** Two's complement wrap-around to [bits] bits, signed and unsigned. *)
Definition wrap_signed (bits : Z) (z : Z) : Z :=
  (z + 2 ^ (bits - 1)) `mod` 2 ^ bits - 2 ^ (bits - 1).

Definition wrap_unsigned (bits : Z) (z : Z) : Z := z `mod` 2 ^ bits.

Definition word_add (a b : Z) : Z := wrap_signed kBitsPerWord (a + b).
Definition word_mul (a b : Z) : Z := wrap_signed kBitsPerWord (a * b).

(** ** The runtime's integers

    An [Int] is an integer of any size, stored as 64-bit two's complement
    digits; a [SmallInt] is an immediate of 63 bits.  The accessors below
    are the runtime's ([objects.h], not part of these files), written on
    the value. *)

Definition SmallInt_kMinValue : Z := - 2 ^ 62.
Definition SmallInt_kMaxValue : Z := 2 ^ 62 - 1.

Definition SmallInt_isValid (v : Z) : bool :=
  (SmallInt_kMinValue <=? v) && (v <=? SmallInt_kMaxValue).

Definition isSmallInt (o : PyObject) : bool :=
  match o with PyLong v => SmallInt_isValid v | _ => false end.

Definition isNegative (v : Z) : bool := v <? 0.

(** Number of 64-bit digits of the shortest two's complement form. *)
Definition numDigits (v : Z) : Z :=
  let mag := if v <? 0 then - v - 1 else v in
  let value_bits := if mag =? 0 then 0 else Z.log2 mag + 1 in
  (value_bits + 1 + 63) `div` 64.

Definition asWord (v : Z) : Z := wrap_signed kBitsPerWord v.

Definition asWordSaturated (v : Z) : Z :=
  if numDigits v =? 1 then asWord v
  else if isNegative v then kMinWord else kMaxWord.

(** [intUnderlying]: the [Int] inside an instance of [int]. *)
Definition intUnderlying (o : PyObject) : option Z :=
  match o with
  | PyLong v => Some v
  | PyBool b => Some (if b then 1 else 0)
  | _ => None
  end.

(** [Runtime::newInt(word)]. *)
Definition newInt (w : Z) : PyObject := PyLong w.

(** ** Type names, as ["%T"] and [_PyType_Name(Py_TYPE(o))] print them *)

Definition typeName (o : PyObject) : string :=
  match o with
  | PyNone => "NoneType"
  | PyBool _ => "bool"
  | PyLong _ => "int"
  | PyFloat _ => "float"
  | PyComplex _ _ => "complex"
  | PyUnicode _ => "str"
  | PyBytes _ => "bytes"
  | PyByteArray _ => "bytearray"
  | PyTuple _ => "tuple"
  | PyList _ => "list"
  | PyDict _ => "dict"
  | PyMemoryView _ _ => "memoryview"
  | PyPointer _ => "_ptr"
  | PyArray _ => "array"
  | PyTypeObject _ => "type"
  | PyInstance cls _ => cls
  end.

(** ** Native data *)

(** A C pointer: null, a caller's storage cell, a block from [PyMem_NEW],
    or character data owned by the runtime (shown by its bytes). *)
Inductive Ptr : Type :=
| PNull
| PCell (a : Z)
| PBlock (b : Z)
| PData (s : string).

Record Py_buffer : Type := mkPy_buffer {
  buf : Ptr;
  obj : option PyObject;
  len : Z;
  itemsize : Z;
  readonly : Z;
  ndim : Z;
  format : option string;
  shape : option (list Z);
  strides : option (list Z);
  suboffsets : option (list Z);
  internal : option Z
}.

(** What a caller's storage cell can hold. *)
Inductive CVal : Type :=
| CInt (v : Z)
| CDouble (d : Z)
| CFloat (d : Z)               (* the double [d] narrowed to [float] *)
| CComplex (re im : Z)
| CObj (o : PyObject)
| CPtr (p : Ptr)
| CView (v : Py_buffer).

(** The thread's pending exception. *)
Record Thread : Type := mkThread {
  pending_exception_type : option PyObject;
  pending_exception_value : option string
}.

Definition hasPendingException (t : Thread) : bool :=
  match pending_exception_type t with Some _ => true | None => false end.

(** ** Native state *)

(** A converter passed for the code ["O&"]: a native function
    [int (*)(PyObject*, void*)] of the extension.  It may raise and may
    write the caller's storage. *)
Record converter : Type := mkConverter {
  conv_id : Z;
  conv_call : option PyObject → Ptr → Thread → gmap Z CVal →
              Z * Thread * gmap Z CVal
}.

(** [destr_t]: the three functions that are ever registered. *)
Inductive destr_t : Type :=
| cleanup_ptr_fn
| cleanup_buffer_fn
| converter_fn (c : converter).

Record freelistentry_t : Type := mkEntry {
  item : Ptr;
  destructor : destr_t
}.

(** [entries] is the array ([None]: a slot never written), [entries_ptr]
    the block it lives in when it came from [PyMem_NEW]. *)
Record freelist_t : Type := mkFreelist {
  entries : list (option freelistentry_t);
  entries_ptr : Ptr;
  first_available : Z;
  entries_malloced : Z
}.

Definition STATIC_FREELIST_ENTRIES : Z := 8.
Definition kMaxSmallArraySize : Z := 16.
Definition FLAG_COMPAT : Z := 1.
Definition FLAG_SIZE_T : Z := 2.

(** One variadic argument of a binding call. *)
Inductive VaArg : Type :=
| VaPtr (p : Ptr)
| VaType (t : PyObject)
| VaConverter (c : converter)
| VaStr (s : option string).

(** History of one binding call: which cleanup entries were registered and
    which destructor calls were made, in the order they happened.  The code
    never reads it. *)
Inductive Event : Type :=
| Registered (e : freelistentry_t)
| Invoked (e : freelistentry_t).

Record State : Type := mkState {
  thread : Thread;
  mem : gmap Z CVal;            (* the caller's storage cells *)
  blocks : gmap Z string;       (* live PyMem blocks and their bytes *)
  next_block : Z;
  alloc_budget : nat;           (* allocations that will still succeed *)
  refs : Z;                     (* references taken minus references dropped *)
  va : list VaArg;              (* the va_list of the running call *)
  freelist : freelist_t;        (* the freelist of the running call *)
  hist : list Event
}.

Definition set_thread (t : Thread) (s : State) : State :=
  mkState t (mem s) (blocks s) (next_block s) (alloc_budget s) (refs s)
          (va s) (freelist s) (hist s).
Definition set_mem (m : gmap Z CVal) (s : State) : State :=
  mkState (thread s) m (blocks s) (next_block s) (alloc_budget s) (refs s)
          (va s) (freelist s) (hist s).
Definition set_blocks (b : gmap Z string) (s : State) : State :=
  mkState (thread s) (mem s) b (next_block s) (alloc_budget s) (refs s)
          (va s) (freelist s) (hist s).
Definition set_next_block (n : Z) (s : State) : State :=
  mkState (thread s) (mem s) (blocks s) n (alloc_budget s) (refs s)
          (va s) (freelist s) (hist s).
Definition set_alloc_budget (n : nat) (s : State) : State :=
  mkState (thread s) (mem s) (blocks s) (next_block s) n (refs s)
          (va s) (freelist s) (hist s).
Definition set_refs (r : Z) (s : State) : State :=
  mkState (thread s) (mem s) (blocks s) (next_block s) (alloc_budget s) r
          (va s) (freelist s) (hist s).
Definition set_va (v : list VaArg) (s : State) : State :=
  mkState (thread s) (mem s) (blocks s) (next_block s) (alloc_budget s)
          (refs s) v (freelist s) (hist s).
Definition set_freelist (f : freelist_t) (s : State) : State :=
  mkState (thread s) (mem s) (blocks s) (next_block s) (alloc_budget s)
          (refs s) (va s) f (hist s).
Definition set_hist (h : list Event) (s : State) : State :=
  mkState (thread s) (mem s) (blocks s) (next_block s) (alloc_budget s)
          (refs s) (va s) (freelist s) h.

(** ** The monad of native code *)

Inductive Outcome (A : Type) : Type :=
| Ret (a : A) (s : State)
| Fatal (msg : string) (s : State)   (* Py_FatalError: the process aborts *)
| Undef.                             (* undefined behaviour of the C code *)
Arguments Ret {A} a s.
Arguments Fatal {A} msg s.
Arguments Undef {A}.

Definition M (A : Type) : Type := State → Outcome A.

Definition ret {A} (a : A) : M A := λ s, Ret a s.

Definition bind {A B} (m : M A) (k : A → M B) : M B :=
  λ s, match m s with
       | Ret a s' => k a s'
       | Fatal msg s' => Fatal msg s'
       | Undef => Undef
       end.

Notation "x <- m ;; k" := (bind m (λ x, k))
  (at level 100, m at next level, right associativity).
Notation "m ;;; k" := (bind m (λ _, k))
  (at level 100, right associativity).

Definition undef {A} : M A := λ _, Undef.
Definition Py_FatalError {A} (msg : string) : M A := λ s, Fatal msg s.
Definition get : M State := λ s, Ret s s.
Definition modify (f : State → State) : M unit := λ s, Ret tt (f s).

(** A runtime call: it sees and changes the thread only. *)
Definition liftT {A} (f : Thread → A * Thread) : M A :=
  λ s, let '(a, t) := f (thread s) in Ret a (set_thread t s).

(** *** Exceptions *)

Definition raiseWithFmt (l : LayoutId) (msg : string) : M unit :=
  modify (set_thread (mkThread (Some (typeAt l)) (Some msg))).

Definition PyErr_Format (l : LayoutId) (msg : string) : M unit :=
  raiseWithFmt l msg.

Definition PyErr_Occurred : M bool :=
  s <- get ;; ret (hasPendingException (thread s)).

Definition PyErr_Clear : M unit :=
  modify (set_thread (mkThread None None)).

Definition PyErr_NoMemory : M unit :=
  modify (set_thread (mkThread (Some (typeAt kMemoryError)) None)).

Definition setPendingExceptionType (t : PyObject) : M unit :=
  modify (λ s, set_thread
                 (mkThread (Some t) (pending_exception_value (thread s))) s).

Definition setPendingExceptionValue (v : string) : M unit :=
  modify (λ s, set_thread
                 (mkThread (pending_exception_type (thread s)) (Some v)) s).

Definition nullError : M unit :=
  pending <- PyErr_Occurred ;;
  if pending then ret tt
  else raiseWithFmt kSystemError "null argument to internal routine".

(** *** Reference counts and memory *)

Definition Py_INCREF : M unit := modify (λ s, set_refs (refs s + 1) s).
Definition Py_DECREF : M unit := modify (λ s, set_refs (refs s - 1) s).

(** [ApiHandle::newReference]: the handle of the object, one more reference. *)
Definition newReference (o : PyObject) : M PyObject := Py_INCREF ;;; ret o.

(** [PyMem_NEW]: a fresh block, or null when memory is exhausted. *)
Definition PyMem_NEW (init : string) : M Ptr :=
  λ s, match alloc_budget s with
       | O => Ret PNull s
       | S n =>
         let b := next_block s in
         Ret (PBlock b)
             (set_alloc_budget n
                (set_next_block (b + 1)
                   (set_blocks (<[b := init]> (blocks s)) s)))
       end.

(** [PyMem_FREE] of a live block; anything else is not a valid free. *)
Definition PyMem_FREE (p : Ptr) : M unit :=
  match p with
  | PBlock b =>
    λ s, match blocks s !! b with
         | Some _ => Ret tt (set_blocks (delete b (blocks s)) s)
         | None => Undef
         end
  | _ => undef
  end.

(** [memcpy(dst, src, n)] into a live block. *)
Definition memcpy (dst : Ptr) (bytes : string) : M unit :=
  match dst with
  | PBlock b =>
    λ s, match blocks s !! b with
         | Some _ => Ret tt (set_blocks (<[b := bytes]> (blocks s)) s)
         | None => Undef
         end
  | _ => undef
  end.

(** [*p = v] and [*p] for a pointer to a caller's cell. *)
Definition store (p : Ptr) (v : CVal) : M unit :=
  match p with
  | PCell a => modify (λ s, set_mem (<[a := v]> (mem s)) s)
  | _ => undef
  end.

Definition load (p : Ptr) : M CVal :=
  match p with
  | PCell a => λ s, match mem s !! a with
                    | Some v => Ret v s
                    | None => Undef
                    end
  | _ => undef
  end.

(** ** What the two files take from outside

    Header constants and the entry points of the managed runtime that the
    embedded functions call.  A runtime call sees and changes the thread
    (it may run managed code and raise); a type slot is native code of an
    extension type. *)
Class Runtime : Type := {
  (* buffer request flags and the converter protocol of the C-API headers *)
  PyBUF_SIMPLE : Z;
  PyBUF_WRITABLE : Z;
  PyBUF_FORMAT : Z;
  PyBUF_ND : Z;
  PyBUF_STRIDES : Z;
  Py_CLEANUP_SUPPORTED : Z;
  (* method and function invocation *)
  invokeMethod1 : PyObject → string → Thread → RawObject * Thread;
  invokeFunction1 : string → string → PyObject → Thread → RawObject * Thread;
  invokeFunction2 :
    string → string → PyObject → PyObject → Thread → RawObject * Thread;
  invokeMethod2 : PyObject → string → PyObject → Thread → RawObject * Thread;
  intFromIndex : PyObject → Thread → RawObject * Thread;
  isSequence : PyObject → bool;
  (* conversions of longobject, floatobject, complexobject, object *)
  PyLong_AsLong : PyObject → Thread → Z * Thread;
  PyLong_AsUnsignedLongMask : PyObject → Thread → Z * Thread;
  PyLong_AsSsize_t : PyObject → Thread → Z * Thread;
  PyLong_AsLongLong : PyObject → Thread → Z * Thread;
  PyLong_AsUnsignedLongLongMask : PyObject → Thread → Z * Thread;
  PyFloat_AsDouble : PyObject → Thread → Z * Thread;
  PyComplex_AsCComplex : PyObject → Thread → (Z * Z) * Thread;
  PyObject_IsTrue : PyObject → Thread → Z * Thread;
  (* unicodeobject; character data is handed out with its length *)
  PyUnicode_READY : PyObject → Thread → Z * Thread;
  PyUnicode_GET_LENGTH : PyObject → Z;
  PyUnicode_READ_CHAR : PyObject → Z → Z;
  PyUnicode_AsUTF8AndSize : PyObject → Thread → option string * Thread;
  PyUnicode_AsUnicodeAndSize : PyObject → Thread → option string * Thread;
  PyUnicode_AsEncodedString :
    PyObject → string → Thread → option PyObject * Thread;
  PyUnicode_GetDefaultEncoding : string;
  PyType_IsSubtype : PyObject → PyObject → bool;
  Py_TYPE : PyObject → PyObject;
  (* what ["%s"] prints when it is handed an object instead of a string *)
  object_as_c_string : PyObject → string;
  (* bytes-like builtins *)
  bytesUnderlying : PyObject → PyObject;
  bytesLength : PyObject → Z;
  bytesAsString : PyObject → PyObject → Thread → Ptr * Thread;
  bytearrayNumItems : PyObject → Z;
  bytearrayAsString : PyObject → Thread → Ptr * Thread;
  arrayByteLength : PyObject → Z;
  (* [malloc] of a copy of the array's bytes, kept in the handle's cache *)
  arrayCopyToCache : PyObject → Thread → Ptr * Thread;
  (* types and their slots *)
  typeIsBuiltin : PyObject → bool;
  typeHasSlots : PyObject → bool;
  bf_getbuffer :
    PyObject → option (Ptr → Z → Thread → (Z * option Py_buffer) * Thread);
  bf_releasebuffer : PyObject → option (Py_buffer → Thread → Thread)
}.

Definition isInstanceOfBytes (o : PyObject) : bool :=
  match o with PyBytes _ => true | _ => false end.
Definition isInstanceOfBytearray (o : PyObject) : bool :=
  match o with PyByteArray _ => true | _ => false end.
Definition isMemoryView (o : PyObject) : bool :=
  match o with PyMemoryView _ _ => true | _ => false end.
Definition isInstanceOfArray (o : PyObject) : bool :=
  match o with PyArray _ => true | _ => false end.

(** * [ext/Objects/abstract.cpp] *)

Section Abstract.
Context {rt : Runtime}.

Definition doUnaryOp (op : string) (obj : option PyObject)
  : M (option PyObject) :=
  match obj with
  | None => nullError ;;; ret None
  | Some object =>
    result <- liftT (invokeFunction1 "operator" op object) ;;
    match result with
    | Obj r => h <- newReference r ;; ret (Some h)
    | _ => ret None
    end
  end.

Definition doBinaryOp (op : string) (left right : PyObject)
  : M (option PyObject) :=
  result <- liftT (invokeFunction2 "operator" op left right) ;;
  match result with
  | Obj r => h <- newReference r ;; ret (Some h)
  | _ => ret None
  end.

Definition objectLength (pyobj : option PyObject) : M Z :=
  match pyobj with
  | None => nullError ;;; ret (-1)
  | Some obj =>
    len_index <- liftT (invokeMethod1 obj "__len__") ;;
    match len_index with
    | ErrorNotFound =>
      raiseWithFmt kTypeError "object has no len()" ;;; ret (-1)
    | ErrorException => ret (-1)
    | Obj li =>
      len <- liftT (intFromIndex li) ;;
      match len with
      | Obj l =>
        match intUnderlying l with
        | None => undef
        | Some index =>
          if isNegative index then
            raiseWithFmt kValueError "__len__() should return >= 0" ;;;
            ret (-1)
          else if numDigits index >? 1 then
            raiseWithFmt kOverflowError
              ("cannot fit '" +:+ typeName li +:+
               "' into an index-sized integer") ;;;
            ret (-1)
          else ret (asWord index)
        end
      | _ => ret (-1)
      end
    end
  end.

Definition PyMapping_Length := objectLength.
Definition PyMapping_Size := objectLength.
Definition PyObject_Length := objectLength.
Definition PyObject_Size := objectLength.
Definition PySequence_Length := objectLength.
Definition PySequence_Size := objectLength.

Definition PySequence_Check (o : PyObject) : bool := isSequence o.

(** *** Buffer protocol *)

Definition raiseBufferError (o : PyObject) : M unit :=
  raiseWithFmt kTypeError
    ("a bytes-like object is required, not '" +:+ typeName o +:+ "'").

Definition has_flag (flags flag : Z) : bool := Z.land flags flag =? flag.

Definition PyBuffer_FillInfo (view : Ptr) (exporter : option PyObject)
    (buf : Ptr) (len : Z) (readonly : Z) (flags : Z) : M Z :=
  match view with
  | PNull =>
    raiseWithFmt kBufferError
      "PyBuffer_FillInfo: view==NULL argument is obsolete" ;;;
    ret (-1)
  | _ =>
    if has_flag flags PyBUF_WRITABLE && (readonly =? 1) then
      raiseWithFmt kBufferError "Object is not writable." ;;; ret (-1)
    else
      (match exporter with Some _ => Py_INCREF | None => ret tt end) ;;;
      store view
        (CView {| obj := exporter;
                  buf := buf;
                  len := len;
                  readonly := readonly;
                  itemsize := 1;
                  format := if has_flag flags PyBUF_FORMAT
                            then Some "B" else None;
                  ndim := 1;
                  (* shape = &view->len *)
                  shape := if has_flag flags PyBUF_ND
                           then Some [len] else None;
                  (* strides = &view->itemsize *)
                  strides := if has_flag flags PyBUF_STRIDES
                             then Some [1] else None;
                  suboffsets := None;
                  internal := None |}) ;;;
      ret 0
  end.

(** [a[d]] for an array given by pointer: nothing to read behind a null
    pointer or past the end. *)
Definition at_index (a : option (list Z)) (d : nat) : option Z :=
  match a with
  | Some l => l !! d
  | None => None
  end.

(** One round of the stride loops: [Some None] is [return false],
    [Some (Some s)] goes on with the next [dim_stride]. *)
Definition stride_step (view : Py_buffer) (d : nat) (dim_stride : Z)
  : option (option Z) :=
  match at_index (shape view) d with
  | None => None
  | Some dim_size =>
    if dim_size >? 1 then
      match at_index (strides view) d with
      | None => None
      | Some st =>
        if negb (st =? dim_stride) then Some None
        else Some (Some (word_mul dim_stride dim_size))
      end
    else Some (Some (word_mul dim_stride dim_size))
  end.

(** [for (d = k - 1; d >= 0; d--)]. *)
Fixpoint row_major_loop (view : Py_buffer) (k : nat) (dim_stride : Z)
  : option bool :=
  match k with
  | O => Some true
  | S d =>
    match stride_step view d dim_stride with
    | None => None
    | Some None => Some false
    | Some (Some s) => row_major_loop view d s
    end
  end.

Definition isContiguousWithRowMajorOrder (view : Py_buffer) : option bool :=
  match suboffsets view with
  | Some _ => Some false
  | None =>
    match strides view with
    | None => Some true
    | Some _ =>
      if len view =? 0 then Some true
      else row_major_loop view (Z.to_nat (ndim view)) (itemsize view)
    end
  end.

(** [for (d = ndim - k; d < ndim; d++)]. *)
Fixpoint col_major_loop (view : Py_buffer) (k : nat) (d : nat)
    (dim_stride : Z) : option bool :=
  match k with
  | O => Some true
  | S k' =>
    match stride_step view d dim_stride with
    | None => None
    | Some None => Some false
    | Some (Some s) => col_major_loop view k' (S d) s
    end
  end.

(** The loop of the stride-less case: at most one dimension above 1. *)
Fixpoint nonempty_dim_loop (view : Py_buffer) (k : nat) (d : nat)
    (had_nonempty_dim : bool) : option bool :=
  match k with
  | O => Some true
  | S k' =>
    match at_index (shape view) d with
    | None => None
    | Some dim_size =>
      if dim_size >? 1 then
        if had_nonempty_dim then Some false
        else nonempty_dim_loop view k' (S d) true
      else nonempty_dim_loop view k' (S d) had_nonempty_dim
    end
  end.

Definition isContiguousWithColumnMajorOrder (view : Py_buffer)
  : option bool :=
  match suboffsets view with
  | Some _ => Some false
  | None =>
    if len view =? 0 then Some true
    else
      match strides view with
      | None =>
        if ndim view <=? 1 then Some true
        else nonempty_dim_loop view (Z.to_nat (ndim view)) 0 false
      | Some _ =>
        col_major_loop view (Z.to_nat (ndim view)) 0 (itemsize view)
      end
  end.

Definition PyBuffer_IsContiguous (view : Py_buffer) (order : ascii)
  : option bool :=
  if decide (order = "C"%char) then isContiguousWithRowMajorOrder view
  else if decide (order = "F"%char) then
    isContiguousWithColumnMajorOrder view
  else if decide (order = "A"%char) then
    match isContiguousWithRowMajorOrder view with
    | None => None
    | Some true => Some true
    | Some false => isContiguousWithColumnMajorOrder view
    end
  else Some false.

(** [view] is the address of the caller's [Py_buffer]. *)
Definition PyBuffer_Release (view : Ptr) : M unit :=
  c <- load view ;;
  match c with
  | CView v =>
    match obj v with
    | None => ret tt
    | Some pyobj =>
      (if typeHasSlots pyobj then
         match bf_releasebuffer pyobj with
         | Some releasebuffer_fn => liftT (λ t, (tt, releasebuffer_fn v t))
         | None => ret tt
         end
       else ret tt) ;;;
      store view
        (CView (mkPy_buffer (buf v) None (len v) (itemsize v) (readonly v)
                  (ndim v) (format v) (shape v) (strides v) (suboffsets v)
                  (internal v))) ;;;
      Py_DECREF
    end
  | _ => undef
  end.

Definition PyObject_GetBuffer (o : PyObject) (view : Ptr) (flags : Z)
  : M Z :=
  if isInstanceOfBytes o then
    buffer <- liftT (bytesAsString o (bytesUnderlying o)) ;;
    match buffer with
    | PNull => ret (-1)
    | _ => PyBuffer_FillInfo view (Some o) buffer
             (bytesLength (bytesUnderlying o)) 1 flags
    end
  else if isInstanceOfBytearray o then
    buffer <- liftT (bytearrayAsString o) ;;
    match buffer with
    | PNull => ret (-1)
    | _ => PyBuffer_FillInfo view (Some o) buffer (bytearrayNumItems o) 1
             flags
    end
  else
    match o with
    | PyMemoryView buffer length =>
      if isInstanceOfBytes buffer then
        underlying_buffer <- liftT (bytesAsString o (bytesUnderlying o)) ;;
        match underlying_buffer with
        | PNull => ret (-1)
        | _ => PyBuffer_FillInfo view (Some o) underlying_buffer length 1
                 flags
        end
      else
        match buffer with
        | PyPointer cptr =>
          PyBuffer_FillInfo view (Some o) (PCell cptr) length 1 flags
        | _ => undef
        end
    | _ =>
      if isInstanceOfArray o then
        buffer <- liftT (arrayCopyToCache o) ;;
        match buffer with
        | PNull => ret (-1)
        | _ => PyBuffer_FillInfo view (Some o) buffer (arrayByteLength o) 1
                 flags
        end
      else if typeIsBuiltin o then raiseBufferError o ;;; ret (-1)
      else if negb (typeHasSlots o) then raiseBufferError o ;;; ret (-1)
      else
        match bf_getbuffer o with
        | None => raiseBufferError o ;;; ret (-1)
        | Some slot =>
          r <- liftT (slot view flags) ;;
          match r with
          | (res, Some v) => store view (CView v) ;;; ret res
          | (res, None) => ret res
          end
        end
    end.

(** *** Number protocol *)

Definition PyNumber_Absolute (o : option PyObject) := doUnaryOp "abs" o.

Definition smallIntAdd (left right : PyObject) : M (option PyObject) :=
  match left, right with
  | PyLong l, PyLong r =>
    if isSmallInt left && isSmallInt right then
      h <- newReference (newInt (word_add l r)) ;; ret (Some h)
    else ret None
  | _, _ => ret None
  end.

Definition PyNumber_Add (left right : PyObject) : M (option PyObject) :=
  result <- smallIntAdd left right ;;
  match result with
  | Some r => ret (Some r)
  | None => doBinaryOp "add" left right
  end.

Definition PyNumber_Index (item : option PyObject) : M (option PyObject) :=
  match item with
  | None => nullError ;;; ret None
  | Some o =>
    index <- liftT (intFromIndex o) ;;
    match index with
    | Obj i => h <- newReference i ;; ret (Some h)
    | _ => ret None
    end
  end.

Definition PySequence_GetItem (seq : option PyObject) (idx : Z)
  : M (option PyObject) :=
  match seq with
  | None => nullError ;;; ret None
  | Some seq_obj =>
    let fast :=
      match seq_obj with
      | PyTuple items | PyList items =>
        if (0 <=? idx) && (idx <? Z.of_nat (length items))
        then items !! Z.to_nat idx else None
      | _ => None
      end in
    match fast with
    | Some it => h <- newReference it ;; ret (Some h)
    | None =>
      result <- liftT (invokeMethod2 seq_obj "__getitem__" (newInt idx)) ;;
      match result with
      | Obj r => h <- newReference r ;; ret (Some h)
      | ErrorNotFound =>
        raiseWithFmt kTypeError "could not call __getitem__" ;;; ret None
      | ErrorException => ret None
      end
    end
  end.

Definition PyNumber_And (left right : PyObject) : M (option PyObject) :=
  doBinaryOp "and_" left right.

Definition PyNumber_AsSsize_t (o : option PyObject)
    (overflow_err : option PyObject) : M Z :=
  match o with
  | None => nullError ;;; ret (-1)
  | Some index =>
    num <- liftT (intFromIndex index) ;;
    match num with
    | Obj n =>
      match intUnderlying n with
      | None => undef
      | Some number =>
        match overflow_err with
        | None => ret (asWordSaturated number)
        | Some err =>
          if numDigits number =? 1 then ret (asWordSaturated number)
          else
            setPendingExceptionType err ;;;
            setPendingExceptionValue
              ("cannot fit '" +:+ typeName index +:+
               "' into an index-sized integer") ;;;
            ret (-1)
        end
      end
    | _ => ret (-1)
    end
  end.

End Abstract.

(** * [ext/Python/getargs.cpp] *)

(** ** Strings as C sees them *)

Definition NUL : ascii := "000"%char.

(** [*format] and [format + 1]. *)
Definition peek (format : string) : ascii :=
  match format with
  | EmptyString => NUL
  | String c _ => c
  end.

Definition advance (format : string) : string :=
  match format with
  | EmptyString => EmptyString
  | String _ rest => rest
  end.

Definition Py_ISALPHA (c : ascii) : bool :=
  let n := Z.of_nat (nat_of_ascii c) in
  ((65 <=? n) && (n <=? 90)) || ((97 <=? n) && (n <=? 122)).

(** [strlen]: the bytes before the first NUL. *)
Fixpoint strlen (s : string) : Z :=
  match s with
  | EmptyString => 0
  | String c rest => if decide (c = NUL) then 0 else 1 + strlen rest
  end.

Definition slen (s : string) : Z := Z.of_nat (String.length s).

(** ["%.Ns"] and the bound of [PyOS_snprintf]. *)
Definition trunc (n : nat) (s : string) : string := String.substring 0 n s.
Definition snprintf (bufsize : nat) (s : string) : string :=
  trunc (bufsize - 1) s.
Definition fmt_d (z : Z) : string := pretty z.

(** [strchr(s, c)], then one past it. *)
Fixpoint after_char (c : ascii) (s : string) : option string :=
  match s with
  | EmptyString => None
  | String d rest =>
    if decide (d = NUL) then None
    else if decide (d = c) then Some rest
    else after_char c rest
  end.

(** [IS_END_OF_FORMAT]. *)
Definition IS_END_OF_FORMAT (c : ascii) : bool :=
  bool_decide (c = NUL) || bool_decide (c = ";"%char)
  || bool_decide (c = ":"%char).

(** ** Object tests that are macros over the object's kind *)

Definition PyFloat_Check (o : PyObject) : bool :=
  match o with PyFloat _ => true | _ => false end.
Definition PyLong_Check (o : PyObject) : bool :=
  match o with PyLong _ | PyBool _ => true | _ => false end.
Definition PyBytes_Check (o : PyObject) : bool :=
  match o with PyBytes _ => true | _ => false end.
Definition PyByteArray_Check (o : PyObject) : bool :=
  match o with PyByteArray _ => true | _ => false end.
Definition PyUnicode_Check (o : PyObject) : bool :=
  match o with PyUnicode _ => true | _ => false end.
Definition PyTuple_Check (o : PyObject) : bool :=
  match o with PyTuple _ => true | _ => false end.
Definition PyDict_Check (o : PyObject) : bool :=
  match o with PyDict _ => true | _ => false end.
Definition is_None (o : PyObject) : bool :=
  match o with PyNone => true | _ => false end.

(** The bytes of a [bytes] or [bytearray] object. *)
Definition byte_data (o : PyObject) : string :=
  match o with
  | PyBytes s | PyByteArray s => s
  | _ => EmptyString
  end.

Definition first_byte (s : string) : Z :=
  Z.of_nat (nat_of_ascii (peek s)).

Definition _PyType_Name (t : PyObject) : string :=
  match t with
  | PyTypeObject name => name
  | _ => typeName t
  end.

(** ["None"] or the type name, as the messages print the rejected value. *)
Definition arg_type_name (arg : PyObject) : string :=
  if is_None arg then "None" else typeName arg.

(** ** Results of the converters *)

(** A returned message: text, or [msgbuf] returned without having been
    written ([RETURN_ERR_OCCURRED]). *)
Inductive Msg : Type :=
| MsgText (s : string)
| MsgBuf.

Inductive Conv : Type :=
| Failed (msg : Msg)
| Converted (format : string).

(** With the [levels] written on failure (a 0-terminated list). *)
Inductive ConvL : Type :=
| FailedAt (msg : Msg) (levels : list Z)
| Done (format : string).

(** A loop either makes the function return or falls through. *)
Inductive Flow (R A : Type) : Type :=
| Return (r : R)
| Next (a : A).
Arguments Return {R A} r.
Arguments Next {R A} a.

Section GetArgs.
Context {rt : Runtime}.

(** ** The va_list *)

Definition va_arg : M VaArg :=
  λ s, match va s with
       | a :: rest => Ret a (set_va rest s)
       | [] => Undef
       end.

Definition va_arg_ptr : M Ptr :=
  a <- va_arg ;; match a with VaPtr p => ret p | _ => undef end.
Definition va_arg_type : M PyObject :=
  a <- va_arg ;; match a with VaType t => ret t | _ => undef end.
Definition va_arg_converter : M converter :=
  a <- va_arg ;; match a with VaConverter c => ret c | _ => undef end.
Definition va_arg_str : M (option string) :=
  a <- va_arg ;; match a with VaStr e => ret e | _ => undef end.

(** ** Cleanup *)

Definition cleanup_ptr (ptr : Ptr) : M Z :=
  match ptr with
  | PNull => ret 0
  | _ => PyMem_FREE ptr ;;; ret 0
  end.

Definition cleanup_buffer (ptr : Ptr) : M Z :=
  match ptr with
  | PNull => ret 0
  | _ => PyBuffer_Release ptr ;;; ret 0
  end.

Definition call_converter (c : converter) (arg : option PyObject)
    (addr : Ptr) : M Z :=
  λ s, let '(res, t, m) := conv_call c arg addr (thread s) (mem s) in
       Ret res (set_mem m (set_thread t s)).

(** [destructor(nullptr, item)]. *)
Definition call_destructor (e : freelistentry_t) : M Z :=
  match destructor e with
  | cleanup_ptr_fn => cleanup_ptr (item e)
  | cleanup_buffer_fn => cleanup_buffer (item e)
  | converter_fn c => call_converter c None (item e)
  end.

Definition record_event (ev : Event) : M unit :=
  modify (λ s, set_hist (hist s ++ [ev]) s).

Definition addcleanup (ptr : Ptr) (destr : destr_t) : M Z :=
  s <- get ;;
  let fl := freelist s in
  let index := first_available fl in
  if (0 <=? index) && (index <? Z.of_nat (length (entries fl))) then
    modify (set_freelist
              (mkFreelist
                 (<[Z.to_nat index := Some (mkEntry ptr destr)]> (entries fl))
                 (entries_ptr fl) (index + 1) (entries_malloced fl))) ;;;
    record_event (Registered (mkEntry ptr destr)) ;;;
    ret 0
  else undef.

(** [for (index = first; index < first_available; ++index)], [n] rounds. *)
Fixpoint run_destructors (n : nat) (index : Z) : M unit :=
  match n with
  | O => ret tt
  | S n' =>
    s <- get ;;
    match entries (freelist s) !! Z.to_nat index with
    | Some (Some e) =>
      record_event (Invoked e) ;;;
      call_destructor e ;;;
      run_destructors n' (index + 1)
    | _ => undef
    end
  end.

Definition cleanreturn (retval : Z) : M Z :=
  (if retval =? 0 then
     s <- get ;;
     run_destructors (Z.to_nat (first_available (freelist s))) 0
   else ret tt) ;;;
  s <- get ;;
  (if entries_malloced (freelist s) =? 0 then ret tt
   else PyMem_FREE (entries_ptr (freelist s))) ;;;
  ret retval.

(** [freelist.entries = static_entries; ...]: the array on the stack. *)
Definition freelist_static : M unit :=
  modify (set_freelist
            (mkFreelist
               (replicate (Z.to_nat STATIC_FREELIST_ENTRIES) None)
               PNull 0 0)).

(** [if (max > STATIC_FREELIST_ENTRIES) ...]: the array from [PyMem_NEW];
    [false] when that failed. *)
Definition freelist_malloc (max : Z) : M bool :=
  if max >? STATIC_FREELIST_ENTRIES then
    p <- PyMem_NEW EmptyString ;;
    match p with
    | PNull => PyErr_NoMemory ;;; ret false
    | _ =>
      modify (λ s, set_freelist
                     (mkFreelist (replicate (Z.to_nat max) None) p
                        (first_available (freelist s)) 1) s) ;;;
      ret true
    end
  else ret true.

(** ** Messages *)

Definition converterr (expected : string) (arg : PyObject) (bufsize : nat)
  : Msg :=
  if decide (peek expected = "("%char) then
    MsgText (snprintf bufsize (trunc 100 expected))
  else
    MsgText (snprintf bufsize
               ("must be " +:+ trunc 50 expected +:+ ", not " +:+
                trunc 50 (arg_type_name arg))).

Definition CONV_UNICODE : string := "(unicode conversion error)".

Definition float_argument_error (arg : PyObject) : M bool :=
  if PyFloat_Check arg then
    raiseWithFmt kTypeError "integer argument expected, got float" ;;;
    ret true
  else ret false.

(** [", item %d"] for each level above 0, while there is room. *)
Fixpoint seterror_items (n : nat) (levels : list Z) (written : Z) : string :=
  match n, levels with
  | S n', l :: rest =>
    if (l >? 0) && (written <? 220) then
      let piece := ", item " +:+ fmt_d (l - 1) in
      piece +:+ seterror_items n' rest (written + slen piece)
    else EmptyString
  | _, _ => EmptyString
  end.

Definition seterror (iarg : Z) (msg : Msg) (levels : list Z)
    (fname message : option string) : M unit :=
  pending <- PyErr_Occurred ;;
  if pending then ret tt
  else
    match msg with
    | MsgBuf => undef
    | MsgText m =>
      let text :=
        match message with
        | Some custom => custom
        | None =>
          let p1 := match fname with
                    | Some f => trunc 200 f +:+ "() "
                    | None => EmptyString
                    end in
          let p2 :=
            if negb (iarg =? 0) then
              let a := "argument " +:+ fmt_d iarg in
              a +:+ seterror_items 32 levels (slen p1 + slen a)
            else "argument" in
          p1 +:+ p2 +:+ " " +:+ trunc 256 m
        end in
      if decide (peek m = "("%char) then raiseWithFmt kSystemError text
      else raiseWithFmt kTypeError text
    end.

(** ** Buffers of bytes-like arguments *)

(** The address of the [Py_buffer] local of [convertbuffer]. *)
Definition local_view : Ptr := PCell (-1).

Definition load_view (view : Ptr) : M Py_buffer :=
  c <- load view ;;
  match c with CView v => ret v | _ => undef end.

Definition is_contiguous (view : Ptr) (order : ascii) : M bool :=
  v <- load_view view ;;
  match PyBuffer_IsContiguous v order with
  | Some b => ret b
  | None => undef
  end.

(** [Inl errmsg] for -1, [inr tt] for 0. *)
Definition getbuffer (arg : PyObject) (view : Ptr) : M (string + unit) :=
  r <- PyObject_GetBuffer arg view PyBUF_SIMPLE ;;
  if negb (r =? 0) then ret (inl "bytes-like object")
  else
    c <- is_contiguous view "C" ;;
    if negb c then
      PyBuffer_Release view ;;; ret (inl "contiguous buffer")
    else ret (inr tt).

(** [*p] receives the data pointer; the count or the message is returned. *)
Definition convertbuffer (arg : PyObject) (p : Ptr) : M (string + Z) :=
  store p (CPtr PNull) ;;;
  r <- getbuffer arg local_view ;;
  match r with
  | inl errmsg => ret (inl errmsg)
  | inr _ =>
    view <- load_view local_view ;;
    let count := len view in
    store p (CPtr (buf view)) ;;;
    PyBuffer_Release local_view ;;;
    modify (λ s, set_mem (delete (-1) (mem s)) s) ;;;
    ret (inr count)
  end.

(** [strlen] behind a pointer to character data. *)
Definition strlen_at (p : Ptr) : M Z :=
  match p with
  | PData d => ret (strlen d)
  | PBlock b =>
    λ s, match blocks s !! b with
         | Some d => Ret (strlen d) s
         | None => Undef
         end
  | _ => undef
  end.

(** ** [convertsimple] *)

(** [switch (c)] over character cases. *)
Fixpoint switch {A} (c : ascii) (cases : list (ascii * A)) (default : A) : A :=
  match cases with
  | [] => default
  | (k, body) :: rest => if decide (c = k) then body else switch c rest default
  end.

Definition RETURN_ERR_OCCURRED : M Conv := ret (Failed MsgBuf).

Definition has_SIZE_T (flags : Z) : bool :=
  negb (Z.land flags FLAG_SIZE_T =? 0).

(** [STORE_SIZE(s)], then the rest of the case. *)
Definition STORE_SIZE (flags : Z) (q : Ptr) (sz : Z) (arg : PyObject)
    (bufsize : nat) (k : M Conv) : M Conv :=
  if has_SIZE_T flags then store q (CInt sz) ;;; k
  else if INT_MAX <? sz then
    raiseWithFmt kOverflowError "size does not fit in an int" ;;;
    ret (Failed (converterr EmptyString arg bufsize))
  else store q (CInt (wrap_signed 32 sz)) ;;; k.

(** [BUFFER_LEN]. *)
Definition BUFFER_LEN (q : Ptr) : M Z :=
  c <- load q ;; match c with CInt v => ret v | _ => undef end.

(** The integer codes that go through [PyLong_AsLong] with a range. *)
Definition convert_ranged (arg : PyObject) (format : string)
    (lo hi : option (Z * string)) (bits : Z) (unsigned_store : bool)
    (lo_first : bool) : M Conv :=
  p <- va_arg_ptr ;;
  e <- float_argument_error arg ;;
  if e then RETURN_ERR_OCCURRED
  else
    ival <- liftT (PyLong_AsLong arg) ;;
    pending <- PyErr_Occurred ;;
    if (ival =? -1) && pending then RETURN_ERR_OCCURRED
    else
      let below := match lo with
                   | Some (b, m) => if ival <? b then Some m else None
                   | None => None
                   end in
      let above := match hi with
                   | Some (b, m) => if ival >? b then Some m else None
                   | None => None
                   end in
      let first := if lo_first then below else above in
      let second := if lo_first then above else below in
      match first, second with
      | Some m, _ | None, Some m =>
        raiseWithFmt kOverflowError m ;;; RETURN_ERR_OCCURRED
      | None, None =>
        store p (CInt (if unsigned_store then wrap_unsigned bits ival
                       else wrap_signed bits ival)) ;;;
        ret (Converted format)
      end.

(** ['b']: unsigned byte. *)
Definition convert_b (arg : PyObject) (format : string) : M Conv :=
  convert_ranged arg format
    (Some (0, "unsigned byte integer is less than minimum"))
    (Some (UCHAR_MAX, "unsigned byte integer is greater than maximum"))
    8 true true.

(** ['h']: signed short. *)
Definition convert_h (arg : PyObject) (format : string) : M Conv :=
  convert_ranged arg format
    (Some (SHRT_MIN, "signed short integer is less than minimum"))
    (Some (SHRT_MAX, "signed short integer is greater than maximum"))
    16 false true.

(** ['i']: signed int; the upper bound is tested first. *)
Definition convert_i (arg : PyObject) (format : string) : M Conv :=
  convert_ranged arg format
    (Some (INT_MIN, "signed integer is less than minimum"))
    (Some (INT_MAX, "signed integer is greater than maximum"))
    32 false false.

(** ['l']: long. *)
Definition convert_l (arg : PyObject) (format : string) : M Conv :=
  convert_ranged arg format None None 64 false true.

(** ['B'], ['H'], ['I']: bit fields through [PyLong_AsUnsignedLongMask]. *)
Definition convert_mask (arg : PyObject) (format : string) (bits : Z)
  : M Conv :=
  p <- va_arg_ptr ;;
  e <- float_argument_error arg ;;
  if e then RETURN_ERR_OCCURRED
  else
    ival <- liftT (PyLong_AsUnsignedLongMask arg) ;;
    pending <- PyErr_Occurred ;;
    (* the value is compared in the type of [ival]: long for 'B' and 'H',
       unsigned int for 'I' *)
    let is_minus_one :=
      if bits =? 32 then wrap_unsigned 32 ival =? wrap_unsigned 32 (-1)
      else wrap_signed 64 ival =? -1 in
    if is_minus_one && pending then RETURN_ERR_OCCURRED
    else store p (CInt (wrap_unsigned bits ival)) ;;; ret (Converted format).

(** ['n']: Py_ssize_t. *)
Definition convert_n (arg : PyObject) (format : string) : M Conv :=
  p <- va_arg_ptr ;;
  e <- float_argument_error arg ;;
  if e then RETURN_ERR_OCCURRED
  else
    iobj <- PyNumber_Index (Some arg) ;;
    ival <- match iobj with
            | Some io =>
              v <- liftT (PyLong_AsSsize_t io) ;;
              Py_DECREF ;;; ret v
            | None => ret (-1)
            end ;;
    pending <- PyErr_Occurred ;;
    if (ival =? -1) && pending then RETURN_ERR_OCCURRED
    else store p (CInt ival) ;;; ret (Converted format).

(** ['k'], ['K']: bit fields of an [int] object only. *)
Definition convert_k (arg : PyObject) (format : string) (bufsize : nat)
    (mask : PyObject → Thread → Z * Thread) : M Conv :=
  p <- va_arg_ptr ;;
  if negb (PyLong_Check arg) then ret (Failed (converterr "int" arg bufsize))
  else
    ival <- liftT (mask arg) ;;
    store p (CInt ival) ;;; ret (Converted format).

(** ['L']: long long. *)
Definition convert_L (arg : PyObject) (format : string) : M Conv :=
  p <- va_arg_ptr ;;
  e <- float_argument_error arg ;;
  if e then RETURN_ERR_OCCURRED
  else
    ival <- liftT (PyLong_AsLongLong arg) ;;
    pending <- PyErr_Occurred ;;
    if (ival =? -1) && pending then RETURN_ERR_OCCURRED
    else store p (CInt ival) ;;; ret (Converted format).

(** ['f'], ['d']. *)
Definition convert_fd (arg : PyObject) (format : string) (narrow : bool)
  : M Conv :=
  p <- va_arg_ptr ;;
  dval <- liftT (PyFloat_AsDouble arg) ;;
  pending <- PyErr_Occurred ;;
  if pending then RETURN_ERR_OCCURRED
  else
    store p (if narrow then CFloat dval else CDouble dval) ;;;
    ret (Converted format).

(** ['D']. *)
Definition convert_D (arg : PyObject) (format : string) : M Conv :=
  p <- va_arg_ptr ;;
  cval <- liftT (PyComplex_AsCComplex arg) ;;
  pending <- PyErr_Occurred ;;
  if pending then RETURN_ERR_OCCURRED
  else store p (CComplex cval.1 cval.2) ;;; ret (Converted format).

(** ['c']: one byte of a bytes or bytearray of length 1. *)
Definition convert_c (arg : PyObject) (format : string) (bufsize : nat)
  : M Conv :=
  p <- va_arg_ptr ;;
  if (PyBytes_Check arg || PyByteArray_Check arg)
     && (slen (byte_data arg) =? 1) then
    store p (CInt (first_byte (byte_data arg))) ;;; ret (Converted format)
  else ret (Failed (converterr "a byte string of length 1" arg bufsize)).

(** ['C']: one code point. *)
Definition convert_C (arg : PyObject) (format : string) (bufsize : nat)
  : M Conv :=
  p <- va_arg_ptr ;;
  if negb (PyUnicode_Check arg) then
    ret (Failed (converterr "a unicode character" arg bufsize))
  else
    r <- liftT (PyUnicode_READY arg) ;;
    if negb (r =? 0) then RETURN_ERR_OCCURRED
    else if negb (PyUnicode_GET_LENGTH arg =? 1) then
      ret (Failed (converterr "a unicode character" arg bufsize))
    else
      store p (CInt (PyUnicode_READ_CHAR arg 0)) ;;; ret (Converted format).

(** ['p']: truth value. *)
Definition convert_p (arg : PyObject) (format : string) : M Conv :=
  p <- va_arg_ptr ;;
  val <- liftT (PyObject_IsTrue arg) ;;
  if val >? 0 then store p (CInt 1) ;;; ret (Converted format)
  else if val =? 0 then store p (CInt 0) ;;; ret (Converted format)
  else RETURN_ERR_OCCURRED.

(** ['y'], ["y#"], ["y*"]: any bytes-like object. *)
Definition convert_y (arg : PyObject) (format : string) (flags : Z)
    (bufsize : nat) : M Conv :=
  p <- va_arg_ptr ;;
  if decide (peek format = "*"%char) then
    r <- getbuffer arg p ;;
    match r with
    | inl errmsg => ret (Failed (converterr errmsg arg bufsize))
    | inr _ =>
      a <- addcleanup p cleanup_buffer_fn ;;
      if negb (a =? 0) then
        ret (Failed (converterr "(cleanup problem)" arg bufsize))
      else ret (Converted (advance format))
    end
  else
    r <- convertbuffer arg p ;;
    match r with
    | inl errmsg => ret (Failed (converterr errmsg arg bufsize))
    | inr count =>
      if decide (peek format = "#"%char) then
        q <- va_arg_ptr ;;
        STORE_SIZE flags q count arg bufsize (ret (Converted (advance format)))
      else
        c <- load p ;;
        match c with
        | CPtr data =>
          n <- strlen_at data ;;
          if negb (n =? count) then
            raiseWithFmt kValueError "embedded null byte" ;;;
            RETURN_ERR_OCCURRED
          else ret (Converted format)
        | _ => undef
        end
    end.

(** ['s'] and ['z'], with ["*"], ["#"] or nothing after them. *)
Definition convert_s (c : ascii) (arg : PyObject) (format : string)
    (flags : Z) (bufsize : nat) : M Conv :=
  let z_none := bool_decide (c = "z"%char) && is_None arg in
  if decide (peek format = "*"%char) then
    p <- va_arg_ptr ;;
    filled <-
      (if z_none then
         PyBuffer_FillInfo p None PNull 0 1 0 ;;; ret (None : option Msg)
       else if PyUnicode_Check arg then
         sarg <- liftT (PyUnicode_AsUTF8AndSize arg) ;;
         match sarg with
         | None => ret (Some (converterr CONV_UNICODE arg bufsize))
         | Some d =>
           PyBuffer_FillInfo p (Some arg) (PData d) (slen d) 1 0 ;;; ret None
         end
       else
         r <- getbuffer arg p ;;
         match r with
         | inl errmsg => ret (Some (converterr errmsg arg bufsize))
         | inr _ => ret None
         end) ;;
    match filled with
    | Some msg => ret (Failed msg)
    | None =>
      a <- addcleanup p cleanup_buffer_fn ;;
      if negb (a =? 0) then
        ret (Failed (converterr "(cleanup problem)" arg bufsize))
      else ret (Converted (advance format))
    end
  else if decide (peek format = "#"%char) then
    p <- va_arg_ptr ;;
    q <- va_arg_ptr ;;
    if z_none then
      store p (CPtr PNull) ;;;
      STORE_SIZE flags q 0 arg bufsize (ret (Converted (advance format)))
    else if PyUnicode_Check arg then
      sarg <- liftT (PyUnicode_AsUTF8AndSize arg) ;;
      match sarg with
      | None => ret (Failed (converterr CONV_UNICODE arg bufsize))
      | Some d =>
        store p (CPtr (PData d)) ;;;
        STORE_SIZE flags q (slen d) arg bufsize
          (ret (Converted (advance format)))
      end
    else
      r <- convertbuffer arg p ;;
      match r with
      | inl errmsg => ret (Failed (converterr errmsg arg bufsize))
      | inr count =>
        STORE_SIZE flags q count arg bufsize
          (ret (Converted (advance format)))
      end
  else
    p <- va_arg_ptr ;;
    if z_none then store p (CPtr PNull) ;;; ret (Converted format)
    else if PyUnicode_Check arg then
      sarg <- liftT (PyUnicode_AsUTF8AndSize arg) ;;
      match sarg with
      | None => ret (Failed (converterr CONV_UNICODE arg bufsize))
      | Some d =>
        if negb (strlen d =? slen d) then
          raiseWithFmt kValueError "embedded null character" ;;;
          RETURN_ERR_OCCURRED
        else store p (CPtr (PData d)) ;;; ret (Converted format)
      end
    else
      ret (Failed (converterr
                     (if decide (c = "z"%char) then "str or None" else "str")
                     arg bufsize)).

(** ['u'] and ['Z'], with ["#"] or nothing after them. *)
Definition convert_u (c : ascii) (arg : PyObject) (format : string)
    (flags : Z) (bufsize : nat) : M Conv :=
  let Z_none := bool_decide (c = "Z"%char) && is_None arg in
  let expected := if decide (c = "Z"%char) then "str or None" else "str" in
  p <- va_arg_ptr ;;
  if decide (peek format = "#"%char) then
    q <- va_arg_ptr ;;
    if Z_none then
      store p (CPtr PNull) ;;;
      STORE_SIZE flags q 0 arg bufsize (ret (Converted (advance format)))
    else if PyUnicode_Check arg then
      u <- liftT (PyUnicode_AsUnicodeAndSize arg) ;;
      match u with
      | None => store p (CPtr PNull) ;;; RETURN_ERR_OCCURRED
      | Some d =>
        store p (CPtr (PData d)) ;;;
        STORE_SIZE flags q (slen d) arg bufsize
          (ret (Converted (advance format)))
      end
    else ret (Failed (converterr expected arg bufsize))
  else
    if Z_none then store p (CPtr PNull) ;;; ret (Converted format)
    else if PyUnicode_Check arg then
      u <- liftT (PyUnicode_AsUnicodeAndSize arg) ;;
      match u with
      | None => store p (CPtr PNull) ;;; RETURN_ERR_OCCURRED
      | Some d =>
        store p (CPtr (PData d)) ;;;
        if negb (strlen d =? slen d) then
          raiseWithFmt kValueError "embedded null character" ;;;
          RETURN_ERR_OCCURRED
        else ret (Converted format)
      end
    else ret (Failed (converterr expected arg bufsize)).


(** [UNIMPLEMENTED(...)]: the runtime prints the name and aborts. *)
Definition UNIMPLEMENTED {A} (what : string) : M A :=
  Py_FatalError ("unimplemented: " +:+ what).

Definition PyObject_AsCharBuffer : M Z :=
  UNIMPLEMENTED "PyObject_AsCharBuffer".

(** The two ways ['e'] hands out the encoded bytes [data] of [s]. *)
Definition convert_e_write (arg : PyObject) (format : string) (flags : Z)
    (bufsize : nat) (buffer : Ptr) (data : string) : M Conv :=
  let size := slen data in
  if decide (peek format = "#"%char) then
    q <- va_arg_ptr ;;
    let format := advance format in
    match q with
    | PNull =>
      Py_DECREF ;;;
      ret (Failed (converterr "(buffer_len is nullptr)" arg bufsize))
    | _ =>
      cur <- load buffer ;;
      match cur with
      | CPtr PNull =>
        b <- PyMem_NEW EmptyString ;;
        store buffer (CPtr b) ;;;
        match b with
        | PNull => Py_DECREF ;;; PyErr_NoMemory ;;; RETURN_ERR_OCCURRED
        | _ =>
          a <- addcleanup b cleanup_ptr_fn ;;
          if negb (a =? 0) then
            Py_DECREF ;;;
            ret (Failed (converterr "(cleanup problem)" arg bufsize))
          else
            memcpy b data ;;;
            STORE_SIZE flags q size arg bufsize
              (Py_DECREF ;;; ret (Converted format))
        end
      | CPtr b =>
        blen <- BUFFER_LEN q ;;
        if size + 1 >? blen then
          Py_DECREF ;;;
          PyErr_Format kValueError
            ("encoded string too long (" +:+ fmt_d size +:+
             ", maximum length " +:+ fmt_d (blen - 1) +:+ ")") ;;;
          RETURN_ERR_OCCURRED
        else
          memcpy b data ;;;
          STORE_SIZE flags q size arg bufsize
            (Py_DECREF ;;; ret (Converted format))
      | _ => undef
      end
    end
  else
    if negb (strlen data =? size) then
      Py_DECREF ;;;
      ret (Failed (converterr "encoded string without null bytes" arg
                     bufsize))
    else
      b <- PyMem_NEW EmptyString ;;
      store buffer (CPtr b) ;;;
      match b with
      | PNull => Py_DECREF ;;; PyErr_NoMemory ;;; RETURN_ERR_OCCURRED
      | _ =>
        a <- addcleanup b cleanup_ptr_fn ;;
        if negb (a =? 0) then
          Py_DECREF ;;;
          ret (Failed (converterr "(cleanup problem)" arg bufsize))
        else
          memcpy b data ;;;
          Py_DECREF ;;; ret (Converted format)
      end.

(** ['e']: encoded string, ["es"], ["et"], with or without ["#"]. *)
Definition convert_e (arg : PyObject) (format : string) (flags : Z)
    (bufsize : nat) : M Conv :=
  e <- va_arg_str ;;
  let encoding := match e with
                  | Some enc => enc
                  | None => PyUnicode_GetDefaultEncoding
                  end in
  if negb (bool_decide (peek format = "s"%char)
           || bool_decide (peek format = "t"%char)) then
    ret (Failed (converterr "(unknown parser marker combination)" arg
                   bufsize))
  else
    let recode_strings := bool_decide (peek format = "s"%char) in
    buffer <- va_arg_ptr ;;
    let format := advance format in
    match buffer with
    | PNull => ret (Failed (converterr "(buffer is nullptr)" arg bufsize))
    | _ =>
      if negb recode_strings
         && (PyBytes_Check arg || PyByteArray_Check arg) then
        Py_INCREF ;;;
        r <- PyObject_AsCharBuffer ;;
        if r <? 0 then
          ret (Failed (converterr "(AsCharBuffer failed)" arg bufsize))
        else undef (* not reached: the call above does not return *)
      else if PyUnicode_Check arg then
        enc <- liftT (PyUnicode_AsEncodedString arg encoding) ;;
        match enc with
        | None => ret (Failed (converterr "(encoding failed)" arg bufsize))
        | Some s =>
          Py_INCREF ;;;     (* the encoded string is a new reference *)
          if negb (PyBytes_Check s) then undef
          else convert_e_write arg format flags bufsize buffer (byte_data s)
        end
      else
        ret (Failed (converterr
                       (if recode_strings then "str"
                        else "str, bytes or bytearray") arg bufsize))
    end.

(** ['S'], ['Y'], ['U']: an object of one builtin kind. *)
Definition convert_kind (arg : PyObject) (format : string) (bufsize : nat)
    (check : PyObject → bool) (expected : string) : M Conv :=
  p <- va_arg_ptr ;;
  if check arg then store p (CObj arg) ;;; ret (Converted format)
  else ret (Failed (converterr expected arg bufsize)).

Definition convert_U (arg : PyObject) (format : string) (bufsize : nat)
  : M Conv :=
  p <- va_arg_ptr ;;
  if PyUnicode_Check arg then
    r <- liftT (PyUnicode_READY arg) ;;
    if r =? -1 then RETURN_ERR_OCCURRED
    else store p (CObj arg) ;;; ret (Converted format)
  else ret (Failed (converterr "str" arg bufsize)).

(** ['O'], ["O!"], ["O&"]. *)
Definition convert_O (arg : PyObject) (format : string) (bufsize : nat)
  : M Conv :=
  if decide (peek format = "!"%char) then
    type <- va_arg_type ;;
    p <- va_arg_ptr ;;
    if PyType_IsSubtype (Py_TYPE arg) type then
      store p (CObj arg) ;;; ret (Converted (advance format))
    else ret (Failed (converterr (_PyType_Name type) arg bufsize))
  else if decide (peek format = "&"%char) then
    convert <- va_arg_converter ;;
    addr <- va_arg_ptr ;;
    res <- call_converter convert (Some arg) addr ;;
    if res =? 0 then
      ret (Failed (converterr "(unspecified)" arg bufsize))
    else if res =? Py_CLEANUP_SUPPORTED then
      a <- addcleanup addr (converter_fn convert) ;;
      if a =? -1 then
        ret (Failed (converterr "(cleanup problem)" arg bufsize))
      else ret (Converted (advance format))
    else ret (Converted (advance format))
  else
    p <- va_arg_ptr ;;
    store p (CObj arg) ;;; ret (Converted format).

(** ["w*"]: read-write buffer. *)
Definition convert_w (arg : PyObject) (format : string) (bufsize : nat)
  : M Conv :=
  p <- va_arg_ptr ;;
  if negb (bool_decide (peek format = "*"%char)) then
    ret (Failed (converterr "(invalid use of 'w' format character)" arg
                   bufsize))
  else
    r <- PyObject_GetBuffer arg p PyBUF_WRITABLE ;;
    if r <? 0 then
      PyErr_Clear ;;;
      ret (Failed (converterr "read-write bytes-like object" arg bufsize))
    else
      c <- is_contiguous p "C" ;;
      if negb c then
        PyBuffer_Release p ;;;
        ret (Failed (converterr "contiguous buffer" arg bufsize))
      else
        a <- addcleanup p cleanup_buffer_fn ;;
        if negb (a =? 0) then
          ret (Failed (converterr "(cleanup problem)" arg bufsize))
        else ret (Converted (advance format)).

Definition convertsimple (arg : PyObject) (p_format : string) (flags : Z)
    (bufsize : nat) : M Conv :=
  let c := peek p_format in
  let format := advance p_format in
  switch c
    [ ("b"%char, convert_b arg format);
      ("B"%char, convert_mask arg format 8);
      ("h"%char, convert_h arg format);
      ("H"%char, convert_mask arg format 16);
      ("i"%char, convert_i arg format);
      ("I"%char, convert_mask arg format 32);
      ("n"%char, convert_n arg format);
      ("l"%char, convert_l arg format);
      ("k"%char, convert_k arg format bufsize PyLong_AsUnsignedLongMask);
      ("L"%char, convert_L arg format);
      ("K"%char, convert_k arg format bufsize PyLong_AsUnsignedLongLongMask);
      ("f"%char, convert_fd arg format true);
      ("d"%char, convert_fd arg format false);
      ("D"%char, convert_D arg format);
      ("c"%char, convert_c arg format bufsize);
      ("C"%char, convert_C arg format bufsize);
      ("p"%char, convert_p arg format);
      ("y"%char, convert_y arg format flags bufsize);
      ("s"%char, convert_s c arg format flags bufsize);
      ("z"%char, convert_s c arg format flags bufsize);
      ("u"%char, convert_u c arg format flags bufsize);
      ("Z"%char, convert_u c arg format flags bufsize);
      ("e"%char, convert_e arg format flags bufsize);
      ("S"%char, convert_kind arg format bufsize PyBytes_Check "bytes");
      ("Y"%char,
       convert_kind arg format bufsize PyByteArray_Check "bytearray");
      ("U"%char, convert_U arg format bufsize);
      ("O"%char, convert_O arg format bufsize);
      ("w"%char, convert_w arg format bufsize) ]
    (ret (Failed (converterr "(impossible<bad format char>)" arg bufsize))).

(** ** [converttuple] and [convertitem] *)

(** The first loop of [converttuple]: the number of items up to the
    closing parenthesis. *)
Fixpoint count_items (format : string) (level n : Z) : Z :=
  match format with
  | EmptyString => n
  | String c rest =>
    if decide (c = "("%char) then
      count_items rest (level + 1) (if level =? 0 then n + 1 else n)
    else if decide (c = ")"%char) then
      if level =? 0 then n else count_items rest (level - 1) n
    else if IS_END_OF_FORMAT c then n
    else if (level =? 0) && Py_ISALPHA c then count_items rest level (n + 1)
    else count_items rest level n
  end.

(** [levels] is an [int\[32\]] of the caller; [depth] is where this call
    writes. *)
Definition check_level (depth : Z) : M unit :=
  if depth <? 32 then ret tt else undef.

(** The item loop of [converttuple], [k] rounds from index [i]. *)
Fixpoint converttuple_items (conv : PyObject → string → Z → M ConvL)
    (arg : PyObject) (k : nat) (i : Z) (format : string) (depth : Z)
    (bufsize : nat) : M ConvL :=
  match k with
  | O => ret (Done format)
  | S k' =>
    item <- PySequence_GetItem (Some arg) i ;;
    match item with
    | None =>
      PyErr_Clear ;;;
      check_level (depth + 1) ;;;
      ret (FailedAt (MsgText (trunc bufsize "is not retrievable"))
             [i + 1; 0])
    | Some it =>
      r <- conv it format (depth + 1) ;;
      Py_DECREF ;;;
      match r with
      | FailedAt msg lv => check_level depth ;;; ret (FailedAt msg (i + 1 :: lv))
      | Done f => converttuple_items conv arg k' (i + 1) f depth bufsize
      end
    end
  end.

Definition converttuple (conv : PyObject → string → Z → M ConvL)
    (arg : PyObject) (p_format : string) (depth : Z) (bufsize : nat)
    (toplevel : bool) : M ConvL :=
  let n := count_items p_format 0 0 in
  if negb (PySequence_Check arg) || PyBytes_Check arg then
    check_level depth ;;;
    ret (FailedAt
           (MsgText (snprintf bufsize
                       ((if toplevel then "expected " +:+ fmt_d n +:+
                                          " arguments, not "
                         else "must be " +:+ fmt_d n +:+
                              "-item sequence, not ") +:+
                        trunc 50 (arg_type_name arg))))
           [0])
  else
    len <- PySequence_Size (Some arg) ;;
    if negb (len =? n) then
      check_level depth ;;;
      ret (FailedAt
             (MsgText (snprintf bufsize
                         (if toplevel then
                            "expected " +:+ fmt_d n +:+ " arguments, not " +:+
                            fmt_d len
                          else
                            "must be sequence of length " +:+ fmt_d n +:+
                            ", not " +:+ fmt_d len)))
             [0])
    else
      converttuple_items conv arg (Z.to_nat n) 0 p_format depth bufsize.

(** [format++] after [converttuple], which nothing guards: when the items
    ended at the terminating NUL (a parenthesis left open), the pointer
    leaves the descriptor.  [vGetArgs1Impl] has refused such a descriptor
    before it converts anything; the keyword binders have not, and read
    [*format] again right after the item, which is undefined. *)
Definition step_over (format : string) : M string :=
  match format with
  | EmptyString => undef
  | String _ rest => ret rest
  end.

(** [fuel] bounds the nesting of parentheses; the length of the format is
    always enough. *)
Fixpoint convertitem_fuel (fuel : nat) (flags : Z) (bufsize : nat)
    (arg : PyObject) (p_format : string) (depth : Z) : M ConvL :=
  match fuel with
  | O => undef
  | S fuel' =>
    if decide (peek p_format = "("%char) then
      r <- converttuple (convertitem_fuel fuel' flags bufsize) arg
             (advance p_format) depth bufsize false ;;
      match r with
      | Done format => f <- step_over format ;; ret (Done f)
      | FailedAt msg lv => ret (FailedAt msg lv)
      end
    else
      r <- convertsimple arg p_format flags bufsize ;;
      match r with
      | Failed msg => check_level depth ;;; ret (FailedAt msg [0])
      | Converted format => ret (Done format)
      end
  end.

Definition convertitem (arg : PyObject) (p_format : string) (flags : Z)
    (depth : Z) (bufsize : nat) : M ConvL :=
  convertitem_fuel (S (String.length p_format)) flags bufsize arg p_format
    depth.

(** ** Positional binding: [vGetArgs1Impl] *)

(** What the first loop of [vGetArgs1Impl] computes. *)
Record Scan : Type := mkScan {
  scan_level : Z;
  scan_max : Z;
  scan_min : Z;
  scan_fname : option string;
  scan_message : option string
}.

Fixpoint scan_format (format : string) (level max min : Z) : M Scan :=
  match format with
  | EmptyString => ret (mkScan level max min None None)
  | String c rest =>
    if decide (c = "("%char) then
      let max := if level =? 0 then max + 1 else max in
      let level := level + 1 in
      if level >=? 30 then
        Py_FatalError
          "too many tuple nesting levels in argument format string"
      else scan_format rest level max min
    else if decide (c = ")"%char) then
      if level =? 0 then Py_FatalError "excess ')' in getargs format"
      else scan_format rest (level - 1) max min
    else if decide (c = NUL) then ret (mkScan level max min None None)
    else if decide (c = ":"%char) then
      ret (mkScan level max min (Some rest) None)
    else if decide (c = ";"%char) then
      ret (mkScan level max min None (Some rest))
    else if decide (c = "|"%char) then
      scan_format rest level max (if level =? 0 then max else min)
    else
      scan_format rest level
        (if (level =? 0) && Py_ISALPHA c && negb (bool_decide (c = "e"%char))
         then max + 1 else max)
        min
  end.

Definition function_name (fname : option string) (n : nat) : string :=
  match fname with
  | None => "function"
  | Some f => trunc n f +:+ "()"
  end.

Definition plural (n : Z) : string := if n =? 1 then "" else "s".

(** [for (i = ...; i < nargs; i++)] of [vGetArgs1Impl], [k] rounds. *)
Fixpoint vGetArgs1Impl_loop (k : nat) (i : Z) (stack : list PyObject)
    (format : string) (flags : Z) (fname message : option string)
  : M (Flow Z string) :=
  match k with
  | O => ret (Next format)
  | S k' =>
    let format :=
      if decide (peek format = "|"%char) then advance format else format in
    match stack !! Z.to_nat i with
    | None => undef
    | Some a =>
      r <- convertitem a format flags 0 256 ;;
      match r with
      | FailedAt msg levels =>
        seterror (i + 1) msg levels fname message ;;;
        r <- cleanreturn 0 ;; ret (Return r)
      | Done format' =>
        vGetArgs1Impl_loop k' (i + 1) stack format' flags fname message
      end
    end
  end.

Definition vGetArgs1Impl (compat_args : option PyObject)
    (stack : list PyObject) (nargs : Z) (format : string) (flags : Z)
  : M Z :=
  let compat := Z.land flags FLAG_COMPAT in
  let flags := Z.land flags (Z.lnot FLAG_COMPAT) in
  sc <- scan_format format 0 0 (-1) ;;
  if negb (scan_level sc =? 0) then
    Py_FatalError "missing ')' in getargs format"
  else
    let max := scan_max sc in
    let min := if scan_min sc <? 0 then max else scan_min sc in
    let fname := scan_fname sc in
    let message := scan_message sc in
    freelist_static ;;;
    ok <- freelist_malloc max ;;
    if negb ok then ret 0
    else if negb (compat =? 0) then
      if max =? 0 then
        match compat_args with
        | None => ret 1
        | Some _ =>
          PyErr_Format kTypeError
            (function_name fname 200 +:+ " takes no arguments") ;;;
          cleanreturn 0
        end
      else if (min =? 1) && (max =? 1) then
        match compat_args with
        | None =>
          PyErr_Format kTypeError
            (function_name fname 200 +:+ " takes at least one argument") ;;;
          cleanreturn 0
        | Some a =>
          r <- convertitem a format flags 0 256 ;;
          match r with
          | Done _ => cleanreturn 1
          | FailedAt msg levels =>
            seterror (default 0 (head levels)) msg (tail levels) fname
              message ;;;
            cleanreturn 0
          end
        end
      else
        raiseWithFmt kSystemError
          "old style getargs format uses new features" ;;;
        cleanreturn 0
    else if (nargs <? min) || (max <? nargs) then
      match message with
      | None =>
        PyErr_Format kTypeError
          (function_name fname 150 +:+ " takes " +:+
           (if min =? max then "exactly"
            else if nargs <? min then "at least" else "at most") +:+
           " " +:+ fmt_d (if nargs <? min then min else max) +:+
           " argument" +:+ plural (if nargs <? min then min else max) +:+
           " (" +:+ fmt_d nargs +:+ " given)")
      | Some m => raiseWithFmt kTypeError m
      end ;;;
      cleanreturn 0
    else
      fl <- vGetArgs1Impl_loop (Z.to_nat nargs) 0 stack format flags fname
              message ;;
      match fl with
      | Return r => ret r
      | Next format' =>
        let c := peek format' in
        if negb (bool_decide (c = NUL)) && negb (Py_ISALPHA c)
           && negb (bool_decide (c = "("%char))
           && negb (bool_decide (c = "|"%char))
           && negb (bool_decide (c = ":"%char))
           && negb (bool_decide (c = ";"%char)) then
          PyErr_Format kSystemError
            ("bad format string: " +:+ trunc 200 format) ;;;
          cleanreturn 0
        else cleanreturn 1
      end.

Definition tuple_items (o : PyObject) : list PyObject :=
  match o with PyTuple items => items | _ => [] end.

Definition vgetargs1 (args : option PyObject) (format : string) (flags : Z)
  : M Z :=
  if negb (Z.land flags FLAG_COMPAT =? 0) then
    vGetArgs1Impl args [] 0 format flags
  else
    match args with
    | None => undef
    | Some a =>
      if negb (PyTuple_Check a) then
        raiseWithFmt kSystemError
          "new style getargs format but argument is not a tuple" ;;;
        ret 0
      else
        let array := tuple_items a in
        vGetArgs1Impl args array (Z.of_nat (length array)) format flags
    end.

(** The entry points; the variadic arguments are the [va] of the state. *)
Definition PyArg_Parse (args : option PyObject) (format : string) : M Z :=
  vgetargs1 args format FLAG_COMPAT.
Definition _PyArg_Parse_SizeT (args : option PyObject) (format : string)
  : M Z :=
  vgetargs1 args format (Z.lor FLAG_COMPAT FLAG_SIZE_T).
Definition PyArg_ParseTuple (args : option PyObject) (format : string)
  : M Z :=
  vgetargs1 args format 0.
Definition _PyArg_ParseTuple_SizeT (args : option PyObject)
    (format : string) : M Z :=
  vgetargs1 args format FLAG_SIZE_T.
Definition _PyArg_ParseStack (args : list PyObject) (nargs : Z)
    (format : string) : M Z :=
  vGetArgs1Impl None args nargs format 0.
Definition _PyArg_ParseStack_SizeT (args : list PyObject) (nargs : Z)
    (format : string) : M Z :=
  vGetArgs1Impl None args nargs format FLAG_SIZE_T.

(** ** Keyword binding *)

(** [skipitem]: [inl] is the returned message, [inr] the new [*p_format].
    [use_va] is [p_va != nullptr].  [skiptuple_fuel] is the loop of the
    case ['(']. *)
Definition skip_va (use_va : bool) : M unit :=
  if use_va then va_arg ;;; ret tt else ret tt.

Definition single_pointer_codes : list ascii :=
  [ "b"; "B"; "h"; "H"; "i"; "I"; "l"; "k"; "L"; "K"; "n"; "f"; "d"; "D";
    "c"; "C"; "p"; "S"; "Y"; "U" ]%char.

Definition string_codes : list ascii :=
  [ "s"; "z"; "y"; "u"; "Z"; "w" ]%char.

Definition char_in (c : ascii) (l : list ascii) : bool :=
  bool_decide (c ∈ l).

(** The shared body of the string codes (and of ['e'] after its own part). *)
Definition skip_string_code (c : ascii) (format : string) (use_va : bool)
  : M (string + string) :=
  skip_va use_va ;;;
  if decide (peek format = "#"%char) then
    skip_va use_va ;;; ret (inr (advance format))
  else if char_in c [ "s"; "z"; "y" ]%char
          && bool_decide (peek format = "*"%char) then
    ret (inr (advance format))
  else ret (inr format).

Fixpoint skipitem_fuel (fuel : nat) (p_format : string) (use_va : bool)
    (flags : Z) : M (string + string) :=
  match fuel with
  | O => undef
  | S fuel' =>
    let c := peek p_format in
    let format := advance p_format in
    if char_in c single_pointer_codes then
      skip_va use_va ;;; ret (inr format)
    else if decide (c = "e"%char) then
      skip_va use_va ;;;
      if negb (bool_decide (peek format = "s"%char)
               || bool_decide (peek format = "t"%char)) then
        ret (inl "impossible<bad format char>")
      else skip_string_code c (advance format) use_va
    else if char_in c string_codes then skip_string_code c format use_va
    else if decide (c = "O"%char) then
      if decide (peek format = "!"%char) then
        skip_va use_va ;;; skip_va use_va ;;; ret (inr (advance format))
      else if decide (peek format = "&"%char) then
        skip_va use_va ;;; skip_va use_va ;;; ret (inr (advance format))
      else skip_va use_va ;;; ret (inr format)
    else if decide (c = "("%char) then
      skiptuple_fuel fuel' format use_va flags
    else if decide (c = ")"%char) then
      ret (inl "Unmatched right paren in format string")
    else ret (inl "impossible<bad format char>")
  end
with skiptuple_fuel (fuel : nat) (format : string) (use_va : bool)
    (flags : Z) : M (string + string) :=
  match fuel with
  | O => undef
  | S fuel' =>
    if decide (peek format = ")"%char) then ret (inr (advance format))
    else if IS_END_OF_FORMAT (peek format) then
      ret (inl "Unmatched left paren in format string")
    else
      r <- skipitem_fuel fuel' format use_va flags ;;
      match r with
      | inl msg => ret (inl msg)
      | inr format' => skiptuple_fuel fuel' format' use_va flags
      end
  end.

Definition skipitem (p_format : string) (use_va : bool) (flags : Z)
  : M (string + string) :=
  skipitem_fuel (2 * String.length p_format + 2) p_format use_va flags.

(** *** Dictionaries and keyword names *)

Definition _PyUnicode_EqualToASCIIString (key : PyObject) (str : string)
  : bool :=
  match key with
  | PyUnicode s => bool_decide (s = str)
  | _ => false
  end.

Definition dict_items (o : PyObject) : list (PyObject * PyObject) :=
  match o with PyDict items => items | _ => [] end.

Definition PyDict_Size (o : PyObject) : Z :=
  Z.of_nat (length (dict_items o)).

Fixpoint dict_find (items : list (PyObject * PyObject)) (key : string)
  : option PyObject :=
  match items with
  | [] => None
  | (k, v) :: rest =>
    if _PyUnicode_EqualToASCIIString k key then Some v
    else dict_find rest key
  end.

Definition PyDict_GetItemString (o : PyObject) (key : string)
  : option PyObject :=
  dict_find (dict_items o) key.

(** [kwlist\[i\]], for [i] below the terminating null pointer. *)
Definition kw_at (kwlist : list string) (i : Z) : string :=
  default EmptyString (kwlist !! Z.to_nat i).

(** The first scan of the keyword list: the leading empty names. *)
Fixpoint count_positional_only (kwlist : list string) : Z :=
  match kwlist with
  | EmptyString :: rest => 1 + count_positional_only rest
  | _ => 0
  end.

(** The second scan: is there an empty name after the leading ones? *)
Definition has_empty_name (kwlist : list string) : bool :=
  bool_decide
    (EmptyString ∈ drop (Z.to_nat (count_positional_only kwlist)) kwlist).

Definition Py_MIN (a b : Z) : Z := if a <? b then a else b.
Definition Py_MAX (a b : Z) : Z := if a <? b then b else a.

(** The loop variables of [vgetargskeywords]. *)
Record KwVars : Type := mkKw {
  kw_i : Z;
  kw_format : string;
  kw_min : Z;
  kw_max : Z;
  kw_skip : bool;
  kw_nkeywords : Z
}.

Definition fail_with {A} (l : LayoutId) (msg : string) : M (Flow Z A) :=
  PyErr_Format l msg ;;; r <- cleanreturn 0 ;; ret (Return r).

Definition positional_count_message (quantity : string) (n given : Z)
  : string :=
  "Function takes " +:+ quantity +:+ " " +:+ fmt_d n +:+
  " positional arguments (" +:+ fmt_d given +:+ " given)".

Definition by_name_and_position (keyword : string) (i : Z) : string :=
  "Argument given by name ('" +:+ keyword +:+ "') and position (" +:+
  fmt_d (i + 1) +:+ ")".

Definition required_not_found (keyword : string) (i : Z) : string :=
  "Required argument '" +:+ keyword +:+ "' (pos " +:+ fmt_d (i + 1) +:+
  ") not found".

Definition at_most_message (fname : option string) (len given : Z)
  : string :=
  match fname with None => "function" | Some f => f +:+ "()" end +:+
  " takes at most " +:+ fmt_d len +:+ " argument" +:+ plural len +:+
  " (" +:+ fmt_d given +:+ " given)".

(** [if ( *format == '|') { ... }] *)
Definition kw_bar (v : KwVars) : M (Flow Z KwVars) :=
  if decide (peek (kw_format v) = "|"%char) then
    if negb (kw_min v =? INT_MAX) then
      fail_with kSystemError "Invalid format string (| specified twice)"
    else if negb (kw_max v =? INT_MAX) then
      fail_with kSystemError "Invalid format string ($ before |)"
    else
      ret (Next (mkKw (kw_i v) (advance (kw_format v)) (kw_i v) (kw_max v)
                   (kw_skip v) (kw_nkeywords v)))
  else ret (Next v).

(** [if ( *format == '$') { ... }]; [Next (true, _)] is [break]. *)
Definition kw_dollar (pos nargs : Z) (v : KwVars)
  : M (Flow Z (bool * KwVars)) :=
  if decide (peek (kw_format v) = "$"%char) then
    if negb (kw_max v =? INT_MAX) then
      fail_with kSystemError "Invalid format string ($ specified twice)"
    else
      let i := kw_i v in
      let v := mkKw i (advance (kw_format v)) (kw_min v) i (kw_skip v)
                 (kw_nkeywords v) in
      if i <? pos then fail_with kSystemError "Empty parameter name after $"
      else if kw_skip v then ret (Next (true, v))
      else if i <? nargs then
        fail_with kTypeError
          (positional_count_message
             (if negb (kw_min v =? INT_MAX) then "at most" else "exactly")
             i nargs)
      else ret (Next (false, v))
  else ret (Next (false, v)).

(** The conversion of a supplied value, shared by the keyword binders. *)
Definition kw_convert (current_arg : PyObject) (i : Z) (format : string)
    (flags : Z) (fname custom_msg : option string)
  : M (Flow Z string) :=
  r <- convertitem current_arg format flags 0 512 ;;
  match r with
  | FailedAt msg levels =>
    seterror (i + 1) msg levels fname custom_msg ;;;
    r <- cleanreturn 0 ;; ret (Return r)
  | Done format' => ret (Next format')
  end.

(** [if (!skip) { ... }]: [Next (true, _)] is [continue], [Next (false, _)]
    goes on to [skipitem]. *)
Definition kw_bind (args : list PyObject) (keywords : option PyObject)
    (kwlist : list string) (flags : Z) (fname custom_msg : option string)
    (pos nargs : Z) (v : KwVars) : M (Flow Z (bool * KwVars)) :=
  let i := kw_i v in
  let keyword := kw_at kwlist i in
  looked <-
    (if negb (kw_nkeywords v =? 0) && (i >=? pos) then
       match keywords with
       | None => undef
       | Some d =>
         let current_arg := PyDict_GetItemString d keyword in
         pending <- PyErr_Occurred ;;
         match current_arg with
         | None =>
           if pending then r <- cleanreturn 0 ;; ret (Return r)
           else ret (Next None)
         | Some a => ret (Next (Some a))
         end
       end
     else ret (Next None)) ;;
  match looked with
  | Return r => ret (Return r)
  | Next (Some a) =>
    let nkeywords := kw_nkeywords v - 1 in
    if i <? nargs then fail_with kTypeError (by_name_and_position keyword i)
    else
      c <- kw_convert a i (kw_format v) flags fname custom_msg ;;
      match c with
      | Return r => ret (Return r)
      | Next format' =>
        ret (Next (true, mkKw i format' (kw_min v) (kw_max v) (kw_skip v)
                           nkeywords))
      end
  | Next None =>
    if i <? nargs then
      match args !! Z.to_nat i with
      | None => undef
      | Some a =>
        c <- kw_convert a i (kw_format v) flags fname custom_msg ;;
        match c with
        | Return r => ret (Return r)
        | Next format' =>
          ret (Next (true, mkKw i format' (kw_min v) (kw_max v) (kw_skip v)
                             (kw_nkeywords v)))
        end
      end
    else
      let missing := i <? kw_min v in
      if missing && negb (i <? pos) then
        fail_with kTypeError (required_not_found keyword i)
      else
        let skip := if missing then true else kw_skip v in
        if (kw_nkeywords v =? 0) && negb skip then
          r <- cleanreturn 1 ;; ret (Return r)
        else
          ret (Next (false, mkKw i (kw_format v) (kw_min v) (kw_max v) skip
                              (kw_nkeywords v)))
  end.

(** One round of the loop of [vgetargskeywords]: [Next (true, _)] is
    [break]. *)
Definition vgetargskeywords_round (args : list PyObject)
    (keywords : option PyObject) (kwlist : list string) (flags : Z)
    (fname custom_msg : option string) (pos len nargs : Z) (v : KwVars)
  : M (Flow Z (bool * KwVars)) :=
  b <- kw_bar v ;;
  match b with
  | Return r => ret (Return r)
  | Next v =>
    d <- kw_dollar pos nargs v ;;
    match d with
    | Return r => ret (Return r)
    | Next (true, v) => ret (Next (true, v))
    | Next (false, v) =>
      if IS_END_OF_FORMAT (peek (kw_format v)) then
        fail_with kSystemError
          ("More keyword list entries (" +:+ fmt_d len +:+
           ") than format specifiers (" +:+ fmt_d (kw_i v) +:+ ")")
      else
        bound <-
          (if kw_skip v then ret (Next (false, v))
           else kw_bind args keywords kwlist flags fname custom_msg pos
                  nargs v) ;;
        match bound with
        | Return r => ret (Return r)
        | Next (true, v) => ret (Next (false, v))
        | Next (false, v) =>
          r <- skipitem (kw_format v) true flags ;;
          match r with
          | inl msg =>
            fail_with kSystemError
              (msg +:+ ": '" +:+ kw_format v +:+ "'")
          | inr format' =>
            ret (Next (false,
                       mkKw (kw_i v) format' (kw_min v) (kw_max v)
                         (kw_skip v) (kw_nkeywords v)))
          end
        end
    end
  end.

Definition kw_next (v : KwVars) : KwVars :=
  mkKw (kw_i v + 1) (kw_format v) (kw_min v) (kw_max v) (kw_skip v)
    (kw_nkeywords v).

(** [for (i = 0; i < len; i++)], [k] rounds. *)
Fixpoint vgetargskeywords_loop (k : nat) (args : list PyObject)
    (keywords : option PyObject) (kwlist : list string) (flags : Z)
    (fname custom_msg : option string) (pos len nargs : Z) (v : KwVars)
  : M (Flow Z KwVars) :=
  match k with
  | O => ret (Next v)
  | S k' =>
    r <- vgetargskeywords_round args keywords kwlist flags fname custom_msg
           pos len nargs v ;;
    match r with
    | Return z => ret (Return z)
    | Next (true, v') => ret (Next v')
    | Next (false, v') =>
      vgetargskeywords_loop k' args keywords kwlist flags fname custom_msg
        pos len nargs (kw_next v')
    end
  end.

(** [*kwlist\[i\] && _PyUnicode_EqualToASCIIString(key, kwlist\[i\])] for
    some [i]. *)
Definition kwlist_match (kwlist : list string) (key : PyObject) : bool :=
  existsb (λ name, negb (bool_decide (name = EmptyString))
                   && _PyUnicode_EqualToASCIIString key name) kwlist.

Definition unicode_text (key : PyObject) : string :=
  match key with PyUnicode s => s | _ => EmptyString end.

Definition invalid_keyword (text : string) : string :=
  "'" +:+ text +:+ "' is an invalid keyword argument for this function".

(** [while (PyDict_Next(...))]: no key outside the keyword list. *)
Fixpoint check_extraneous (valid : PyObject → bool)
    (shown : PyObject → string) (keys : list PyObject) : M Z :=
  match keys with
  | [] => cleanreturn 1
  | key :: rest =>
    if negb (PyUnicode_Check key) then
      raiseWithFmt kTypeError "keywords must be strings" ;;; cleanreturn 0
    else if negb (valid key) then
      PyErr_Format kTypeError (invalid_keyword (shown key)) ;;; cleanreturn 0
    else check_extraneous valid shown rest
  end.

Definition flow_return (f : M (Flow Z Z)) : M Z :=
  r <- f ;; match r with Return z => ret z | Next z => ret z end.

Definition vgetargskeywords (args : PyObject) (keywords : option PyObject)
    (format : string) (kwlist : list string) (flags : Z) : M Z :=
  freelist_static ;;;
  let fname := after_char ":" format in
  let custom_msg := match fname with
                    | Some _ => None
                    | None => after_char ";" format
                    end in
  let pos := count_positional_only kwlist in
  if has_empty_name kwlist then
    raiseWithFmt kSystemError "Empty keyword parameter name" ;;;
    cleanreturn 0
  else
    let len := Z.of_nat (length kwlist) in
    ok <- freelist_malloc len ;;
    if negb ok then ret 0
    else
      let nargs := Z.of_nat (length (tuple_items args)) in
      let nkeywords := match keywords with
                       | None => 0
                       | Some d => PyDict_Size d
                       end in
      if nargs + nkeywords >? len then
        PyErr_Format kTypeError
          (at_most_message fname len (nargs + nkeywords)) ;;;
        cleanreturn 0
      else
        l <- vgetargskeywords_loop (Z.to_nat len) (tuple_items args)
               keywords kwlist flags fname custom_msg pos len nargs
               (mkKw 0 format INT_MAX INT_MAX false nkeywords) ;;
        match l with
        | Return r => ret r
        | Next v =>
          if kw_skip v then
            PyErr_Format kTypeError
              (positional_count_message
                 (if Py_MIN pos (kw_min v) <? kw_i v then "at least"
                  else "exactly")
                 (Py_MIN pos (kw_min v)) nargs) ;;;
            cleanreturn 0
          else
            let c := peek (kw_format v) in
            if negb (IS_END_OF_FORMAT c)
               && negb (bool_decide (c = "|"%char))
               && negb (bool_decide (c = "$"%char)) then
              PyErr_Format kSystemError
                ("more argument specifiers than keyword list entries " +:+
                 "(remaining format:'" +:+ kw_format v +:+ "')") ;;;
              cleanreturn 0
            else if kw_nkeywords v >? 0 then
              match keywords with
              | None => undef
              | Some d =>
                check_extraneous (kwlist_match kwlist) unicode_text
                  (fst <$> dict_items d)
              end
            else cleanreturn 1
        end.

Definition PyArg_ParseTupleAndKeywords (args keywords : option PyObject)
    (format : option string) (kwlist : option (list string)) (flags : Z)
  : M Z :=
  match args, format, kwlist with
  | Some a, Some f, Some kw =>
    if negb (PyTuple_Check a)
       || match keywords with
          | Some d => negb (PyDict_Check d)
          | None => false
          end then
      raiseWithFmt kSystemError "bad argument to internal function" ;;;
      ret 0
    else vgetargskeywords a keywords f kw flags
  | _, _, _ =>
    raiseWithFmt kSystemError "bad argument to internal function" ;;; ret 0
  end.

(** *** The cached parser: [parserInit] and [vGetArgsKeywordsFastImpl] *)

Record _PyArg_Parser : Type := mkParser {
  parser_format : option string;
  parser_keywords : list string;
  parser_fname : option string;
  parser_custom_msg : option string;
  parser_pos : Z;
  parser_min : Z;
  parser_max : Z
}.

(** The validation loop of [parserInit], [k] rounds: [inl tt] is
    [return false], [inr] the variables after the loop. *)
Fixpoint parserInit_loop (k : nat) (i : Z) (format : string) (min max : Z)
    (pos len : Z) : M (unit + (string * Z * Z)) :=
  match k with
  | O => ret (inr (format, min, max))
  | S k' =>
    let bar := bool_decide (peek format = "|"%char) in
    if bar && negb (min =? INT_MAX) then
      raiseWithFmt kSystemError
        "Invalid format string (| specified twice)" ;;;
      ret (inl tt)
    else if bar && negb (max =? INT_MAX) then
      raiseWithFmt kSystemError "Invalid format string ($ before |)" ;;;
      ret (inl tt)
    else
      let min := if bar then i else min in
      let format := if bar then advance format else format in
      let dollar := bool_decide (peek format = "$"%char) in
      if dollar && negb (max =? INT_MAX) then
        raiseWithFmt kSystemError
          "Invalid format string ($ specified twice)" ;;;
        ret (inl tt)
      else if dollar && (i <? pos) then
        raiseWithFmt kSystemError "Empty parameter name after $" ;;;
        ret (inl tt)
      else
        let max := if dollar then i else max in
        let format := if dollar then advance format else format in
        if IS_END_OF_FORMAT (peek format) then
          PyErr_Format kSystemError
            ("More keyword list entries (" +:+ fmt_d len +:+
             ") than format specifiers (" +:+ fmt_d i +:+ ")") ;;;
          ret (inl tt)
        else
          r <- skipitem format false 0 ;;
          match r with
          | inl msg =>
            PyErr_Format kSystemError (msg +:+ ": '" +:+ format +:+ "'") ;;;
            ret (inl tt)
          | inr format' =>
            parserInit_loop k' (i + 1) format' min max pos len
          end
  end.

(** The parser as [parserInit] leaves it, and [*keyword_count]; [None] is
    [return false]. *)
Definition parserInit (parser : _PyArg_Parser)
  : M (_PyArg_Parser * option Z) :=
  let fname := match parser_format parser with
               | Some format => after_char ":" format
               | None => parser_fname parser
               end in
  let custom_msg := match parser_format parser with
                    | Some format =>
                      match fname with
                      | Some _ => None
                      | None => after_char ";" format
                      end
                    | None => parser_custom_msg parser
                    end in
  let keywords := parser_keywords parser in
  let pos := count_positional_only keywords in
  let parser1 := mkParser (parser_format parser) keywords fname custom_msg
                   pos (parser_min parser) (parser_max parser) in
  if has_empty_name keywords then
    raiseWithFmt kSystemError "Empty keyword parameter name" ;;;
    ret (parser1, None)
  else
    let len := Z.of_nat (length keywords) in
    match parser_format parser with
    | None => ret (parser1, Some (len - pos))
    | Some format =>
      r <- parserInit_loop (Z.to_nat len) 0 format INT_MAX INT_MAX pos len ;;
      match r with
      | inl _ => ret (parser1, None)
      | inr (format', min, max) =>
        let parser2 := mkParser (parser_format parser) keywords fname
                         custom_msg pos (Py_MIN min len) (Py_MIN max len) in
        let c := peek format' in
        if negb (IS_END_OF_FORMAT c) && negb (bool_decide (c = "|"%char))
           && negb (bool_decide (c = "$"%char)) then
          PyErr_Format kSystemError
            ("more argument specifiers than keyword list entries " +:+
             "(remaining format:'" +:+ format' +:+ "')") ;;;
          ret (parser2, None)
        else ret (parser2, Some (len - pos))
      end
    end.

(** [kwstack\[i\]] for the first name of [kwnames] equal to [key]. *)
Fixpoint findKeyword_from (names : list PyObject) (kwstack : list PyObject)
    (key : string) : option (option PyObject) :=
  match names with
  | [] => Some None
  | kwname :: rest =>
    if PyUnicode_Check kwname && _PyUnicode_EqualToASCIIString kwname key
    then match kwstack with
         | v :: _ => Some (Some v)
         | [] => None
         end
    else findKeyword_from rest (tail kwstack) key
  end.

(** [None]: a read past the caller's array. *)
Definition findKeyword (kwnames : PyObject) (kwstack : list PyObject)
    (key : string) : option (option PyObject) :=
  findKeyword_from (tuple_items kwnames) kwstack key.

Definition isValidKeyword (parser : _PyArg_Parser) (num_keywords : Z)
    (key : PyObject) : bool :=
  existsb (_PyUnicode_EqualToASCIIString key)
    (take (Z.to_nat num_keywords)
       (drop (Z.to_nat (parser_pos parser)) (parser_keywords parser))).

(** The loop of [vGetArgsKeywordsFastImpl], [k] rounds from [i]:
    [Next (format, num_keywords)] after the last round. *)
Fixpoint vGetArgsKeywordsFastImpl_loop (k : nat) (i : Z)
    (args : list PyObject) (nargs : Z) (keywords kwnames : option PyObject)
    (parser : _PyArg_Parser) (flags : Z) (format : string)
    (num_keywords : Z) : M (Flow Z (string * Z)) :=
  match k with
  | O => ret (Next (format, num_keywords))
  | S k' =>
    let pos := parser_pos parser in
    let keyword := kw_at (parser_keywords parser) i in
    let format :=
      if decide (peek format = "|"%char) then advance format else format in
    let format :=
      if decide (peek format = "$"%char) then advance format else format in
    looked <-
      (if negb (num_keywords =? 0) && (i >=? pos) then
         match keywords, kwnames with
         | Some d, _ =>
           let current_arg := PyDict_GetItemString d keyword in
           pending <- PyErr_Occurred ;;
           match current_arg with
           | None =>
             if pending then r <- cleanreturn 0 ;; ret (Return r)
             else ret (Next None)
           | Some a => ret (Next (Some a))
           end
         | None, Some names =>
           match findKeyword names (drop (Z.to_nat nargs) args) keyword with
           | None => undef
           | Some found => ret (Next found)
           end
         | None, None => undef
         end
       else ret (Next None)) ;;
    match looked with
    | Return r => ret (Return r)
    | Next found =>
      let num_keywords :=
        match found with Some _ => num_keywords - 1 | None => num_keywords
        end in
      let supplied : M (Flow Z (option PyObject)) :=
        match found with
        | Some a =>
          if i <? nargs then
            fail_with kTypeError (by_name_and_position keyword i)
          else ret (Next (Some a))
        | None =>
          if i <? nargs then
            match args !! Z.to_nat i with
            | None => undef
            | Some a => ret (Next (Some a))
            end
          else ret (Next None)
        end in
      cur <- supplied ;;
      match cur with
      | Return r => ret (Return r)
      | Next (Some a) =>
        c <- kw_convert a i format flags (parser_fname parser)
               (parser_custom_msg parser) ;;
        match c with
        | Return r => ret (Return r)
        | Next format' =>
          vGetArgsKeywordsFastImpl_loop k' (i + 1) args nargs keywords
            kwnames parser flags format' num_keywords
        end
      | Next None =>
        if i <? parser_min parser then
          if i <? pos then
            fail_with kTypeError
              (positional_count_message
                 (if Py_MIN pos (parser_min parser) <? parser_max parser
                  then "at least" else "exactly")
                 (Py_MIN pos (parser_min parser)) nargs)
          else fail_with kTypeError (required_not_found keyword i)
        else if num_keywords =? 0 then
          r <- cleanreturn 1 ;; ret (Return r)
        else
          r <- skipitem format true flags ;;
          let format' := match r with inl _ => format | inr f => f end in
          vGetArgsKeywordsFastImpl_loop k' (i + 1) args nargs keywords
            kwnames parser flags format' num_keywords
      end
    end
  end.

(** [args] holds the positional values and, after them, the values of the
    names in [kwnames].  The parser comes back as [parserInit] left it. *)
Definition vGetArgsKeywordsFastImpl (args : list PyObject) (nargs : Z)
    (keywords kwnames : option PyObject) (parser : _PyArg_Parser)
    (flags : Z) : M (Z * _PyArg_Parser) :=
  freelist_static ;;;
  init <- parserInit parser ;;
  let parser := init.1 in
  match init.2 with
  | None => ret (0, parser)
  | Some keyword_count =>
    let pos := parser_pos parser in
    let len := pos + keyword_count in
    ok <- freelist_malloc len ;;
    if negb ok then ret (0, parser)
    else
      let num_keywords :=
        match keywords, kwnames with
        | Some d, _ => PyDict_Size d
        | None, Some names => Z.of_nat (length (tuple_items names))
        | None, None => 0
        end in
      r <-
        (if nargs + num_keywords >? len then
           PyErr_Format kTypeError
             (at_most_message (parser_fname parser) len
                (nargs + num_keywords)) ;;;
           cleanreturn 0
         else if parser_max parser <? nargs then
           PyErr_Format kTypeError
             (positional_count_message
                (if negb (parser_min parser =? INT_MAX) then "at most"
                 else "exactly") (parser_max parser) nargs) ;;;
           cleanreturn 0
         else
           match parser_format parser with
           | None => undef
           | Some format =>
             l <- vGetArgsKeywordsFastImpl_loop (Z.to_nat len) 0 args nargs
                    keywords kwnames parser flags format num_keywords ;;
             match l with
             | Return r => ret r
             | Next (_, num_keywords) =>
               if num_keywords >? 0 then
                 match keywords, kwnames with
                 | Some d, _ =>
                   check_extraneous (isValidKeyword parser keyword_count)
                     object_as_c_string (fst <$> dict_items d)
                 | None, Some names =>
                   check_extraneous (isValidKeyword parser keyword_count)
                     unicode_text (tuple_items names)
                 | None, None => undef
                 end
               else cleanreturn 1
             end
           end) ;;
      ret (r, parser)
  end.

Definition vGetArgsKeywordsFast (args : PyObject)
    (keywords : option PyObject) (parser : _PyArg_Parser) (flags : Z)
  : M (Z * _PyArg_Parser) :=
  let stack := tuple_items args in
  vGetArgsKeywordsFastImpl stack (Z.of_nat (length stack)) keywords None
    parser flags.

End GetArgs.

(** * A reference runtime

    One instance of [Runtime], small enough to run: the builtin kinds behave
    as the language defines them; an instance of class ["Sized"] answers
    [__len__] with its identity, one of class ["Index"] answers [__index__]
    with it, one of class ["BadLen"] raises from [__len__], one of class
    ["Hint"] answers [__length_hint__] with its identity and one of class
    ["BoolHint"] with [True].  It gives the closed examples below their
    inputs. *)

Definition raise_in (l : LayoutId) (msg : string) (t : Thread) : Thread :=
  mkThread (Some (typeAt l)) (Some msg).

Definition ref_len (o : PyObject) (t : Thread) : RawObject * Thread :=
  match o with
  | PyUnicode s | PyBytes s | PyByteArray s | PyArray s =>
    (Obj (PyLong (slen s)), t)
  | PyTuple l | PyList l => (Obj (PyLong (Z.of_nat (length l))), t)
  | PyDict l => (Obj (PyLong (Z.of_nat (length l))), t)
  | PyMemoryView _ n => (Obj (PyLong n), t)
  | PyInstance cls id =>
    if bool_decide (cls = "Sized") then (Obj (PyLong id), t)
    else if bool_decide (cls = "BadLen") then
      (ErrorException, raise_in kValueError "bad length" t)
    else (ErrorNotFound, t)
  | _ => (ErrorNotFound, t)
  end.

Definition ref_length_hint (o : PyObject) (t : Thread)
  : RawObject * Thread :=
  match o with
  | PyInstance cls id =>
    if bool_decide (cls = "Hint") then (Obj (PyLong id), t)
    else if bool_decide (cls = "BoolHint") then (Obj (PyBool true), t)
    else (ErrorNotFound, t)
  | _ => (ErrorNotFound, t)
  end.

Definition ref_getitem (o : PyObject) (idx : PyObject) (t : Thread)
  : RawObject * Thread :=
  match o, idx with
  | PyUnicode s, PyLong i =>
    if (0 <=? i) && (i <? slen s) then
      (Obj (PyUnicode (String.substring (Z.to_nat i) 1 s)), t)
    else (ErrorException, raise_in kValueError "string index out of range" t)
  | PyBytes s, PyLong i | PyByteArray s, PyLong i =>
    if (0 <=? i) && (i <? slen s) then
      (Obj (PyLong (first_byte (String.substring (Z.to_nat i) 1 s))), t)
    else (ErrorException, raise_in kValueError "index out of range" t)
  | _, _ => (ErrorNotFound, t)
  end.

Definition ref_add (a b : PyObject) (t : Thread) : RawObject * Thread :=
  match a, b with
  | PyLong x, PyLong y => (Obj (PyLong (x + y)), t)
  | PyUnicode x, PyUnicode y => (Obj (PyUnicode (x +:+ y)), t)
  | _, _ =>
    (ErrorException,
     raise_in kTypeError "unsupported operand type(s) for +" t)
  end.

Definition ref_index (o : PyObject) (t : Thread) : RawObject * Thread :=
  match o with
  | PyLong _ | PyBool _ => (Obj o, t)
  | PyInstance cls id =>
    if bool_decide (cls = "Index") then (Obj (PyLong id), t)
    else (ErrorException,
          raise_in kTypeError
            ("'" +:+ cls +:+ "' object cannot be interpreted as an integer")
            t)
  | _ =>
    (ErrorException,
     raise_in kTypeError
       ("'" +:+ typeName o +:+
        "' object cannot be interpreted as an integer") t)
  end.

(** An integer conversion with the range of a signed 64-bit type. *)
Definition ref_as_long (o : PyObject) (t : Thread) : Z * Thread :=
  match intUnderlying o with
  | Some v =>
    if (kMinWord <=? v) && (v <=? kMaxWord) then (v, t)
    else (-1, raise_in kOverflowError
                "Python int too big to convert to C long" t)
  | None =>
    (-1, raise_in kTypeError
           ("an integer is required (got type " +:+ typeName o +:+ ")") t)
  end.

Definition ref_as_mask (o : PyObject) (t : Thread) : Z * Thread :=
  match intUnderlying o with
  | Some v => (wrap_unsigned 64 v, t)
  | None =>
    (wrap_unsigned 64 (-1),
     raise_in kTypeError
       ("an integer is required (got type " +:+ typeName o +:+ ")") t)
  end.

Definition ref_as_double (o : PyObject) (t : Thread) : Z * Thread :=
  match o with
  | PyFloat d => (d, t)
  | _ => (-1, raise_in kTypeError "must be real number" t)
  end.

Definition ref_as_complex (o : PyObject) (t : Thread) : (Z * Z) * Thread :=
  match o with
  | PyComplex re im => ((re, im), t)
  | _ => ((-1, 0), raise_in kTypeError "must be complex number" t)
  end.

Definition ref_is_true (o : PyObject) (t : Thread) : Z * Thread :=
  match o with
  | PyNone => (0, t)
  | PyBool b => (if b then 1 else 0, t)
  | PyLong v => (if v =? 0 then 0 else 1, t)
  | PyUnicode s | PyBytes s | PyByteArray s =>
    (if slen s =? 0 then 0 else 1, t)
  | PyTuple l | PyList l => (if Z.of_nat (length l) =? 0 then 0 else 1, t)
  | _ => (1, t)
  end.

Definition ref_text (o : PyObject) (t : Thread) : option string * Thread :=
  match o with
  | PyUnicode s => (Some s, t)
  | _ => (None, raise_in kTypeError "bad argument type" t)
  end.

Definition ref_encode (o : PyObject) (encoding : string) (t : Thread)
  : option PyObject * Thread :=
  match o with
  | PyUnicode s => (Some (PyBytes s), t)
  | _ => (None, raise_in kTypeError "bad argument type" t)
  end.

Definition ref_is_subtype (a b : PyObject) : bool :=
  match a, b with
  | PyTypeObject x, PyTypeObject y =>
    bool_decide (x = y) || bool_decide (y = "object")
    || (bool_decide (x = "bool") && bool_decide (y = "int"))
  | _, _ => false
  end.

Definition ref_is_sequence (o : PyObject) : bool :=
  match o with
  | PyUnicode _ | PyBytes _ | PyByteArray _ | PyTuple _ | PyList _
  | PyArray _ | PyMemoryView _ _ => true
  | _ => false
  end.

Definition ref_data (o : PyObject) : string :=
  match o with
  | PyBytes s | PyByteArray s | PyArray s => s
  | _ => EmptyString
  end.

#[export] Instance ref_runtime : Runtime := {|
  PyBUF_SIMPLE := 0;
  PyBUF_WRITABLE := 1;
  PyBUF_FORMAT := 4;
  PyBUF_ND := 8;
  PyBUF_STRIDES := 24;
  Py_CLEANUP_SUPPORTED := 131072;
  invokeMethod1 o name t :=
    if bool_decide (name = "__len__") then ref_len o t
    else if bool_decide (name = "__length_hint__") then ref_length_hint o t
    else (ErrorNotFound, t);
  invokeFunction1 m name o t :=
    (ErrorException, raise_in kTypeError "bad operand type" t);
  invokeFunction2 m name a b t :=
    if bool_decide (name = "add") then ref_add a b t
    else (ErrorException, raise_in kTypeError "unsupported operand" t);
  invokeMethod2 o name a t :=
    if bool_decide (name = "__getitem__") then ref_getitem o a t
    else (ErrorNotFound, t);
  intFromIndex := ref_index;
  isSequence := ref_is_sequence;
  PyLong_AsLong := ref_as_long;
  PyLong_AsUnsignedLongMask := ref_as_mask;
  PyLong_AsSsize_t := ref_as_long;
  PyLong_AsLongLong := ref_as_long;
  PyLong_AsUnsignedLongLongMask := ref_as_mask;
  PyFloat_AsDouble := ref_as_double;
  PyComplex_AsCComplex := ref_as_complex;
  PyObject_IsTrue := ref_is_true;
  PyUnicode_READY o t := (0, t);
  PyUnicode_GET_LENGTH o :=
    match o with PyUnicode s => slen s | _ => 0 end;
  PyUnicode_READ_CHAR o i :=
    match o with
    | PyUnicode s => first_byte (String.substring (Z.to_nat i) 1 s)
    | _ => 0
    end;
  PyUnicode_AsUTF8AndSize := ref_text;
  PyUnicode_AsUnicodeAndSize := ref_text;
  PyUnicode_AsEncodedString := ref_encode;
  PyUnicode_GetDefaultEncoding := "utf-8";
  PyType_IsSubtype := ref_is_subtype;
  Py_TYPE o := PyTypeObject (typeName o);
  object_as_c_string o := EmptyString;
  bytesUnderlying o := o;
  bytesLength o := slen (ref_data o);
  bytesAsString h b t := (PData (ref_data b), t);
  bytearrayNumItems o := slen (ref_data o);
  bytearrayAsString o t := (PData (ref_data o), t);
  arrayByteLength o := slen (ref_data o);
  arrayCopyToCache o t := (PData (ref_data o), t);
  typeIsBuiltin o := match o with PyInstance _ _ => false | _ => true end;
  typeHasSlots o := false;
  bf_getbuffer o := None;
  bf_releasebuffer o := None
|}.

(** The state before a call: nothing pending, nothing allocated, and the
    given variadic arguments. *)
Definition start (args : list VaArg) : State :=
  mkState (mkThread None None) ∅ ∅ 1 64 0 args (mkFreelist [] PNull 0 0) [].

(** * Predicates of the statements

    The notions the theorems are stated with: what a call left in the
    history, the invariant of the cleanup list, the contracts asked of the
    runtime, and the inputs of the closed examples. *)

Section Predicates.
Context {rt : Runtime}.

(** ** Outcomes of the abstract-object functions *)

Definition raised (l : LayoutId) (msg : string) (s : State) : State :=
  set_thread (mkThread (Some (typeAt l)) (Some msg)) s.

Definition sized (n : Z) : PyObject := PyInstance "Sized" n.

(** What the dispatcher is assumed to do with two small integers: the
    [operator.add] of the runtime returns their sum and leaves the thread
    as it was. *)
Definition operator_add_on_small_ints : Prop :=
  ∀ a b t,
    SmallInt_isValid a = true → SmallInt_isValid b = true →
    invokeFunction2 "operator" "add" (PyLong a) (PyLong b) t =
      (Obj (PyLong (a + b)), t).

(** Whether round [d] of a stride loop can read what it needs; it does not
    depend on the stride reached. *)
Definition step_defined (view : Py_buffer) (d : nat) : bool :=
  match at_index (shape view) d with
  | None => false
  | Some dim_size =>
    if dim_size >? 1 then bool_decide (is_Some (at_index (strides view) d))
    else true
  end.

(** The sources for which [PyObject_GetBuffer] builds the view itself. *)
Definition builtin_bytes_like (o : PyObject) : bool :=
  isInstanceOfBytes o || isInstanceOfBytearray o || isMemoryView o
  || isInstanceOfArray o.

(** ** Partial correctness of native code *)

Definition hoare {A} (P : State → Prop) (m : M A) (Q : A → State → Prop)
  : Prop :=
  ∀ s a s', P s → m s = Ret a s' → Q a s'.

(** What a binding call owns: its freelist, its history, the set of live
    blocks and the next block to hand out. *)
Definition owned_part (s : State)
  : freelist_t * list Event * gset Z * Z :=
  (freelist s, hist s, dom (blocks s), next_block s).

(** Code that leaves all of that alone. *)
Definition frame {A} (m : M A) : Prop :=
  ∀ s a s', m s = Ret a s' → owned_part s' = owned_part s.

(** ** The cleanup list, the history and the live blocks *)

(** The block an entry owns: the one its destructor frees. *)
Definition entry_block (e : freelistentry_t) : option Z :=
  match destructor e, item e with
  | cleanup_ptr_fn, PBlock b => Some b
  | _, _ => None
  end.

Definition owned (es : list freelistentry_t) : gset Z :=
  list_to_set (omap entry_block es).

(** The block of the freelist's own array. *)
Definition freelist_block (fl : freelist_t) : gset Z :=
  if entries_malloced fl =? 0 then ∅
  else match entries_ptr fl with
       | PBlock b => {[b]}
       | _ => ∅
       end.

(** Block numbers are handed out in increasing order. *)
Definition blocks_bounded (s : State) : Prop :=
  ∀ b, b ∈ dom (blocks s) → b < next_block s.

(** The invariant of a binding call that started with history [h0] and
    live blocks [d0]: the entries registered so far are the first
    [first_available] slots of the array, in the order of registration; no
    destructor has run; the live blocks are those of the start, those the
    entries own and the freelist's array. *)
Definition Inv (h0 : list Event) (d0 : gset Z) (s : State) : Prop :=
  ∃ es, hist s = h0 ++ (Registered <$> es)
        ∧ first_available (freelist s) = Z.of_nat (length es)
        ∧ take (length es) (entries (freelist s)) = Some <$> es
        ∧ blocks_bounded s
        ∧ dom (blocks s) = d0 ∪ owned es ∪ freelist_block (freelist s)
        ∧ d0 ## owned es ∪ freelist_block (freelist s)
        ∧ owned es ## freelist_block (freelist s).

(** What a call leaves behind when it returns [r]: the entries it
    registered and, when [r] is 0, one destructor call for each of them, in
    the same order, after the last registration.  The live blocks are those
    of the start and, when [r] is not 0, those the entries own. *)
Definition returned (h0 : list Event) (d0 : gset Z) (r : Z) (s : State)
  : Prop :=
  ∃ es, hist s = h0 ++ (Registered <$> es)
                    ++ (if r =? 0 then Invoked <$> es else [])
        ∧ dom (blocks s) = d0 ∪ (if r =? 0 then ∅ else owned es).

Definition keeps {A} (h0 : list Event) (d0 : gset Z) (m : M A) : Prop :=
  hoare (Inv h0 d0) m (λ _, Inv h0 d0).

(** Between [PyMem_NEW] and the registration of its block. *)
Definition AfterAlloc (h0 : list Event) (d0 : gset Z) (b : Ptr) (s : State)
  : Prop :=
  match b with
  | PNull => Inv h0 d0 s
  | PBlock n =>
    ∃ es, hist s = h0 ++ (Registered <$> es)
          ∧ first_available (freelist s) = Z.of_nat (length es)
          ∧ take (length es) (entries (freelist s)) = Some <$> es
          ∧ blocks_bounded s
          ∧ dom (blocks s) =
              d0 ∪ owned (es ++ [mkEntry (PBlock n) cleanup_ptr_fn])
              ∪ freelist_block (freelist s)
          ∧ d0 ## owned (es ++ [mkEntry (PBlock n) cleanup_ptr_fn])
                  ∪ freelist_block (freelist s)
          ∧ owned (es ++ [mkEntry (PBlock n) cleanup_ptr_fn])
            ## freelist_block (freelist s)
  | _ => False
  end.

(** ** Around the set-up of the cleanup list *)

(** After a loop: the function has returned, or the invariant holds. *)
Definition flow_post {A} (h0 : list Event) (d0 : gset Z) (fl : Flow Z A)
  : State → Prop :=
  match fl with
  | Return r => returned h0 d0 r
  | Next _ => Inv h0 d0
  end.

(** Before the freelist is set up, and right after. *)
Definition fresh_call (h0 : list Event) (d0 : gset Z) (s : State) : Prop :=
  hist s = h0 ∧ dom (blocks s) = d0 ∧ blocks_bounded s.

Definition Inv0 (h0 : list Event) (d0 : gset Z) (s : State) : Prop :=
  hist s = h0 ∧ first_available (freelist s) = 0
  ∧ blocks_bounded s
  ∧ dom (blocks s) = d0 ∪ freelist_block (freelist s)
  ∧ d0 ## freelist_block (freelist s).

(** A return before the array was allocated, or when it could not be. *)
Definition no_array (h0 : list Event) (d0 : gset Z) (s : State) : Prop :=
  hist s = h0 ∧ dom (blocks s) = d0.

(** ** The binder family *)

(** The entry points that set up a cleanup list, with their arguments. *)
Inductive BinderCall : Type :=
| Positional (compat_args : option PyObject) (stack : list PyObject)
    (nargs : Z) (format : string) (flags : Z)
| Keywords (args : PyObject) (keywords : option PyObject) (format : string)
    (kwlist : list string) (flags : Z)
| KeywordsFast (args : list PyObject) (nargs : Z)
    (keywords kwnames : option PyObject) (parser : _PyArg_Parser) (flags : Z).

(** The entries registered and the destructor calls made, in order. *)
Definition registered (h : list Event) : list freelistentry_t :=
  omap (λ ev, match ev with Registered e => Some e | Invoked _ => None end) h.
Definition invoked (h : list Event) : list freelistentry_t :=
  omap (λ ev, match ev with Invoked e => Some e | Registered _ => None end) h.

(** What a call added to the history. *)
Definition new_events (s s' : State) : list Event :=
  drop (length (hist s)) (hist s').

(** A call that converts two strings into fresh blocks and then meets a
    string where the descriptor wants an integer. *)
Definition two_blocks_then_failure : BinderCall :=
  Positional None [PyUnicode "ab"; PyUnicode "cd"; PyUnicode "x"] 3
    "esesi" 0.

Definition two_blocks_state : State :=
  set_mem (<[1 := CPtr PNull]> (<[2 := CPtr PNull]> ∅))
    (start [VaStr (Some "utf-8"); VaPtr (PCell 1);
            VaStr (Some "utf-8"); VaPtr (PCell 2); VaPtr (PCell 3)]).

(** ** Malformed descriptors *)


(** A computation that never ends in [Py_FatalError]. *)
Definition never_aborts {A} (m : M A) : Prop :=
  ∀ s msg s', m s ≠ Fatal msg s'.

(** ** The scenarios *)

(** The descriptor of the arity scenario, with or without a function
    name. *)
Definition arity_format (fname : option string) : string :=
  "ii|i" +:+ match fname with Some f => ":" +:+ f | None => "" end.

(** What a call that binds the integers [vs] leaves in the cells. *)
Definition store_ints (cells vs : list Z) (m : gmap Z CVal) : gmap Z CVal :=
  foldl (λ m cv, <[cv.1 := CInt cv.2]> m) m (zip cells vs).

Definition int_pointers (cells : list Z) : list VaArg :=
  (λ c, VaPtr (PCell c)) <$> cells.

Definition static_freelist (s : State) : State :=
  set_freelist
    (mkFreelist (replicate (Z.to_nat STATIC_FREELIST_ENTRIES) None) PNull 0 0)
    s.

(** ** What a computation returns *)

(** The values a computation can return. *)
Definition yields {A} (m : M A) (Q : A → Prop) : Prop :=
  ∀ s a s', m s = Ret a s' → Q a.

(** A conversion that leaves at most [n] characters of the descriptor. *)
Definition leaves_at_most (n : nat) (r : Conv) : Prop :=
  match r with
  | Converted f => (String.length f ≤ n)%nat
  | Failed _ => True
  end.

Definition leaves_at_mostL (n : nat) (r : ConvL) : Prop :=
  match r with
  | Done f => (String.length f ≤ n)%nat
  | FailedAt _ _ => True
  end.

(** [skipitem] takes at least one character of the descriptor. *)
Definition skips (p_format : string) (r : string + string) : Prop :=
  match r with
  | inr f => (String.length f < String.length p_format)%nat
  | inl _ => True
  end.

End Predicates.

Definition run_binder {rt : Runtime} (c : BinderCall) : M Z :=
  match c with
  | Positional compat_args stack nargs format flags =>
    vGetArgs1Impl compat_args stack nargs format flags
  | Keywords args keywords format kwlist flags =>
    vgetargskeywords args keywords format kwlist flags
  | KeywordsFast args nargs keywords kwnames parser flags =>
    r <- vGetArgsKeywordsFastImpl args nargs keywords kwnames parser flags ;;
    ret r.1
  end.

(** Following the specification: the items are bound one after the other
    from the left, each against what the earlier ones left of the
    descriptor; the first failure ends the call through the cleanup. *)
Fixpoint bind_left_to_right {rt : Runtime} (items : list PyObject) (i : Z)
    (format : string) (flags : Z) (fname message : option string)
  : M (Flow Z string) :=
  match items with
  | [] => ret (Next format)
  | a :: rest =>
    let format :=
      if decide (peek format = "|"%char) then advance format else format in
    r <- convertitem a format flags 0 256 ;;
    match r with
    | FailedAt msg levels =>
      seterror (i + 1) msg levels fname message ;;;
      r <- cleanreturn 0 ;; ret (Return r)
    | Done format' =>
      bind_left_to_right rest (i + 1) format' flags fname message
    end
  end.

(** What the scenarios with tuples of machine integers take from the
    runtime: a tuple is a sequence and answers [__len__] with its length,
    an integer is its own index, and [PyLong_AsLong] is exact on a word. *)
Record int_tuple_runtime {rt : Runtime} : Prop := {
  tuple_is_sequence : ∀ items, isSequence (PyTuple items) = true;
  tuple_len : ∀ items t,
    invokeMethod1 (PyTuple items) "__len__" t
    = (Obj (PyLong (Z.of_nat (length items))), t);
  index_of_int : ∀ v t, intFromIndex (PyLong v) t = (Obj (PyLong v), t);
  as_long_exact : ∀ v t,
    kMinWord ≤ v ≤ kMaxWord → PyLong_AsLong (PyLong v) t = (v, t)
}.
Arguments int_tuple_runtime : clear implicits.

(** * More of [ext/Objects/abstract.cpp] *)

Section AbstractMore.
Context {rt : Runtime}.

Definition PyNumber_InPlaceAdd (left right : PyObject)
  : M (option PyObject) :=
  result <- smallIntAdd left right ;;
  match result with
  | Some r => ret (Some r)
  | None => doBinaryOp "iadd" left right
  end.

Definition PySequence_Concat (left right : option PyObject)
  : M (option PyObject) :=
  match left, right with
  | Some l, Some r =>
    if negb (PySequence_Check l) || negb (PySequence_Check r) then
      raiseWithFmt kTypeError "objects cannot be concatenated" ;;; ret None
    else PyNumber_Add l r
  | _, _ => nullError ;;; ret None
  end.

(** ** What the theorems about these functions are stated with *)

(** The state after [nullError]: an exception that is pending stays, and
    only without one is the [SystemError] raised. *)
Definition after_nullError (s : State) : State :=
  if hasPendingException (thread s) then s
  else raised kSystemError "null argument to internal routine" s.

(** A function that returns a new reference or null: one reference more
    exactly when there is a result, and the native state is otherwise the
    caller's. *)
Definition new_reference_or_null (m : M (option PyObject)) : Prop :=
  ∀ s r s',
    m s = Ret r s' →
    refs s' = refs s + (if r is Some _ then 1 else 0)
    ∧ mem s' = mem s ∧ blocks s' = blocks s ∧ va s' = va s
    ∧ freelist s' = freelist s ∧ hist s' = hist s.

(** The invariant of a memoryview that [PyObject_GetBuffer] relies on: its
    underlying buffer is a bytes object or a raw pointer. *)
Definition memoryview_buffer_known (o : PyObject) : bool :=
  match o with
  | PyMemoryView buffer _ =>
    isInstanceOfBytes buffer
    || match buffer with PyPointer _ => true | _ => false end
  | _ => true
  end.

(** The view of the cell [a], if it holds one. *)
Definition view_at (a : Z) (s : State) : option Py_buffer :=
  match mem s !! a with
  | Some (CView v) => Some v
  | _ => None
  end.

(** A view of the bytes [data], as [PyBuffer_FillInfo] writes it for a
    simple request. *)
Definition bytes_view (data : string) (owner : option PyObject) : Py_buffer :=
  mkPy_buffer (PData data) owner (slen data) 1 1 1 None None None None None.

End AbstractMore.

(** ** What a binding call returns *)

Definition zero_or_one (r : Z) : Prop := r = 0 ∨ r = 1.

Definition flow_zero_or_one {A} (fl : Flow Z A) : Prop :=
  match fl with
  | Return r => zero_or_one r
  | Next _ => True
  end.

(** ** The integer codes of [convertsimple] *)

(** The codes that test the value against the range of their C type, with
    the name the messages give the type, the bounds and the width. *)
Definition ranged_code (c : ascii) : option (string * Z * Z) :=
  if decide (c = "b"%char) then Some ("unsigned byte integer", 0, UCHAR_MAX)
  else if decide (c = "h"%char) then
    Some ("signed short integer", SHRT_MIN, SHRT_MAX)
  else if decide (c = "i"%char) then Some ("signed integer", INT_MIN, INT_MAX)
  else None.

(** The codes that keep the low bits, with their width. *)
Definition mask_code (c : ascii) : option Z :=
  if decide (c = "B"%char) then Some 8
  else if decide (c = "H"%char) then Some 16
  else if decide (c = "I"%char) then Some 32
  else None.

(** The codes that refuse a [float] before they convert. *)
Definition integer_codes : list ascii :=
  [ "b"; "B"; "h"; "H"; "i"; "I"; "l"; "L"; "n" ]%char.

(** A caller's cell written, and the pointer to it taken from the list. *)
Definition stored (a : Z) (v : CVal) (rest : list VaArg) (s : State)
  : State :=
  set_mem (<[a := v]> (mem s)) (set_va rest s).

(** ** What a code takes from the descriptor and from the va_list *)

(** Code that leaves the va_list alone. *)
Definition keeps_va {A} (m : M A) : Prop :=
  ∀ s a s', m s = Ret a s' → va s' = va s.

(** Code that takes the first [n] variadic arguments, with a result that
    [Q] relates to [n]. *)
Definition takes {A} (m : M A) (Q : A → nat → Prop) : Prop :=
  ∀ s a s',
    m s = Ret a s' →
    ∃ n, (n ≤ length (va s))%nat ∧ va s' = drop n (va s) ∧ Q a n.

(** The characters and the variadic arguments of one simple code, as
    [skipitem] passes over them: the rest of the descriptor and the number
    of arguments.  [None] where [skipitem] gives a message. *)
Definition skipped_extent (p_format : string) : option (string * nat) :=
  let c := peek p_format in
  let format := advance p_format in
  if char_in c single_pointer_codes then Some (format, 1%nat)
  else if decide (c = "e"%char) then
    if negb (bool_decide (peek format = "s"%char)
             || bool_decide (peek format = "t"%char)) then None
    else if decide (peek (advance format) = "#"%char) then
      Some (advance (advance format), 3%nat)
    else Some (advance format, 2%nat)
  else if char_in c string_codes then
    if decide (peek format = "#"%char) then Some (advance format, 2%nat)
    else if char_in c [ "s"; "z"; "y" ]%char
            && bool_decide (peek format = "*"%char) then
      Some (advance format, 1%nat)
    else Some (format, 1%nat)
  else if decide (c = "O"%char) then
    if decide (peek format = "!"%char) then Some (advance format, 2%nat)
    else if decide (peek format = "&"%char) then
      Some (advance format, 2%nat)
    else Some (format, 1%nat)
  else None.

(** A successful conversion that took what [skipitem] passes over. *)
Definition converted_extent (p_format : string) (r : Conv) (n : nat) : Prop :=
  match r with
  | Converted f => skipped_extent p_format = Some (f, n)
  | Failed _ => True
  end.

(** A successful conversion that left [format] and took [k] arguments. *)
Definition converted_with (format : string) (k : nat) (r : Conv) (n : nat)
  : Prop :=
  match r with
  | Converted f => f = format ∧ n = k
  | Failed _ => True
  end.

(** * More of [ext/Python/getargs.cpp] *)

Section GetArgsMore.
Context {rt : Runtime}.

(** [assert] and [DCHECK]: what follows is only defined when the
    condition holds. *)
Definition DCHECK (cond : bool) : M unit := if cond then ret tt else undef.

(** The two texts of a refused count: ["at least "] or ["at most "] is
    dropped when the bounds are equal. *)
Definition expected_message (name : string) (min max : Z) (qualifier : string)
    (bound : Z) (noun : string) (given : Z) : string :=
  name +:+ " expected " +:+ (if min =? max then "" else qualifier) +:+
  fmt_d bound +:+ " " +:+ noun +:+ ", got " +:+ fmt_d given.

Definition should_have_message (min max : Z) (qualifier : string)
    (bound : Z) (noun : string) (given : Z) : string :=
  "unpacked tuple should have " +:+ (if min =? max then "" else qualifier) +:+
  fmt_d bound +:+ " " +:+ noun +:+ ", but has " +:+ fmt_d given.

(** [for (i = ...; i < l; i++) { o = va_arg(vargs, PyObject** );
    *o = PyTuple_GetItem(args, i); }], [k] rounds. *)
Fixpoint PyArg_UnpackTuple_loop (k : nat) (i : Z) (args : PyObject)
  : M unit :=
  match k with
  | O => ret tt
  | S k' =>
    o <- va_arg_ptr ;;
    match tuple_items args !! Z.to_nat i with
    | None => undef
    | Some it =>
      store o (CObj it) ;;;
      PyArg_UnpackTuple_loop k' (i + 1) args
    end
  end.

Definition PyArg_UnpackTuple (args : PyObject) (name : option string)
    (min max : Z) : M Z :=
  DCHECK (min >=? 0) ;;;
  DCHECK (min <=? max) ;;;
  if negb (PyTuple_Check args) then
    raiseWithFmt kSystemError
      "PyArg_UnpackTuple() argument list is not a tuple" ;;;
    ret 0
  else
    let l := Z.of_nat (length (tuple_items args)) in
    if l <? min then
      match name with
      | Some n =>
        PyErr_Format kTypeError
          (expected_message n min max "at least " min "arguments" l)
      | None =>
        PyErr_Format kTypeError
          (should_have_message min max "at least " min "elements" l)
      end ;;;
      ret 0
    else if l =? 0 then ret 1
    else if l >? max then
      match name with
      | Some n =>
        PyErr_Format kTypeError
          (expected_message n min max "at most " max "arguments" l)
      | None =>
        PyErr_Format kTypeError
          (should_have_message min max "at most " max "elements" l)
      end ;;;
      ret 0
    else
      PyArg_UnpackTuple_loop (Z.to_nat l) 0 args ;;;
      ret 1.

(** [DCHECK_BOUND(val, high)]. *)
Definition DCHECK_BOUND (val high : Z) : M unit :=
  DCHECK ((val >=? 0) && (val <=? high)).

Definition _PyArg_CheckPositional (name : option string) (nargs min max : Z)
  : M Z :=
  DCHECK_BOUND min max ;;;
  if nargs <? min then
    match name with
    | Some n =>
      PyErr_Format kTypeError
        (expected_message (trunc 200 n) min max "at least " min
           ("argument" +:+ plural min) nargs)
    | None =>
      PyErr_Format kTypeError
        (should_have_message min max "at least " min
           ("element" +:+ plural min) nargs)
    end ;;;
    ret 0
  else if nargs >? max then
    match name with
    | Some n =>
      PyErr_Format kTypeError
        (expected_message (trunc 200 n) min max "at most " max
           ("argument" +:+ plural max) nargs)
    | None =>
      PyErr_Format kTypeError
        (should_have_message min max "at most " max
           ("element" +:+ plural max) nargs)
    end ;;;
    ret 0
  else ret 1.

(** [for (i = 0; i < nargs; i++) { o = va_arg(vargs, PyObject** );
    *o = args\[i\]; }], [k] rounds. *)
Fixpoint unpackStack_loop (k : nat) (i : Z) (args : list PyObject)
  : M unit :=
  match k with
  | O => ret tt
  | S k' =>
    o <- va_arg_ptr ;;
    match args !! Z.to_nat i with
    | None => undef
    | Some it =>
      store o (CObj it) ;;;
      unpackStack_loop k' (i + 1) args
    end
  end.

Definition unpackStack (args : list PyObject) (nargs : Z)
    (name : option string) (min max : Z) : M Z :=
  DCHECK (min >=? 0) ;;;
  DCHECK (min <=? max) ;;;
  if nargs <? min then
    match name with
    | Some n =>
      PyErr_Format kTypeError
        (expected_message (trunc 200 n) min max "at least " min "arguments"
           nargs)
    | None =>
      PyErr_Format kTypeError
        (should_have_message min max "at least " min "elements" nargs)
    end ;;;
    ret 0
  else if nargs =? 0 then ret 1
  else if nargs >? max then
    match name with
    | Some n =>
      PyErr_Format kTypeError
        (expected_message (trunc 200 n) min max "at most " max "arguments"
           nargs)
    | None =>
      PyErr_Format kTypeError
        (should_have_message min max "at most " max "elements" nargs)
    end ;;;
    ret 0
  else
    unpackStack_loop (Z.to_nat nargs) 0 args ;;;
    ret 1.

(** The variadic arguments are the [va] of the state. *)
Definition _PyArg_UnpackStack (args : list PyObject) (nargs : Z)
    (name : option string) (min max : Z) : M Z :=
  unpackStack args nargs name min max.

(** ** What their theorems are stated with *)

(** The objects [objs] written to the cells [cells], in order. *)
Definition store_objects (cells : list Z) (objs : list PyObject)
    (m : gmap Z CVal) : gmap Z CVal :=
  foldl (λ m co, <[co.1 := CObj co.2]> m) m (zip cells objs).

Definition object_pointers (cells : list Z) : list VaArg :=
  (λ c, VaPtr (PCell c)) <$> cells.

(** A refusal: the result 0 and a [TypeError], with everything else as it
    was. *)
Definition refused (m : M Z) (s : State) : Prop :=
  ∃ msg, m s = Ret 0 (raised kTypeError msg s).

End GetArgsMore.

(** ** The count of positional arguments *)

(** The bounds that [vGetArgs1Impl] takes from a scanned descriptor. *)
Definition arity_max (sc : Scan) : Z := scan_max sc.
Definition arity_min (sc : Scan) : Z :=
  if scan_min sc <? 0 then scan_max sc else scan_min sc.

(** The text of a wrong count, or the descriptor's own message. *)
Definition arity_message (sc : Scan) (nargs : Z) : string :=
  match scan_message sc with
  | Some m => m
  | None =>
    function_name (scan_fname sc) 150 +:+ " takes " +:+
    (if arity_min sc =? arity_max sc then "exactly"
     else if nargs <? arity_min sc then "at least" else "at most") +:+
    " " +:+
    fmt_d (if nargs <? arity_min sc then arity_min sc else arity_max sc) +:+
    " argument" +:+
    plural (if nargs <? arity_min sc then arity_min sc else arity_max sc) +:+
    " (" +:+ fmt_d nargs +:+ " given)"
  end.

(** ** Keywords that no parameter takes *)

(** Is the string [name] one of the keys? *)
Definition key_present (keys : list PyObject) (name : string) : bool :=
  existsb (λ k, PyUnicode_Check k && _PyUnicode_EqualToASCIIString k name)
    keys.

(** The names of the keyword list from [pos] up to [i] that are among the
    keys: each of them has taken one keyword argument. *)
Definition names_found (keys : list PyObject) (kwlist : list string)
    (pos i : Z) : nat :=
  length (filter (λ name, key_present keys name = true)
            (drop (Z.to_nat pos) (take (Z.to_nat i) kwlist))).

(** At index [i], with [nk] keyword arguments still to be taken: these are
    at least the ones that no name before [i] has taken. *)
Definition keywords_left (keys : list PyObject) (kwlist : list string)
    (pos i nk : Z) : Prop :=
  0 ≤ i
  ∧ Z.of_nat (length keys) ≤ nk + Z.of_nat (names_found keys kwlist pos i).

Definition keywords_left_at (keys : list PyObject) (kwlist : list string)
    (pos : Z) (v : KwVars) : Prop :=
  keywords_left keys kwlist pos (kw_i v) (kw_nkeywords v).

(** A block of a binder that has returned 0 or goes on with [P]. *)
Definition refused_or {A} (P : A → Prop) (fl : Flow Z A) : Prop :=
  match fl with
  | Return r => r = 0
  | Next a => P a
  end.

(** The same index and the same count of keyword arguments. *)
Definition same_count (v v' : KwVars) : Prop :=
  kw_i v' = kw_i v ∧ kw_nkeywords v' = kw_nkeywords v.

(** The keys of the keyword arguments of a call: those of the dictionary,
    or the names of the tuple that comes with a stack of values. *)
Definition supplied_keys (keywords kwnames : option PyObject)
  : list PyObject :=
  match keywords, kwnames with
  | Some d, _ => (dict_items d).*1
  | None, Some names => tuple_items names
  | None, None => []
  end.

(** * Length hints and argument vectors of [ext/Objects/abstract.cpp]

    Three more entry points of the runtime are called here. *)
Class RuntimeExt : Type := {
  (* [givenExceptionMatches(thread, given, exc)] *)
  givenExceptionMatches : PyObject → PyObject → Thread → bool * Thread;
  (* [RawObject::isNotImplementedType] *)
  isNotImplementedType : PyObject → bool;
  (* [PyBytes_AsStringAndSize(item, &data, nullptr)]: the bytes, or null
     with an exception *)
  PyBytes_AsStringAndSize : PyObject → Thread → option string * Thread
}.

Section LengthHint.
Context {rt : Runtime} {rx : RuntimeExt}.

Definition PyObject_LengthHint (obj : option PyObject) (default_value : Z)
  : M Z :=
  res <- objectLength obj ;;
  s <- get ;;
  if (res <? 0) && hasPendingException (thread s) then
    match pending_exception_type (thread s) with
    | None => undef
    | Some given_obj =>
      matches <- liftT (givenExceptionMatches given_obj (typeAt kTypeError)) ;;
      if negb matches then ret (-1)
      else
        PyErr_Clear ;;;
        match obj with
        | None => undef
        | Some object =>
          length_hint <- liftT (invokeMethod1 object "__length_hint__") ;;
          match length_hint with
          | ErrorNotFound => ret default_value
          | ErrorException => ret (-1)
          | Obj lh =>
            if isNotImplementedType lh then ret default_value
            else
              match intUnderlying lh with
              | None =>
                raiseWithFmt kTypeError
                  ("__length_hint__ must be an integer, not " +:+
                   typeName lh) ;;;
                ret (-1)
              | Some index =>
                (* [index.isSmallInt()] is asked of the object that
                   [intUnderlying] hands back: a [bool] is an [Int], but
                   no [SmallInt] *)
                if negb (isSmallInt lh) then
                  raiseWithFmt kOverflowError
                    ("cannot fit '" +:+ typeName lh +:+
                     "' into an index-sized integer") ;;;
                  ret (-1)
                else if isNegative index then
                  raiseWithFmt kValueError "__len__() should return >= 0" ;;;
                  ret (-1)
                else ret (asWord index)
              end
          end
        end
    end
  else ret res.

(** ** What the theorem about it is stated with *)

(** An object without [__len__], in a runtime where the [TypeError] that
    [objectLength] raises for it is recognised as one. *)
Definition no_len (o : PyObject) (s : State) : Prop :=
  invokeMethod1 o "__len__" (thread s) = (ErrorNotFound, thread s)
  ∧ ∀ t, givenExceptionMatches (typeAt kTypeError) (typeAt kTypeError) t
         = (true, t).

End LengthHint.

(** A runtime extension for the closed examples: only [TypeError] matches
    [TypeError], an instance of class ["NotImplementedType"] is
    [NotImplemented], and bytes objects hand out their bytes. *)
#[export] Instance ref_runtime_ext : RuntimeExt := {|
  givenExceptionMatches given exc t :=
    (match given, exc with
     | PyTypeObject a, PyTypeObject b => bool_decide (a = b)
     | _, _ => false
     end, t);
  isNotImplementedType o :=
    match o with
    | PyInstance cls _ => bool_decide (cls = "NotImplementedType")
    | _ => false
    end;
  PyBytes_AsStringAndSize o t :=
    match o with
    | PyBytes d => (Some d, t)
    | _ => (None, raise_in kTypeError "expected bytes" t)
    end
|}.

Section CharpArray.
Context {rt : Runtime} {rx : RuntimeExt}.

Definition kPointerSize : Z := 8.

(** An array of [char*] is given by its pointer and by the cells it
    holds.  [for (i = 0; array\[i\] != nullptr; ++i) PyMem_Free(array\[i\])]
    reads them up to the first null; without one it reads past the
    array. *)
Fixpoint _Py_FreeCharPArray_loop (cells : list Ptr) : M unit :=
  match cells with
  | [] => undef
  | PNull :: _ => ret tt
  | p :: rest => PyMem_FREE p ;;; _Py_FreeCharPArray_loop rest
  end.

Definition _Py_FreeCharPArray (array : Ptr) (cells : list Ptr) : M unit :=
  _Py_FreeCharPArray_loop cells ;;;
  PyMem_FREE array.

(** [for (i = ...; i < argc; ++i)], [k] rounds; [cells] are
    [result\[0\]] to [result\[i - 1\]].  [None] is [return nullptr]. *)
Fixpoint _PySequence_BytesToCharpArray_loop (k : nat) (i : Z)
    (self : option PyObject) (result : Ptr) (cells : list Ptr)
  : M (option (list Ptr)) :=
  match k with
  | O => ret (Some cells)
  | S k' =>
    item <- PySequence_GetItem self i ;;
    match item with
    | None =>
      _Py_FreeCharPArray result (cells ++ [PNull]) ;;;
      ret None
    | Some it =>
      data <- liftT (PyBytes_AsStringAndSize it) ;;
      match data with
      | None =>
        Py_DECREF ;;;
        _Py_FreeCharPArray result (cells ++ [PNull]) ;;;
        ret None
      | Some d =>
        p <- PyMem_NEW EmptyString ;;
        match p with
        | PNull =>
          PyErr_NoMemory ;;;
          Py_DECREF ;;;
          _Py_FreeCharPArray result (cells ++ [PNull]) ;;;
          ret None
        | _ =>
          memcpy p d ;;;
          Py_DECREF ;;;
          _PySequence_BytesToCharpArray_loop k' (i + 1) self result
            (cells ++ [p])
        end
      end
    end
  end.

(** The array and its cells, the terminating null included; [None] is
    [nullptr]. *)
Definition _PySequence_BytesToCharpArray (self : option PyObject)
  : M (option (Ptr * list Ptr)) :=
  argc <- PySequence_Size self ;;
  if argc <? 0 then
    DCHECK (argc =? -1) ;;;
    ret None
  else if argc >? kMaxWord `div` kPointerSize - 1 then
    PyErr_NoMemory ;;;
    ret None
  else
    result <- PyMem_NEW EmptyString ;;
    match result with
    | PNull => PyErr_NoMemory ;;; ret None
    | _ =>
      r <- _PySequence_BytesToCharpArray_loop (Z.to_nat argc) 0 self result
             [] ;;
      match r with
      | None => ret None
      | Some cells => ret (Some (result, cells ++ [PNull]))
      end
    end.

(** ** What the theorem about them is stated with *)

(** The array [b] and the strings [bs] are live blocks that were not live
    at the start, and nothing else has changed in the set of live blocks
    or in the references. *)
Definition array_built (d0 : gset Z) (r0 : Z) (b : Z) (bs : list Z)
    (s : State) : Prop :=
  blocks_bounded s
  ∧ NoDup (b :: bs)
  ∧ dom (blocks s) = d0 ∪ {[b]} ∪ list_to_set bs
  ∧ d0 ## {[b]} ∪ list_to_set bs
  ∧ refs s = r0.

(** Nothing is left of a call: the live blocks and the references are
    those of the start. *)
Definition nothing_left (d0 : gset Z) (r0 : Z) (s : State) : Prop :=
  blocks_bounded s ∧ dom (blocks s) = d0 ∧ refs s = r0.

End CharpArray.

(** ** Inputs of the closed examples *)

(** A call that converts two strings into fresh blocks and an integer. *)
Definition two_blocks_then_success : BinderCall :=
  Positional None [PyUnicode "ab"; PyUnicode "cd"; PyLong 7] 3 "esesi" 0.

(** One pointer to the cell 1. *)
Definition one_cell : State := start [VaPtr (PCell 1)].

(** An object that answers [__length_hint__] only. *)
Definition hint_only : PyObject := PyInstance "HintOnly" 0.

(** An object without [__len__] whose [__length_hint__] answers [True]. *)
Definition bool_hint : PyObject := PyInstance "BoolHint" 0.

(** Three pointers, to the cells 1, 2 and 3. *)
Definition three_cells : State :=
  start [VaPtr (PCell 1); VaPtr (PCell 2); VaPtr (PCell 3)].

(** A dictionary of keywords with a key that no parameter takes. *)
Definition one_unknown_keyword : PyObject :=
  PyDict [(PyUnicode "a", PyLong 1); (PyUnicode "zzz", PyLong 2)].

(** A parser for an integer [a] and an optional integer [b], as
    [parserInit] leaves it. *)
Definition a_or_b_parser : _PyArg_Parser :=
  mkParser (Some "i|i") ["a"; "b"] None None 0 1 2.

(** A sequence of two byte strings. *)
Definition two_byte_strings : PyObject :=
  PyTuple [PyBytes "ab"; PyBytes "c"].

(** ** Aborts and nesting *)


(** The deepest nesting of parentheses that a descriptor opens, read as
    [parens_matched] reads it: up to its function name or message, or to a
    closing parenthesis that closes nothing. *)
Fixpoint deepest_nesting (format : string) (opened : nat) : nat :=
  match format with
  | EmptyString => opened
  | String c rest =>
    if decide (c = "("%char) then deepest_nesting rest (S opened)
    else if decide (c = ")"%char) then
      match opened with
      | O => O
      | S n => Nat.max opened (deepest_nesting rest n)
      end
    else if IS_END_OF_FORMAT c then opened
    else deepest_nesting rest opened
  end.

(** ** How far a call of a keyword binder has come *)


Section Reaching.
Context {rt : Runtime}.






End Reaching.







(** * Proofs *)

#[local] Set Warnings "-clear-no-such-hyp".

(** ** The monad *)

Lemma bind_Ret {A B} (m : M A) (k : A → M B) s b s'' :
  bind m k s = Ret b s'' → ∃ a s', m s = Ret a s' ∧ k a s' = Ret b s''.
Proof.
  unfold bind. destruct (m s) as [a s'| |]; try discriminate. eauto.
Qed.

Lemma bind_Ret_intro {A B} (m : M A) (k : A → M B) s a s' :
  m s = Ret a s' → bind m k s = k a s'.
Proof. unfold bind. intros ->. reflexivity. Qed.

Lemma liftT_Ret {A} (f : Thread → A * Thread) s a s' :
  liftT f s = Ret a s' → f (thread s) = (a, thread s') ∧ s' = set_thread (thread s') s.
Proof.
  unfold liftT. destruct (f (thread s)) as [a0 t]. intros [= <- <-].
  destruct s; split; reflexivity.
Qed.

Lemma liftT_run {A} (f : Thread → A * Thread) s a t :
  f (thread s) = (a, t) → liftT f s = Ret a (set_thread t s).
Proof. unfold liftT. intros ->. reflexivity. Qed.

Lemma bind_liftT {A B} (f : Thread → A * Thread) (k : A → M B) s a t :
  f (thread s) = (a, t) → bind (liftT f) k s = k a (set_thread t s).
Proof. unfold bind, liftT. intros ->. reflexivity. Qed.

Lemma set_thread_twice t1 t2 s : set_thread t2 (set_thread t1 s) = set_thread t2 s.
Proof. reflexivity. Qed.

(** ** Integers *)

Lemma numDigits_one (v : Z) : numDigits v = 1 ↔ kMinWord ≤ v ≤ kMaxWord.
Proof.
  unfold numDigits, kMinWord, kMaxWord.
  set (mag := if v <? 0 then - v - 1 else v).
  assert (Hmag : 0 ≤ mag) by (subst mag; destruct (Z.ltb_spec v 0); lia).
  assert (Hrange : mag < 2 ^ 63 ↔ - 2 ^ 63 ≤ v ≤ 2 ^ 63 - 1)
    by (subst mag; destruct (Z.ltb_spec v 0); lia).
  rewrite <- Hrange. clear Hrange.
  destruct (Z.eqb_spec mag 0) as [->|Hne].
  - change ((0 + 1 + 63) `div` 64) with 1. split; [intros _|reflexivity]; lia.
  - assert (Hlog := Z.log2_nonneg mag).
    replace (Z.log2 mag + 1 + 1 + 63) with (Z.log2 mag + 1 + 1 * 64) by lia.
    rewrite Z.div_add by lia.
    rewrite (Z.log2_lt_pow2 mag 63) by lia.
    split.
    + intros H. assert (Hd : (Z.log2 mag + 1) `div` 64 = 0) by lia.
      apply Z.div_small_iff in Hd; lia.
    + intros H. rewrite Z.div_small by lia. reflexivity.
Qed.

Lemma asWord_in_range (v : Z) : kMinWord ≤ v ≤ kMaxWord → asWord v = v.
Proof.
  unfold asWord, wrap_signed, kBitsPerWord, kMinWord, kMaxWord. intros H.
  rewrite Z.mod_small; lia.
Qed.

Lemma asWordSaturated_in_range (v : Z) :
  kMinWord ≤ v ≤ kMaxWord → asWordSaturated v = v.
Proof.
  intros H. unfold asWordSaturated.
  apply numDigits_one in H as Hd. rewrite Hd. simpl. by apply asWord_in_range.
Qed.

Lemma asWordSaturated_clipped (v : Z) :
  ¬ (kMinWord ≤ v ≤ kMaxWord) →
  asWordSaturated v = if v <? 0 then kMinWord else kMaxWord.
Proof.
  intros H. unfold asWordSaturated, isNegative.
  destruct (Z.eqb_spec (numDigits v) 1) as [Hd|Hd]; [|reflexivity].
  apply numDigits_one in Hd. contradiction.
Qed.

Lemma small_int_sum_exact (a b : Z) :
  SmallInt_isValid a = true → SmallInt_isValid b = true → word_add a b = a + b.
Proof.
  unfold SmallInt_isValid, SmallInt_kMinValue, SmallInt_kMaxValue, word_add,
    wrap_signed, kBitsPerWord.
  intros Ha Hb. apply andb_true_iff in Ha as [Ha1 Ha2].
  apply andb_true_iff in Hb as [Hb1 Hb2].
  apply Z.leb_le in Ha1, Ha2, Hb1, Hb2.
  rewrite Z.mod_small; lia.
Qed.

(** ** Length queries *)

Section LengthProofs.
Context {rt : Runtime}.

Lemma objectLength_found (o li l : PyObject) (v : Z) (s : State)
    (t1 t2 : Thread) :
  invokeMethod1 o "__len__" (thread s) = (Obj li, t1) →
  intFromIndex li t1 = (Obj l, t2) →
  intUnderlying l = Some v →
  objectLength (Some o) s =
    if isNegative v then
      Ret (-1) (raised kValueError "__len__() should return >= 0" s)
    else if numDigits v >? 1 then
      Ret (-1)
        (raised kOverflowError
           ("cannot fit '" +:+ typeName li +:+
            "' into an index-sized integer") s)
    else Ret (asWord v) (set_thread t2 s).
Proof.
  intros H1 H2 H3. unfold objectLength. cbv beta iota.
  rewrite (bind_liftT (invokeMethod1 o "__len__") _ s _ _ H1).
  rewrite (bind_liftT (intFromIndex li) _ (set_thread t1 s) _ _ H2).
  rewrite H3. destruct (isNegative v); [reflexivity|].
  destruct (numDigits v >? 1); reflexivity.
Qed.

(** C7. The length queries [PyObject_Length], [PySequence_Size] and
    [PyMapping_Size] are one function.  When the operand's [__len__]
    returns a negative integer the result is -1 with a ValueError; when it
    returns a non-negative integer that does not fit a word the result is -1
    with an OverflowError (nothing is truncated); when the operand has no
    [__len__] the result is -1 with the TypeError "object has no len()". *)
Theorem length_query_errors (o : PyObject) (s : State) :
  PyObject_Length = objectLength ∧ PySequence_Size = objectLength
  ∧ PyMapping_Size = objectLength
  ∧ (∀ li l v t1 t2,
       invokeMethod1 o "__len__" (thread s) = (Obj li, t1) →
       intFromIndex li t1 = (Obj l, t2) →
       intUnderlying l = Some v →
       (v < 0 →
        objectLength (Some o) s =
          Ret (-1) (raised kValueError "__len__() should return >= 0" s))
       ∧ (kMaxWord < v →
          objectLength (Some o) s =
            Ret (-1)
              (raised kOverflowError
                 ("cannot fit '" +:+ typeName li +:+
                  "' into an index-sized integer") s))
       ∧ (0 ≤ v ≤ kMaxWord →
          objectLength (Some o) s = Ret v (set_thread t2 s)))
  ∧ (∀ t1,
       invokeMethod1 o "__len__" (thread s) = (ErrorNotFound, t1) →
       objectLength (Some o) s =
         Ret (-1) (raised kTypeError "object has no len()" s)).
Proof.
  split; [reflexivity|]. split; [reflexivity|]. split; [reflexivity|].
  split.
  - intros li l v t1 t2 H1 H2 H3.
    rewrite (objectLength_found _ _ _ _ _ _ _ H1 H2 H3).
    unfold isNegative. repeat split; intros Hv.
    + destruct (Z.ltb_spec v 0); [reflexivity|lia].
    + destruct (Z.ltb_spec v 0); [unfold kMaxWord in Hv; lia|].
      destruct (Z.gtb_spec (numDigits v) 1) as [_|Hd]; [reflexivity|].
      assert (numDigits v = 1) as Hone.
      { unfold numDigits in *.
        assert (0 < (((if (if v <? 0 then - v - 1 else v) =? 0 then 0
                       else Z.log2 (if v <? 0 then - v - 1 else v) + 1)
                      + 1 + 63) `div` 64)); [|lia].
        apply Z.div_str_pos.
        destruct (_ =? 0); [lia|].
        pose proof (Z.log2_nonneg (if v <? 0 then - v - 1 else v)). lia. }
      apply numDigits_one in Hone. unfold kMaxWord in *. lia.
    + destruct (Z.ltb_spec v 0); [lia|].
      assert (numDigits v = 1) as ->
        by (apply numDigits_one; unfold kMinWord, kMaxWord in *; lia).
      simpl. rewrite asWord_in_range; [reflexivity|].
      unfold kMinWord, kMaxWord in *; lia.
  - intros t1 H1. unfold objectLength. cbv beta iota.
    rewrite (bind_liftT (invokeMethod1 o "__len__") _ s _ _ H1).
    reflexivity.
Qed.

End LengthProofs.

Lemma length_query_errors_witness :
  objectLength (Some (sized (-3))) (start []) =
    Ret (-1) (raised kValueError "__len__() should return >= 0" (start []))
  ∧ objectLength (Some (sized (2 ^ 70))) (start []) =
      Ret (-1)
        (raised kOverflowError "cannot fit 'int' into an index-sized integer"
           (start []))
  ∧ objectLength (Some (sized 5)) (start []) = Ret 5 (start [])
  ∧ objectLength (Some PyNone) (start []) =
      Ret (-1) (raised kTypeError "object has no len()" (start [])).
Proof.
  pose proof (length_query_errors (sized (-3)) (start [])) as (_ & _ & _ & Hneg & _).
  pose proof (length_query_errors (sized (2 ^ 70)) (start [])) as (_ & _ & _ & Hbig & _).
  pose proof (length_query_errors (sized 5) (start [])) as (_ & _ & _ & Hfit & _).
  pose proof (length_query_errors PyNone (start [])) as (_ & _ & _ & _ & Hnone).
  split; [|split; [|split]].
  - refine (proj1 (Hneg (PyLong (-3)) (PyLong (-3)) (-3) _ _ eq_refl eq_refl eq_refl) _).
    reflexivity.
  - refine (proj1 (proj2 (Hbig (PyLong (2^70)) (PyLong (2^70)) (2^70) _ _ eq_refl eq_refl eq_refl)) _).
    reflexivity.
  - refine (proj2 (proj2 (Hfit (PyLong 5) (PyLong 5) 5 _ _ eq_refl eq_refl eq_refl)) _).
    vm_compute. split; discriminate.
  - exact (Hnone _ eq_refl).
Defined.

(** ** Index conversion *)

Section IndexProofs.
Context {rt : Runtime}.

(** C10. For an object whose index conversion gives the integer [v]:
    a value inside the word range is returned as it is, whatever the
    overflow argument; a value outside it is clipped to the nearest end of
    the range when the overflow argument is null, with nothing raised, and
    gives -1 with the given exception type pending when it is not null. *)
Theorem PyNumber_AsSsize_t_overflow (o n : PyObject) (v : Z) (s : State)
    (t' : Thread) :
  intFromIndex o (thread s) = (Obj n, t') →
  intUnderlying n = Some v →
  (kMinWord ≤ v ≤ kMaxWord →
   ∀ overflow_err,
     PyNumber_AsSsize_t (Some o) overflow_err s = Ret v (set_thread t' s))
  ∧ (¬ (kMinWord ≤ v ≤ kMaxWord) →
     PyNumber_AsSsize_t (Some o) None s =
       Ret (if v <? 0 then kMinWord else kMaxWord) (set_thread t' s)
     ∧ ∀ err,
         PyNumber_AsSsize_t (Some o) (Some err) s =
           Ret (-1)
             (set_thread
                (mkThread (Some err)
                   (Some ("cannot fit '" +:+ typeName o +:+
                          "' into an index-sized integer"))) s)).
Proof.
  intros Hidx Hint.
  assert (Hrun : ∀ overflow_err,
    PyNumber_AsSsize_t (Some o) overflow_err s =
      match overflow_err with
      | None => Ret (asWordSaturated v) (set_thread t' s)
      | Some err =>
        if numDigits v =? 1 then Ret (asWordSaturated v) (set_thread t' s)
        else Ret (-1)
               (set_thread
                  (mkThread (Some err)
                     (Some ("cannot fit '" +:+ typeName o +:+
                            "' into an index-sized integer"))) s)
      end).
  { intros overflow_err. unfold PyNumber_AsSsize_t. cbv beta iota.
    rewrite (bind_liftT (intFromIndex o) _ s _ _ Hidx). rewrite Hint.
    destruct overflow_err as [err|]; [|reflexivity].
    destruct (numDigits v =? 1); reflexivity. }
  split.
  - intros Hin overflow_err. rewrite Hrun.
    rewrite (asWordSaturated_in_range _ Hin).
    apply numDigits_one in Hin. rewrite Hin.
    destruct overflow_err; reflexivity.
  - intros Hout. split.
    + rewrite (Hrun None). by rewrite asWordSaturated_clipped.
    + intros err. rewrite (Hrun (Some err)).
      destruct (Z.eqb_spec (numDigits v) 1) as [Hd|Hd]; [|reflexivity].
      apply numDigits_one in Hd. contradiction.
Qed.

End IndexProofs.

Lemma PyNumber_AsSsize_t_overflow_witness :
  PyNumber_AsSsize_t (Some (PyLong 7)) (Some (typeAt kOverflowError))
    (start []) = Ret 7 (start [])
  ∧ PyNumber_AsSsize_t (Some (PyLong (2 ^ 64))) None (start []) =
      Ret kMaxWord (start [])
  ∧ PyNumber_AsSsize_t (Some (PyLong (- 2 ^ 64))) None (start []) =
      Ret kMinWord (start [])
  ∧ PyNumber_AsSsize_t (Some (PyLong (2 ^ 64)))
      (Some (typeAt kOverflowError)) (start []) =
      Ret (-1)
        (raised kOverflowError "cannot fit 'int' into an index-sized integer"
           (start [])).
Proof.
  split; [|split; [|split]].
  - refine (proj1 (PyNumber_AsSsize_t_overflow (PyLong 7) (PyLong 7) 7
                     (start []) _ eq_refl eq_refl) _ _).
    vm_compute. split; discriminate.
  - refine (proj1 (proj2 (PyNumber_AsSsize_t_overflow (PyLong (2 ^ 64))
                            (PyLong (2 ^ 64)) (2 ^ 64) (start []) _ eq_refl
                            eq_refl) _)).
    vm_compute. intros [_ H]. apply H. reflexivity.
  - refine (proj1 (proj2 (PyNumber_AsSsize_t_overflow (PyLong (- 2 ^ 64))
                            (PyLong (- 2 ^ 64)) (- 2 ^ 64) (start []) _
                            eq_refl eq_refl) _)).
    vm_compute. intros [H _]. apply H. reflexivity.
  - refine (proj2 (proj2 (PyNumber_AsSsize_t_overflow (PyLong (2 ^ 64))
                            (PyLong (2 ^ 64)) (2 ^ 64) (start []) _ eq_refl
                            eq_refl) _) _).
    vm_compute. intros [_ H]. apply H. reflexivity.
Defined.

(** ** Addition *)

Section AddProofs.
Context {rt : Runtime}.

Lemma smallIntAdd_hit (a b : Z) (s : State) :
  SmallInt_isValid a = true → SmallInt_isValid b = true →
  smallIntAdd (PyLong a) (PyLong b) s =
    Ret (Some (PyLong (a + b))) (set_refs (refs s + 1) s).
Proof.
  intros Ha Hb. unfold smallIntAdd. simpl. rewrite Ha, Hb. simpl.
  unfold newInt. rewrite small_int_sum_exact by assumption. reflexivity.
Qed.

Lemma smallIntAdd_miss (left right : PyObject) (s : State) :
  isSmallInt left && isSmallInt right = false →
  smallIntAdd left right s = Ret None s.
Proof.
  intros H. unfold smallIntAdd.
  destruct left; try reflexivity. destruct right; try reflexivity.
  rewrite H. reflexivity.
Qed.

(** C8. When both operands are small integers the fast path returns a
    new reference to their exact sum, and needs nothing from the runtime;
    for every other pair it declines and the operation is dispatched.
    Given a dispatcher that adds small integers, [PyNumber_Add] and the
    dispatch alone agree on every pair of operands and every state. *)
Theorem PyNumber_Add_fast_path_agrees :
  operator_add_on_small_ints →
  (∀ a b s,
     SmallInt_isValid a = true → SmallInt_isValid b = true →
     smallIntAdd (PyLong a) (PyLong b) s =
       Ret (Some (PyLong (a + b))) (set_refs (refs s + 1) s))
  ∧ (∀ left right s,
       isSmallInt left && isSmallInt right = false →
       PyNumber_Add left right s = doBinaryOp "add" left right s)
  ∧ (∀ left right s,
       PyNumber_Add left right s = doBinaryOp "add" left right s).
Proof.
  intros Hadd. split; [|split].
  - intros a b s Ha Hb. by apply smallIntAdd_hit.
  - intros left right s Hmiss. unfold PyNumber_Add.
    rewrite (bind_Ret_intro _ _ _ _ _ (smallIntAdd_miss _ _ _ Hmiss)).
    reflexivity.
  - intros left right s.
    destruct (isSmallInt left && isSmallInt right) eqn:Hsmall.
    + apply andb_true_iff in Hsmall as [Hl Hr].
      destruct left; try discriminate. destruct right; try discriminate.
      simpl in Hl, Hr. unfold PyNumber_Add.
      rewrite (bind_Ret_intro _ _ _ _ _ (smallIntAdd_hit _ _ s Hl Hr)).
      unfold doBinaryOp.
      rewrite (bind_liftT (invokeFunction2 "operator" "add" (PyLong v)
                             (PyLong v0)) _ s _ _ (Hadd _ _ _ Hl Hr)).
      reflexivity.
    + unfold PyNumber_Add.
      rewrite (bind_Ret_intro _ _ _ _ _ (smallIntAdd_miss _ _ _ Hsmall)).
      reflexivity.
Qed.

End AddProofs.

Lemma ref_runtime_adds : @operator_add_on_small_ints ref_runtime.
Proof. intros a b t _ _. reflexivity. Defined.

Lemma PyNumber_Add_fast_path_agrees_witness :
  PyNumber_Add (PyLong 2) (PyLong 3) (start []) =
    Ret (Some (PyLong 5)) (set_refs 1 (start []))
  ∧ PyNumber_Add (PyLong 2) (PyLong 3) (start []) =
      doBinaryOp "add" (PyLong 2) (PyLong 3) (start [])
  ∧ PyNumber_Add (PyUnicode "a") (PyUnicode "b") (start []) =
      doBinaryOp "add" (PyUnicode "a") (PyUnicode "b") (start []).
Proof.
  pose proof (PyNumber_Add_fast_path_agrees ref_runtime_adds)
    as (Hfast & Hmiss & Hall).
  split; [|split].
  - rewrite Hall. reflexivity.
  - apply Hall.
  - apply Hmiss. reflexivity.
Defined.

(** ** Buffers *)

Section BufferProofs.
Context {rt : Runtime}.

Lemma stride_step_None (view : Py_buffer) (d : nat) (st : Z) :
  stride_step view d st = None ↔ step_defined view d = false.
Proof.
  unfold stride_step, step_defined.
  destruct (at_index (shape view) d) as [dim_size|]; [|done].
  destruct (dim_size >? 1); [|done].
  destruct (at_index (strides view) d) as [x|].
  - rewrite bool_decide_eq_false. split.
    + destruct (negb (x =? st)); discriminate.
    + intros H. exfalso. apply H. eauto.
  - rewrite bool_decide_eq_false. split; [|done].
    intros _ [x Hx]. discriminate.
Qed.

Lemma row_major_loop_None (view : Py_buffer) (k : nat) (st : Z) :
  row_major_loop view k st = None →
  ∃ d, (d < k)%nat ∧ step_defined view d = false.
Proof.
  revert st. induction k as [|k IH]; intros st; simpl; [discriminate|].
  destruct (stride_step view k st) as [[s'|]|] eqn:Hstep.
  - intros H. destruct (IH _ H) as (d & Hd & Hdef). exists d. split; [lia|done].
  - discriminate.
  - intros _. exists k. split; [lia|]. by apply (stride_step_None view k st).
Qed.

Lemma col_major_loop_true (view : Py_buffer) (k d0 : nat) (st : Z) :
  col_major_loop view k d0 st = Some true →
  ∀ d, (d0 ≤ d < d0 + k)%nat → step_defined view d = true.
Proof.
  revert d0 st. induction k as [|k IH]; intros d0 st; simpl.
  - intros _ d Hd. lia.
  - destruct (stride_step view d0 st) as [[s'|]|] eqn:Hstep; try discriminate.
    intros H d Hd. destruct (decide (d = d0)) as [->|Hne].
    + destruct (step_defined view d0) eqn:Hdef; [done|].
      apply (stride_step_None view d0 st) in Hdef. congruence.
    + apply (IH _ _ H). lia.
Qed.

Lemma row_undefined_col_not_true (view : Py_buffer) :
  isContiguousWithRowMajorOrder view = None →
  isContiguousWithColumnMajorOrder view ≠ Some true.
Proof.
  unfold isContiguousWithRowMajorOrder, isContiguousWithColumnMajorOrder.
  destruct (suboffsets view); [discriminate|].
  destruct (strides view); [|discriminate].
  destruct (len view =? 0); [discriminate|].
  intros Hrow Hcol.
  destruct (row_major_loop_None _ _ _ Hrow) as (d & Hd & Hdef).
  rewrite (col_major_loop_true _ _ _ _ Hcol d) in Hdef; [discriminate|lia].
Qed.

Lemma PyBuffer_IsContiguous_A (view : Py_buffer) :
  PyBuffer_IsContiguous view "A" =
    match isContiguousWithRowMajorOrder view with
    | None => None
    | Some true => Some true
    | Some false => isContiguousWithColumnMajorOrder view
    end.
Proof. reflexivity. Qed.

Lemma has_flag_included (flags big small : Z) :
  Z.land big small = small →
  has_flag flags big = true → has_flag flags small = true.
Proof.
  unfold has_flag. intros Hincl Hbig. apply Z.eqb_eq in Hbig.
  apply Z.eqb_eq. rewrite <- Hincl at 1.
  rewrite Z.land_assoc, Hbig. exact Hincl.
Qed.

(** A view as [PyBuffer_FillInfo] writes it is contiguous in C order. *)
Lemma PyBuffer_FillInfo_contiguous (view : Ptr) (exporter : option PyObject)
    (b : Ptr) (n ro flags : Z) (s s' : State) :
  Z.land PyBUF_STRIDES PyBUF_ND = PyBUF_ND →
  PyBuffer_FillInfo view exporter b n ro flags s = Ret 0 s' →
  ∃ a v, view = PCell a ∧ mem s' !! a = Some (CView v)
         ∧ obj v = exporter ∧ readonly v = ro ∧ len v = n
         ∧ PyBuffer_IsContiguous v "C" = Some true.
Proof.
  intros Hincl. unfold PyBuffer_FillInfo.
  destruct view as [|a|blk|d].
  - intros H. apply bind_Ret in H as (? & ? & _ & [=]).
  - destruct (has_flag flags PyBUF_WRITABLE && (ro =? 1)).
    { intros H. apply bind_Ret in H as (? & ? & _ & [=]). }
    intros H. apply bind_Ret in H as (? & s1 & Hinc & H).
    apply bind_Ret in H as (? & s2 & Hst & H).
    unfold ret in H. injection H as Hs2. subst s'.
    unfold store, modify in Hst. injection Hst as Hs2. subst s2.
    eexists a, _. split; [reflexivity|]. split.
    { simpl. apply lookup_insert_eq. }
    repeat split.
    change (PyBuffer_IsContiguous ?v "C") with
      (isContiguousWithRowMajorOrder v).
    unfold isContiguousWithRowMajorOrder. simpl.
    destruct (has_flag flags PyBUF_STRIDES) eqn:Hs; [|reflexivity].
    rewrite (has_flag_included _ _ _ Hincl Hs).
    destruct (n =? 0); [reflexivity|].
    unfold stride_step. simpl. destruct (n >? 1); reflexivity.
  - destruct (has_flag flags PyBUF_WRITABLE && (ro =? 1)).
    { intros H. apply bind_Ret in H as (? & ? & _ & [=]). }
    intros H. apply bind_Ret in H as (? & s1 & Hinc & H).
    apply bind_Ret in H as (? & s2 & Hst & _). discriminate.
  - destruct (has_flag flags PyBUF_WRITABLE && (ro =? 1)).
    { intros H. apply bind_Ret in H as (? & ? & _ & [=]). }
    intros H. apply bind_Ret in H as (? & s1 & Hinc & H).
    apply bind_Ret in H as (? & s2 & Hst & _). discriminate.
Qed.

Lemma PyObject_GetBuffer_builtin (o : PyObject) (view : Ptr) (flags : Z)
    (s s' : State) :
  Z.land PyBUF_STRIDES PyBUF_ND = PyBUF_ND →
  builtin_bytes_like o = true →
  PyObject_GetBuffer o view flags s = Ret 0 s' →
  ∃ a v, view = PCell a ∧ mem s' !! a = Some (CView v)
         ∧ obj v = Some o ∧ readonly v = 1
         ∧ PyBuffer_IsContiguous v "C" = Some true.
Proof.
  intros Hincl Hkind Hget.
  assert (Hfill : ∀ b n s1,
            PyBuffer_FillInfo view (Some o) b n 1 flags s1 = Ret 0 s' →
            ∃ a v, view = PCell a ∧ mem s' !! a = Some (CView v)
                   ∧ obj v = Some o ∧ readonly v = 1
                   ∧ PyBuffer_IsContiguous v "C" = Some true).
  { intros b n s1 H.
    destruct (PyBuffer_FillInfo_contiguous _ _ _ _ _ _ _ _ Hincl H)
      as (a & v & ? & ? & ? & ? & ? & ?). eauto 10. }
  unfold PyObject_GetBuffer in Hget.
  destruct (isInstanceOfBytes o) eqn:Hb.
  { apply bind_Ret in Hget as (p & s1 & _ & Hget).
    destruct p; first [discriminate | by eapply Hfill]. }
  destruct (isInstanceOfBytearray o) eqn:Hba.
  { apply bind_Ret in Hget as (p & s1 & _ & Hget).
    destruct p; first [discriminate | by eapply Hfill]. }
  destruct o; try discriminate.
  - destruct (isInstanceOfBytes o) eqn:Hbuf.
    + apply bind_Ret in Hget as (p & s1 & _ & Hget).
      destruct p; first [discriminate | by eapply Hfill].
    + destruct o; try discriminate. by eapply Hfill.
  - simpl in Hget. apply bind_Ret in Hget as (p & s1 & _ & Hget).
    destruct p; first [discriminate | by eapply Hfill].
Qed.

(** C9. A view that [PyObject_GetBuffer] produces with success on a
    builtin bytes-like source (bytes, bytearray, memoryview, array) is
    read-only and contiguous in ['C'] order; and for every view the order
    ['A'] holds exactly when ['C'] or ['F'] does.  The request flag for
    strides includes the one for the shape, as in the C-API headers. *)
Theorem buffer_views_contiguous :
  Z.land PyBUF_STRIDES PyBUF_ND = PyBUF_ND →
  (∀ o view flags s s',
     builtin_bytes_like o = true →
     PyObject_GetBuffer o view flags s = Ret 0 s' →
     ∃ a v, view = PCell a ∧ mem s' !! a = Some (CView v)
            ∧ readonly v = 1
            ∧ PyBuffer_IsContiguous v "C" = Some true)
  ∧ (∀ v,
       PyBuffer_IsContiguous v "A" = Some true ↔
       PyBuffer_IsContiguous v "C" = Some true
       ∨ PyBuffer_IsContiguous v "F" = Some true).
Proof.
  intros Hincl. split.
  - intros o view flags s s' Hkind Hget.
    destruct (PyObject_GetBuffer_builtin _ _ _ _ _ Hincl Hkind Hget)
      as (a & v & ? & ? & ? & ? & ?). eauto 10.
  - intros v. rewrite PyBuffer_IsContiguous_A.
    change (PyBuffer_IsContiguous v "C") with
      (isContiguousWithRowMajorOrder v).
    change (PyBuffer_IsContiguous v "F") with
      (isContiguousWithColumnMajorOrder v).
    destruct (isContiguousWithRowMajorOrder v) as [[|]|] eqn:Hrow.
    + split; auto.
    + split; [auto|]. intros [H|H]; [discriminate|done].
    + split; [discriminate|]. intros [H|H]; [discriminate|].
      by apply row_undefined_col_not_true in Hrow.
Qed.

End BufferProofs.

Lemma buffer_views_contiguous_witness :
  (∃ a v, PCell 5 = PCell a
          ∧ mem (set_refs 1
                   (set_mem
                      (<[5 := CView (mkPy_buffer (PData "xyz")
                                       (Some (PyBytes "xyz")) 3 1 1 1 None
                                       (Some [3]) (Some [1]) None None)]> ∅)
                      (start []))) !! a = Some (CView v)
          ∧ readonly v = 1 ∧ PyBuffer_IsContiguous v "C" = Some true)
  ∧ (PyBuffer_IsContiguous
       (mkPy_buffer PNull None 6 1 1 2 None (Some [2; 3]) (Some [1; 2]) None
          None) "A" = Some true ↔
     PyBuffer_IsContiguous
       (mkPy_buffer PNull None 6 1 1 2 None (Some [2; 3]) (Some [1; 2]) None
          None) "C" = Some true
     ∨ PyBuffer_IsContiguous
         (mkPy_buffer PNull None 6 1 1 2 None (Some [2; 3]) (Some [1; 2])
            None None) "F" = Some true).
Proof.
  pose proof (@buffer_views_contiguous ref_runtime eq_refl) as [Hget Hany].
  split.
  - apply (Hget (PyBytes "xyz") (PCell 5) 24 (start [])); reflexivity.
  - apply Hany.
Defined.

(** ** Frames *)

Lemma hoare_ret {A} (P : State → Prop) (a : A) (Q : A → State → Prop) :
  (∀ s, P s → Q a s) → hoare P (ret a) Q.
Proof. intros H s a' s' HP [= <- <-]. auto. Qed.

Lemma hoare_bind {A B} (P : State → Prop) (m : M A) (k : A → M B)
    (Q : A → State → Prop) (R : B → State → Prop) :
  hoare P m Q → (∀ a, hoare (Q a) (k a) R) → hoare P (bind m k) R.
Proof.
  intros Hm Hk s b s'' HP Hrun.
  apply bind_Ret in Hrun as (a & s' & H1 & H2). eapply Hk; eauto.
Qed.

Lemma hoare_conseq {A} (P P' : State → Prop) (m : M A)
    (Q Q' : A → State → Prop) :
  hoare P' m Q' → (∀ s, P s → P' s) → (∀ a s, Q' a s → Q a s) →
  hoare P m Q.
Proof. intros H HP HQ s a s' Hs Hrun. eauto. Qed.

Lemma hoare_undef {A} P (Q : A → State → Prop) : hoare P undef Q.
Proof. intros s a s' _ [=]. Qed.

Lemma hoare_fatal {A} P msg (Q : A → State → Prop) :
  hoare P (Py_FatalError msg) Q.
Proof. intros s a s' _ [=]. Qed.

Lemma owned_part_eq s s' :
  owned_part s' = owned_part s →
  freelist s' = freelist s ∧ hist s' = hist s
  ∧ dom (blocks s') = dom (blocks s) ∧ next_block s' = next_block s.
Proof. unfold owned_part. intros [= -> -> -> ->]. done. Qed.

Lemma frame_ret {A} (a : A) : frame (ret a).
Proof. intros s a' s' [= <- <-]. done. Qed.

Lemma frame_bind {A B} (m : M A) (k : A → M B) :
  frame m → (∀ a, frame (k a)) → frame (bind m k).
Proof.
  intros Hm Hk s b s'' Hrun. apply bind_Ret in Hrun as (a & s' & H1 & H2).
  rewrite (Hk _ _ _ _ H2). eauto.
Qed.

Lemma frame_undef {A} : frame (@undef A).
Proof. intros s a s' [=]. Qed.

Lemma frame_fatal {A} msg : frame (@Py_FatalError A msg).
Proof. intros s a s' [=]. Qed.

Lemma frame_get : frame get.
Proof. intros s a s' [= <- <-]. done. Qed.

Lemma frame_modify (f : State → State) :
  (∀ s, owned_part (f s) = owned_part s) →
  frame (modify f).
Proof. intros Hf s a s' [= Hs]. subst s'. apply Hf. Qed.

Lemma frame_liftT {A} (f : Thread → A * Thread) : frame (liftT f).
Proof.
  intros s a s'. unfold liftT. destruct (f (thread s)). intros [= <- <-].
  done.
Qed.

(** The two operations that change the set of live blocks. *)
Lemma PyMem_NEW_Ret init s p s' :
  PyMem_NEW init s = Ret p s' →
  freelist s' = freelist s ∧ hist s' = hist s
  ∧ ((p = PNull ∧ s' = s)
     ∨ (p = PBlock (next_block s)
        ∧ dom (blocks s') = {[next_block s]} ∪ dom (blocks s)
        ∧ next_block s' = next_block s + 1)).
Proof.
  unfold PyMem_NEW. destruct (alloc_budget s); intros [= <- <-].
  - auto.
  - simpl. rewrite dom_insert_L. auto 10.
Qed.

Lemma PyMem_FREE_Ret p s a s' :
  PyMem_FREE p s = Ret a s' →
  ∃ b, p = PBlock b ∧ b ∈ dom (blocks s)
       ∧ freelist s' = freelist s ∧ hist s' = hist s
       ∧ dom (blocks s') = dom (blocks s) ∖ {[b]}
       ∧ next_block s' = next_block s.
Proof.
  destruct p; try discriminate. simpl.
  destruct (blocks s !! b) eqn:Hb; [|discriminate]. intros [= _ <-].
  exists b. simpl. rewrite dom_delete_L.
  apply (elem_of_dom_2 (D := gset Z)) in Hb. done.
Qed.

Lemma frame_state_fn {A} (m : M A) :
  (∀ s, match m s with
        | Ret _ s' => owned_part s' = owned_part s
        | _ => True
        end) →
  frame m.
Proof. intros H s a s' Hrun. specialize (H s). by rewrite Hrun in H. Qed.

Create HintDb frame discriminated.
#[export] Hint Resolve frame_ret frame_undef frame_fatal frame_get
  frame_liftT : frame.

Ltac frame_step :=
  lazymatch goal with
  | |- frame (bind _ _) => apply frame_bind; [|intros ?]
  | |- frame (if ?b then _ else _) => destruct b
  | |- frame (match ?x with _ => _ end) => destruct x
  | |- frame (let _ := _ in _) => cbv zeta
  | |- frame _ => solve [eauto with frame]
  end.
Ltac frame_auto := repeat frame_step.

Lemma frame_raiseWithFmt l msg : frame (raiseWithFmt l msg).
Proof. by apply frame_modify. Qed.
Lemma frame_PyErr_Format l msg : frame (PyErr_Format l msg).
Proof. by apply frame_modify. Qed.
Lemma frame_PyErr_Occurred : frame PyErr_Occurred.
Proof. unfold PyErr_Occurred. frame_auto. Qed.
Lemma frame_PyErr_Clear : frame PyErr_Clear.
Proof. by apply frame_modify. Qed.
Lemma frame_PyErr_NoMemory : frame PyErr_NoMemory.
Proof. by apply frame_modify. Qed.
Lemma frame_Py_INCREF : frame Py_INCREF.
Proof. by apply frame_modify. Qed.
Lemma frame_Py_DECREF : frame Py_DECREF.
Proof. by apply frame_modify. Qed.
#[export] Hint Resolve frame_raiseWithFmt frame_PyErr_Format
  frame_PyErr_Occurred frame_PyErr_Clear frame_PyErr_NoMemory
  frame_Py_INCREF frame_Py_DECREF : frame.

Lemma frame_nullError : frame nullError.
Proof. unfold nullError. frame_auto. Qed.
Lemma frame_newReference o : frame (newReference o).
Proof. unfold newReference. frame_auto. Qed.
Lemma frame_memcpy p d : frame (memcpy p d).
Proof.
  destruct p; simpl; auto with frame.
  apply frame_state_fn. intros s. destruct (blocks s !! b) eqn:Hb; [|done].
  unfold owned_part. simpl. rewrite dom_insert_L.
  apply (elem_of_dom_2 (D := gset Z)) in Hb.
  replace ({[b]} ∪ dom (blocks s)) with (dom (blocks s)) by set_solver.
  done.
Qed.
Lemma frame_store p v : frame (store p v).
Proof. destruct p; simpl; auto with frame. by apply frame_modify. Qed.
Lemma frame_load p : frame (load p).
Proof.
  destruct p; simpl; auto with frame.
  apply frame_state_fn. intros s. destruct (mem s !! a); done.
Qed.
#[export] Hint Resolve frame_nullError frame_newReference frame_memcpy
  frame_store frame_load : frame.

Section FrameProofs.
Context {rt : Runtime}.

Lemma frame_doBinaryOp op l r : frame (doBinaryOp op l r).
Proof. unfold doBinaryOp. frame_auto. Qed.

Lemma frame_objectLength o : frame (objectLength o).
Proof. unfold objectLength. frame_auto. Qed.

Lemma frame_PySequence_Size o : frame (PySequence_Size o).
Proof. apply frame_objectLength. Qed.

Lemma frame_PyNumber_Index o : frame (PyNumber_Index o).
Proof. unfold PyNumber_Index. frame_auto. Qed.

Lemma frame_PySequence_GetItem o i : frame (PySequence_GetItem o i).
Proof. unfold PySequence_GetItem. frame_auto. Qed.

Lemma frame_PyBuffer_FillInfo v e b n ro fl :
  frame (PyBuffer_FillInfo v e b n ro fl).
Proof. unfold PyBuffer_FillInfo. frame_auto. Qed.

Lemma frame_PyBuffer_Release v : frame (PyBuffer_Release v).
Proof. unfold PyBuffer_Release. frame_auto. Qed.

Hint Resolve frame_PyBuffer_FillInfo frame_PyBuffer_Release
  frame_PySequence_Size frame_PyNumber_Index frame_PySequence_GetItem
  : frame.

Lemma frame_PyObject_GetBuffer o v fl : frame (PyObject_GetBuffer o v fl).
Proof. unfold PyObject_GetBuffer. frame_auto. Qed.

Hint Resolve frame_PyObject_GetBuffer : frame.

Lemma frame_va_arg : frame va_arg.
Proof.
  apply frame_state_fn. intros s. unfold va_arg. destruct (va s); done.
Qed.
Hint Resolve frame_va_arg : frame.

Lemma frame_va_arg_ptr : frame va_arg_ptr.
Proof. unfold va_arg_ptr. frame_auto. Qed.
Lemma frame_va_arg_type : frame va_arg_type.
Proof. unfold va_arg_type. frame_auto. Qed.
Lemma frame_va_arg_converter : frame va_arg_converter.
Proof. unfold va_arg_converter. frame_auto. Qed.
Lemma frame_va_arg_str : frame va_arg_str.
Proof. unfold va_arg_str. frame_auto. Qed.

Lemma frame_call_converter c a p : frame (call_converter c a p).
Proof.
  apply frame_state_fn. intros s. unfold call_converter.
  destruct (conv_call c a p (thread s) (mem s)) as [[res t] m]. done.
Qed.

Hint Resolve frame_va_arg_ptr frame_va_arg_type frame_va_arg_converter
  frame_va_arg_str frame_call_converter : frame.

Lemma frame_cleanup_buffer p : frame (cleanup_buffer p).
Proof. unfold cleanup_buffer. frame_auto. Qed.
Hint Resolve frame_cleanup_buffer : frame.

Lemma frame_float_argument_error a : frame (float_argument_error a).
Proof. unfold float_argument_error. frame_auto. Qed.

Lemma frame_seterror i m l f c : frame (seterror i m l f c).
Proof. unfold seterror. frame_auto. Qed.

Lemma frame_load_view p : frame (load_view p).
Proof. unfold load_view. frame_auto. Qed.
Hint Resolve frame_load_view : frame.

Lemma frame_is_contiguous p o : frame (is_contiguous p o).
Proof. unfold is_contiguous. frame_auto. Qed.
Hint Resolve frame_is_contiguous : frame.

Lemma frame_getbuffer a v : frame (getbuffer a v).
Proof. unfold getbuffer. frame_auto. Qed.
Hint Resolve frame_getbuffer : frame.

Lemma frame_convertbuffer a p : frame (convertbuffer a p).
Proof.
  unfold convertbuffer. frame_auto. by apply frame_modify.
Qed.

Lemma frame_strlen_at p : frame (strlen_at p).
Proof.
  destruct p; simpl; auto with frame.
  apply frame_state_fn. intros s. destruct (blocks s !! b); done.
Qed.

Lemma frame_BUFFER_LEN q : frame (BUFFER_LEN q).
Proof. unfold BUFFER_LEN. frame_auto. Qed.

Lemma frame_check_level d : frame (check_level d).
Proof. unfold check_level. frame_auto. Qed.

Lemma frame_skip_va b : frame (skip_va b).
Proof. unfold skip_va. frame_auto. Qed.

Lemma frame_step_over f : frame (step_over f).
Proof. destruct f; simpl; auto with frame. Qed.

End FrameProofs.

#[export] Hint Resolve frame_doBinaryOp frame_objectLength
  frame_PySequence_Size frame_PyNumber_Index frame_PySequence_GetItem
  frame_PyBuffer_FillInfo frame_PyBuffer_Release frame_PyObject_GetBuffer
  frame_va_arg frame_va_arg_ptr frame_va_arg_type frame_va_arg_converter
  frame_va_arg_str frame_call_converter
  frame_cleanup_buffer frame_float_argument_error
  frame_seterror frame_load_view frame_is_contiguous frame_getbuffer
  frame_convertbuffer frame_strlen_at frame_BUFFER_LEN frame_check_level
  frame_skip_va frame_step_over : frame.

(** ** The invariant of the cleanup list *)

Lemma keeps_frame {A} h0 d0 (m : M A) : frame m → keeps h0 d0 m.
Proof.
  intros Hm s a s' (es & H1 & H2 & H3 & H4 & H5 & H6) Hrun.
  destruct (owned_part_eq _ _ (Hm _ _ _ Hrun)) as (Ef & Eh & Ed & En).
  exists es. unfold blocks_bounded. rewrite Ef, Eh, Ed, En. done.
Qed.

Lemma keeps_bind {A B} h0 d0 (m : M A) (k : A → M B) :
  keeps h0 d0 m → (∀ a, keeps h0 d0 (k a)) → keeps h0 d0 (bind m k).
Proof. intros Hm Hk. eapply hoare_bind; [exact Hm|]. intros a. apply Hk. Qed.

Lemma entries_lookup (l : list (option freelistentry_t))
    (es : list freelistentry_t) (i : nat) :
  take (length es) l = Some <$> es → (i < length es)%nat →
  l !! i = Some <$> (es !! i).
Proof.
  intros Htake Hi. rewrite <- (lookup_take_lt l (length es) i) by lia.
  rewrite Htake. apply list_lookup_fmap.
Qed.

Lemma owned_app es1 es2 : owned (es1 ++ es2) = owned es1 ∪ owned es2.
Proof. unfold owned. rewrite omap_app, list_to_set_app_L. done. Qed.

Lemma owned_cons e es :
  owned (e :: es) = match entry_block e with
                    | Some b => {[b]} ∪ owned es
                    | None => owned es
                    end.
Proof. unfold owned. simpl. by destruct (entry_block e). Qed.

Lemma modify_Ret (f : State → State) s a s' :
  modify f s = Ret a s' → s' = f s.
Proof. by intros [= _ <-]. Qed.

Lemma ret_Ret {A} (a b : A) s s' : ret a s = Ret b s' → b = a ∧ s' = s.
Proof. by intros [= <- <-]. Qed.

Lemma get_Ret s a s' : get s = Ret a s' → a = s ∧ s' = s.
Proof. by intros [= <- <-]. Qed.

Section CleanupProofs.
Context {rt : Runtime}.

(** Registration in a state where the new entry's block, if it has one, is
    live and not yet accounted for. *)
Lemma addcleanup_Inv h0 d0 ptr destr s a s' es :
  hist s = h0 ++ (Registered <$> es) →
  first_available (freelist s) = Z.of_nat (length es) →
  take (length es) (entries (freelist s)) = Some <$> es →
  blocks_bounded s →
  dom (blocks s) =
    d0 ∪ owned (es ++ [mkEntry ptr destr]) ∪ freelist_block (freelist s) →
  d0 ## owned (es ++ [mkEntry ptr destr]) ∪ freelist_block (freelist s) →
  owned (es ++ [mkEntry ptr destr]) ## freelist_block (freelist s) →
  addcleanup ptr destr s = Ret a s' →
  Inv h0 d0 s'.
Proof.
  intros Hh Hfa Htake Hbd Hdom Hdis1 Hdis2 Hrun. unfold addcleanup in Hrun.
  apply bind_Ret in Hrun as (s0 & s1 & [-> ->]%get_Ret & Hrun).
  destruct ((0 <=? first_available (freelist s))
            && (first_available (freelist s)
                <? Z.of_nat (length (entries (freelist s))))) eqn:Hb;
    [|discriminate].
  apply andb_true_iff in Hb as [_ Hlt]. apply Z.ltb_lt in Hlt.
  apply bind_Ret in Hrun as (? & s2 & Hs2%modify_Ret & Hrun).
  apply bind_Ret in Hrun as (? & s3 & Hs3%modify_Ret & Hrun).
  apply ret_Ret in Hrun as [_ Hs'].
  subst s' s3 s2. exists (es ++ [mkEntry ptr destr]). simpl.
  rewrite Hh, Hfa, Nat2Z.id, length_app, fmap_app, <- app_assoc. simpl.
  split; [done|]. split; [lia|].
  rewrite Hfa in Hlt. split; [|done].
  replace (length es + 1)%nat with (S (length es)) by lia.
  rewrite (take_S_r _ _ (Some (mkEntry ptr destr))).
  - rewrite take_insert_ge by lia. by rewrite Htake, fmap_app.
  - apply list_lookup_insert_eq. lia.
Qed.

(** An entry that owns no block can be registered at any time. *)
Lemma keeps_addcleanup h0 d0 ptr destr :
  entry_block (mkEntry ptr destr) = None →
  keeps h0 d0 (addcleanup ptr destr).
Proof.
  intros Hnone s a s' (es & Hh & Hfa & Htake & Hbd & Hdom & Hd1 & Hd2) Hrun.
  assert (owned (es ++ [mkEntry ptr destr]) = owned es) as Ho.
  { rewrite owned_app, owned_cons, Hnone. set_solver. }
  eapply addcleanup_Inv; eauto; by rewrite Ho.
Qed.

(** One destructor call: it frees the block the entry owns, if any. *)
Lemma call_destructor_Ret e s a s' :
  call_destructor e s = Ret a s' →
  freelist s' = freelist s ∧ hist s' = hist s
  ∧ next_block s' = next_block s
  ∧ match entry_block e with
    | Some b => b ∈ dom (blocks s)
                ∧ dom (blocks s') = dom (blocks s) ∖ {[b]}
    | None => dom (blocks s') = dom (blocks s)
    end.
Proof.
  unfold call_destructor, entry_block.
  destruct (destructor e) as [| |c].
  - unfold cleanup_ptr. destruct (item e) as [|c|b|d].
    + intros [_ ->]%ret_Ret. done.
    + intros (? & ? & H & _)%bind_Ret. discriminate.
    + intros (? & s1 & H & [_ ->]%ret_Ret)%bind_Ret.
      apply PyMem_FREE_Ret in H as (b' & [= <-] & ? & ? & ? & ? & ?). done.
    + intros (? & ? & H & _)%bind_Ret. discriminate.
  - intros H. apply frame_cleanup_buffer, owned_part_eq in H. naive_solver.
  - intros H. apply frame_call_converter, owned_part_eq in H. naive_solver.
Qed.

(** The destructor loop calls the entries from [index] on, one by one, and
    frees the blocks they own. *)
Lemma run_destructors_history (es : list freelistentry_t) (n : nat)
    (index : nat) (s s' : State) :
  take (length es) (entries (freelist s)) = Some <$> es →
  (index + n ≤ length es)%nat →
  run_destructors n (Z.of_nat index) s = Ret tt s' →
  freelist s' = freelist s
  ∧ hist s' = hist s ++ (Invoked <$> take n (drop index es))
  ∧ next_block s' = next_block s
  ∧ dom (blocks s') = dom (blocks s) ∖ owned (take n (drop index es)).
Proof.
  revert index s. induction n as [|n IH]; intros index s Htake Hlen Hrun.
  - apply ret_Ret in Hrun as [_ ->]. rewrite take_0, app_nil_r.
    unfold owned. simpl. repeat split; set_solver.
  - simpl in Hrun.
    apply bind_Ret in Hrun as (s0 & s1 & [-> ->]%get_Ret & Hrun).
    rewrite Nat2Z.id in Hrun.
    rewrite (entries_lookup _ _ _ Htake) in Hrun by lia.
    destruct (es !! index) as [e|] eqn:He; [|discriminate]. simpl in Hrun.
    apply bind_Ret in Hrun as (? & s2 & Hs2%modify_Ret & Hrun).
    apply bind_Ret in Hrun as (? & s3 & Hcall & Hrun).
    destruct (call_destructor_Ret _ _ _ _ Hcall) as (Ef & Eh & En & Eb).
    replace (Z.of_nat index + 1) with (Z.of_nat (S index)) in Hrun by lia.
    apply IH in Hrun as (Ef' & Eh' & En' & Eb');
      [|by rewrite Ef; subst s2|lia].
    split; [by rewrite Ef', Ef; subst s2|].
    split.
    { rewrite Eh', Eh. subst s2. simpl.
      rewrite (drop_S _ _ _ He). simpl. by rewrite <- app_assoc. }
    split; [by rewrite En', En; subst s2|].
    rewrite Eb'. rewrite (drop_S _ _ _ He). simpl. rewrite owned_cons.
    subst s2. simpl in Eb.
    destruct (entry_block e) as [b|].
    + destruct Eb as [_ ->]. set_solver.
    + by rewrite Eb.
Qed.

Lemma cleanreturn_history h0 d0 (retval : Z) :
  hoare (Inv h0 d0) (cleanreturn retval)
    (λ r s', r = retval ∧ returned h0 d0 retval s').
Proof.
  intros s r s' (es & Hh & Hfa & Htake & Hbd & Hdom & Hd1 & Hd2) Hrun.
  unfold cleanreturn in Hrun.
  apply bind_Ret in Hrun as ([] & s1 & Hloop & Hrun).
  apply bind_Ret in Hrun as (s1' & s1'' & [-> ->]%get_Ret & Hrun).
  apply bind_Ret in Hrun as (? & s2 & Hfree & [Hr Hs]%ret_Ret).
  subst r s'. split; [done|].
  assert (freelist s1 = freelist s
          ∧ hist s1 = hist s ++ (if retval =? 0 then Invoked <$> es else [])
          ∧ dom (blocks s1) =
              dom (blocks s) ∖ (if retval =? 0 then owned es else ∅))
    as (Ef1 & Eh1 & Ed1).
  { destruct (retval =? 0).
    - apply bind_Ret in Hloop as (s0 & s0' & [-> ->]%get_Ret & Hloop).
      rewrite Hfa, Nat2Z.id in Hloop.
      apply (run_destructors_history es _ 0%nat) in Hloop
        as (? & ? & ? & ?); [|done|simpl; lia].
      rewrite drop_0, firstn_all in *. done.
    - apply ret_Ret in Hloop as [_ ->]. rewrite app_nil_r.
      repeat split. set_solver. }
  assert (hist s2 = hist s1
          ∧ dom (blocks s2) = dom (blocks s1) ∖ freelist_block (freelist s))
    as [Eh2 Ed2].
  { unfold freelist_block. rewrite Ef1 in Hfree.
    destruct (entries_malloced (freelist s) =? 0).
    - apply ret_Ret in Hfree as [_ ->]. split; [done|set_solver].
    - apply PyMem_FREE_Ret in Hfree as (b & -> & ? & ? & ? & ? & ?). done. }
  exists es. rewrite Eh2, Eh1, Ed2, Ed1, Hh, Hdom, <- app_assoc.
  split; [done|]. destruct (retval =? 0); set_solver.
Qed.

Ltac keeps_step :=
  lazymatch goal with
  | |- keeps _ _ (bind _ _) => apply keeps_bind; [|intros ?]
  | |- keeps _ _ (if ?b then _ else _) => destruct b
  | |- keeps _ _ (match ?x with _ => _ end) => destruct x
  | |- keeps _ _ (let _ := _ in _) => cbv zeta
  | |- keeps _ _ (addcleanup _ _) => apply keeps_addcleanup; reflexivity
  | |- keeps _ _ _ => solve [apply keeps_frame; eauto with frame]
  end.
Ltac keeps_auto := repeat keeps_step.

Lemma keeps_STORE_SIZE h0 d0 flags q sz arg bufsize k :
  keeps h0 d0 k → keeps h0 d0 (STORE_SIZE flags q sz arg bufsize k).
Proof. intros Hk. unfold STORE_SIZE. keeps_auto; exact Hk. Qed.

Lemma keeps_convert_ranged h0 d0 arg format lo hi bits u lf :
  keeps h0 d0 (convert_ranged arg format lo hi bits u lf).
Proof. unfold convert_ranged, RETURN_ERR_OCCURRED. keeps_auto. Qed.

Lemma keeps_convert_mask h0 d0 arg format bits :
  keeps h0 d0 (convert_mask arg format bits).
Proof. unfold convert_mask, RETURN_ERR_OCCURRED. keeps_auto. Qed.

Lemma keeps_convert_n h0 d0 arg format : keeps h0 d0 (convert_n arg format).
Proof. unfold convert_n, RETURN_ERR_OCCURRED. keeps_auto. Qed.

Lemma keeps_convert_k h0 d0 arg format bufsize mask :
  keeps h0 d0 (convert_k arg format bufsize mask).
Proof. unfold convert_k. keeps_auto. Qed.

Lemma keeps_convert_L h0 d0 arg format : keeps h0 d0 (convert_L arg format).
Proof. unfold convert_L, RETURN_ERR_OCCURRED. keeps_auto. Qed.

Lemma keeps_convert_fd h0 d0 arg format narrow :
  keeps h0 d0 (convert_fd arg format narrow).
Proof. unfold convert_fd, RETURN_ERR_OCCURRED. keeps_auto. Qed.

Lemma keeps_convert_D h0 d0 arg format : keeps h0 d0 (convert_D arg format).
Proof. unfold convert_D, RETURN_ERR_OCCURRED. keeps_auto. Qed.

Lemma keeps_convert_c h0 d0 arg format bufsize :
  keeps h0 d0 (convert_c arg format bufsize).
Proof. unfold convert_c. keeps_auto. Qed.

Lemma keeps_convert_C h0 d0 arg format bufsize :
  keeps h0 d0 (convert_C arg format bufsize).
Proof. unfold convert_C, RETURN_ERR_OCCURRED. keeps_auto. Qed.

Lemma keeps_convert_p h0 d0 arg format : keeps h0 d0 (convert_p arg format).
Proof. unfold convert_p, RETURN_ERR_OCCURRED. keeps_auto. Qed.

Lemma keeps_convert_y h0 d0 arg format flags bufsize :
  keeps h0 d0 (convert_y arg format flags bufsize).
Proof.
  unfold convert_y, RETURN_ERR_OCCURRED.
  keeps_auto; apply keeps_STORE_SIZE; keeps_auto.
Qed.

Lemma keeps_convert_s h0 d0 c arg format flags bufsize :
  keeps h0 d0 (convert_s c arg format flags bufsize).
Proof.
  unfold convert_s, RETURN_ERR_OCCURRED.
  keeps_auto; try (apply keeps_STORE_SIZE; keeps_auto).
Qed.

Lemma keeps_convert_u h0 d0 c arg format flags bufsize :
  keeps h0 d0 (convert_u c arg format flags bufsize).
Proof.
  unfold convert_u, RETURN_ERR_OCCURRED.
  keeps_auto; try (apply keeps_STORE_SIZE; keeps_auto).
Qed.

Lemma hoare_PyMem_NEW h0 d0 init :
  hoare (Inv h0 d0) (PyMem_NEW init) (AfterAlloc h0 d0).
Proof.
  intros s b s' (es & Hh & Hfa & Htake & Hbd & Hdom & Hd1 & Hd2) Hrun.
  apply PyMem_NEW_Ret in Hrun as (Ef & Eh & [[-> ->]|(-> & Ed & En)]).
  - exists es. done.
  - simpl. exists es. rewrite Ef, Eh. repeat split; try done.
    + intros b. rewrite Ed, En. intros [->%elem_of_singleton|Hb]%elem_of_union.
      * lia.
      * apply Hbd in Hb. lia.
    + rewrite Ed, Hdom, owned_app, owned_cons. simpl. set_solver.
    + assert (next_block s ∉ dom (blocks s)) as Hfresh.
      { intros Hin. apply Hbd in Hin. lia. }
      rewrite owned_app, owned_cons. simpl. set_solver.
    + assert (next_block s ∉ dom (blocks s)) as Hfresh.
      { intros Hin. apply Hbd in Hin. lia. }
      rewrite owned_app, owned_cons. simpl. set_solver.
Qed.

Lemma AfterAlloc_frame {A} h0 d0 b (m : M A) :
  frame m → hoare (AfterAlloc h0 d0 b) m (λ _, AfterAlloc h0 d0 b).
Proof.
  intros Hm s a s' Hs Hrun.
  destruct (owned_part_eq _ _ (Hm _ _ _ Hrun)) as (Ef & Eh & Ed & En).
  destruct b; simpl in *; try done.
  - by apply (keeps_frame h0 d0 m Hm s a s').
  - destruct Hs as (es & ?). exists es. unfold blocks_bounded.
    rewrite Ef, Eh, Ed, En. done.
Qed.

Lemma hoare_register_block h0 d0 n :
  hoare (AfterAlloc h0 d0 (PBlock n)) (addcleanup (PBlock n) cleanup_ptr_fn)
    (λ _, Inv h0 d0).
Proof.
  intros s a s' (es & ? & ? & ? & ? & ? & ? & ?) Hrun.
  eapply addcleanup_Inv; eauto.
Qed.

(** Allocation, the store of the pointer, then the rest: nothing of the
    rest runs between an allocation and its registration. *)
Lemma keeps_alloc_register {A} h0 d0 (buffer : Ptr) (knull : M A)
    (k : Ptr → Z → M A) :
  keeps h0 d0 knull → (∀ b a, keeps h0 d0 (k b a)) →
  keeps h0 d0
    (b <- PyMem_NEW EmptyString ;;
     store buffer (CPtr b) ;;;
     match b with
     | PNull => knull
     | _ => a <- addcleanup b cleanup_ptr_fn ;; k b a
     end).
Proof.
  intros Hnull Hk.
  eapply hoare_bind; [apply hoare_PyMem_NEW|]. intros b.
  eapply hoare_bind; [apply AfterAlloc_frame; auto with frame|]. intros ?.
  destruct b.
  - exact Hnull.
  - intros ? ? ? [].
  - eapply hoare_bind; [apply hoare_register_block|]. intros r. apply Hk.
  - intros ? ? ? [].
Qed.

Lemma keeps_convert_e_write h0 d0 arg format flags bufsize buffer data :
  keeps h0 d0 (convert_e_write arg format flags bufsize buffer data).
Proof.
  unfold convert_e_write, RETURN_ERR_OCCURRED. cbv zeta.
  destruct (decide (peek format = "#"%char)).
  - apply keeps_bind; [keeps_auto|]. intros q.
    assert (Hgo : keeps h0 d0
              (cur <- load buffer ;;
               match cur with
               | CPtr PNull =>
                 b <- PyMem_NEW EmptyString ;;
                 store buffer (CPtr b) ;;;
                 match b with
                 | PNull => Py_DECREF ;;; PyErr_NoMemory ;;; ret (Failed MsgBuf)
                 | _ =>
                   a <- addcleanup b cleanup_ptr_fn ;;
                   if negb (a =? 0) then
                     Py_DECREF ;;;
                     ret (Failed (converterr "(cleanup problem)" arg bufsize))
                   else
                     memcpy b data ;;;
                     STORE_SIZE flags q (slen data) arg bufsize
                       (Py_DECREF ;;; ret (Converted (advance format)))
                 end
               | CPtr b =>
                 blen <- BUFFER_LEN q ;;
                 if slen data + 1 >? blen then
                   Py_DECREF ;;;
                   PyErr_Format kValueError
                     ("encoded string too long (" +:+ fmt_d (slen data) +:+
                      ", maximum length " +:+ fmt_d (blen - 1) +:+ ")") ;;;
                   ret (Failed MsgBuf)
                 else
                   memcpy b data ;;;
                   STORE_SIZE flags q (slen data) arg bufsize
                     (Py_DECREF ;;; ret (Converted (advance format)))
               | _ => undef
               end)).
    { apply keeps_bind; [keeps_auto|]. intros cur.
      destruct cur as [| | | | | [| | |] |]; try (keeps_auto; fail).
      - apply (keeps_alloc_register h0 d0 buffer _
                 (λ b a, if negb (a =? 0) then _ else _)).
        + keeps_auto.
        + intros b a. keeps_auto. apply keeps_STORE_SIZE. keeps_auto.
      - keeps_auto. apply keeps_STORE_SIZE. keeps_auto.
      - keeps_auto. apply keeps_STORE_SIZE. keeps_auto.
      - keeps_auto. apply keeps_STORE_SIZE. keeps_auto. }
    destruct q; [keeps_auto|exact Hgo..].
  - destruct (negb (strlen data =? slen data)); [keeps_auto|].
    apply (keeps_alloc_register h0 d0 buffer _
             (λ b a, if negb (a =? 0) then _ else _)).
    + keeps_auto.
    + intros b a. keeps_auto.
Qed.

Lemma keeps_convert_e h0 d0 arg format flags bufsize :
  keeps h0 d0 (convert_e arg format flags bufsize).
Proof.
  unfold convert_e, PyObject_AsCharBuffer, UNIMPLEMENTED.
  keeps_auto; try apply keeps_convert_e_write.
Qed.

Lemma keeps_convert_kind h0 d0 arg format bufsize check expected :
  keeps h0 d0 (convert_kind arg format bufsize check expected).
Proof. unfold convert_kind. keeps_auto. Qed.

Lemma keeps_convert_U h0 d0 arg format bufsize :
  keeps h0 d0 (convert_U arg format bufsize).
Proof. unfold convert_U, RETURN_ERR_OCCURRED. keeps_auto. Qed.

Lemma keeps_convert_O h0 d0 arg format bufsize :
  keeps h0 d0 (convert_O arg format bufsize).
Proof. unfold convert_O. keeps_auto. Qed.

Lemma keeps_convert_w h0 d0 arg format bufsize :
  keeps h0 d0 (convert_w arg format bufsize).
Proof. unfold convert_w. keeps_auto. Qed.

Lemma switch_all {A} (P : A → Prop) (c : ascii) (cases : list (ascii * A))
    (default : A) :
  Forall (λ kb, P kb.2) cases → P default → P (switch c cases default).
Proof.
  intros Hcases Hd. induction Hcases as [|[k body] rest Hb _ IH]; simpl.
  - exact Hd.
  - destruct (decide (c = k)); [exact Hb|exact IH].
Qed.

Lemma keeps_convertsimple h0 d0 arg p_format flags bufsize :
  keeps h0 d0 (convertsimple arg p_format flags bufsize).
Proof.
  unfold convertsimple. cbv zeta. apply switch_all.
  - repeat constructor; simpl;
      unfold convert_b, convert_h, convert_i, convert_l;
      auto using keeps_convert_ranged, keeps_convert_mask, keeps_convert_n,
        keeps_convert_k, keeps_convert_L, keeps_convert_fd, keeps_convert_D,
        keeps_convert_c, keeps_convert_C, keeps_convert_p, keeps_convert_y,
        keeps_convert_s, keeps_convert_u, keeps_convert_e,
        keeps_convert_kind, keeps_convert_U, keeps_convert_O,
        keeps_convert_w.
  - apply keeps_frame. auto with frame.
Qed.

Lemma keeps_converttuple_items h0 d0 conv arg k i format depth bufsize :
  (∀ it f d, keeps h0 d0 (conv it f d)) →
  keeps h0 d0 (converttuple_items conv arg k i format depth bufsize).
Proof.
  intros Hconv. revert i format.
  induction k as [|k IH]; intros i format; simpl; keeps_auto.
  - apply Hconv.
  - apply IH.
Qed.

Lemma keeps_converttuple h0 d0 conv arg p_format depth bufsize toplevel :
  (∀ it f d, keeps h0 d0 (conv it f d)) →
  keeps h0 d0 (converttuple conv arg p_format depth bufsize toplevel).
Proof.
  intros Hconv. unfold converttuple. cbv zeta.
  keeps_auto; by apply keeps_converttuple_items.
Qed.

Lemma keeps_convertitem_fuel h0 d0 fuel flags bufsize arg p_format depth :
  keeps h0 d0 (convertitem_fuel fuel flags bufsize arg p_format depth).
Proof.
  revert arg p_format depth.
  induction fuel as [|fuel IH]; intros arg p_format depth; simpl.
  - apply keeps_frame. auto with frame.
  - destruct (decide (peek p_format = "("%char)).
    + apply keeps_bind; [by apply keeps_converttuple|].
      intros r. keeps_auto.
    + apply keeps_bind; [apply keeps_convertsimple|].
      intros r. keeps_auto.
Qed.

Lemma keeps_convertitem h0 d0 arg p_format flags depth bufsize :
  keeps h0 d0 (convertitem arg p_format flags depth bufsize).
Proof. apply keeps_convertitem_fuel. Qed.

End CleanupProofs.

(** ** The binders keep the invariant *)

Lemma Inv0_Inv h0 d0 s : Inv0 h0 d0 s → Inv h0 d0 s.
Proof.
  intros (Hh & Hf & Hbd & Hdom & Hdis). exists []. simpl.
  rewrite Hh, Hf, app_nil_r. unfold owned. simpl.
  repeat split; try done; set_solver.
Qed.

Lemma no_array_returned h0 d0 r s : no_array h0 d0 s → returned h0 d0 r s.
Proof.
  intros [Hh Hd]. exists []. rewrite Hh, Hd. unfold owned. simpl.
  split; [|destruct (r =? 0); set_solver].
  destruct (r =? 0); by rewrite !app_nil_r.
Qed.

Lemma fresh_frame {A} h0 d0 (m : M A) :
  frame m → hoare (fresh_call h0 d0) m (λ _, fresh_call h0 d0).
Proof.
  intros Hm s a s' (Hh & Hd & Hb) Hrun.
  destruct (owned_part_eq _ _ (Hm _ _ _ Hrun)) as (Ef & Eh & Ed & En).
  unfold fresh_call, blocks_bounded. by rewrite Eh, Ed, En.
Qed.

Lemma Inv0_frame {A} h0 d0 (m : M A) :
  frame m → hoare (Inv0 h0 d0) m (λ _, Inv0 h0 d0).
Proof.
  intros Hm s a s' Hs Hrun.
  destruct (owned_part_eq _ _ (Hm _ _ _ Hrun)) as (Ef & Eh & Ed & En).
  unfold Inv0, blocks_bounded. by rewrite Ef, Eh, Ed, En.
Qed.

Section BinderProofs.
Context {rt : Runtime}.

Lemma hoare_freelist_static h0 d0 :
  hoare (fresh_call h0 d0) freelist_static
    (λ _ s, Inv0 h0 d0 s ∧ freelist_block (freelist s) = ∅).
Proof.
  intros s a s' (Hh & Hd & Hb) Hrun. apply modify_Ret in Hrun. subst s'.
  unfold Inv0, freelist_block. simpl. repeat split; try done; set_solver.
Qed.

(** [None]: [PyMem_NEW] failed and nothing is allocated. *)
Lemma hoare_freelist_malloc h0 d0 max :
  hoare (λ s, Inv0 h0 d0 s ∧ freelist_block (freelist s) = ∅)
    (freelist_malloc max)
    (λ ok s, if ok then Inv0 h0 d0 s else no_array h0 d0 s).
Proof.
  unfold freelist_malloc. destruct (max >? STATIC_FREELIST_ENTRIES).
  - intros s ok s' [(Hh & Hf & Hbd & Hdom & Hdis) Hfb] Hrun.
    apply bind_Ret in Hrun as (p & s1 & Hnew & Hrun).
    apply PyMem_NEW_Ret in Hnew as (Ef & Eh & [[-> ->]|(-> & Ed & En)]).
    + apply bind_Ret in Hrun as (? & s2 & Hm%modify_Ret & Hrun).
      apply ret_Ret in Hrun as [-> ->]. subst s2.
      split; [done|]. simpl. rewrite Hdom, Hfb. set_solver.
    + apply bind_Ret in Hrun as (? & s2 & Hm%modify_Ret & Hrun).
      apply ret_Ret in Hrun as [-> ->]. subst s2.
      assert (next_block s ∉ dom (blocks s)) as Hfresh.
      { intros Hin. apply Hbd in Hin. lia. }
      unfold Inv0, freelist_block, blocks_bounded. simpl.
      rewrite Eh, Ef, Ed, En. repeat split; try done.
      * intros b [->%elem_of_singleton|Hb]%elem_of_union; [lia|].
        apply Hbd in Hb. lia.
      * rewrite Hdom, Hfb. set_solver.
      * rewrite Hdom in Hfresh. set_solver.
  - apply hoare_ret. by intros s [? _].
Qed.

Lemma hoare_bind_ret {A B} P (a : A) (k : A → M B) Q :
  hoare P (k a) Q → hoare P (bind (ret a) k) Q.
Proof. intros H s b s' Hs Hrun. exact (H s b s' Hs Hrun). Qed.

Lemma hoare_cleanreturn h0 d0 retval :
  hoare (Inv h0 d0) (cleanreturn retval) (returned h0 d0).
Proof.
  intros s r s' Hs Hrun.
  by destruct (cleanreturn_history h0 d0 retval _ _ _ Hs Hrun) as [-> ?].
Qed.

Lemma hoare_cleanreturn_flow {A} h0 d0 retval :
  hoare (Inv h0 d0) (r <- cleanreturn retval ;; ret (Return r))
    (@flow_post A h0 d0).
Proof.
  eapply hoare_bind; [apply hoare_cleanreturn|]. intros r.
  by apply hoare_ret.
Qed.

Lemma hoare_fail_with {A} h0 d0 l msg :
  hoare (Inv h0 d0) (fail_with l msg) (@flow_post A h0 d0).
Proof.
  unfold fail_with.
  eapply hoare_bind; [apply keeps_frame; auto with frame|]. intros ?.
  apply hoare_cleanreturn_flow.
Qed.

(** A step that keeps the invariant, then the rest. *)
Lemma hoare_keeps_then {A B} h0 d0 (m : M A) (k : A → M B) Q :
  keeps h0 d0 m → (∀ a, hoare (Inv h0 d0) (k a) Q) → hoare (Inv h0 d0) (bind m k) Q.
Proof. intros Hm Hk. eapply hoare_bind; [exact Hm|exact Hk]. Qed.

(** A loop or block that may return, then the rest. *)
Lemma hoare_flow_then {A B} h0 d0 (m : M (Flow Z A)) (k : A → M (Flow Z B)) :
  hoare (Inv h0 d0) m (flow_post h0 d0) →
  (∀ a, hoare (Inv h0 d0) (k a) (flow_post h0 d0)) →
  hoare (Inv h0 d0)
    (x <- m ;; match x with Return r => ret (Return r) | Next a => k a end)
    (flow_post h0 d0).
Proof.
  intros Hm Hk. eapply hoare_bind; [exact Hm|]. intros [r|a].
  - by apply hoare_ret.
  - apply Hk.
Qed.

Lemma hoare_flow_finish {A} h0 d0 (m : M (Flow Z A)) (k : A → M Z) :
  hoare (Inv h0 d0) m (flow_post h0 d0) →
  (∀ a, hoare (Inv h0 d0) (k a) (returned h0 d0)) →
  hoare (Inv h0 d0)
    (x <- m ;; match x with Return r => ret r | Next a => k a end)
    (returned h0 d0).
Proof.
  intros Hm Hk. eapply hoare_bind; [exact Hm|]. intros [r|a].
  - by apply hoare_ret.
  - apply Hk.
Qed.

Ltac kstep :=
  lazymatch goal with
  | |- hoare (Inv _ _) (bind (cleanreturn _) _) (flow_post _ _) =>
    apply hoare_cleanreturn_flow
  | |- hoare (Inv _ _) (cleanreturn _) (returned _ _) =>
    apply hoare_cleanreturn
  | |- hoare (Inv _ _) (fail_with _ _) (flow_post _ _) =>
    apply hoare_fail_with
  | |- hoare (Inv _ _) (bind _ _) _ =>
    apply hoare_keeps_then;
    [solve [apply keeps_frame; frame_auto
           | apply keeps_convertitem] | intros ?]
  | |- hoare _ (if ?b then _ else _) _ => destruct b
  | |- hoare _ (match ?x with _ => _ end) _ => destruct x
  | |- hoare _ (let _ := _ in _) _ => cbv zeta
  | |- hoare _ undef _ => apply hoare_undef
  | |- hoare _ (Py_FatalError _) _ => apply hoare_fatal
  | |- hoare (Inv _ _) (ret (Next _)) (flow_post _ _) => by apply hoare_ret
  end.
Ltac kauto := repeat kstep.

Lemma hoare_vGetArgs1Impl_loop h0 d0 k i stack format flags fname message :
  hoare (Inv h0 d0)
    (vGetArgs1Impl_loop k i stack format flags fname message)
    (flow_post h0 d0).
Proof.
  revert i format. induction k as [|k IH]; intros i format; simpl.
  - by apply hoare_ret.
  - kauto. apply IH.
Qed.

Lemma frame_scan_format format level max min :
  frame (scan_format format level max min).
Proof.
  revert level max min.
  induction format as [|c rest IH]; intros level max min; simpl;
    frame_auto; apply IH.
Qed.

Lemma hoare_vGetArgs1Impl h0 d0 compat_args stack nargs format flags :
  hoare (fresh_call h0 d0) (vGetArgs1Impl compat_args stack nargs format flags)
    (returned h0 d0).
Proof.
  unfold vGetArgs1Impl. cbv zeta.
  eapply hoare_bind; [apply fresh_frame, frame_scan_format|]. intros sc.
  destruct (negb (scan_level sc =? 0)); [apply hoare_fatal|].
  eapply hoare_bind; [apply hoare_freelist_static|]. intros ?.
  destruct (scan_max sc >? STATIC_FREELIST_ENTRIES) eqn:Hbig.
  2:{ (* the static array: nothing is allocated *)
    unfold freelist_malloc. rewrite Hbig.
    apply hoare_bind_ret. simpl.
    destruct (negb (Z.land flags FLAG_COMPAT =? 0)).
    - destruct (scan_max sc =? 0).
      { destruct compat_args.
        - eapply hoare_conseq with (P' := Inv h0 d0) (Q' := returned h0 d0);
            [kauto|by intros s [?%Inv0_Inv _]|auto].
        - apply hoare_ret. intros s [(Hh & _ & _ & Hd & _) Hfb].
          apply no_array_returned. split; [done|]. rewrite Hd, Hfb.
          set_solver. }
      eapply hoare_conseq with (P' := Inv h0 d0) (Q' := returned h0 d0);
        [kauto|by intros s [?%Inv0_Inv _]|auto].
    - eapply hoare_conseq with (P' := Inv h0 d0) (Q' := returned h0 d0);
        [|by intros s [?%Inv0_Inv _]|auto].
      destruct ((nargs <? _) || _); [kauto|].
      apply hoare_flow_finish; [apply hoare_vGetArgs1Impl_loop|].
      intros format'. kauto. }
  eapply hoare_bind; [apply hoare_freelist_malloc|]. intros ok.
  destruct ok; simpl.
  2:{ apply hoare_ret. intros s. apply no_array_returned. }
  eapply hoare_conseq with (P' := Inv h0 d0) (Q' := returned h0 d0);
    [|apply Inv0_Inv|auto].
  destruct (negb (Z.land flags FLAG_COMPAT =? 0)).
  - destruct (scan_max sc =? 0) eqn:Hzero.
    { apply Z.eqb_eq in Hzero. rewrite Hzero in Hbig. discriminate. }
    kauto; by apply hoare_ret.
  - destruct ((nargs <? _) || _).
    { kauto. }
    apply hoare_flow_finish; [apply hoare_vGetArgs1Impl_loop|].
    intros format'. kauto.
Qed.

Lemma frame_skip_string_code c format use_va :
  frame (skip_string_code c format use_va).
Proof. unfold skip_string_code. frame_auto. Qed.

Lemma frame_skipitem_fuel fuel :
  (∀ p_format use_va flags, frame (skipitem_fuel fuel p_format use_va flags))
  ∧ (∀ format use_va flags, frame (skiptuple_fuel fuel format use_va flags)).
Proof.
  induction fuel as [|fuel [IHi IHt]].
  - split; intros; simpl; auto with frame.
  - split; intros; simpl; frame_auto;
      auto using frame_skip_string_code.
Qed.

Lemma frame_skipitem p_format use_va flags :
  frame (skipitem p_format use_va flags).
Proof. apply frame_skipitem_fuel. Qed.

Hint Resolve frame_skipitem : frame.

Lemma hoare_kw_bar h0 d0 v : hoare (Inv h0 d0) (kw_bar v) (flow_post h0 d0).
Proof. unfold kw_bar. kauto. Qed.

Lemma hoare_kw_dollar h0 d0 pos nargs v :
  hoare (Inv h0 d0) (kw_dollar pos nargs v) (flow_post h0 d0).
Proof. unfold kw_dollar. kauto; by apply hoare_ret. Qed.

Lemma hoare_kw_convert h0 d0 a i format flags fname custom_msg :
  hoare (Inv h0 d0) (kw_convert a i format flags fname custom_msg)
    (flow_post h0 d0).
Proof. unfold kw_convert. kauto. Qed.

Lemma hoare_kw_bind h0 d0 args keywords kwlist flags fname custom_msg pos nargs
    v :
  hoare (Inv h0 d0)
    (kw_bind args keywords kwlist flags fname custom_msg pos nargs v)
    (flow_post h0 d0).
Proof.
  unfold kw_bind. cbv zeta.
  eapply hoare_bind with (Q := flow_post h0 d0).
  { kauto. }
  intros [r|[a|]]; simpl.
  - by apply hoare_ret.
  - destruct (kw_i v <? nargs); [apply hoare_fail_with|].
    apply hoare_flow_then; [apply hoare_kw_convert|].
    intros f. by apply hoare_ret.
  - destruct (kw_i v <? nargs).
    + destruct (args !! _); [|apply hoare_undef].
      apply hoare_flow_then; [apply hoare_kw_convert|].
      intros f. by apply hoare_ret.
    + kauto; by apply hoare_ret.
Qed.

Lemma hoare_vgetargskeywords_round h0 d0 args keywords kwlist flags fname
    custom_msg pos len nargs v :
  hoare (Inv h0 d0)
    (vgetargskeywords_round args keywords kwlist flags fname custom_msg pos
       len nargs v)
    (flow_post h0 d0).
Proof.
  unfold vgetargskeywords_round.
  apply hoare_flow_then; [apply hoare_kw_bar|]. intros v1.
  apply hoare_flow_then; [apply hoare_kw_dollar|]. intros [[|] v2].
  { by apply hoare_ret. }
  destruct (IS_END_OF_FORMAT _); [apply hoare_fail_with|].
  apply hoare_flow_then.
  { destruct (kw_skip v2); [by apply hoare_ret|apply hoare_kw_bind]. }
  intros [[|] v3]; [by apply hoare_ret|].
  kauto.
Qed.

Lemma hoare_vgetargskeywords_loop h0 d0 k args keywords kwlist flags fname
    custom_msg pos len nargs v :
  hoare (Inv h0 d0)
    (vgetargskeywords_loop k args keywords kwlist flags fname custom_msg pos
       len nargs v)
    (flow_post h0 d0).
Proof.
  revert v. induction k as [|k IH]; intros v; simpl.
  - by apply hoare_ret.
  - apply hoare_flow_then; [apply hoare_vgetargskeywords_round|].
    intros [[|] v']; [by apply hoare_ret|apply IH].
Qed.

Lemma hoare_check_extraneous h0 d0 valid shown keys :
  hoare (Inv h0 d0) (check_extraneous valid shown keys) (returned h0 d0).
Proof. induction keys as [|key rest IH]; simpl; kauto. apply IH. Qed.

Lemma hoare_vgetargskeywords h0 d0 args keywords format kwlist flags :
  hoare (fresh_call h0 d0) (vgetargskeywords args keywords format kwlist flags)
    (returned h0 d0).
Proof.
  unfold vgetargskeywords. cbv zeta.
  eapply hoare_bind; [apply hoare_freelist_static|]. intros ?.
  destruct (has_empty_name kwlist).
  { eapply hoare_conseq with (P' := Inv h0 d0) (Q' := returned h0 d0);
      [kauto|by intros s [?%Inv0_Inv _]|auto]. }
  eapply hoare_bind; [apply hoare_freelist_malloc|]. intros ok.
  destruct ok; simpl.
  2:{ apply hoare_ret. intros s. apply no_array_returned. }
  eapply hoare_conseq with (P' := Inv h0 d0) (Q' := returned h0 d0);
    [|apply Inv0_Inv|auto].
  destruct (_ >? _); [kauto|].
  apply hoare_flow_finish; [apply hoare_vgetargskeywords_loop|].
  intros v. kauto. apply hoare_check_extraneous.
Qed.

Lemma frame_parserInit_loop k i format min max pos len :
  frame (parserInit_loop k i format min max pos len).
Proof.
  revert i format min max.
  induction k as [|k IH]; intros i format min max; simpl; frame_auto;
    apply IH.
Qed.

Lemma frame_parserInit parser : frame (parserInit parser).
Proof.
  unfold parserInit. cbv zeta. frame_auto. apply frame_parserInit_loop.
Qed.

Lemma hoare_vGetArgsKeywordsFastImpl_loop h0 d0 k i args nargs keywords kwnames
    parser flags format num_keywords :
  hoare (Inv h0 d0)
    (vGetArgsKeywordsFastImpl_loop k i args nargs keywords kwnames parser
       flags format num_keywords)
    (flow_post h0 d0).
Proof.
  revert i format num_keywords.
  induction k as [|k IH]; intros i format num_keywords; simpl.
  - by apply hoare_ret.
  - eapply hoare_bind with (Q := flow_post h0 d0).
    { kauto. }
    intros [r|found]; simpl; [by apply hoare_ret|].
    eapply hoare_bind with (Q := flow_post h0 d0).
    { kauto; by apply hoare_ret. }
    intros [r|[a|]]; simpl; [by apply hoare_ret| |].
    + apply hoare_flow_then; [apply hoare_kw_convert|]. intros f. apply IH.
    + kauto; apply IH.
Qed.

Lemma hoare_vGetArgsKeywordsFastImpl h0 d0 args nargs keywords kwnames parser
    flags :
  hoare (fresh_call h0 d0)
    (vGetArgsKeywordsFastImpl args nargs keywords kwnames parser flags)
    (λ r, returned h0 d0 r.1).
Proof.
  unfold vGetArgsKeywordsFastImpl.
  eapply hoare_bind; [apply hoare_freelist_static|]. intros ?.
  eapply hoare_bind with (Q := λ _ s, Inv0 h0 d0 s
                                      ∧ freelist_block (freelist s) = ∅).
  { intros s x s' [Hs Hfb] Hrun. split.
    - by apply (Inv0_frame h0 d0 _ (frame_parserInit parser) s x s').
    - apply frame_parserInit, owned_part_eq in Hrun as (-> & _). done. }
  intros init. cbv zeta. destruct (init.2) as [keyword_count|].
  2:{ apply hoare_ret. intros s [(Hh & _ & _ & Hd & _) Hfb].
      apply no_array_returned. split; [done|]. rewrite Hd, Hfb. set_solver. }
  eapply hoare_bind; [apply hoare_freelist_malloc|]. intros ok.
  destruct ok; simpl.
  2:{ apply hoare_ret. intros s. apply no_array_returned. }
  eapply hoare_bind with (Q := returned h0 d0); [|intros r; by apply hoare_ret].
  eapply hoare_conseq with (P' := Inv h0 d0) (Q' := returned h0 d0);
    [|apply Inv0_Inv|auto].
  destruct (_ >? _); [kauto|]. destruct (_ <? _); [kauto|].
  destruct (parser_format _); [|apply hoare_undef].
  apply hoare_flow_finish; [apply hoare_vGetArgsKeywordsFastImpl_loop|].
  intros [f n]. kauto; apply hoare_check_extraneous.
Qed.

End BinderProofs.

(** ** Cleanup on failure *)

Lemma registered_app h1 h2 :
  registered (h1 ++ h2) = registered h1 ++ registered h2.
Proof. apply omap_app. Qed.

Lemma invoked_app h1 h2 : invoked (h1 ++ h2) = invoked h1 ++ invoked h2.
Proof. apply omap_app. Qed.

Lemma registered_Registered es : registered (Registered <$> es) = es.
Proof. induction es as [|e es IH]; simpl; [done|]. by f_equal. Qed.

Lemma registered_Invoked es : registered (Invoked <$> es) = [].
Proof. by induction es. Qed.

Lemma invoked_Registered es : invoked (Registered <$> es) = [].
Proof. by induction es. Qed.

Lemma invoked_Invoked es : invoked (Invoked <$> es) = es.
Proof. induction es as [|e es IH]; simpl; [done|]. by f_equal. Qed.

Lemma bind_ext_at {A B} (m : M A) (k1 k2 : A → M B) s :
  (∀ a s', k1 a s' = k2 a s') → bind m k1 s = bind m k2 s.
Proof. intros H. unfold bind. destruct (m s); auto. Qed.

Section FailedCalls.
Context {rt : Runtime}.

Lemma hoare_run_binder h0 d0 c :
  hoare (fresh_call h0 d0) (run_binder c) (returned h0 d0).
Proof.
  destruct c; simpl.
  - apply hoare_vGetArgs1Impl.
  - apply hoare_vgetargskeywords.
  - eapply hoare_bind; [apply hoare_vGetArgsKeywordsFastImpl|].
    intros r. by apply hoare_ret.
Qed.

(** A failed call: what it registered it destroyed, and the live blocks
    are those of before. *)
Lemma failed_call c s s' :
  blocks_bounded s → run_binder c s = Ret 0 s' →
  ∃ es, new_events s s' = (Registered <$> es) ++ (Invoked <$> es)
        ∧ dom (blocks s') = dom (blocks s).
Proof.
  intros Hb Hrun.
  destruct (hoare_run_binder (hist s) (dom (blocks s)) c s 0 s')
    as (es & Hh & Hd); [done|done|].
  exists es. simpl in Hh, Hd. unfold new_events.
  rewrite Hh, drop_app_length. split; [done|]. rewrite Hd. set_solver.
Qed.

Lemma vGetArgs1Impl_loop_left_to_right seen rest format flags fname message
    s :
  vGetArgs1Impl_loop (length rest) (Z.of_nat (length seen)) (seen ++ rest)
    format flags fname message s
  = bind_left_to_right rest (Z.of_nat (length seen)) format flags fname
      message s.
Proof.
  revert seen format s.
  induction rest as [|a rest IH]; intros seen format s; simpl; [done|].
  rewrite Nat2Z.id, lookup_app_r, Nat.sub_diag by lia. simpl.
  apply bind_ext_at. intros [msg levels|format'] s1; [done|].
  specialize (IH (seen ++ [a]) format' s1).
  rewrite length_app, Nat2Z.inj_add, <-(assoc_L (++)) in IH. exact IH.
Qed.

(** C2 (amended). The positional binder's loop is the left-to-right
    binding of the items in descriptor order, and when a binding call
    returns failure the destructors have been called in the order of
    registration: the entry registered first is destroyed first. *)
Theorem bound_left_to_right_cleanup_in_registration_order :
  (∀ items format flags fname message s,
     vGetArgs1Impl_loop (length items) 0 items format flags fname message s
     = bind_left_to_right items 0 format flags fname message s)
  ∧ (∀ c s s',
       blocks_bounded s → run_binder c s = Ret 0 s' →
       invoked (new_events s s') = registered (new_events s s')).
Proof.
  split.
  - intros items format flags fname message s.
    apply (vGetArgs1Impl_loop_left_to_right [] items).
  - intros c s s' Hb Hrun.
    destruct (failed_call c s s' Hb Hrun) as (es & Hn & _).
    by rewrite Hn, invoked_app, registered_app, invoked_Registered,
      invoked_Invoked, registered_Registered, registered_Invoked, app_nil_r.
Qed.

End FailedCalls.

Lemma two_blocks_state_bounded : blocks_bounded two_blocks_state.
Proof. intros b Hb. vm_compute in Hb. set_solver. Qed.

(** C2, as the specification words it, fails: the two blocks are destroyed
    in the order they were registered, which is not the reverse. *)
Lemma cleanup_order_counterexample :
  ∃ s', run_binder two_blocks_then_failure two_blocks_state = Ret 0 s'
        ∧ registered (new_events two_blocks_state s')
          = [mkEntry (PBlock 1) cleanup_ptr_fn;
             mkEntry (PBlock 2) cleanup_ptr_fn]
        ∧ invoked (new_events two_blocks_state s')
          = [mkEntry (PBlock 1) cleanup_ptr_fn;
             mkEntry (PBlock 2) cleanup_ptr_fn]
        ∧ invoked (new_events two_blocks_state s')
          ≠ rev (registered (new_events two_blocks_state s')).
Proof.
  eexists. split; [vm_compute; reflexivity|].
  split; [vm_compute; reflexivity|]. split; [vm_compute; reflexivity|].
  vm_compute. discriminate.
Qed.

Lemma bound_left_to_right_cleanup_in_registration_order_witness :
  ∃ s', run_binder two_blocks_then_failure two_blocks_state = Ret 0 s'
        ∧ invoked (new_events two_blocks_state s')
          = registered (new_events two_blocks_state s').
Proof.
  eexists. split; [vm_compute; reflexivity|].
  apply (proj2 bound_left_to_right_cleanup_in_registration_order
           two_blocks_then_failure two_blocks_state).
  - exact two_blocks_state_bounded.
  - vm_compute. reflexivity.
Defined.

(** ** Malformed descriptors *)

Lemma never_aborts_ret {A} (a : A) : never_aborts (ret a).
Proof. by intros s msg s'. Qed.

Lemma never_aborts_bind {A B} (m : M A) (k : A → M B) :
  never_aborts m → (∀ a, never_aborts (k a)) → never_aborts (bind m k).
Proof.
  intros Hm Hk s msg s'. unfold bind.
  destruct (m s) as [a s1|msg1 s1|] eqn:E; [apply Hk| |done].
  by destruct (Hm s msg1 s1).
Qed.

Lemma never_aborts_undef {A} : never_aborts (@undef A).
Proof. by intros s msg s'. Qed.

Lemma never_aborts_get : never_aborts get.
Proof. by intros s msg s'. Qed.

Lemma never_aborts_modify f : never_aborts (modify f).
Proof. by intros s msg s'. Qed.

Lemma never_aborts_liftT {A} (f : Thread → A * Thread) :
  never_aborts (liftT f).
Proof. intros s msg s'. unfold liftT. by destruct (f (thread s)). Qed.

Lemma never_aborts_load p : never_aborts (load p).
Proof.
  intros s msg s'. destruct p; try done. simpl. by destruct (mem s !! _).
Qed.

Lemma never_aborts_store p v : never_aborts (store p v).
Proof. intros s msg s'. by destruct p. Qed.

Lemma never_aborts_PyMem_FREE p : never_aborts (PyMem_FREE p).
Proof.
  intros s msg s'. destruct p; try done. simpl. by destruct (blocks s !! _).
Qed.

Create HintDb soft discriminated.
#[export] Hint Resolve never_aborts_ret never_aborts_undef never_aborts_get
  never_aborts_modify never_aborts_liftT never_aborts_load never_aborts_store
  never_aborts_PyMem_FREE : soft.

Ltac soft_step :=
  lazymatch goal with
  | |- never_aborts (bind _ _) => apply never_aborts_bind; [|intros ?]
  | |- never_aborts (if ?b then _ else _) => destruct b
  | |- never_aborts (match ?x with _ => _ end) => destruct x
  | |- never_aborts (let _ := _ in _) => cbv zeta
  | |- never_aborts _ => solve [auto with soft]
  end.
Ltac soft_auto := repeat soft_step.

Section Soft.
Context {rt : Runtime}.

Lemma never_aborts_PyBuffer_Release view :
  never_aborts (PyBuffer_Release view).
Proof. unfold PyBuffer_Release, Py_DECREF. soft_auto. Qed.

Lemma never_aborts_call_destructor e : never_aborts (call_destructor e).
Proof.
  unfold call_destructor, cleanup_ptr, cleanup_buffer.
  destruct (destructor e); soft_auto;
    auto using never_aborts_PyBuffer_Release.
  intros s msg s'. unfold call_converter. by destruct (conv_call _ _ _ _ _) as [[? ?] ?].
Qed.

Lemma never_aborts_run_destructors n index :
  never_aborts (run_destructors n index).
Proof.
  revert index. induction n as [|n IH]; intros index; simpl;
    unfold record_event; soft_auto;
    auto using never_aborts_call_destructor.
Qed.

Lemma never_aborts_cleanreturn retval : never_aborts (cleanreturn retval).
Proof.
  unfold cleanreturn. soft_auto; auto using never_aborts_run_destructors.
Qed.

Lemma cleanreturn_value retval s r s' :
  cleanreturn retval s = Ret r s' → r = retval.
Proof.
  unfold cleanreturn. intros H.
  apply bind_Ret in H as (? & s1 & _ & H).
  apply bind_Ret in H as (? & s2 & _ & H).
  apply bind_Ret in H as (? & s3 & _ & H).
  by apply ret_Ret in H as [-> _].
Qed.

(** A failure of a keyword binder's round is a return of 0, never an
    abort. *)
Lemma fail_with_soft {A} l msg s :
  match @fail_with rt A l msg s with
  | Ret r _ => r = Return 0
  | Fatal _ _ => False
  | Undef => True
  end.
Proof.
  destruct (fail_with l msg s) as [r s'|m s'|] eqn:E; [| |done].
  - unfold fail_with in E.
    apply bind_Ret in E as (? & s1 & _ & E).
    apply bind_Ret in E as (z & s2 & Hc & E).
    apply ret_Ret in E as [-> _]. by apply cleanreturn_value in Hc as ->.
  - revert E. apply never_aborts_bind; [|intros ?].
    + unfold PyErr_Format, raiseWithFmt. auto with soft.
    + apply never_aborts_bind; [apply never_aborts_cleanreturn|].
      intros ?. auto with soft.
Qed.


End Soft.

Lemma bind_ret_l {A B} (a : A) (k : A → M B) s : bind (ret a) k s = k a s.
Proof. reflexivity. Qed.

Section Malformed.
Context {rt : Runtime}.








End Malformed.

Section MalformedFast.
Context {rt : Runtime}.




End MalformedFast.

(** ** Values given twice *)

Section Duplicates.
Context {rt : Runtime}.

Lemma kw_bind_duplicate args d kwlist flags fname custom_msg pos nargs v a s :
  kw_nkeywords v ≠ 0 → pos ≤ kw_i v < nargs →
  PyDict_GetItemString d (kw_at kwlist (kw_i v)) = Some a →
  kw_bind args (Some d) kwlist flags fname custom_msg pos nargs v s
  = fail_with kTypeError
      (by_name_and_position (kw_at kwlist (kw_i v)) (kw_i v)) s.
Proof.
  intros Hn [Hpos Hlt] Hd. unfold kw_bind. cbv zeta.
  apply Z.eqb_neq in Hn. rewrite Hn.
  assert ((kw_i v >=? pos) = true) as -> by lia.
  assert ((kw_i v <? nargs) = true) as Hlt' by lia.
  rewrite Hd. simpl. unfold PyErr_Occurred.
  rewrite !bind_ret_l || idtac.
  unfold bind at 1. unfold bind at 1. simpl. by rewrite Hlt'.
Qed.

Lemma round_duplicate args d kwlist flags fname custom_msg pos len nargs v a
    s :
  peek (kw_format v) ≠ "|"%char → peek (kw_format v) ≠ "$"%char →
  IS_END_OF_FORMAT (peek (kw_format v)) = false →
  kw_skip v = false → kw_nkeywords v ≠ 0 → pos ≤ kw_i v < nargs →
  PyDict_GetItemString d (kw_at kwlist (kw_i v)) = Some a →
  vgetargskeywords_round args (Some d) kwlist flags fname custom_msg pos len
    nargs v s
  = fail_with kTypeError
      (by_name_and_position (kw_at kwlist (kw_i v)) (kw_i v)) s.
Proof.
  intros Hbar Hdollar Hend Hskip Hn Hi Hd.
  unfold vgetargskeywords_round, kw_bar, kw_dollar.
  rewrite decide_False by done. rewrite bind_ret_l.
  rewrite decide_False by done. rewrite bind_ret_l.
  rewrite Hend, Hskip.
  unfold bind at 1.
  rewrite (kw_bind_duplicate args d kwlist flags fname custom_msg pos nargs
             v a s Hn Hi Hd).
  pose proof (@fail_with_soft rt (bool * KwVars) kTypeError
                (by_name_and_position (kw_at kwlist (kw_i v)) (kw_i v)) s)
    as Hsoft.
  destruct (fail_with _ _ s) as [r s'| |]; [|done|done].
  by subst r.
Qed.

Lemma loop_duplicate k args d kwlist flags fname custom_msg pos len nargs v a
    s :
  peek (kw_format v) ≠ "|"%char → peek (kw_format v) ≠ "$"%char →
  IS_END_OF_FORMAT (peek (kw_format v)) = false →
  kw_skip v = false → kw_nkeywords v ≠ 0 → pos ≤ kw_i v < nargs →
  PyDict_GetItemString d (kw_at kwlist (kw_i v)) = Some a →
  vgetargskeywords_loop (S k) args (Some d) kwlist flags fname custom_msg pos
    len nargs v s
  = fail_with kTypeError
      (by_name_and_position (kw_at kwlist (kw_i v)) (kw_i v)) s.
Proof.
  intros Hbar Hdollar Hend Hskip Hn Hi Hd. simpl. unfold bind at 1.
  rewrite (round_duplicate args d kwlist flags fname custom_msg pos len nargs
             v a s) by done.
  pose proof (@fail_with_soft rt KwVars kTypeError
                (by_name_and_position (kw_at kwlist (kw_i v)) (kw_i v)) s)
    as Hsoft.
  pose proof (@fail_with_soft rt (bool * KwVars) kTypeError
                (by_name_and_position (kw_at kwlist (kw_i v)) (kw_i v)) s)
    as Hsoft'.
  unfold fail_with, bind in *.
  destruct (PyErr_Format _ _ s) as [? s1| |]; [|done|done].
  destruct (cleanreturn 0 s1) as [r s'| |]; [|done|done]. done.
Qed.


End Duplicates.

(** ** The arity and nested-tuple scenarios *)

Lemma set_thread_id s : set_thread (thread s) s = s.
Proof. by destruct s. Qed.

Lemma wrap_signed_int v : INT_MIN ≤ v ≤ INT_MAX → wrap_signed 32 v = v.
Proof.
  unfold INT_MIN, INT_MAX, wrap_signed. intros H.
  rewrite Z.mod_small; lia.
Qed.

Lemma bind_get {B} (k : State → M B) s : bind get k s = k s s.
Proof. reflexivity. Qed.

Lemma bind_modify {B} f (k : unit → M B) s : bind (modify f) k s = k tt (f s).
Proof. reflexivity. Qed.

Lemma bind_assoc_at {A B C} (m : M A) (k1 : A → M B) (k2 : B → M C) s :
  bind (bind m k1) k2 s = bind m (λ x, bind (k1 x) k2) s.
Proof. unfold bind. by destruct (m s). Qed.

Lemma bind_va_arg_ptr {B} (k : Ptr → M B) s p rest :
  va s = VaPtr p :: rest → bind va_arg_ptr k s = k p (set_va rest s).
Proof. intros H. unfold va_arg_ptr, va_arg, bind. by rewrite H. Qed.

Section Scenarios.
Context {rt : Runtime} (Hrt : int_tuple_runtime rt).

Lemma convertsimple_i arg fmt flags bufsize :
  convertsimple arg (String "i" fmt) flags bufsize = convert_i arg fmt.
Proof. reflexivity. Qed.

Lemma convert_i_ok v c rest fmt s :
  INT_MIN ≤ v ≤ INT_MAX → va s = VaPtr (PCell c) :: rest →
  hasPendingException (thread s) = false →
  convert_i (PyLong v) fmt s
  = Ret (Converted fmt) (set_mem (<[c := CInt v]> (mem s)) (set_va rest s)).
Proof.
  intros Hv Hva Hp. unfold convert_i, convert_ranged.
  rewrite (bind_va_arg_ptr _ _ _ _ Hva).
  change (float_argument_error (PyLong v)) with (@ret bool false).
  rewrite bind_ret_l.
  rewrite (bind_liftT _ _ _ v (thread (set_va rest s))).
  2:{ apply as_long_exact; [done|]. unfold kMinWord, kMaxWord, INT_MIN,
        INT_MAX in *. lia. }
  rewrite set_thread_id.
  unfold PyErr_Occurred. rewrite bind_assoc_at, bind_get, bind_ret_l.
  change (thread (set_va rest s)) with (thread s). rewrite Hp, andb_false_r.
  replace (v <? INT_MIN) with false by lia.
  replace (v >? INT_MAX) with false by lia.
  rewrite wrap_signed_int by done. reflexivity.
Qed.

Lemma convertitem_i_ok v c rest fmt flags depth bufsize s :
  INT_MIN ≤ v ≤ INT_MAX → va s = VaPtr (PCell c) :: rest →
  hasPendingException (thread s) = false →
  convertitem (PyLong v) (String "i" fmt) flags depth bufsize s
  = Ret (Done fmt) (set_mem (<[c := CInt v]> (mem s)) (set_va rest s)).
Proof.
  intros Hv Hva Hp. unfold convertitem. cbn [convertitem_fuel String.length].
  rewrite decide_False by discriminate.
  rewrite convertsimple_i.
  by rewrite (bind_Ret_intro _ _ _ _ _ (convert_i_ok v c rest fmt s Hv Hva Hp)).
Qed.

Lemma scan_arity_format fname s :
  scan_format (arity_format fname) 0 0 (-1) s
  = Ret (mkScan 0 3 2 fname None) s.
Proof. destruct fname; reflexivity. Qed.

Lemma arity_error fname items s :
  let n := Z.of_nat (length items) in
  n < 2 ∨ 3 < n →
  ∃ s', PyArg_ParseTuple (Some (PyTuple items)) (arity_format fname) s
        = Ret 0 s'
        ∧ thread s'
          = mkThread (Some (typeAt kTypeError))
              (Some (function_name fname 150 +:+ " takes " +:+
                     (if n <? 2 then "at least 2" else "at most 3") +:+
                     " arguments (" +:+ fmt_d n +:+ " given)"))
        ∧ mem s' = mem s.
Proof.
  intros n Hn. unfold PyArg_ParseTuple, vgetargs1.
  change (negb (Z.land 0 FLAG_COMPAT =? 0)) with false. cbv iota.
  change (negb (PyTuple_Check (PyTuple items))) with false. cbv iota zeta.
  unfold vGetArgs1Impl. cbv zeta.
  rewrite (bind_Ret_intro _ _ _ _ _ (scan_arity_format fname s)).
  cbn [scan_level scan_max scan_min scan_fname scan_message].
  change (negb (0 =? 0)) with false. cbv iota.
  change (3 <? 0) with false. change (2 <? 0) with false. cbv iota.
  unfold freelist_static. rewrite bind_modify.
  change (freelist_malloc 3) with (@ret bool true). rewrite bind_ret_l.
  change (negb true) with false. cbv iota.
  change (negb (Z.land 0 FLAG_COMPAT =? 0)) with false. cbv iota.
  change (tuple_items (PyTuple items)) with items. fold n.
  assert (((n <? 2) || (3 <? n)) = true) as -> by lia.
  eexists. split; [reflexivity|]. split; [|reflexivity].
  cbn [thread]. by destruct (n <? 2).
Qed.

Lemma vGetArgs1Impl_loop_int k i stack format fmt flags fname message v c
    rest s :
  stack !! Z.to_nat i = Some (PyLong v) →
  (if decide (peek format = "|"%char) then advance format else format)
  = String "i" fmt →
  INT_MIN ≤ v ≤ INT_MAX → va s = VaPtr (PCell c) :: rest →
  hasPendingException (thread s) = false →
  vGetArgs1Impl_loop (S k) i stack format flags fname message s
  = vGetArgs1Impl_loop k (i + 1) stack fmt flags fname message
      (set_mem (<[c := CInt v]> (mem s)) (set_va rest s)).
Proof.
  intros Hi Hf Hv Hva Hp. cbn [vGetArgs1Impl_loop]. cbv zeta.
  rewrite Hi, Hf.
  by rewrite (bind_Ret_intro _ _ _ _ _
                (convertitem_i_ok v c rest fmt flags 0 256 s Hv Hva Hp)).
Qed.

Lemma arity_success fname vs cells rest s :
  2 ≤ Z.of_nat (length vs) ≤ 3 → length cells = 3%nat →
  Forall (λ v, INT_MIN ≤ v ≤ INT_MAX) vs →
  va s = int_pointers cells ++ rest →
  hasPendingException (thread s) = false →
  ∃ s', PyArg_ParseTuple (Some (PyTuple (PyLong <$> vs))) (arity_format fname)
          s = Ret 1 s'
        ∧ mem s' = store_ints cells vs (mem s)
        ∧ thread s' = thread s.
Proof.
  intros Hn Hc Hvs Hva Hp.
  destruct cells as [|c1 [|c2 [|c3 [|]]]]; try discriminate. clear Hc.
  assert (∃ suffix, arity_format fname
                    = String "i" (String "i" (String "|" (String "i" suffix)))
                    ∧ IS_END_OF_FORMAT (peek suffix) = true)
    as (suffix & Hfmt & Hend).
  { destruct fname; eexists; split; reflexivity. }
  unfold PyArg_ParseTuple, vgetargs1.
  change (negb (Z.land 0 FLAG_COMPAT =? 0)) with false. cbv iota.
  change (negb (PyTuple_Check (PyTuple (PyLong <$> vs)))) with false.
  cbv iota zeta.
  unfold vGetArgs1Impl. cbv zeta.
  rewrite (bind_Ret_intro _ _ _ _ _ (scan_arity_format fname s)).
  cbn [scan_level scan_max scan_min scan_fname scan_message].
  change (negb (0 =? 0)) with false. cbv iota.
  change (3 <? 0) with false. change (2 <? 0) with false. cbv iota.
  unfold freelist_static. rewrite bind_modify.
  change (freelist_malloc 3) with (@ret bool true). rewrite bind_ret_l.
  change (negb true) with false. cbv iota.
  change (negb (Z.land 0 FLAG_COMPAT =? 0)) with false. cbv iota.
  change (tuple_items (PyTuple (PyLong <$> vs))) with (PyLong <$> vs).
  rewrite length_fmap.
  assert (((Z.of_nat (length vs) <? 2) || (3 <? Z.of_nat (length vs)))
          = false) as -> by lia.
  rewrite Hfmt. unfold bind at 1.
  destruct vs as [|v1 [|v2 [|v3 [|]]]]; simpl in Hn; try lia; clear Hn.
  - apply Forall_cons in Hvs as [Hv1 Hvs].
    apply Forall_cons in Hvs as [Hv2 _].
    change (Z.to_nat (Z.of_nat (length [v1; v2]))) with 2%nat.
    erewrite vGetArgs1Impl_loop_int; [|reflexivity|reflexivity|done| |done].
    2:{ cbn [va set_freelist]. rewrite Hva. reflexivity. }
    erewrite vGetArgs1Impl_loop_int; [|reflexivity|reflexivity|done| |done].
    2:{ reflexivity. }
    cbn [vGetArgs1Impl_loop].
    eexists. split; [reflexivity|]. split; reflexivity.
  - apply Forall_cons in Hvs as [Hv1 Hvs].
    apply Forall_cons in Hvs as [Hv2 Hvs].
    apply Forall_cons in Hvs as [Hv3 _].
    change (Z.to_nat (Z.of_nat (length [v1; v2; v3]))) with 3%nat.
    erewrite vGetArgs1Impl_loop_int; [|reflexivity|reflexivity|done| |done].
    2:{ cbn [va set_freelist]. rewrite Hva. reflexivity. }
    erewrite vGetArgs1Impl_loop_int; [|reflexivity|reflexivity|done| |done].
    2:{ reflexivity. }
    erewrite vGetArgs1Impl_loop_int; [|reflexivity|reflexivity|done| |done].
    2:{ reflexivity. }
    cbn [vGetArgs1Impl_loop]. unfold ret at 1. cbv beta iota zeta.
    assert ((negb (bool_decide (peek suffix = NUL))
             && negb (Py_ISALPHA (peek suffix))
             && negb (bool_decide (peek suffix = "("%char))
             && negb (bool_decide (peek suffix = "|"%char))
             && negb (bool_decide (peek suffix = ":"%char))
             && negb (bool_decide (peek suffix = ";"%char))) = false) as Hc.
    { unfold IS_END_OF_FORMAT in Hend.
      destruct (bool_decide (peek suffix = NUL)); [done|].
      destruct (bool_decide (peek suffix = ";"%char));
        [by rewrite andb_false_r|].
      destruct (bool_decide (peek suffix = ":"%char));
        [by rewrite andb_false_r|]. done. }
    rewrite Hc.
    eexists. split; [reflexivity|]. split; reflexivity.
Qed.

Lemma convertitem_fuel_i_ok fuel v c rest fmt flags depth bufsize s :
  INT_MIN ≤ v ≤ INT_MAX → va s = VaPtr (PCell c) :: rest →
  hasPendingException (thread s) = false →
  convertitem_fuel (S fuel) flags bufsize (PyLong v) (String "i" fmt) depth s
  = Ret (Done fmt) (set_mem (<[c := CInt v]> (mem s)) (set_va rest s)).
Proof.
  intros Hv Hva Hp. cbn [convertitem_fuel].
  rewrite decide_False by discriminate.
  rewrite convertsimple_i.
  by rewrite (bind_Ret_intro _ _ _ _ _ (convert_i_ok v c rest fmt s Hv Hva Hp)).
Qed.

Lemma PySequence_Size_tuple items s :
  Z.of_nat (length items) ≤ kMaxWord →
  PySequence_Size (Some (PyTuple items)) s
  = Ret (Z.of_nat (length items)) s.
Proof.
  intros Hlen. unfold PySequence_Size.
  rewrite (objectLength_found (PyTuple items)
             (PyLong (Z.of_nat (length items)))
             (PyLong (Z.of_nat (length items))) (Z.of_nat (length items)) s
             (thread s) (thread s));
    [|apply tuple_len; done|apply index_of_int; done|done].
  unfold isNegative.
  assert ((Z.of_nat (length items) <? 0) = false) as -> by lia.
  assert (numDigits (Z.of_nat (length items)) = 1) as ->.
  { apply numDigits_one. unfold kMinWord, kMaxWord in *. lia. }
  change (1 >? 1) with false. cbv iota.
  rewrite asWord_in_range, set_thread_id; [done|].
  unfold kMinWord, kMaxWord in *. lia.
Qed.

(** The call of the nested-tuple scenario, up to the conversion of the one
    argument. *)
Lemma nested_call arg s :
  ∃ k : Flow Z string → M Z,
    (∀ r, k (Return r) = ret r) ∧ k (Next "") = cleanreturn 1
    ∧ PyArg_ParseTuple (Some (PyTuple [arg])) "(ii)" s
      = bind (r <- convertitem arg "(ii)" 0 0 256 ;;
              match r with
              | FailedAt msg levels =>
                seterror 1 msg levels None None ;;;
                r <- cleanreturn 0 ;; ret (Return r)
              | Done format' => ret (Next format')
              end) k (static_freelist s).
Proof.
  eexists. split; [|split]; cycle 2.
  - unfold PyArg_ParseTuple, vgetargs1.
    change (negb (Z.land 0 FLAG_COMPAT =? 0)) with false. cbv iota.
    change (negb (PyTuple_Check (PyTuple [arg]))) with false. cbv iota zeta.
    unfold vGetArgs1Impl. cbv zeta.
    assert (scan_format "(ii)" 0 0 (-1) s
            = Ret (mkScan 0 1 (-1) None None) s) as Hscan by reflexivity.
    rewrite (bind_Ret_intro _ _ _ _ _ Hscan).
    cbn [scan_level scan_max scan_min scan_fname scan_message].
    change (negb (0 =? 0)) with false. cbv iota.
    unfold freelist_static. rewrite bind_modify.
    change (freelist_malloc 1) with (@ret bool true). rewrite bind_ret_l.
    change (negb true) with false. cbv iota.
    change (negb (Z.land 0 FLAG_COMPAT =? 0)) with false. cbv iota.
    change (-1 <? 0) with true. cbv iota.
    change (tuple_items (PyTuple [arg])) with [arg].
    change (Z.of_nat (length [arg])) with 1.
    change ((1 <? 1) || (1 <? 1)) with false. cbv iota.
    reflexivity.
  - done.
  - reflexivity.
Qed.

(** What the binder does with the result of converting the one argument. *)
Lemma nested_failed arg s msg levels s1 :
  convertitem arg "(ii)" 0 0 256 (static_freelist s)
  = Ret (FailedAt msg levels) s1 →
  PyArg_ParseTuple (Some (PyTuple [arg])) "(ii)" s
  = (seterror 1 msg levels None None ;;; cleanreturn 0) s1.
Proof.
  intros Hr. destruct (nested_call arg s) as (k & Hk1 & Hk2 & ->).
  rewrite bind_assoc_at, (bind_Ret_intro _ _ _ _ _ Hr).
  unfold bind. destruct (seterror 1 msg levels None None s1); [|done|done].
  destruct (cleanreturn 0 _); [|done|done]. cbv beta iota delta [ret].
  by rewrite Hk1.
Qed.

Lemma nested_done arg s s1 :
  convertitem arg "(ii)" 0 0 256 (static_freelist s) = Ret (Done "") s1 →
  PyArg_ParseTuple (Some (PyTuple [arg])) "(ii)" s = cleanreturn 1 s1.
Proof.
  intros Hr. destruct (nested_call arg s) as (k & Hk1 & Hk2 & ->).
  rewrite bind_assoc_at, (bind_Ret_intro _ _ _ _ _ Hr).
  by rewrite bind_ret_l, Hk2.
Qed.

(** [converttuple] inside [convertitem] for the descriptor ["(ii)"]. *)
Lemma convertitem_nested arg s :
  convertitem arg "(ii)" 0 0 256 s
  = (r <- converttuple (convertitem_fuel 4 0 256) arg "ii)" 0 256 false ;;
     match r with
     | Done format => f <- step_over format ;; ret (Done f)
     | FailedAt msg lv => ret (FailedAt msg lv)
     end) s.
Proof. reflexivity. Qed.

Lemma seterror_text iarg m levels s :
  hasPendingException (thread s) = false →
  seterror iarg (MsgText m) levels None None s
  = (let text :=
       (if negb (iarg =? 0) then
          "argument " +:+ fmt_d iarg +:+
          seterror_items 32 levels (0 + slen ("argument " +:+ fmt_d iarg))
        else "argument") +:+ " " +:+ trunc 256 m in
     if decide (peek m = "("%char) then raiseWithFmt kSystemError text
     else raiseWithFmt kTypeError text) s.
Proof.
  intros Hp. unfold seterror, PyErr_Occurred.
  rewrite bind_assoc_at, bind_get, bind_ret_l. by rewrite Hp.
Qed.

(** A value that the sequence test rejects, or a [bytes] value. *)
Lemma nested_not_a_sequence arg s :
  (negb (PySequence_Check arg) || PyBytes_Check arg) = true →
  (∃ b, arg = PyBytes b) ∨ (∃ u, arg = PyUnicode u) →
  hasPendingException (thread s) = false →
  ∃ s', PyArg_ParseTuple (Some (PyTuple [arg])) "(ii)" s = Ret 0 s'
        ∧ thread s'
          = mkThread (Some (typeAt kTypeError))
              (Some ("argument 1 must be 2-item sequence, not " +:+
                     arg_type_name arg))
        ∧ mem s' = mem s.
Proof.
  intros Hseq Harg Hp.
  erewrite nested_failed.
  2:{ rewrite convertitem_nested. unfold converttuple. cbv zeta.
      rewrite Hseq. reflexivity. }
  unfold bind at 1. rewrite seterror_text by done.
  destruct Harg as [[b ->]|[u ->]];
    (eexists; split; [reflexivity|split; reflexivity]).
Qed.

Lemma nested_wrong_length x y z s :
  hasPendingException (thread s) = false →
  ∃ s', PyArg_ParseTuple (Some (PyTuple [PyTuple [x; y; z]])) "(ii)" s
        = Ret 0 s'
        ∧ thread s'
          = mkThread (Some (typeAt kTypeError))
              (Some "argument 1 must be sequence of length 2, not 3")
        ∧ mem s' = mem s.
Proof.
  intros Hp.
  erewrite nested_failed.
  2:{ rewrite convertitem_nested. unfold converttuple. cbv zeta.
      unfold PySequence_Check. rewrite tuple_is_sequence by done.
      change (negb true || PyBytes_Check (PyTuple [x; y; z])) with false.
      cbv iota. rewrite bind_assoc_at.
      rewrite (bind_Ret_intro _ _ _ _ _
                 (PySequence_Size_tuple [x; y; z] _ ltac:(done))).
      reflexivity. }
  unfold bind at 1. rewrite seterror_text by done.
  eexists; split; [reflexivity|split; reflexivity].
Qed.

Lemma PySequence_GetItem_tuple items i it s :
  0 ≤ i → items !! Z.to_nat i = Some it →
  PySequence_GetItem (Some (PyTuple items)) i s
  = Ret (Some it) (set_refs (refs s + 1) s).
Proof.
  intros Hi Hit. unfold PySequence_GetItem.
  assert (i < Z.of_nat (length items)).
  { apply lookup_lt_Some in Hit. lia. }
  assert (((0 <=? i) && (i <? Z.of_nat (length items))) = true) as -> by lia.
  rewrite Hit. reflexivity.
Qed.

(** One round of the item loop of [converttuple] on an integer. *)
Lemma converttuple_items_int fuel flags k i items v c rest fmt depth bufsize
    s :
  0 ≤ i → items !! Z.to_nat i = Some (PyLong v) →
  INT_MIN ≤ v ≤ INT_MAX → va s = VaPtr (PCell c) :: rest →
  hasPendingException (thread s) = false →
  converttuple_items (convertitem_fuel (S fuel) flags bufsize)
    (PyTuple items) (S k) i (String "i" fmt) depth bufsize s
  = converttuple_items (convertitem_fuel (S fuel) flags bufsize)
      (PyTuple items) k (i + 1) fmt depth bufsize
      (set_mem (<[c := CInt v]> (mem s)) (set_va rest s)).
Proof.
  intros Hi Hit Hv Hva Hp. cbn [converttuple_items].
  rewrite (bind_Ret_intro _ _ _ _ _
             (PySequence_GetItem_tuple items i _ s Hi Hit)).
  rewrite (bind_Ret_intro _ _ _ _ _
             (convertitem_fuel_i_ok fuel v c rest fmt flags (depth + 1)
                bufsize (set_refs (refs s + 1) s) Hv Hva Hp)).
  unfold Py_DECREF. rewrite bind_modify.
  f_equal. destruct s. unfold set_refs, set_mem, set_va. cbn.
  f_equal. lia.
Qed.

Lemma nested_success v1 v2 c1 c2 rest s :
  INT_MIN ≤ v1 ≤ INT_MAX → INT_MIN ≤ v2 ≤ INT_MAX →
  va s = int_pointers [c1; c2] ++ rest →
  hasPendingException (thread s) = false →
  ∃ s', PyArg_ParseTuple (Some (PyTuple [PyTuple [PyLong v1; PyLong v2]]))
          "(ii)" s = Ret 1 s'
        ∧ mem s' = store_ints [c1; c2] [v1; v2] (mem s)
        ∧ thread s' = thread s.
Proof.
  intros Hv1 Hv2 Hva Hp.
  erewrite nested_done.
  2:{ rewrite convertitem_nested. unfold converttuple. cbv zeta.
      unfold PySequence_Check. rewrite tuple_is_sequence by done.
      change (negb true || PyBytes_Check _) with false. cbv iota.
      rewrite bind_assoc_at.
      rewrite (bind_Ret_intro _ _ _ _ _
                 (PySequence_Size_tuple [PyLong v1; PyLong v2] _
                    ltac:(done))).
      change (negb (Z.of_nat (length [PyLong v1; PyLong v2])
                    =? count_items "ii)" 0 0)) with false. cbv iota.
      change (Z.to_nat (count_items "ii)" 0 0)) with 2%nat.
      unfold bind at 1.
      erewrite converttuple_items_int;
        [|done|reflexivity|done| |done].
      2:{ cbn [va static_freelist set_freelist]. rewrite Hva. reflexivity. }
      erewrite converttuple_items_int;
        [|done|reflexivity|done|reflexivity|done].
      reflexivity. }
  eexists. split; [reflexivity|]. split; reflexivity.
Qed.

Lemma convert_i_raises arg p rest fmt t' s :
  va s = VaPtr p :: rest → PyFloat_Check arg = false →
  PyLong_AsLong arg (thread s) = (-1, t') → hasPendingException t' = true →
  convert_i arg fmt s = Ret (Failed MsgBuf) (set_thread t' (set_va rest s)).
Proof.
  intros Hva Hf Hl Hp. unfold convert_i, convert_ranged.
  rewrite (bind_va_arg_ptr _ _ _ _ Hva).
  unfold float_argument_error. rewrite Hf, bind_ret_l.
  rewrite (bind_liftT _ _ _ (-1) t') by done.
  unfold PyErr_Occurred. rewrite bind_assoc_at, bind_get, bind_ret_l.
  change (thread (set_thread t' (set_va rest s))) with t'. by rewrite Hp.
Qed.

(** A string that the runtime takes for a sequence is read item by item:
    the call fails with the error of converting its first character. *)
Lemma nested_str_iterated u c0 p rest t' s :
  isSequence (PyUnicode u) = true →
  invokeMethod1 (PyUnicode u) "__len__" (thread s)
  = (Obj (PyLong 2), thread s) →
  invokeMethod2 (PyUnicode u) "__getitem__" (newInt 0) (thread s)
  = (Obj c0, thread s) →
  PyFloat_Check c0 = false →
  PyLong_AsLong c0 (thread s) = (-1, t') → hasPendingException t' = true →
  va s = VaPtr p :: rest →
  ∃ s', PyArg_ParseTuple (Some (PyTuple [PyUnicode u])) "(ii)" s = Ret 0 s'
        ∧ thread s' = t'.
Proof.
  intros Hseq Hlen Hget Hf Hl Hp Hva.
  erewrite nested_failed.
  2:{ rewrite convertitem_nested. unfold converttuple. cbv zeta.
      unfold PySequence_Check. rewrite Hseq.
      change (negb true || PyBytes_Check _) with false. cbv iota.
      rewrite bind_assoc_at.
      unfold PySequence_Size.
      rewrite (bind_Ret_intro _ _ _ 2 (static_freelist s)).
      2:{ rewrite (objectLength_found (PyUnicode u) (PyLong 2) (PyLong 2) 2
                     (static_freelist s) (thread s) (thread s));
            [|done|apply index_of_int; done|done].
          change (isNegative 2) with false.
          change (numDigits 2 >? 1) with false. cbv iota.
          change (thread s) with (thread (static_freelist s)).
          by rewrite set_thread_id. }
      change (negb (2 =? count_items "ii)" 0 0)) with false. cbv iota.
      change (Z.to_nat (count_items "ii)" 0 0)) with 2%nat.
      cbn [converttuple_items]. rewrite bind_assoc_at.
      unfold PySequence_GetItem. cbv zeta iota.
      rewrite bind_assoc_at.
      rewrite (bind_liftT _ _ _ (Obj c0) (thread s)) by done.
      change (thread s) with (thread (static_freelist s)).
      rewrite set_thread_id. unfold newReference, Py_INCREF.
      rewrite !bind_assoc_at, bind_modify, !bind_ret_l.
      cbn [convertitem_fuel]. rewrite decide_False by discriminate.
      rewrite convertsimple_i, !bind_assoc_at.
      rewrite (bind_Ret_intro _ _ _ _ _
                 (convert_i_raises c0 p rest _ t'
                    (set_refs (refs (static_freelist s) + 1)
                       (static_freelist s)) Hva Hf Hl Hp)).
      reflexivity. }
  unfold bind at 1. unfold seterror, PyErr_Occurred.
  rewrite bind_assoc_at, bind_get, bind_ret_l.
  cbn [thread set_thread set_refs set_va static_freelist set_freelist].
  rewrite Hp.
  eexists. split; reflexivity.
Qed.

End Scenarios.
Section ScenarioTheorems.
Context {rt : Runtime}.

(** C4 (amended). With a runtime for which tuples are sequences of their
    items: the descriptor ["(ii)"] binds the two integers of [(v1, v2)];
    against a tuple of three items it fails with the TypeError "must be
    sequence of length 2, not 3"; against a [bytes] value, and against a
    string that the runtime's sequence test rejects, it fails with the
    TypeError "must be 2-item sequence, not ..." without reading any item.
    A string is not excluded by the binder: when the runtime's sequence
    test accepts it, its characters are read, and the call fails with the
    error raised by the conversion of the first character. *)
Theorem nested_tuple_scenario :
  int_tuple_runtime rt →
  (∀ v1 v2 c1 c2 rest s,
     INT_MIN ≤ v1 ≤ INT_MAX → INT_MIN ≤ v2 ≤ INT_MAX →
     va s = int_pointers [c1; c2] ++ rest →
     hasPendingException (thread s) = false →
     ∃ s', PyArg_ParseTuple (Some (PyTuple [PyTuple [PyLong v1; PyLong v2]]))
             "(ii)" s = Ret 1 s'
           ∧ mem s' = store_ints [c1; c2] [v1; v2] (mem s)
           ∧ thread s' = thread s)
  ∧ (∀ x y z s,
       hasPendingException (thread s) = false →
       ∃ s', PyArg_ParseTuple (Some (PyTuple [PyTuple [x; y; z]])) "(ii)" s
             = Ret 0 s'
             ∧ thread s'
               = mkThread (Some (typeAt kTypeError))
                   (Some "argument 1 must be sequence of length 2, not 3")
             ∧ mem s' = mem s)
  ∧ (∀ b s,
       hasPendingException (thread s) = false →
       ∃ s', PyArg_ParseTuple (Some (PyTuple [PyBytes b])) "(ii)" s = Ret 0 s'
             ∧ thread s'
               = mkThread (Some (typeAt kTypeError))
                   (Some "argument 1 must be 2-item sequence, not bytes")
             ∧ mem s' = mem s)
  ∧ (∀ u s,
       isSequence (PyUnicode u) = false →
       hasPendingException (thread s) = false →
       ∃ s', PyArg_ParseTuple (Some (PyTuple [PyUnicode u])) "(ii)" s
             = Ret 0 s'
             ∧ thread s'
               = mkThread (Some (typeAt kTypeError))
                   (Some "argument 1 must be 2-item sequence, not str")
             ∧ mem s' = mem s)
  ∧ (∀ u c0 p rest t' s,
       isSequence (PyUnicode u) = true →
       invokeMethod1 (PyUnicode u) "__len__" (thread s)
       = (Obj (PyLong 2), thread s) →
       invokeMethod2 (PyUnicode u) "__getitem__" (newInt 0) (thread s)
       = (Obj c0, thread s) →
       PyFloat_Check c0 = false →
       PyLong_AsLong c0 (thread s) = (-1, t') →
       hasPendingException t' = true →
       va s = VaPtr p :: rest →
       ∃ s', PyArg_ParseTuple (Some (PyTuple [PyUnicode u])) "(ii)" s
             = Ret 0 s'
             ∧ thread s' = t').
Proof.
  intros Hrt. split; [|split; [|split; [|split]]].
  - intros. by eapply nested_success.
  - intros. by apply nested_wrong_length.
  - intros b s Hp.
    apply (nested_not_a_sequence (PyBytes b) s); [|eauto|done].
    apply orb_true_r.
  - intros u s Hseq Hp.
    apply (nested_not_a_sequence (PyUnicode u) s); [|eauto|done].
    unfold PySequence_Check. by rewrite Hseq.
  - intros. by eapply nested_str_iterated.
Qed.

(** C5. The positional binder with the descriptor ["ii|i"], with or
    without a function name after it: for fewer than 2 or more than 3
    values the call fails with a TypeError that names the function and says
    "takes at least 2 arguments" or "takes at most 3 arguments", with the
    number of values given; for 2 or 3 integers it succeeds and stores
    them in the caller's cells. *)
Theorem arity_boundary_ii_opt_i (fname : option string) :
  (∀ items s,
     let n := Z.of_nat (length items) in
     n < 2 ∨ 3 < n →
     ∃ s', PyArg_ParseTuple (Some (PyTuple items)) (arity_format fname) s
           = Ret 0 s'
           ∧ thread s'
             = mkThread (Some (typeAt kTypeError))
                 (Some (function_name fname 150 +:+ " takes " +:+
                        (if n <? 2 then "at least 2" else "at most 3") +:+
                        " arguments (" +:+ fmt_d n +:+ " given)"))
           ∧ mem s' = mem s)
  ∧ (int_tuple_runtime rt →
     ∀ vs cells rest s,
       2 ≤ Z.of_nat (length vs) ≤ 3 → length cells = 3%nat →
       Forall (λ v, INT_MIN ≤ v ≤ INT_MAX) vs →
       va s = int_pointers cells ++ rest →
       hasPendingException (thread s) = false →
       ∃ s', PyArg_ParseTuple (Some (PyTuple (PyLong <$> vs)))
               (arity_format fname) s = Ret 1 s'
             ∧ mem s' = store_ints cells vs (mem s)
             ∧ thread s' = thread s).
Proof.
  split.
  - intros items s n Hn. by apply arity_error.
  - intros Hrt vs cells rest s. by eapply arity_success.
Qed.

End ScenarioTheorems.

Lemma ref_runtime_int_tuples : int_tuple_runtime ref_runtime.
Proof.
  split; try done.
  intros v t Hv. cbn. unfold ref_as_long. cbn.
  by assert (((kMinWord <=? v) && (v <=? kMaxWord)) = true) as -> by lia.
Defined.

(** C4, as the specification words it, fails: a string at a tuple position
    is not set aside.  Against ["(ii)"] the call does fail, but with the
    error of converting the first character, not with the error given to
    values that are not sequences; against ["(CC)"] the two characters are
    bound. *)
Lemma nested_tuple_string_counterexample :
  (∃ s', PyArg_ParseTuple (Some (PyTuple [PyUnicode "ab"])) "(ii)"
           (start [VaPtr (PCell 1); VaPtr (PCell 2)]) = Ret 0 s'
         ∧ thread s'
           = mkThread (Some (typeAt kTypeError))
               (Some "an integer is required (got type str)")
         ∧ pending_exception_value (thread s')
           ≠ Some "argument 1 must be 2-item sequence, not str")
  ∧ (∃ s', PyArg_ParseTuple (Some (PyTuple [PyUnicode "ab"])) "(CC)"
             (start [VaPtr (PCell 1); VaPtr (PCell 2)]) = Ret 1 s'
           ∧ mem s' !! 1 = Some (CInt 97) ∧ mem s' !! 2 = Some (CInt 98)).
Proof.
  split; eexists; (split; [vm_compute; reflexivity|]).
  - split; [reflexivity|]. vm_compute. discriminate.
  - split; vm_compute; reflexivity.
Qed.

Lemma nested_tuple_scenario_witness :
  (∃ s', PyArg_ParseTuple (Some (PyTuple [PyTuple [PyLong 1; PyLong 2]]))
           "(ii)" (start (int_pointers [1; 2])) = Ret 1 s'
         ∧ mem s' = store_ints [1; 2] [1; 2] ∅
         ∧ thread s' = mkThread None None)
  ∧ (∃ s', PyArg_ParseTuple
             (Some (PyTuple [PyTuple [PyLong 1; PyLong 2; PyLong 3]]))
             "(ii)" (start (int_pointers [1; 2])) = Ret 0 s'
           ∧ thread s'
             = mkThread (Some (typeAt kTypeError))
                 (Some "argument 1 must be sequence of length 2, not 3")
           ∧ mem s' = ∅)
  ∧ (∃ s', PyArg_ParseTuple (Some (PyTuple [PyBytes "ab"])) "(ii)"
             (start (int_pointers [1; 2])) = Ret 0 s'
           ∧ thread s'
             = mkThread (Some (typeAt kTypeError))
                 (Some "argument 1 must be 2-item sequence, not bytes")
           ∧ mem s' = ∅)
  ∧ (∃ s', PyArg_ParseTuple (Some (PyTuple [PyUnicode "ab"])) "(ii)"
             (start (int_pointers [1; 2])) = Ret 0 s'
           ∧ thread s'
             = mkThread (Some (typeAt kTypeError))
                 (Some "an integer is required (got type str)")).
Proof.
  destruct (@nested_tuple_scenario ref_runtime ref_runtime_int_tuples)
    as (Hok & Hlen & Hbytes & _ & Hstr).
  split; [|split; [|split]].
  - apply (Hok 1 2 1 2 [] (start (int_pointers [1; 2]))); try done.
  - apply (Hlen (PyLong 1) (PyLong 2) (PyLong 3)). reflexivity.
  - apply (Hbytes "ab"). reflexivity.
  - apply (Hstr "ab" (PyUnicode "a") (PCell 1) [VaPtr (PCell 2)]);
      reflexivity.
Defined.

Lemma arity_boundary_ii_opt_i_witness :
  (∃ s', PyArg_ParseTuple (Some (PyTuple [PyLong 1])) "ii|i:f"
           (start (int_pointers [1; 2; 3])) = Ret 0 s'
         ∧ thread s'
           = mkThread (Some (typeAt kTypeError))
               (Some "f() takes at least 2 arguments (1 given)")
         ∧ mem s' = ∅)
  ∧ (∃ s', PyArg_ParseTuple
             (Some (PyTuple [PyLong 1; PyLong 2; PyLong 3; PyLong 4]))
             "ii|i:f" (start (int_pointers [1; 2; 3])) = Ret 0 s'
           ∧ thread s'
             = mkThread (Some (typeAt kTypeError))
                 (Some "f() takes at most 3 arguments (4 given)")
           ∧ mem s' = ∅)
  ∧ (∃ s', PyArg_ParseTuple (Some (PyTuple [PyLong 1; PyLong 2])) "ii|i:f"
             (start (int_pointers [1; 2; 3])) = Ret 1 s'
           ∧ mem s' = store_ints [1; 2; 3] [1; 2] ∅
           ∧ thread s' = mkThread None None)
  ∧ (∃ s', PyArg_ParseTuple (Some (PyTuple [PyLong 1; PyLong 2; PyLong 3]))
             "ii|i:f" (start (int_pointers [1; 2; 3])) = Ret 1 s'
           ∧ mem s' = store_ints [1; 2; 3] [1; 2; 3] ∅
           ∧ thread s' = mkThread None None).
Proof.
  destruct (@arity_boundary_ii_opt_i ref_runtime (Some "f"))
    as [Herr Hok].
  specialize (Hok ref_runtime_int_tuples).
  split; [|split; [|split]].
  - apply (Herr [PyLong 1] (start (int_pointers [1; 2; 3]))). simpl. lia.
  - apply (Herr [PyLong 1; PyLong 2; PyLong 3; PyLong 4]
             (start (int_pointers [1; 2; 3]))). simpl. lia.
  - apply (Hok [1; 2] [1; 2; 3] [] (start (int_pointers [1; 2; 3])));
      [simpl; lia|reflexivity| |reflexivity|reflexivity].
    repeat constructor; unfold INT_MIN, INT_MAX; lia.
  - apply (Hok [1; 2; 3] [1; 2; 3] [] (start (int_pointers [1; 2; 3])));
      [simpl; lia|reflexivity| |reflexivity|reflexivity].
    repeat constructor; unfold INT_MIN, INT_MAX; lia.
Defined.

(** ** The fuel of the recursive converters is enough *)

Lemma yields_ret {A} (a : A) (Q : A → Prop) : Q a → yields (ret a) Q.
Proof. by intros H s a' s' [-> _]%ret_Ret. Qed.

Lemma yields_bind {A B} (m : M A) (k : A → M B) (Q : B → Prop) :
  (∀ a, yields (k a) Q) → yields (bind m k) Q.
Proof.
  intros Hk s b s' Hrun. apply bind_Ret in Hrun as (a & s1 & _ & Hrun).
  by eapply Hk.
Qed.

Lemma yields_weaken {A} (m : M A) (Q Q' : A → Prop) :
  yields m Q → (∀ a, Q a → Q' a) → yields m Q'.
Proof. intros Hm HQ s a s' Hrun. eauto. Qed.

Lemma yields_undef {A} (Q : A → Prop) : yields undef Q.
Proof. by intros s a s'. Qed.

Lemma yields_fatal {A} msg (Q : A → Prop) : yields (Py_FatalError msg) Q.
Proof. by intros s a s'. Qed.

Lemma bind_ext_at_run {A B} (m1 m2 : M A) (k : A → M B) s :
  m1 s = m2 s → bind m1 k s = bind m2 k s.
Proof. unfold bind. by intros ->. Qed.

Lemma advance_le (n : nat) (f : string) :
  (String.length f ≤ n)%nat → (String.length (advance f) ≤ n)%nat.
Proof. destruct f; simpl; lia. Qed.

Ltac yields_leaf :=
  apply yields_ret; simpl; repeat apply advance_le; solve [done | lia].

Ltac yields_step :=
  lazymatch goal with
  | |- yields (bind _ _) _ => apply yields_bind; intros ?
  | |- yields (if ?b then _ else _) _ => destruct b
  | |- yields (match ?x with _ => _ end) _ => destruct x
  | |- yields (let _ := _ in _) _ => cbv zeta
  | |- yields (ret _) _ => yields_leaf
  | |- yields undef _ => apply yields_undef
  | |- yields (Py_FatalError _) _ => apply yields_fatal
  end.
Ltac yields_auto := repeat yields_step.

Section Fuel.
Context {rt : Runtime}.

Lemma shrinks_convert_ranged arg format lo hi bits u lf :
  yields (convert_ranged arg format lo hi bits u lf)
    (leaves_at_most (String.length format)).
Proof. unfold convert_ranged, RETURN_ERR_OCCURRED. yields_auto. Qed.

Lemma shrinks_convert_mask arg format bits :
  yields (convert_mask arg format bits)
    (leaves_at_most (String.length format)).
Proof. unfold convert_mask, RETURN_ERR_OCCURRED. yields_auto. Qed.

Lemma shrinks_convert_n arg format :
  yields (convert_n arg format) (leaves_at_most (String.length format)).
Proof. unfold convert_n, RETURN_ERR_OCCURRED. yields_auto. Qed.

Lemma shrinks_convert_k arg format bufsize mask :
  yields (convert_k arg format bufsize mask)
    (leaves_at_most (String.length format)).
Proof. unfold convert_k. yields_auto. Qed.

Lemma shrinks_convert_L arg format :
  yields (convert_L arg format) (leaves_at_most (String.length format)).
Proof. unfold convert_L, RETURN_ERR_OCCURRED. yields_auto. Qed.

Lemma shrinks_convert_fd arg format narrow :
  yields (convert_fd arg format narrow)
    (leaves_at_most (String.length format)).
Proof. unfold convert_fd, RETURN_ERR_OCCURRED. yields_auto. Qed.

Lemma shrinks_convert_D arg format :
  yields (convert_D arg format) (leaves_at_most (String.length format)).
Proof. unfold convert_D, RETURN_ERR_OCCURRED. yields_auto. Qed.

Lemma shrinks_convert_c arg format bufsize :
  yields (convert_c arg format bufsize)
    (leaves_at_most (String.length format)).
Proof. unfold convert_c. yields_auto. Qed.

Lemma shrinks_convert_C arg format bufsize :
  yields (convert_C arg format bufsize)
    (leaves_at_most (String.length format)).
Proof. unfold convert_C, RETURN_ERR_OCCURRED. yields_auto. Qed.

Lemma shrinks_convert_p arg format :
  yields (convert_p arg format) (leaves_at_most (String.length format)).
Proof. unfold convert_p, RETURN_ERR_OCCURRED. yields_auto. Qed.

Lemma shrinks_convert_y arg format flags bufsize :
  yields (convert_y arg format flags bufsize)
    (leaves_at_most (String.length format)).
Proof.
  unfold convert_y, STORE_SIZE, RETURN_ERR_OCCURRED. yields_auto.
Qed.

Lemma shrinks_convert_s c arg format flags bufsize :
  yields (convert_s c arg format flags bufsize)
    (leaves_at_most (String.length format)).
Proof.
  unfold convert_s, STORE_SIZE, RETURN_ERR_OCCURRED. yields_auto.
Qed.

Lemma shrinks_convert_u c arg format flags bufsize :
  yields (convert_u c arg format flags bufsize)
    (leaves_at_most (String.length format)).
Proof.
  unfold convert_u, STORE_SIZE, RETURN_ERR_OCCURRED. yields_auto.
Qed.

Lemma shrinks_convert_e_write arg format flags bufsize buffer data :
  yields (convert_e_write arg format flags bufsize buffer data)
    (leaves_at_most (String.length format)).
Proof.
  unfold convert_e_write, STORE_SIZE, RETURN_ERR_OCCURRED. yields_auto.
Qed.

Lemma shrinks_convert_e arg format flags bufsize :
  yields (convert_e arg format flags bufsize)
    (leaves_at_most (String.length format)).
Proof.
  unfold convert_e, PyObject_AsCharBuffer, UNIMPLEMENTED.
  yields_auto;
    (eapply yields_weaken;
     [apply shrinks_convert_e_write
     |intros [msg|f]; [done|]; simpl;
      pose proof (advance_le _ _ (le_n (String.length format))); lia]).
Qed.

Lemma shrinks_convert_kind arg format bufsize check expected :
  yields (convert_kind arg format bufsize check expected)
    (leaves_at_most (String.length format)).
Proof. unfold convert_kind. yields_auto. Qed.

Lemma shrinks_convert_U arg format bufsize :
  yields (convert_U arg format bufsize)
    (leaves_at_most (String.length format)).
Proof. unfold convert_U, RETURN_ERR_OCCURRED. yields_auto. Qed.

Lemma shrinks_convert_O arg format bufsize :
  yields (convert_O arg format bufsize)
    (leaves_at_most (String.length format)).
Proof. unfold convert_O, RETURN_ERR_OCCURRED. yields_auto. Qed.

Lemma shrinks_convert_w arg format bufsize :
  yields (convert_w arg format bufsize)
    (leaves_at_most (String.length format)).
Proof. unfold convert_w, RETURN_ERR_OCCURRED. yields_auto. Qed.

Lemma shrinks_convertsimple arg p_format flags bufsize :
  yields (convertsimple arg p_format flags bufsize)
    (leaves_at_most (String.length p_format)).
Proof.
  assert (∀ m, yields m (leaves_at_most (String.length (advance p_format))) →
               yields m (leaves_at_most (String.length p_format))) as Hw.
  { intros m Hm. eapply yields_weaken; [exact Hm|].
    intros [msg|f]; [done|]. simpl.
    pose proof (advance_le _ _ (le_n (String.length p_format))). lia. }
  unfold convertsimple. cbv zeta. apply switch_all.
  - repeat constructor; simpl; apply Hw;
      unfold convert_b, convert_h, convert_i, convert_l;
      auto using shrinks_convert_ranged, shrinks_convert_mask,
        shrinks_convert_n, shrinks_convert_k, shrinks_convert_L,
        shrinks_convert_fd, shrinks_convert_D, shrinks_convert_c,
        shrinks_convert_C, shrinks_convert_p, shrinks_convert_y,
        shrinks_convert_s, shrinks_convert_u, shrinks_convert_e,
        shrinks_convert_kind, shrinks_convert_U, shrinks_convert_O,
        shrinks_convert_w.
  - by apply yields_ret.
Qed.

Lemma shrinks_converttuple_items conv arg k i format depth bufsize :
  (∀ it f d, yields (conv it f d) (leaves_at_mostL (String.length f))) →
  yields (converttuple_items conv arg k i format depth bufsize)
    (leaves_at_mostL (String.length format)).
Proof.
  intros Hconv. revert i format.
  induction k as [|k IH]; intros i format; simpl.
  - yields_leaf.
  - apply yields_bind. intros [it|]; [|yields_auto].
    intros s r s' Hrun.
    apply bind_Ret in Hrun as ([msg lv|f] & s1 & Hc & Hrun).
    + apply bind_Ret in Hrun as (? & s2 & _ & Hrun).
      apply bind_Ret in Hrun as (? & s3 & _ & Hrun).
      by apply ret_Ret in Hrun as [-> _].
    + apply bind_Ret in Hrun as (? & s2 & _ & Hrun).
      apply Hconv in Hc. apply IH in Hrun. simpl in Hc.
      destruct r; simpl in *; [done|lia].
Qed.

Lemma shrinks_converttuple conv arg p_format depth bufsize toplevel :
  (∀ it f d, yields (conv it f d) (leaves_at_mostL (String.length f))) →
  yields (converttuple conv arg p_format depth bufsize toplevel)
    (leaves_at_mostL (String.length p_format)).
Proof.
  intros Hconv. unfold converttuple. cbv zeta.
  yields_auto. by apply shrinks_converttuple_items.
Qed.

Lemma shrinks_convertitem_fuel fuel flags bufsize arg p_format depth :
  yields (convertitem_fuel fuel flags bufsize arg p_format depth)
    (leaves_at_mostL (String.length p_format)).
Proof.
  revert arg p_format depth.
  induction fuel as [|fuel IH]; intros arg p_format depth; simpl.
  - apply yields_undef.
  - destruct (decide (peek p_format = "("%char)).
    + intros s r s' Hrun.
      apply bind_Ret in Hrun as ([msg lv|f] & s1 & Hc & Hrun).
      { by apply ret_Ret in Hrun as [-> _]. }
      apply bind_Ret in Hrun as (f' & s2 & Hstep & Hrun).
      apply ret_Ret in Hrun as [-> _].
      apply shrinks_converttuple in Hc; [|by intros; apply IH].
      destruct f as [|c f0]; [discriminate|].
      apply ret_Ret in Hstep as [-> _]. simpl in *.
      pose proof (advance_le _ _ (le_n (String.length p_format))). lia.
    + intros s r s' Hrun.
      apply bind_Ret in Hrun as ([msg|f] & s1 & Hc & Hrun).
      * apply bind_Ret in Hrun as (? & s2 & _ & Hrun).
        by apply ret_Ret in Hrun as [-> _].
      * apply ret_Ret in Hrun as [-> _].
        by apply shrinks_convertsimple in Hc.
Qed.

(** The item loop of [converttuple] with two converters that agree on the
    descriptors it can reach. *)
Lemma converttuple_items_agree conv1 conv2 (n : nat) arg k i format depth
    bufsize s :
  (∀ it f d, yields (conv1 it f d) (leaves_at_mostL (String.length f))) →
  (∀ it f d s, (String.length f ≤ n)%nat → conv1 it f d s = conv2 it f d s) →
  (String.length format ≤ n)%nat →
  converttuple_items conv1 arg k i format depth bufsize s
  = converttuple_items conv2 arg k i format depth bufsize s.
Proof.
  intros Hshrink Hagree. revert i format s.
  induction k as [|k IH]; intros i format s Hlen; simpl; [done|].
  apply bind_ext_at. intros [it|] s1; [|done].
  unfold bind at 1 4. rewrite <-Hagree by done.
  destruct (conv1 it format (depth + 1) s1) as [r s2| |] eqn:Hc; [|done|done].
  apply bind_ext_at. intros [] s3.
  destruct r as [msg lv|f]; [done|].
  apply IH. apply Hshrink in Hc. simpl in Hc. lia.
Qed.

Lemma convertitem_fuel_agree fuel1 fuel2 flags bufsize arg p_format depth s :
  (String.length p_format < fuel1)%nat →
  (String.length p_format < fuel2)%nat →
  convertitem_fuel fuel1 flags bufsize arg p_format depth s
  = convertitem_fuel fuel2 flags bufsize arg p_format depth s.
Proof.
  revert fuel2 arg p_format depth s.
  induction fuel1 as [|fuel1 IH]; intros fuel2 arg p_format depth s H1 H2;
    [lia|].
  destruct fuel2 as [|fuel2]; [lia|]. simpl.
  destruct (decide (peek p_format = "("%char)) as [Hp|]; [|done].
  destruct p_format as [|c rest]; [done|]. simpl in *.
  apply bind_ext_at_run. unfold converttuple. cbv zeta.
  destruct (negb (PySequence_Check arg) || PyBytes_Check arg); [done|].
  apply bind_ext_at. intros len s1.
  destruct (negb (len =? count_items rest 0 0)); [done|].
  apply (converttuple_items_agree _ _ (String.length rest)); [| |done].
  - intros. apply shrinks_convertitem_fuel.
  - intros it f d s2 Hf. apply IH; lia.
Qed.

(** The fuel that [convertitem] hands out is enough: more changes
    nothing, so the recursion never stops for lack of it. *)
Lemma convertitem_fuel_enough fuel flags bufsize arg p_format depth s :
  (String.length p_format < fuel)%nat →
  convertitem_fuel fuel flags bufsize arg p_format depth s
  = convertitem arg p_format flags depth bufsize s.
Proof. intros H. apply convertitem_fuel_agree; [done|lia]. Qed.

Lemma advance_lt f :
  f ≠ EmptyString → (String.length (advance f) < String.length f)%nat.
Proof. destruct f; [done|]. simpl. lia. Qed.

Lemma peek_nonempty f c : peek f = c → c ≠ NUL → f ≠ EmptyString.
Proof. by intros <- Hc ->. Qed.

Lemma char_in_nonempty f l :
  char_in (peek f) l = true → NUL ∉ l → f ≠ EmptyString.
Proof.
  unfold char_in. intros Hin%bool_decide_eq_true Hl ->. by apply Hl.
Qed.

Lemma skips_skip_string_code c p_format format use_va :
  p_format ≠ EmptyString →
  (String.length format ≤ String.length (advance p_format))%nat →
  yields (skip_string_code c format use_va) (skips p_format).
Proof.
  intros Hp Hf. pose proof (advance_lt _ Hp).
  pose proof (advance_le _ _ (le_n (String.length format))).
  unfold skip_string_code, skip_va.
  repeat (apply yields_bind; intros ?).
  repeat lazymatch goal with
         | |- yields (if ?b then _ else _) _ => destruct b
         | |- yields (bind _ _) _ => apply yields_bind; intros ?
         end; apply yields_ret; simpl; lia.
Qed.

Lemma skips_skipitem_fuel fuel :
  (∀ p_format use_va flags,
     yields (skipitem_fuel fuel p_format use_va flags) (skips p_format))
  ∧ (∀ format use_va flags,
       yields (skiptuple_fuel fuel format use_va flags) (skips format)).
Proof.
  induction fuel as [|fuel [IHi IHt]].
  - split; intros; apply yields_undef.
  - split.
    + intros p_format use_va flags. simpl.
      destruct (char_in (peek p_format) single_pointer_codes) eqn:H1.
      { apply char_in_nonempty in H1; [|by vm_compute; set_solver].
        apply yields_bind. intros ?. apply yields_ret. simpl.
        by apply advance_lt. }
      destruct (decide (peek p_format = "e"%char)) as [He|_].
      { apply peek_nonempty in He; [|done].
        apply yields_bind. intros ?.
        destruct (negb _); [by apply yields_ret|].
        apply skips_skip_string_code; [done|]. by apply advance_le. }
      destruct (char_in (peek p_format) string_codes) eqn:H2.
      { apply char_in_nonempty in H2; [|by vm_compute; set_solver].
        by apply skips_skip_string_code. }
      destruct (decide (peek p_format = "O"%char)) as [HO|_].
      { apply peek_nonempty in HO; [|done]. pose proof (advance_lt _ HO).
        pose proof (advance_le _ _ (le_n (String.length (advance p_format)))).
        unfold skip_va.
        repeat lazymatch goal with
               | |- yields (if ?b then _ else _) _ => destruct b
               | |- yields (bind _ _) _ => apply yields_bind; intros ?
               end; apply yields_ret; simpl; lia. }
      destruct (decide (peek p_format = "("%char)) as [Hp|_].
      { apply peek_nonempty in Hp; [|done]. pose proof (advance_lt _ Hp).
        eapply yields_weaken; [apply IHt|].
        intros [msg|f]; [done|]. simpl. lia. }
      destruct (decide _); by apply yields_ret.
    + intros format use_va flags. simpl.
      destruct (decide (peek format = ")"%char)) as [Hp|_].
      { apply peek_nonempty in Hp; [|done].
        apply yields_ret. simpl. by apply advance_lt. }
      destruct (IS_END_OF_FORMAT _); [by apply yields_ret|].
      intros s r s' Hrun.
      apply bind_Ret in Hrun as ([msg|f] & s1 & Hitem & Hrun).
      * by apply ret_Ret in Hrun as [-> _].
      * apply IHi in Hitem. apply IHt in Hrun. simpl in Hitem.
        destruct r; simpl in *; [done|lia].
Qed.

Lemma skipitem_fuel_agree fuel1 :
  ∀ fuel2,
    (∀ p_format use_va flags s,
       (2 * String.length p_format + 1 ≤ fuel1)%nat →
       (2 * String.length p_format + 1 ≤ fuel2)%nat →
       skipitem_fuel fuel1 p_format use_va flags s
       = skipitem_fuel fuel2 p_format use_va flags s)
    ∧ (∀ format use_va flags s,
         (2 * String.length format + 2 ≤ fuel1)%nat →
         (2 * String.length format + 2 ≤ fuel2)%nat →
         skiptuple_fuel fuel1 format use_va flags s
         = skiptuple_fuel fuel2 format use_va flags s).
Proof.
  induction fuel1 as [|fuel1 IH]; intros fuel2.
  { split; intros; lia. }
  destruct fuel2 as [|fuel2]; [split; intros; lia|].
  destruct (IH fuel2) as [IHi IHt]. split.
  - intros p_format use_va flags s H1 H2. simpl.
    destruct (char_in (peek p_format) single_pointer_codes); [done|].
    destruct (decide (peek p_format = "e"%char)); [done|].
    destruct (char_in (peek p_format) string_codes); [done|].
    destruct (decide (peek p_format = "O"%char)); [done|].
    destruct (decide (peek p_format = "("%char)) as [Hp|_]; [|done].
    apply peek_nonempty in Hp; [|done]. pose proof (advance_lt _ Hp).
    apply IHt; lia.
  - intros format use_va flags s H1 H2. simpl.
    destruct (decide (peek format = ")"%char)); [done|].
    destruct (IS_END_OF_FORMAT _); [done|].
    unfold bind. rewrite <-IHi by lia.
    destruct (skipitem_fuel fuel1 format use_va flags s)
      as [[msg|f] s1| |] eqn:Hitem; [done| |done|done].
    apply (proj1 (skips_skipitem_fuel fuel1)) in Hitem. simpl in Hitem.
    apply IHt; lia.
Qed.

(** The fuel that [skipitem] hands out is enough. *)
Lemma skipitem_fuel_enough fuel p_format use_va flags s :
  (2 * String.length p_format + 1 ≤ fuel)%nat →
  skipitem_fuel fuel p_format use_va flags s
  = skipitem p_format use_va flags s.
Proof. intros H. apply skipitem_fuel_agree; lia. Qed.

End Fuel.

(** * Further properties of the two files *)

(** Running a computation that is made of runtime calls, raises and
    reference counting, by cases on every test it makes. *)
Ltac run_cases H :=
  repeat (simpl in H;
          match type of H with
          | context [let '(_, _) := ?x in _] => destruct x eqn:?
          | context [match ?x with _ => _ end] => destruct x eqn:?
          end);
  simpl in H; try discriminate.

Ltac unfold_monad H :=
  unfold bind, liftT, ret, get, modify, newReference, Py_INCREF, Py_DECREF,
    raiseWithFmt, PyErr_Format, PyErr_Occurred, PyErr_Clear, nullError in H.

Section AbstractMoreProofs.
Context {rt : Runtime}.

Lemma nullError_run s : nullError s = Ret tt (after_nullError s).
Proof.
  unfold nullError, after_nullError, PyErr_Occurred, bind, get, ret.
  by destruct (hasPendingException (thread s)).
Qed.

(** X1. A null argument makes each entry point return its failure value.
    The [SystemError] "null argument to internal routine" is raised only
    when no exception is pending: one that is pending is kept as it is. *)
Theorem null_argument_keeps_pending_exception
    (op : string) (idx : Z) (err : option PyObject) (o : option PyObject)
    (s : State) :
  doUnaryOp op None s = Ret None (after_nullError s)
  ∧ objectLength None s = Ret (-1) (after_nullError s)
  ∧ PyNumber_Index None s = Ret None (after_nullError s)
  ∧ PyNumber_AsSsize_t None err s = Ret (-1) (after_nullError s)
  ∧ PySequence_GetItem None idx s = Ret None (after_nullError s)
  ∧ PySequence_Concat None o s = Ret None (after_nullError s)
  ∧ PySequence_Concat o None s = Ret None (after_nullError s).
Proof.
  assert (∀ A (a : A), (nullError ;;; ret a) s = Ret a (after_nullError s))
    as Hn.
  { intros A a. unfold bind. by rewrite nullError_run. }
  repeat split; try apply Hn.
  destruct o; apply Hn.
Qed.

Lemma new_reference_null :
  new_reference_or_null (nullError ;;; ret None).
Proof.
  intros s r s' H. unfold bind in H. rewrite nullError_run in H.
  injection H as <- <-. unfold after_nullError.
  destruct (hasPendingException (thread s)); simpl; repeat split;
    first [done | lia].
Qed.

Lemma new_reference_doUnaryOp op o : new_reference_or_null (doUnaryOp op o).
Proof.
  destruct o as [o|]; [|apply new_reference_null].
  intros s r s' H. unfold doUnaryOp in H. unfold_monad H. run_cases H;
    injection H as <- <-; simpl; repeat split; first [done | lia].
Qed.

Lemma new_reference_doBinaryOp op l r :
  new_reference_or_null (doBinaryOp op l r).
Proof.
  intros s x s' H. unfold doBinaryOp in H. unfold_monad H. run_cases H;
    injection H as <- <-; simpl; repeat split; first [done | lia].
Qed.

Lemma new_reference_smallIntAdd_bind l r k :
  new_reference_or_null k →
  new_reference_or_null
    (result <- smallIntAdd l r ;;
     match result with Some x => ret (Some x) | None => k end).
Proof.
  intros Hk s x s' H. unfold smallIntAdd in H.
  destruct l; try (by apply (Hk s x s')).
  destruct r; try (by apply (Hk s x s')).
  destruct (isSmallInt (PyLong v) && isSmallInt (PyLong v0));
    [|by apply (Hk s x s')].
  unfold_monad H. simpl in H. injection H as <- <-. simpl.
  repeat split; first [done | lia].
Qed.

Lemma new_reference_PyNumber_Index o :
  new_reference_or_null (PyNumber_Index o).
Proof.
  destruct o as [o'|]; [|apply new_reference_null].
  intros s x s' H. unfold PyNumber_Index in H. unfold_monad H.
  run_cases H; injection H as <- <-; simpl; repeat split;
    first [done | lia].
Qed.

Lemma new_reference_PySequence_GetItem o idx :
  new_reference_or_null (PySequence_GetItem o idx).
Proof.
  destruct o as [o'|]; [|apply new_reference_null].
  intros s x s' H. unfold PySequence_GetItem in H. unfold_monad H.
  run_cases H; injection H as <- <-; simpl; repeat split;
    first [done | lia].
Qed.

(** X2. Every function of the file that returns a new reference or null
    takes exactly one reference when it returns an object and none when it
    returns null, whatever the runtime does; it touches neither the
    caller's cells nor the native blocks. *)
Theorem result_is_the_only_new_reference
    (op : string) (o left right : option PyObject) (l r : PyObject)
    (idx : Z) :
  new_reference_or_null (doUnaryOp op o)
  ∧ new_reference_or_null (doBinaryOp op l r)
  ∧ new_reference_or_null (PyNumber_Add l r)
  ∧ new_reference_or_null (PyNumber_InPlaceAdd l r)
  ∧ new_reference_or_null (PyNumber_Index o)
  ∧ new_reference_or_null (PySequence_GetItem o idx)
  ∧ new_reference_or_null (PySequence_Concat left right).
Proof.
  assert (new_reference_or_null (PyNumber_Add l r)) as Hadd.
  { apply new_reference_smallIntAdd_bind, new_reference_doBinaryOp. }
  split; [apply new_reference_doUnaryOp|].
  split; [apply new_reference_doBinaryOp|].
  split; [done|].
  split;
    [apply new_reference_smallIntAdd_bind, new_reference_doBinaryOp|].
  split; [apply new_reference_PyNumber_Index|].
  split; [apply new_reference_PySequence_GetItem|].
  destruct left as [l'|], right as [r'|]; try apply new_reference_null.
  intros s x s' H. unfold PySequence_Concat in H.
  destruct (negb (PySequence_Check l') || negb (PySequence_Check r')).
  - unfold_monad H. injection H as <- <-. simpl. repeat split; first [done | lia].
  - revert H.
    apply (new_reference_smallIntAdd_bind l' r' _
             (new_reference_doBinaryOp "add" l' r')).
Qed.

(** The items of a tuple or a list. *)
Lemma items_in_range (items : list PyObject) (idx : Z) (it : PyObject) :
  0 ≤ idx → items !! Z.to_nat idx = Some it →
  (0 <=? idx) && (idx <? Z.of_nat (length items)) = true.
Proof.
  intros H0 Hit. apply lookup_lt_Some in Hit.
  apply andb_true_iff. split; [apply Z.leb_le; lia|apply Z.ltb_lt; lia].
Qed.

(** X3. For a tuple or a list and an index inside it, [PySequence_GetItem]
    returns the item itself with one new reference and makes no runtime
    call: no exception is raised or cleared.  Any other index, a negative
    one included, is handed unchanged to the [__getitem__] of the object. *)
Theorem PySequence_GetItem_of_tuple_or_list
    (seq : PyObject) (items : list PyObject) (idx : Z) (s : State) :
  seq = PyTuple items ∨ seq = PyList items →
  (∀ it, 0 ≤ idx → items !! Z.to_nat idx = Some it →
     PySequence_GetItem (Some seq) idx s
     = Ret (Some it) (set_refs (refs s + 1) s))
  ∧ (idx < 0 ∨ Z.of_nat (length items) ≤ idx →
     PySequence_GetItem (Some seq) idx s
     = (result <- liftT (invokeMethod2 seq "__getitem__" (newInt idx)) ;;
        match result with
        | Obj r => h <- newReference r ;; ret (Some h)
        | ErrorNotFound =>
          raiseWithFmt kTypeError "could not call __getitem__" ;;; ret None
        | ErrorException => ret None
        end) s).
Proof.
  intros Hseq. split.
  - intros it H0 Hit. pose proof (items_in_range items idx it H0 Hit) as Hin.
    destruct Hseq as [-> | ->]; unfold PySequence_GetItem;
      rewrite Hin, Hit; reflexivity.
  - intros Hout.
    assert ((0 <=? idx) && (idx <? Z.of_nat (length items)) = false) as Hin.
    { apply andb_false_iff. destruct Hout; [left; apply Z.leb_gt; lia|].
      right. apply Z.ltb_ge. lia. }
    destruct Hseq as [-> | ->]; unfold PySequence_GetItem; by rewrite Hin.
Qed.

End AbstractMoreProofs.

Lemma PySequence_GetItem_of_tuple_or_list_witness :
  PySequence_GetItem (Some (PyList [PyLong 7; PyNone])) 1 (start [])
  = Ret (Some PyNone) (set_refs (refs (start []) + 1) (start [])).
Proof.
  apply (PySequence_GetItem_of_tuple_or_list (PyList [PyLong 7; PyNone])
           [PyLong 7; PyNone] 1 (start [])); [by right|lia|reflexivity].
Defined.

Lemma result_is_the_only_new_reference_witness :
  ∃ s', PyNumber_Add (PyLong 2) (PyLong 3) (start []) = Ret (Some (PyLong 5)) s'
        ∧ refs s' = refs (start []) + 1.
Proof.
  eexists. split; [reflexivity|].
  destruct (result_is_the_only_new_reference "abs" None None None
              (PyLong 2) (PyLong 3) 0) as (_ & _ & Hadd & _).
  by destruct (Hadd (start []) (Some (PyLong 5)) _ eq_refl) as (-> & _).
Defined.

Section BufferMoreProofs.
Context {rt : Runtime}.

(** X4. Releasing a view twice is releasing it once: [PyBuffer_Release]
    clears the owner of the view, so a second call finds nothing to
    release, calls no slot and drops no reference. *)
Theorem PyBuffer_Release_twice (view : Ptr) (s s1 : State) :
  PyBuffer_Release view s = Ret tt s1 →
  PyBuffer_Release view s1 = Ret tt s1.
Proof.
  unfold PyBuffer_Release. destruct view as [|a| |]; try done.
  unfold bind at 1. unfold load at 1.
  destruct (mem s !! a) as [[| | | | | |v]|] eqn:Hv; try done.
  destruct (obj v) as [owner|] eqn:Hobj.
  - intros H.
    assert (mem s1 !! a
            = Some (CView (mkPy_buffer (buf v) None (len v) (itemsize v)
                             (readonly v) (ndim v) (format v) (shape v)
                             (strides v) (suboffsets v) (internal v))))
      as Hcell.
    { revert H. unfold bind, store, modify, Py_DECREF, liftT, ret.
      destruct (typeHasSlots owner); [destruct (bf_releasebuffer owner)|];
        intros [= <-]; simpl; by rewrite lookup_insert_eq. }
    unfold bind, load. by rewrite Hcell.
  - intros [= <-]. unfold bind, load. by rewrite Hv, Hobj.
Qed.

(** X5. A view filled by [PyBuffer_FillInfo] for an exporter holds one
    reference to it, and [PyBuffer_Release] gives exactly that reference
    back and clears the owner of the view. *)
Theorem PyBuffer_FillInfo_then_Release
    (a : Z) (exporter : PyObject) (data : Ptr) (n ro flags : Z)
    (s s1 : State) :
  PyBuffer_FillInfo (PCell a) (Some exporter) data n ro flags s = Ret 0 s1 →
  refs s1 = refs s + 1
  ∧ ∃ s2, PyBuffer_Release (PCell a) s1 = Ret tt s2
          ∧ refs s2 = refs s
          ∧ (∃ v, view_at a s2 = Some v ∧ obj v = None ∧ buf v = data
                  ∧ len v = n)
          ∧ blocks s2 = blocks s ∧ hist s2 = hist s.
Proof.
  unfold PyBuffer_FillInfo.
  destruct (has_flag flags PyBUF_WRITABLE && (ro =? 1)); [done|].
  unfold bind, store, modify, Py_INCREF, ret. intros [= <-]. simpl.
  split; [done|].
  unfold PyBuffer_Release, bind, load, store, modify, Py_DECREF, liftT, ret.
  simpl. rewrite lookup_insert_eq. simpl.
  destruct (typeHasSlots exporter); [destruct (bf_releasebuffer exporter)|];
    (eexists; split; [reflexivity|]; unfold view_at; simpl;
     rewrite lookup_insert_eq; repeat split; [lia|by eexists]).
Qed.

Lemma PyBuffer_FillInfo_not_writable (view : Ptr) (e : option PyObject)
    (b : Ptr) (n flags : Z) (s : State) (r : Z) (s' : State) :
  has_flag flags PyBUF_WRITABLE = true →
  PyBuffer_FillInfo view e b n 1 flags s = Ret r s' →
  r = -1 ∧ mem s' = mem s ∧ refs s' = refs s ∧ blocks s' = blocks s
  ∧ hist s' = hist s ∧ freelist s' = freelist s ∧ va s' = va s.
Proof.
  intros Hw. unfold PyBuffer_FillInfo. rewrite Hw. simpl.
  unfold bind, raiseWithFmt, modify, ret.
  destruct view; intros [= <- <-]; done.
Qed.

Lemma PyObject_GetBuffer_not_writable
    (o : PyObject) (view : Ptr) (flags : Z) (s : State) (r : Z)
    (s' : State) :
  builtin_bytes_like o = true →
  has_flag flags PyBUF_WRITABLE = true →
  PyObject_GetBuffer o view flags s = Ret r s' →
  r = -1 ∧ mem s' = mem s ∧ refs s' = refs s ∧ blocks s' = blocks s
  ∧ hist s' = hist s ∧ freelist s' = freelist s ∧ va s' = va s.
Proof.
  intros Hkind Hw Hget.
  assert (Hcall : ∀ (f : Thread → Ptr * Thread) n,
            (buffer <- liftT f ;;
             match buffer with
             | PNull => ret (-1)
             | _ => PyBuffer_FillInfo view (Some o) buffer n 1 flags
             end) s = Ret r s' →
            r = -1 ∧ mem s' = mem s ∧ refs s' = refs s
            ∧ blocks s' = blocks s ∧ hist s' = hist s
            ∧ freelist s' = freelist s ∧ va s' = va s).
  { intros f n H. apply bind_Ret in H as (p & s1 & Hf & H).
    apply liftT_Ret in Hf as (_ & Hs1).
    assert (mem s1 = mem s ∧ refs s1 = refs s ∧ blocks s1 = blocks s
            ∧ hist s1 = hist s ∧ freelist s1 = freelist s ∧ va s1 = va s)
      as (Hm & Hr & Hbl & Hh & Hf & Hv) by (by rewrite Hs1).
    rewrite <- Hm, <- Hr, <- Hbl, <- Hh, <- Hf, <- Hv.
    destruct p;
      first [by injection H as <- <-
            |by apply (PyBuffer_FillInfo_not_writable _ _ _ _ _ _ _ _ Hw)
                  in H]. }
  unfold PyObject_GetBuffer in Hget.
  destruct (isInstanceOfBytes o) eqn:Hb; [by eapply Hcall|].
  destruct (isInstanceOfBytearray o) eqn:Hba; [by eapply Hcall|].
  destruct o; try discriminate.
  - destruct (isInstanceOfBytes o) eqn:Hbuf; [by eapply Hcall|].
    destruct o; try discriminate.
    by apply (PyBuffer_FillInfo_not_writable _ _ _ _ _ _ _ _ Hw) in Hget.
  - simpl in Hget. by eapply Hcall.
Qed.

Lemma PyBuffer_FillInfo_writable_returns (view : Ptr)
    (e : option PyObject) (b : Ptr) (n flags : Z) (s : State) :
  has_flag flags PyBUF_WRITABLE = true →
  ∃ r s', PyBuffer_FillInfo view e b n 1 flags s = Ret r s'.
Proof.
  intros Hw. unfold PyBuffer_FillInfo. rewrite Hw. simpl.
  unfold bind, raiseWithFmt, modify, ret. destruct view; by eexists _, _.
Qed.

Lemma PyObject_GetBuffer_writable_returns
    (o : PyObject) (view : Ptr) (flags : Z) (s : State) :
  builtin_bytes_like o = true →
  memoryview_buffer_known o = true →
  has_flag flags PyBUF_WRITABLE = true →
  ∃ r s', PyObject_GetBuffer o view flags s = Ret r s'.
Proof.
  intros Hkind Hmv Hw.
  assert (Hcall : ∀ (f : Thread → Ptr * Thread) n,
            ∃ r s',
              (buffer <- liftT f ;;
               match buffer with
               | PNull => ret (-1)
               | _ => PyBuffer_FillInfo view (Some o) buffer n 1 flags
               end) s = Ret r s').
  { intros f n. destruct (f (thread s)) as [p t] eqn:Hf.
    rewrite (bind_liftT _ _ _ _ _ Hf).
    destruct p;
      first [by eexists _, _
            |by apply PyBuffer_FillInfo_writable_returns]. }
  unfold PyObject_GetBuffer.
  destruct (isInstanceOfBytes o) eqn:Hb; [by apply Hcall|].
  destruct (isInstanceOfBytearray o) eqn:Hba; [by apply Hcall|].
  destruct o; try discriminate.
  - simpl in Hmv. destruct (isInstanceOfBytes o) eqn:Hbuf; [by apply Hcall|].
    destruct o; try discriminate.
    by apply PyBuffer_FillInfo_writable_returns.
  - simpl. by apply Hcall.
Qed.

(** X6. The views of the builtin bytes-like sources are never writable:
    a request that asks for a writable view of a bytes, bytearray,
    memoryview or array object returns -1, and neither the caller's
    [Py_buffer] nor the reference counts are touched. *)
Theorem writable_request_on_builtin_source
    (o : PyObject) (view : Ptr) (flags : Z) (s : State) :
  builtin_bytes_like o = true →
  memoryview_buffer_known o = true →
  has_flag flags PyBUF_WRITABLE = true →
  ∃ s',
    PyObject_GetBuffer o view flags s = Ret (-1) s'
    ∧ mem s' = mem s ∧ refs s' = refs s ∧ blocks s' = blocks s
    ∧ hist s' = hist s ∧ freelist s' = freelist s ∧ va s' = va s.
Proof.
  intros Hkind Hmv Hw.
  destruct (PyObject_GetBuffer_writable_returns o view flags s Hkind Hmv Hw)
    as (r & s' & Hrun).
  destruct (PyObject_GetBuffer_not_writable _ _ _ _ _ _ Hkind Hw Hrun)
    as (-> & Hrest).
  by exists s'.
Qed.

(** Two rounds of a stride loop that start alike end alike. *)
Lemma one_round_loops (v : Py_buffer) (st : Z) :
  col_major_loop v 1 0 st = row_major_loop v 1 st.
Proof. simpl. by destruct (stride_step v 0 st) as [[?|]|]. Qed.

(** X7. A view of at most one dimension has one layout: it is contiguous
    in ['F'] order, and in ['A'] order, exactly when it is in ['C'] order.
    A view with suboffsets is contiguous in no order, and an order other
    than ['C'], ['F'] and ['A'] is never satisfied. *)
Theorem contiguity_of_one_dimension (v : Py_buffer) (order : ascii) :
  (ndim v ≤ 1 →
   PyBuffer_IsContiguous v "F" = PyBuffer_IsContiguous v "C"
   ∧ PyBuffer_IsContiguous v "A" = PyBuffer_IsContiguous v "C")
  ∧ (is_Some (suboffsets v) → PyBuffer_IsContiguous v order = Some false)
  ∧ (order ∉ [ "C"; "F"; "A" ]%char →
     PyBuffer_IsContiguous v order = Some false).
Proof.
  split; [|split].
  - intros Hdim.
    assert (isContiguousWithColumnMajorOrder v
            = isContiguousWithRowMajorOrder v) as Heq.
    { unfold isContiguousWithColumnMajorOrder,
        isContiguousWithRowMajorOrder.
      destruct (suboffsets v); [done|].
      destruct (strides v) eqn:Hst.
      - destruct (len v =? 0); [done|].
        destruct (decide (ndim v = 1)) as [->|Hne].
        + apply one_round_loops.
        + by replace (Z.to_nat (ndim v)) with 0%nat by lia.
      - destruct (len v =? 0); [done|].
        by assert ((ndim v <=? 1) = true) as -> by (apply Z.leb_le; lia). }
    split.
    + exact Heq.
    + rewrite PyBuffer_IsContiguous_A.
      change (PyBuffer_IsContiguous v "C") with
        (isContiguousWithRowMajorOrder v).
      rewrite Heq. by destruct (isContiguousWithRowMajorOrder v) as [[|]|].
  - intros [so Hso]. unfold PyBuffer_IsContiguous,
      isContiguousWithRowMajorOrder, isContiguousWithColumnMajorOrder.
    rewrite Hso. repeat case_decide; done.
  - intros Hnot. unfold PyBuffer_IsContiguous.
    repeat case_decide; try done; subst; exfalso; apply Hnot; set_solver.
Qed.

(** X8. On two small integers [PyNumber_InPlaceAdd] does what
    [PyNumber_Add] does: it returns a new reference to the exact sum and
    dispatches nothing, so neither operand is changed in place.  On any
    other pair it is the dispatch of [operator.iadd]. *)
Theorem PyNumber_InPlaceAdd_small_ints (left right : PyObject) (s : State) :
  (∀ a b, left = PyLong a → right = PyLong b →
     SmallInt_isValid a = true → SmallInt_isValid b = true →
     PyNumber_InPlaceAdd left right s
     = Ret (Some (PyLong (a + b))) (set_refs (refs s + 1) s)
     ∧ PyNumber_InPlaceAdd left right s = PyNumber_Add left right s)
  ∧ (isSmallInt left && isSmallInt right = false →
     PyNumber_InPlaceAdd left right s = doBinaryOp "iadd" left right s).
Proof.
  split.
  - intros a b -> -> Ha Hb. unfold PyNumber_InPlaceAdd, PyNumber_Add.
    by rewrite !(bind_Ret_intro _ _ _ _ _ (smallIntAdd_hit _ _ s Ha Hb)).
  - intros Hmiss. unfold PyNumber_InPlaceAdd.
    by rewrite (bind_Ret_intro _ _ _ _ _ (smallIntAdd_miss _ _ _ Hmiss)).
Qed.

End BufferMoreProofs.

Lemma PyBuffer_Release_twice_witness :
  ∃ s1,
    PyBuffer_Release (PCell 5)
      (set_mem {[5 := CView (bytes_view "ab" (Some (PyBytes "ab")))]}
         (start [])) = Ret tt s1
    ∧ PyBuffer_Release (PCell 5) s1 = Ret tt s1.
Proof.
  eexists. split; [vm_compute; reflexivity|].
  apply (PyBuffer_Release_twice (PCell 5)
           (set_mem {[5 := CView (bytes_view "ab" (Some (PyBytes "ab")))]}
              (start []))).
  vm_compute. reflexivity.
Defined.

Lemma PyBuffer_FillInfo_then_Release_witness :
  ∃ s1,
    PyBuffer_FillInfo (PCell 5) (Some (PyBytes "ab")) (PData "ab") 2 1 0
      (start []) = Ret 0 s1
    ∧ refs s1 = refs (start []) + 1
    ∧ ∃ s2, PyBuffer_Release (PCell 5) s1 = Ret tt s2
            ∧ refs s2 = refs (start [])
            ∧ (∃ v, view_at 5 s2 = Some v ∧ obj v = None
                    ∧ buf v = PData "ab" ∧ len v = 2)
            ∧ blocks s2 = blocks (start []) ∧ hist s2 = hist (start []).
Proof.
  eexists. split; [vm_compute; reflexivity|].
  apply (PyBuffer_FillInfo_then_Release 5 (PyBytes "ab") (PData "ab") 2 1 0
           (start [])).
  vm_compute. reflexivity.
Defined.

Lemma writable_request_on_builtin_source_witness :
  ∃ s',
    PyObject_GetBuffer (PyByteArray "ab") (PCell 5) PyBUF_WRITABLE (start [])
    = Ret (-1) s'
    ∧ mem s' = mem (start []) ∧ refs s' = refs (start [])
    ∧ blocks s' = blocks (start []) ∧ hist s' = hist (start [])
    ∧ freelist s' = freelist (start []) ∧ va s' = va (start []).
Proof.
  apply (writable_request_on_builtin_source (PyByteArray "ab") (PCell 5)
           PyBUF_WRITABLE (start []));
    reflexivity.
Defined.

Lemma contiguity_of_one_dimension_witness :
  PyBuffer_IsContiguous (bytes_view "ab" None) "F"
  = PyBuffer_IsContiguous (bytes_view "ab" None) "C"
  ∧ PyBuffer_IsContiguous (bytes_view "ab" None) "A"
    = PyBuffer_IsContiguous (bytes_view "ab" None) "C".
Proof.
  destruct (contiguity_of_one_dimension (bytes_view "ab" None) "C")
    as (H & _).
  apply H. simpl. lia.
Defined.

Lemma PyNumber_InPlaceAdd_small_ints_witness :
  PyNumber_InPlaceAdd (PyLong 2) (PyLong 3) (start [])
  = Ret (Some (PyLong 5)) (set_refs (refs (start []) + 1) (start []))
  ∧ PyNumber_InPlaceAdd (PyLong 2) (PyLong 3) (start [])
    = PyNumber_Add (PyLong 2) (PyLong 3) (start []).
Proof.
  destruct (PyNumber_InPlaceAdd_small_ints (PyLong 2) (PyLong 3) (start []))
    as (H & _).
  by apply (H 2 3).
Defined.

Lemma yields_bind_post {A B} (m : M A) (k : A → M B) (P : A → Prop)
    (Q : B → Prop) :
  yields m P → (∀ a, P a → yields (k a) Q) → yields (bind m k) Q.
Proof.
  intros Hm Hk s b s' Hrun. apply bind_Ret in Hrun as (a & s1 & Ha & Hrun).
  eapply Hk; [by eapply Hm|done].
Qed.

Section ReturnValues.
Context {rt : Runtime}.

Lemma yields_cleanreturn retval : yields (cleanreturn retval) (λ r, r = retval).
Proof. intros s r s' H. by apply cleanreturn_value in H. Qed.

Lemma yields_cleanreturn_flow {A} retval :
  zero_or_one retval →
  yields (r <- cleanreturn retval ;; ret (Return r)) (@flow_zero_or_one A).
Proof.
  intros Hr. eapply yields_bind_post; [apply yields_cleanreturn|].
  intros r ->. by apply yields_ret.
Qed.

Lemma yields_fail_with {A} l msg :
  yields (fail_with l msg) (@flow_zero_or_one A).
Proof.
  unfold fail_with. apply yields_bind. intros _.
  apply yields_cleanreturn_flow. by left.
Qed.

End ReturnValues.

Ltac y01_leaf :=
  apply yields_ret; simpl; unfold zero_or_one;
  solve [done | auto | lia].

Ltac y01_step :=
  lazymatch goal with
  | |- yields (bind (cleanreturn _) (λ r, ret (Return r))) _ =>
    apply yields_cleanreturn_flow; unfold zero_or_one; auto
  | |- yields (cleanreturn _) _ =>
    eapply yields_weaken;
    [apply yields_cleanreturn
    |intros ? ->; simpl; unfold zero_or_one; auto]
  | |- yields (fail_with _ _) _ => apply yields_fail_with
  | |- yields (bind _ _) _ => apply yields_bind; intros ?
  | |- yields (if ?b then _ else _) _ => destruct b
  | |- yields (match ?x with _ => _ end) _ => destruct x
  | |- yields (let _ := _ in _) _ => cbv zeta
  | |- yields (ret _) _ => y01_leaf
  | |- yields undef _ => apply yields_undef
  | |- yields (Py_FatalError _) _ => apply yields_fatal
  end.
Ltac y01 := repeat y01_step.

(** A block that may return, then the rest. *)
Tactic Notation "y01_flow" constr(lem) "as" simple_intropattern(pat) :=
  eapply yields_bind_post; [apply lem|intros pat ?].

Section ReturnValues2.
Context {rt : Runtime}.

Lemma yields_vGetArgs1Impl_loop k i stack format flags fname message :
  yields (vGetArgs1Impl_loop k i stack format flags fname message)
    flow_zero_or_one.
Proof.
  revert i format. induction k as [|k IH]; intros i format; simpl.
  - y01.
  - y01. apply IH.
Qed.

Lemma yields_vGetArgs1Impl compat_args stack nargs format flags :
  yields (vGetArgs1Impl compat_args stack nargs format flags) zero_or_one.
Proof.
  unfold vGetArgs1Impl.
  apply yields_bind. intros sc.
  destruct (negb (scan_level sc =? 0)); [apply yields_fatal|].
  cbv zeta. apply yields_bind. intros _. apply yields_bind. intros ok.
  destruct (negb ok); [y01|].
  destruct (negb (_ =? 0)); [y01|].
  destruct (_ || _); [y01|].
  y01_flow yields_vGetArgs1Impl_loop as [r|f]; y01.
Qed.

Lemma yields_kw_convert a i format flags fname custom_msg :
  yields (kw_convert a i format flags fname custom_msg) flow_zero_or_one.
Proof. unfold kw_convert. y01. Qed.

Lemma yields_kw_bind args keywords kwlist flags fname custom_msg pos nargs v :
  yields (kw_bind args keywords kwlist flags fname custom_msg pos nargs v)
    flow_zero_or_one.
Proof.
  unfold kw_bind. cbv zeta.
  eapply (yields_bind_post _ _ flow_zero_or_one); [y01|].
  intros [r|[a|]] Hr; [by y01| |].
  - destruct (_ <? _); [y01|].
    y01_flow yields_kw_convert as [r|f]; y01.
  - destruct (_ <? _); [|y01].
    destruct (_ !! _); [|y01].
    y01_flow yields_kw_convert as [r|f]; y01.
Qed.

Lemma yields_vgetargskeywords_round args keywords kwlist flags fname
    custom_msg pos len nargs v :
  yields (vgetargskeywords_round args keywords kwlist flags fname custom_msg
            pos len nargs v) flow_zero_or_one.
Proof.
  unfold vgetargskeywords_round.
  eapply (yields_bind_post _ _ flow_zero_or_one);
    [unfold kw_bar; y01|].
  intros [r|v1] Hr; [by y01|].
  eapply (yields_bind_post _ _ flow_zero_or_one);
    [unfold kw_dollar; y01|].
  intros [r|[[|] v2]] Hr2; [by y01|y01|].
  destruct (IS_END_OF_FORMAT _); [y01|].
  eapply (yields_bind_post _ _ flow_zero_or_one).
  { destruct (kw_skip v2); [y01|apply yields_kw_bind]. }
  intros [r|[[|] v3]] Hr3; [by y01|y01|]. y01.
Qed.

Lemma yields_vgetargskeywords_loop k args keywords kwlist flags fname
    custom_msg pos len nargs v :
  yields (vgetargskeywords_loop k args keywords kwlist flags fname custom_msg
            pos len nargs v) flow_zero_or_one.
Proof.
  revert v. induction k as [|k IH]; intros v; simpl; [y01|].
  y01_flow yields_vgetargskeywords_round as [r|[[|] v']];
    [by y01|y01|apply IH].
Qed.

Lemma yields_check_extraneous valid shown keys :
  yields (check_extraneous valid shown keys) zero_or_one.
Proof. induction keys as [|key rest IH]; simpl; [y01|]. y01. apply IH. Qed.

Lemma yields_vgetargskeywords args keywords format kwlist flags :
  yields (vgetargskeywords args keywords format kwlist flags) zero_or_one.
Proof.
  unfold vgetargskeywords. apply yields_bind. intros _. cbv zeta.
  destruct (has_empty_name kwlist); [y01|].
  apply yields_bind. intros ok. destruct (negb ok); [y01|].
  destruct (_ >? _); [y01|].
  y01_flow yields_vgetargskeywords_loop as [r|v]; [by y01|].
  destruct (kw_skip _); [y01|]. destruct (_ && _); [y01|].
  destruct (_ >? 0); [|y01]. destruct keywords; [|y01].
  apply yields_check_extraneous.
Qed.

Lemma yields_vGetArgsKeywordsFastImpl_loop k i args nargs keywords kwnames
    parser flags format num_keywords :
  yields (vGetArgsKeywordsFastImpl_loop k i args nargs keywords kwnames
            parser flags format num_keywords) flow_zero_or_one.
Proof.
  revert i format num_keywords.
  induction k as [|k IH]; intros i format num_keywords; simpl; [y01|].
  eapply (yields_bind_post _ _ flow_zero_or_one); [y01|].
  intros [r|found] Hr; [by y01|].
  eapply (yields_bind_post _ _ flow_zero_or_one); [y01|].
  intros [r|[a|]] Hr2; [by y01| |].
  - y01_flow yields_kw_convert as [r|f]; [by y01|]. apply IH.
  - destruct (_ <? _); [y01|]. destruct (_ =? 0); [y01|].
    apply yields_bind. intros ?. apply IH.
Qed.

Lemma yields_vGetArgsKeywordsFastImpl args nargs keywords kwnames parser
    flags :
  yields (vGetArgsKeywordsFastImpl args nargs keywords kwnames parser flags)
    (λ r, zero_or_one r.1).
Proof.
  unfold vGetArgsKeywordsFastImpl. apply yields_bind. intros _.
  apply yields_bind. intros init. cbv zeta.
  destruct (init.2); [|y01].
  apply yields_bind. intros ok. destruct (negb ok); [y01|].
  eapply (yields_bind_post _ _ zero_or_one); [|intros r Hr; by y01].
  destruct (_ >? _); [y01|]. destruct (_ <? _); [y01|].
  destruct (parser_format _); [|y01].
  y01_flow yields_vGetArgsKeywordsFastImpl_loop as [r|[f n]]; [by y01|].
  destruct (_ >? 0); [|y01].
  destruct keywords; [apply yields_check_extraneous|].
  destruct kwnames; [apply yields_check_extraneous|y01].
Qed.

Lemma yields_run_binder c : yields (run_binder c) zero_or_one.
Proof.
  destruct c; simpl.
  - apply yields_vGetArgs1Impl.
  - apply yields_vgetargskeywords.
  - eapply yields_bind_post; [apply yields_vGetArgsKeywordsFastImpl|].
    intros r Hr. by apply yields_ret.
Qed.

(** X9. A binding call returns 0 or 1.  When it returns 1 no destructor
    has run: every cleanup entry it registered is still pending, the
    blocks those entries own are live and now the caller's, and nothing
    else was allocated or freed; the array of the cleanup list itself is
    gone. *)
Theorem successful_call_hands_over_its_blocks
    (c : BinderCall) (s : State) (r : Z) (s' : State) :
  blocks_bounded s →
  run_binder c s = Ret r s' →
  (r = 0 ∨ r = 1)
  ∧ (r = 1 →
     new_events s s' = Registered <$> registered (new_events s s')
     ∧ invoked (new_events s s') = []
     ∧ dom (blocks s')
       = dom (blocks s) ∪ owned (registered (new_events s s'))).
Proof.
  intros Hb Hrun. split; [by apply (yields_run_binder c s r s')|].
  intros ->.
  destruct (hoare_run_binder (hist s) (dom (blocks s)) c s 1 s')
    as (es & Hh & Hd); [done|done|].
  simpl in Hh, Hd. rewrite app_nil_r in Hh.
  assert (new_events s s' = Registered <$> es) as Hn.
  { unfold new_events. by rewrite Hh, drop_app_length. }
  rewrite Hn, registered_Registered, invoked_Registered. done.
Qed.

End ReturnValues2.

Lemma wrap_unsigned_byte v : 0 ≤ v ≤ UCHAR_MAX → wrap_unsigned 8 v = v.
Proof.
  unfold UCHAR_MAX, wrap_unsigned. intros H. rewrite Z.mod_small; lia.
Qed.

Lemma wrap_signed_short v : SHRT_MIN ≤ v ≤ SHRT_MAX → wrap_signed 16 v = v.
Proof.
  unfold SHRT_MIN, SHRT_MAX, wrap_signed. intros H.
  rewrite Z.mod_small; lia.
Qed.

Section IntegerCodes.
Context {rt : Runtime}.

Lemma convert_ranged_run arg fmt name lo hi bits (u lf : bool) a rest v t' s :
  PyFloat_Check arg = false →
  va s = VaPtr (PCell a) :: rest →
  PyLong_AsLong arg (thread s) = (v, t') →
  (v = -1 → hasPendingException t' = false) →
  (lo ≤ v ≤ hi →
   (if u then wrap_unsigned bits v else wrap_signed bits v) = v) →
  lo ≤ hi →
  convert_ranged arg fmt (Some (lo, name +:+ " is less than minimum"))
    (Some (hi, name +:+ " is greater than maximum")) bits u lf s
  = if (lo <=? v) && (v <=? hi) then
      Ret (Converted fmt) (stored a (CInt v) rest (set_thread t' s))
    else
      Ret (Failed MsgBuf)
        (raised kOverflowError
           (name +:+ (if v <? lo then " is less than minimum"
                      else " is greater than maximum"))
           (set_va rest s)).
Proof.
  intros Hf Hva Hl Hp Hwrap Hlohi. unfold convert_ranged.
  rewrite (bind_va_arg_ptr _ _ _ _ Hva).
  unfold float_argument_error. rewrite Hf, bind_ret_l.
  rewrite (bind_liftT _ _ _ v t') by done.
  unfold PyErr_Occurred. rewrite bind_assoc_at, bind_get, bind_ret_l.
  change (thread (set_thread t' (set_va rest s))) with t'.
  assert ((v =? -1) && hasPendingException t' = false) as ->.
  { destruct (Z.eqb_spec v (-1)) as [Hv|]; [|done]. by rewrite Hp. }
  destruct (Z.ltb_spec v lo) as [Hlo|Hlo].
  - assert ((v >? hi) = false) as -> by lia.
    assert ((lo <=? v) = false) as -> by lia. simpl.
    by destruct lf.
  - destruct (Z.gtb_spec v hi) as [Hhi|Hhi].
    + assert ((lo <=? v) && (v <=? hi) = false) as -> by lia.
      by destruct lf.
    + assert ((lo <=? v) && (v <=? hi) = true) as -> by lia.
      rewrite Hwrap by lia. by destruct lf.
Qed.

(** X10. The codes ['b'], ['h'] and ['i'] store the value of an integer
    argument exactly when it lies in the range of the C type (0..255, a
    [short], an [int]); the narrowing cast then loses nothing.  Outside the
    range they raise [OverflowError] naming the type and the side, and the
    caller's cell is not written. *)
Theorem ranged_integer_codes
    (c : ascii) (name : string) (lo hi : Z) (arg : PyObject)
    (fmt : string) (flags : Z) (bufsize : nat) (a : Z) (rest : list VaArg)
    (v : Z) (t' : Thread) (s : State) :
  ranged_code c = Some (name, lo, hi) →
  PyFloat_Check arg = false →
  va s = VaPtr (PCell a) :: rest →
  PyLong_AsLong arg (thread s) = (v, t') →
  (v = -1 → hasPendingException t' = false) →
  convertsimple arg (String c fmt) flags bufsize s
  = if (lo <=? v) && (v <=? hi) then
      Ret (Converted fmt) (stored a (CInt v) rest (set_thread t' s))
    else
      Ret (Failed MsgBuf)
        (raised kOverflowError
           (name +:+ (if v <? lo then " is less than minimum"
                      else " is greater than maximum"))
           (set_va rest s)).
Proof.
  intros Hc Hf Hva Hl Hp. unfold ranged_code in Hc.
  repeat case_decide; simplify_eq.
  - apply (convert_ranged_run arg fmt "unsigned byte integer" 0 UCHAR_MAX);
      try done. apply wrap_unsigned_byte.
  - apply (convert_ranged_run arg fmt "signed short integer" SHRT_MIN
             SHRT_MAX); try done. apply wrap_signed_short.
  - apply (convert_ranged_run arg fmt "signed integer" INT_MIN INT_MAX);
      try done. apply wrap_signed_int.
Qed.

(** X11. The codes ['B'], ['H'] and ['I'] never test a range: whatever
    value [PyLong_AsUnsignedLongMask] gives, they succeed and store its low
    8, 16 or 32 bits. *)
Theorem mask_integer_codes
    (c : ascii) (bits : Z) (arg : PyObject) (fmt : string) (flags : Z)
    (bufsize : nat) (a : Z) (rest : list VaArg) (v : Z) (t' : Thread)
    (s : State) :
  mask_code c = Some bits →
  PyFloat_Check arg = false →
  va s = VaPtr (PCell a) :: rest →
  PyLong_AsUnsignedLongMask arg (thread s) = (v, t') →
  hasPendingException t' = false →
  convertsimple arg (String c fmt) flags bufsize s
  = Ret (Converted fmt)
      (stored a (CInt (v `mod` 2 ^ bits)) rest (set_thread t' s)).
Proof.
  intros Hc Hf Hva Hl Hp.
  assert (convert_mask arg fmt bits s
          = Ret (Converted fmt)
              (stored a (CInt (v `mod` 2 ^ bits)) rest (set_thread t' s)))
    as Hrun.
  { unfold convert_mask. rewrite (bind_va_arg_ptr _ _ _ _ Hva).
    unfold float_argument_error. rewrite Hf, bind_ret_l.
    rewrite (bind_liftT _ _ _ v t') by done.
    unfold PyErr_Occurred. rewrite bind_assoc_at, bind_get, bind_ret_l.
    change (thread (set_thread t' (set_va rest s))) with t'.
    by rewrite Hp, andb_false_r. }
  unfold mask_code in Hc. repeat case_decide; simplify_eq; exact Hrun.
Qed.

(** X12. Every integer code refuses a [float] argument before it asks the
    runtime for a value: [TypeError] "integer argument expected, got
    float" is raised, the pointer of the code is consumed and the caller's
    cell is not written. *)
Theorem integer_codes_refuse_float
    (c : ascii) (d : Z) (fmt : string) (flags : Z) (bufsize : nat)
    (p : Ptr) (rest : list VaArg) (s : State) :
  c ∈ integer_codes →
  va s = VaPtr p :: rest →
  convertsimple (PyFloat d) (String c fmt) flags bufsize s
  = Ret (Failed MsgBuf)
      (raised kTypeError "integer argument expected, got float"
         (set_va rest s)).
Proof.
  intros Hc Hva. unfold integer_codes in Hc.
  repeat (apply elem_of_cons in Hc as [->|Hc]);
    [..|by apply elem_of_nil in Hc];
    unfold convertsimple; simpl;
    unfold convert_b, convert_h, convert_i, convert_l, convert_ranged,
      convert_mask, convert_L, convert_n;
    by rewrite (bind_va_arg_ptr _ _ _ _ Hva).
Qed.

End IntegerCodes.

Section TextCodes.
Context {rt : Runtime}.

(** X13. For a [str] argument whose UTF-8 form is [d], the codes ['s'] and
    ['z'] without a length refuse an embedded NUL: they hand out the
    pointer exactly when [d] has none, and raise [ValueError] otherwise,
    leaving the caller's cell alone.  With ["#"] and [Py_ssize_t] lengths
    they always succeed: the pointer and the full length are stored,
    embedded NULs included. *)
Theorem text_codes_and_embedded_nul
    (c : ascii) (u d : string) (fmt : string) (flags : Z) (bufsize : nat)
    (a : Z) (t' : Thread) (s : State) :
  c = "s"%char ∨ c = "z"%char →
  PyUnicode_AsUTF8AndSize (PyUnicode u) (thread s) = (Some d, t') →
  (∀ rest,
     peek fmt ≠ "*"%char → peek fmt ≠ "#"%char →
     va s = VaPtr (PCell a) :: rest →
     convertsimple (PyUnicode u) (String c fmt) flags bufsize s
     = if strlen d =? slen d then
         Ret (Converted fmt)
           (stored a (CPtr (PData d)) rest (set_thread t' s))
       else
         Ret (Failed MsgBuf)
           (raised kValueError "embedded null character" (set_va rest s)))
  ∧ (∀ q rest,
       has_SIZE_T flags = true →
       va s = VaPtr (PCell a) :: VaPtr (PCell q) :: rest →
       convertsimple (PyUnicode u) (String c (String "#" fmt)) flags
         bufsize s
       = Ret (Converted fmt)
           (stored q (CInt (slen d)) rest
              (stored a (CPtr (PData d)) rest (set_thread t' s)))).
Proof.
  intros Hc Hutf. split.
  - intros rest Hstar Hhash Hva.
    assert (convert_s c (PyUnicode u) fmt flags bufsize s
            = if strlen d =? slen d then
                Ret (Converted fmt)
                  (stored a (CPtr (PData d)) rest (set_thread t' s))
              else
                Ret (Failed MsgBuf)
                  (raised kValueError "embedded null character"
                     (set_va rest s))) as Hrun.
    { unfold convert_s. cbv zeta.
      rewrite !decide_False by done.
      rewrite (bind_va_arg_ptr _ _ _ _ Hva).
      change (is_None (PyUnicode u)) with false.
      rewrite andb_false_r.
      change (PyUnicode_Check (PyUnicode u)) with true. cbv iota.
      rewrite (bind_liftT _ _ _ (Some d) t') by done.
      by destruct (strlen d =? slen d). }
    by destruct Hc as [-> | ->].
  - intros q rest Hsz Hva.
    assert (convert_s c (PyUnicode u) (String "#" fmt) flags bufsize s
            = Ret (Converted fmt)
                (stored q (CInt (slen d)) rest
                   (stored a (CPtr (PData d)) rest (set_thread t' s))))
      as Hrun.
    { unfold convert_s. cbv zeta. simpl peek.
      rewrite decide_False by done. rewrite decide_True by done.
      rewrite (bind_va_arg_ptr _ _ _ _ Hva).
      rewrite (bind_va_arg_ptr _ _ (PCell q) rest) by done.
      change (is_None (PyUnicode u)) with false.
      rewrite andb_false_r.
      change (PyUnicode_Check (PyUnicode u)) with true. cbv iota.
      rewrite (bind_liftT _ _ _ (Some d) t') by done.
      unfold STORE_SIZE. by rewrite Hsz. }
    by destruct Hc as [-> | ->].
Qed.

Lemma has_flag_self (flag : Z) : has_flag flag flag = true.
Proof. unfold has_flag. rewrite Z.land_diag. apply Z.eqb_refl. Qed.

(** X14. The code ["w*"] accepts no builtin bytes-like object: for a
    bytes, bytearray, memoryview or array argument it fails with "must be
    read-write bytes-like object", clears the error of the refused request,
    registers no cleanup and leaves the caller's [Py_buffer] unwritten. *)
Theorem w_star_refuses_builtin_sources
    (arg : PyObject) (fmt : string) (flags : Z) (bufsize : nat) (p : Ptr)
    (rest : list VaArg) (s : State) :
  builtin_bytes_like arg = true →
  memoryview_buffer_known arg = true →
  va s = VaPtr p :: rest →
  ∃ s',
    convertsimple arg (String "w" (String "*" fmt)) flags bufsize s
    = Ret (Failed (converterr "read-write bytes-like object" arg bufsize)) s'
    ∧ thread s' = mkThread None None
    ∧ mem s' = mem s ∧ refs s' = refs s ∧ blocks s' = blocks s
    ∧ hist s' = hist s ∧ freelist s' = freelist s ∧ va s' = rest.
Proof.
  intros Hkind Hmv Hva.
  change (convertsimple arg (String "w" (String "*" fmt)) flags bufsize)
    with (convert_w arg (String "*" fmt) bufsize).
  unfold convert_w. rewrite (bind_va_arg_ptr _ _ _ _ Hva). simpl.
  destruct (PyObject_GetBuffer_writable_returns arg p PyBUF_WRITABLE
              (set_va rest s) Hkind Hmv (has_flag_self _))
    as (r & s1 & Hget).
  destruct (PyObject_GetBuffer_not_writable _ _ _ _ _ _ Hkind
              (has_flag_self _) Hget)
    as (-> & Hm & Hr & Hb & Hh & Hf & Hv).
  unfold bind at 1. rewrite Hget. simpl.
  unfold PyErr_Clear, bind, modify, ret. eexists. split; [reflexivity|].
  simpl. by rewrite Hm, Hr, Hb, Hh, Hf, Hv.
Qed.

End TextCodes.

(** ** Code that leaves the va_list alone *)

Lemma keeps_va_ret {A} (a : A) : keeps_va (ret a).
Proof. by intros s a' s' [_ ->]%ret_Ret. Qed.

Lemma keeps_va_bind {A B} (m : M A) (k : A → M B) :
  keeps_va m → (∀ a, keeps_va (k a)) → keeps_va (bind m k).
Proof.
  intros Hm Hk s b s' H. apply bind_Ret in H as (a & s1 & Ha & H).
  rewrite (Hk _ _ _ _ H). by eapply Hm.
Qed.

Lemma keeps_va_undef {A} : keeps_va (@undef A).
Proof. by intros s a s'. Qed.

Lemma keeps_va_fatal {A} msg : keeps_va (@Py_FatalError A msg).
Proof. by intros s a s'. Qed.

Lemma keeps_va_get : keeps_va get.
Proof. by intros s a s' [_ ->]%get_Ret. Qed.

Lemma keeps_va_modify (f : State → State) :
  (∀ s, va (f s) = va s) → keeps_va (modify f).
Proof. intros Hf s a s' H. injection H as _ <-. apply Hf. Qed.

Lemma keeps_va_liftT {A} (f : Thread → A * Thread) : keeps_va (liftT f).
Proof. intros s a s' [_ ->]%liftT_Ret. done. Qed.

Lemma keeps_va_state_fn {A} (m : M A) :
  (∀ s, match m s with
        | Ret _ s' => va s' = va s
        | _ => True
        end) →
  keeps_va m.
Proof. intros H s a s' Hrun. specialize (H s). by rewrite Hrun in H. Qed.

Create HintDb kva discriminated.
#[export] Hint Resolve keeps_va_ret keeps_va_undef keeps_va_fatal
  keeps_va_get keeps_va_liftT : kva.

Ltac kva_step :=
  lazymatch goal with
  | |- keeps_va (bind _ _) => apply keeps_va_bind; [|intros ?]
  | |- keeps_va (if ?b then _ else _) => destruct b
  | |- keeps_va (match ?x with _ => _ end) => destruct x
  | |- keeps_va (let _ := _ in _) => cbv zeta
  | |- keeps_va (modify _) => by apply keeps_va_modify
  | |- keeps_va _ => solve [eauto with kva]
  end.
Ltac kva_auto := repeat kva_step.

Lemma keeps_va_raiseWithFmt l msg : keeps_va (raiseWithFmt l msg).
Proof. by apply keeps_va_modify. Qed.
Lemma keeps_va_PyErr_Format l msg : keeps_va (PyErr_Format l msg).
Proof. by apply keeps_va_modify. Qed.
Lemma keeps_va_PyErr_Occurred : keeps_va PyErr_Occurred.
Proof. unfold PyErr_Occurred. kva_auto. Qed.
Lemma keeps_va_PyErr_Clear : keeps_va PyErr_Clear.
Proof. by apply keeps_va_modify. Qed.
Lemma keeps_va_PyErr_NoMemory : keeps_va PyErr_NoMemory.
Proof. by apply keeps_va_modify. Qed.
Lemma keeps_va_Py_INCREF : keeps_va Py_INCREF.
Proof. by apply keeps_va_modify. Qed.
Lemma keeps_va_Py_DECREF : keeps_va Py_DECREF.
Proof. by apply keeps_va_modify. Qed.
#[export] Hint Resolve keeps_va_raiseWithFmt keeps_va_PyErr_Format
  keeps_va_PyErr_Occurred keeps_va_PyErr_Clear keeps_va_PyErr_NoMemory
  keeps_va_Py_INCREF keeps_va_Py_DECREF : kva.

Lemma keeps_va_nullError : keeps_va nullError.
Proof. unfold nullError. kva_auto. Qed.
Lemma keeps_va_newReference o : keeps_va (newReference o).
Proof. unfold newReference. kva_auto. Qed.
Lemma keeps_va_memcpy p d : keeps_va (memcpy p d).
Proof.
  destruct p; simpl; auto with kva.
  apply keeps_va_state_fn. intros s. by destruct (blocks s !! b).
Qed.
Lemma keeps_va_store p v : keeps_va (store p v).
Proof. destruct p; simpl; auto with kva. by apply keeps_va_modify. Qed.
Lemma keeps_va_load p : keeps_va (load p).
Proof.
  destruct p; simpl; auto with kva.
  apply keeps_va_state_fn. intros s. by destruct (mem s !! a).
Qed.
Lemma keeps_va_PyMem_NEW init : keeps_va (PyMem_NEW init).
Proof.
  apply keeps_va_state_fn. intros s. unfold PyMem_NEW.
  by destruct (alloc_budget s).
Qed.
#[export] Hint Resolve keeps_va_nullError keeps_va_newReference
  keeps_va_memcpy keeps_va_store keeps_va_load keeps_va_PyMem_NEW : kva.

Section KeepsVa.
Context {rt : Runtime}.

Lemma keeps_va_PyNumber_Index o : keeps_va (PyNumber_Index o).
Proof. unfold PyNumber_Index. kva_auto. Qed.
Lemma keeps_va_PyBuffer_FillInfo v e b n ro fl :
  keeps_va (PyBuffer_FillInfo v e b n ro fl).
Proof. unfold PyBuffer_FillInfo. kva_auto. Qed.
Lemma keeps_va_PyBuffer_Release v : keeps_va (PyBuffer_Release v).
Proof. unfold PyBuffer_Release. kva_auto. Qed.
Hint Resolve keeps_va_PyBuffer_FillInfo keeps_va_PyBuffer_Release : kva.
Lemma keeps_va_PyObject_GetBuffer o v fl :
  keeps_va (PyObject_GetBuffer o v fl).
Proof. unfold PyObject_GetBuffer, raiseBufferError. kva_auto. Qed.
Hint Resolve keeps_va_PyObject_GetBuffer : kva.
Lemma keeps_va_call_converter c a p : keeps_va (call_converter c a p).
Proof.
  apply keeps_va_state_fn. intros s. unfold call_converter.
  by destruct (conv_call _ _ _ _ _) as [[? ?] ?].
Qed.
Lemma keeps_va_float_argument_error a : keeps_va (float_argument_error a).
Proof. unfold float_argument_error. kva_auto. Qed.
Lemma keeps_va_load_view p : keeps_va (load_view p).
Proof. unfold load_view. kva_auto. Qed.
Hint Resolve keeps_va_load_view : kva.
Lemma keeps_va_is_contiguous p o : keeps_va (is_contiguous p o).
Proof. unfold is_contiguous. kva_auto. Qed.
Hint Resolve keeps_va_is_contiguous : kva.
Lemma keeps_va_getbuffer a v : keeps_va (getbuffer a v).
Proof. unfold getbuffer. kva_auto. Qed.
Hint Resolve keeps_va_getbuffer : kva.
Lemma keeps_va_convertbuffer a p : keeps_va (convertbuffer a p).
Proof. unfold convertbuffer. kva_auto. Qed.
Lemma keeps_va_strlen_at p : keeps_va (strlen_at p).
Proof.
  destruct p; simpl; auto with kva.
  apply keeps_va_state_fn. intros s. by destruct (blocks s !! b).
Qed.
Lemma keeps_va_BUFFER_LEN q : keeps_va (BUFFER_LEN q).
Proof. unfold BUFFER_LEN. kva_auto. Qed.
Lemma keeps_va_addcleanup p d : keeps_va (addcleanup p d).
Proof. unfold addcleanup, record_event. kva_auto. Qed.

End KeepsVa.

#[export] Hint Resolve keeps_va_PyNumber_Index keeps_va_PyBuffer_FillInfo
  keeps_va_PyBuffer_Release keeps_va_PyObject_GetBuffer
  keeps_va_call_converter keeps_va_float_argument_error keeps_va_load_view
  keeps_va_is_contiguous keeps_va_getbuffer keeps_va_convertbuffer
  keeps_va_strlen_at keeps_va_BUFFER_LEN keeps_va_addcleanup : kva.

(** ** Code that takes variadic arguments *)

Lemma takes_ret {A} (a : A) (Q : A → nat → Prop) : Q a 0%nat → takes (ret a) Q.
Proof.
  intros HQ s a' s' [-> ->]%ret_Ret. exists 0%nat.
  split; [lia|]. by rewrite drop_0.
Qed.

Lemma takes_undef {A} (Q : A → nat → Prop) : takes undef Q.
Proof. by intros s a s'. Qed.

Lemma takes_fatal {A} msg (Q : A → nat → Prop) : takes (Py_FatalError msg) Q.
Proof. by intros s a s'. Qed.

Lemma takes_bind_keeps {A B} (m : M A) (k : A → M B) (Q : B → nat → Prop) :
  keeps_va m → (∀ a, takes (k a) Q) → takes (bind m k) Q.
Proof.
  intros Hm Hk s b s' H. apply bind_Ret in H as (a & s1 & Ha & H).
  destruct (Hk _ _ _ _ H) as (n & Hn & Hd & HQ).
  rewrite (Hm _ _ _ Ha) in Hn, Hd. eauto.
Qed.

Lemma takes_bind_va {A B} (m : M A) (k : A → M B) (Q : B → nat → Prop) :
  (∀ s a s', m s = Ret a s' → ∃ x, va s = x :: va s') →
  (∀ a, takes (k a) (λ b n, Q b (S n))) → takes (bind m k) Q.
Proof.
  intros Hm Hk s b s' H. apply bind_Ret in H as (a & s1 & Ha & H).
  destruct (Hk _ _ _ _ H) as (n & Hn & Hd & HQ).
  destruct (Hm _ _ _ Ha) as (x & Hx).
  exists (S n). rewrite Hx. simpl. split; [lia|]. done.
Qed.

Lemma takes_weaken {A} (m : M A) (Q Q' : A → nat → Prop) :
  takes m Q → (∀ a n, Q a n → Q' a n) → takes m Q'.
Proof.
  intros Hm HQ s a s' H. destruct (Hm _ _ _ H) as (n & ? & ? & ?). eauto.
Qed.

Section TakesVa.
Context {rt : Runtime}.

Lemma va_arg_pops s a s' : va_arg s = Ret a s' → ∃ x, va s = x :: va s'.
Proof.
  unfold va_arg. destruct (va s) as [|x rest] eqn:Hva; [done|].
  intros [= <- <-]. by exists x.
Qed.

Lemma va_arg_ptr_pops s a s' :
  va_arg_ptr s = Ret a s' → ∃ x, va s = x :: va s'.
Proof.
  unfold va_arg_ptr. intros H. apply bind_Ret in H as (x & s1 & Hx & H).
  apply va_arg_pops in Hx. destruct x; try done. by injection H as _ <-.
Qed.

Lemma va_arg_type_pops s a s' :
  va_arg_type s = Ret a s' → ∃ x, va s = x :: va s'.
Proof.
  unfold va_arg_type. intros H. apply bind_Ret in H as (x & s1 & Hx & H).
  apply va_arg_pops in Hx. destruct x; try done. by injection H as _ <-.
Qed.

Lemma va_arg_converter_pops s a s' :
  va_arg_converter s = Ret a s' → ∃ x, va s = x :: va s'.
Proof.
  unfold va_arg_converter. intros H.
  apply bind_Ret in H as (x & s1 & Hx & H).
  apply va_arg_pops in Hx. destruct x; try done. by injection H as _ <-.
Qed.

Lemma va_arg_str_pops s a s' :
  va_arg_str s = Ret a s' → ∃ x, va s = x :: va s'.
Proof.
  unfold va_arg_str. intros H. apply bind_Ret in H as (x & s1 & Hx & H).
  apply va_arg_pops in Hx. destruct x; try done. by injection H as _ <-.
Qed.

End TakesVa.

Ltac takes_leaf :=
  first [apply takes_ret; exact I
        |apply takes_ret; simpl; solve [done | auto]].

Ltac takes_step :=
  lazymatch goal with
  | |- takes (bind va_arg_ptr _) _ =>
    apply takes_bind_va; [apply va_arg_ptr_pops|intros ?]
  | |- takes (bind va_arg_type _) _ =>
    apply takes_bind_va; [apply va_arg_type_pops|intros ?]
  | |- takes (bind va_arg_converter _) _ =>
    apply takes_bind_va; [apply va_arg_converter_pops|intros ?]
  | |- takes (bind va_arg_str _) _ =>
    apply takes_bind_va; [apply va_arg_str_pops|intros ?]
  | |- takes (bind _ _) _ =>
    apply takes_bind_keeps; [solve [kva_auto]|intros ?]
  | |- takes (if ?b then _ else _) _ => destruct b eqn:?
  | |- takes (match ?x with _ => _ end) _ => destruct x eqn:?
  | |- takes (let _ := _ in _) _ => cbv zeta
  | |- takes (ret _) _ => takes_leaf
  | |- takes undef _ => apply takes_undef
  | |- takes (Py_FatalError _) _ => apply takes_fatal
  end.
Ltac takes_auto := repeat takes_step.

Section Extents.
Context {rt : Runtime}.

Lemma takes_convert_ranged arg format lo hi bits u lf :
  takes (convert_ranged arg format lo hi bits u lf) (converted_with format 1).
Proof. unfold convert_ranged, RETURN_ERR_OCCURRED. takes_auto. Qed.

Lemma takes_convert_mask arg format bits :
  takes (convert_mask arg format bits) (converted_with format 1).
Proof. unfold convert_mask, RETURN_ERR_OCCURRED. takes_auto. Qed.

Lemma takes_convert_n arg format :
  takes (convert_n arg format) (converted_with format 1).
Proof. unfold convert_n, RETURN_ERR_OCCURRED. takes_auto. Qed.

Lemma takes_convert_k arg format bufsize mask :
  takes (convert_k arg format bufsize mask) (converted_with format 1).
Proof. unfold convert_k. takes_auto. Qed.

Lemma takes_convert_L arg format :
  takes (convert_L arg format) (converted_with format 1).
Proof. unfold convert_L, RETURN_ERR_OCCURRED. takes_auto. Qed.

Lemma takes_convert_fd arg format narrow :
  takes (convert_fd arg format narrow) (converted_with format 1).
Proof. unfold convert_fd, RETURN_ERR_OCCURRED. takes_auto. Qed.

Lemma takes_convert_D arg format :
  takes (convert_D arg format) (converted_with format 1).
Proof. unfold convert_D, RETURN_ERR_OCCURRED. takes_auto. Qed.

Lemma takes_convert_c arg format bufsize :
  takes (convert_c arg format bufsize) (converted_with format 1).
Proof. unfold convert_c. takes_auto. Qed.

Lemma takes_convert_C arg format bufsize :
  takes (convert_C arg format bufsize) (converted_with format 1).
Proof. unfold convert_C, RETURN_ERR_OCCURRED. takes_auto. Qed.

Lemma takes_convert_p arg format :
  takes (convert_p arg format) (converted_with format 1).
Proof. unfold convert_p, RETURN_ERR_OCCURRED. takes_auto. Qed.

Lemma takes_convert_kind arg format bufsize check expected :
  takes (convert_kind arg format bufsize check expected)
    (converted_with format 1).
Proof. unfold convert_kind. takes_auto. Qed.

Lemma takes_convert_U arg format bufsize :
  takes (convert_U arg format bufsize) (converted_with format 1).
Proof. unfold convert_U, RETURN_ERR_OCCURRED. takes_auto. Qed.

Lemma takes_convert_y arg format flags bufsize :
  takes (convert_y arg format flags bufsize)
    (λ r n, match r with
            | Converted f =>
              if decide (peek format = "*"%char) then
                f = advance format ∧ n = 1%nat
              else if decide (peek format = "#"%char) then
                f = advance format ∧ n = 2%nat
              else f = format ∧ n = 1%nat
            | Failed _ => True
            end).
Proof.
  unfold convert_y, STORE_SIZE, RETURN_ERR_OCCURRED.
  destruct (decide (peek format = "*"%char));
    [|destruct (decide (peek format = "#"%char))]; takes_auto.
Qed.

Lemma takes_convert_s c arg format flags bufsize :
  takes (convert_s c arg format flags bufsize)
    (λ r n, match r with
            | Converted f =>
              if decide (peek format = "*"%char) then
                f = advance format ∧ n = 1%nat
              else if decide (peek format = "#"%char) then
                f = advance format ∧ n = 2%nat
              else f = format ∧ n = 1%nat
            | Failed _ => True
            end).
Proof.
  unfold convert_s, STORE_SIZE, RETURN_ERR_OCCURRED. cbv zeta.
  destruct (decide (peek format = "*"%char));
    [|destruct (decide (peek format = "#"%char))]; takes_auto.
Qed.

Lemma takes_convert_u c arg format flags bufsize :
  takes (convert_u c arg format flags bufsize)
    (λ r n, match r with
            | Converted f =>
              if decide (peek format = "#"%char) then
                f = advance format ∧ n = 2%nat
              else f = format ∧ n = 1%nat
            | Failed _ => True
            end).
Proof.
  unfold convert_u, STORE_SIZE, RETURN_ERR_OCCURRED. cbv zeta.
  apply takes_bind_va; [apply va_arg_ptr_pops|intros p].
  destruct (decide (peek format = "#"%char)); takes_auto.
Qed.

Lemma takes_convert_e_write arg format flags bufsize buffer data :
  takes (convert_e_write arg format flags bufsize buffer data)
    (λ r n, match r with
            | Converted f =>
              if decide (peek format = "#"%char) then
                f = advance format ∧ n = 1%nat
              else f = format ∧ n = 0%nat
            | Failed _ => True
            end).
Proof.
  unfold convert_e_write, STORE_SIZE, RETURN_ERR_OCCURRED. cbv zeta.
  destruct (decide (peek format = "#"%char)); takes_auto.
Qed.

Lemma takes_convert_e arg format flags bufsize :
  takes (convert_e arg format flags bufsize)
    (λ r n, match r with
            | Converted f =>
              negb (bool_decide (peek format = "s"%char)
                    || bool_decide (peek format = "t"%char)) = false
              ∧ if decide (peek (advance format) = "#"%char) then
                  f = advance (advance format) ∧ n = 3%nat
                else f = advance format ∧ n = 2%nat
            | Failed _ => True
            end).
Proof.
  unfold convert_e, PyObject_AsCharBuffer, UNIMPLEMENTED. cbv zeta.
  apply takes_bind_va; [apply va_arg_str_pops|intros e].
  destruct (negb _) eqn:Hst; [takes_auto|].
  apply takes_bind_va; [apply va_arg_ptr_pops|intros buffer].
  destruct buffer; try takes_auto;
    (eapply takes_weaken; [apply takes_convert_e_write|]);
    intros [msg|f] n; try done; simpl;
    destruct (decide (peek (advance format) = "#"%char)); naive_solver.
Qed.

Lemma takes_convert_O arg format bufsize :
  takes (convert_O arg format bufsize)
    (λ r n, match r with
            | Converted f =>
              if decide (peek format = "!"%char) then
                f = advance format ∧ n = 2%nat
              else if decide (peek format = "&"%char) then
                f = advance format ∧ n = 2%nat
              else f = format ∧ n = 1%nat
            | Failed _ => True
            end).
Proof.
  unfold convert_O.
  destruct (decide (peek format = "!"%char));
    [|destruct (decide (peek format = "&"%char))]; takes_auto.
Qed.

End Extents.

Lemma switch_cases {A} (P : A → Prop) (c : ascii) (cases : list (ascii * A))
    (default : A) :
  Forall (λ kb, c = kb.1 → P kb.2) cases → P default →
  P (switch c cases default).
Proof.
  intros Hcases Hd. induction Hcases as [|[k body] rest Hb _ IH]; simpl.
  - exact Hd.
  - destruct (decide (c = k)) as [Hc|_]; [by apply Hb|exact IH].
Qed.

Section Agreement.
Context {rt : Runtime}.

Lemma takes_convertsimple arg p_format flags bufsize :
  peek p_format ≠ "w"%char →
  takes (convertsimple arg p_format flags bufsize)
    (converted_extent p_format).
Proof.
  intros Hw. unfold convertsimple. cbv zeta.
  destruct p_format as [|c format]; simpl peek; simpl advance.
  { apply switch_cases; [|by apply takes_ret].
    repeat constructor; simpl; intros Hc; discriminate. }
  simpl in Hw. apply switch_cases; [|by apply takes_ret].
  repeat constructor; simpl; intros Hc; try subst c; try done;
    unfold convert_b, convert_h, convert_i, convert_l;
    (eapply takes_weaken;
     [first [apply takes_convert_ranged | apply takes_convert_mask
            | apply takes_convert_n | apply takes_convert_k
            | apply takes_convert_L | apply takes_convert_fd
            | apply takes_convert_D | apply takes_convert_c
            | apply takes_convert_C | apply takes_convert_p
            | apply takes_convert_kind | apply takes_convert_U
            | apply takes_convert_y | apply takes_convert_s
            | apply takes_convert_u | apply takes_convert_e
            | apply takes_convert_O]
     |intros [msg|f] n; [by simpl|];
      unfold converted_extent, skipped_extent, converted_with; simpl;
      repeat case_decide; repeat case_bool_decide; try congruence;
      naive_solver]).
Qed.

Lemma takes_convert_w arg format bufsize :
  takes (convert_w arg format bufsize)
    (λ r n, match r with
            | Converted f => format = String "*" f ∧ n = 1%nat
            | Failed _ => True
            end).
Proof.
  unfold convert_w.
  apply takes_bind_va; [apply va_arg_ptr_pops|intros p].
  destruct (negb _) eqn:Hstar; [takes_auto|].
  apply negb_false_iff, bool_decide_eq_true in Hstar.
  destruct format as [|c f]; [done|]. simpl in Hstar. subst c.
  takes_auto.
Qed.

(** What [skipitem] does with a simple code when the va_list is long
    enough. *)
Lemma skipitem_run p_format flags f n s :
  skipped_extent p_format = Some (f, n) →
  (n ≤ length (va s))%nat →
  skipitem p_format true flags s = Ret (inr f) (set_va (drop n (va s)) s).
Proof.
  intros Hext Hn. unfold skipitem.
  replace (2 * String.length p_format + 2)%nat
    with (S (2 * String.length p_format + 1)) by lia.
  cbn [skipitem_fuel]. unfold skipped_extent in Hext. cbv zeta in Hext.
  unfold skip_string_code.
  destruct (char_in (peek p_format) single_pointer_codes).
  { simplify_eq. destruct (va s) as [|x1 rest] eqn:Hva; simpl in Hn; [lia|].
    unfold skip_va, va_arg, bind, ret. by rewrite Hva. }
  destruct (decide (peek p_format = "e"%char)) as [He|_].
  { rewrite He.
    change (char_in "e" ["s"; "z"; "y"]%char) with false.
    destruct (negb _); [done|].
    destruct (decide _); simplify_eq;
      destruct (va s) as [|x1 [|x2 [|x3 rest]]] eqn:Hva; simpl in Hn;
      try lia; unfold skip_va, va_arg, bind, ret; by rewrite Hva. }
  destruct (char_in (peek p_format) string_codes).
  { destruct (decide _); [|destruct (_ && _)]; simplify_eq;
      destruct (va s) as [|x1 [|x2 rest]] eqn:Hva; simpl in Hn;
      try lia; unfold skip_va, va_arg, bind, ret; by rewrite Hva. }
  destruct (decide (peek p_format = "O"%char)) as [HO|_]; [|done].
  destruct (decide _); [|destruct (decide _)]; simplify_eq;
    destruct (va s) as [|x1 [|x2 rest]] eqn:Hva; simpl in Hn;
    try lia; unfold skip_va, va_arg, bind, ret; by rewrite Hva.
Qed.

(** X15. [skipitem] passes over exactly what [convertsimple] takes: when a
    simple code converts an argument, skipping the same code from the same
    place leaves the same rest of the descriptor and the same variadic
    arguments, so an optional argument that is not supplied keeps the
    caller's pointers aligned.  The one exception is ["w*"], where
    [skipitem] leaves the ["*"] in the descriptor. *)
Theorem skipitem_passes_what_convertsimple_takes
    (arg : PyObject) (p_format : string) (flags : Z) (bufsize : nat)
    (s : State) (f : string) (s' : State) :
  convertsimple arg p_format flags bufsize s = Ret (Converted f) s' →
  (peek p_format ≠ "w"%char →
   skipitem p_format true flags s = Ret (inr f) (set_va (va s') s))
  ∧ (peek p_format = "w"%char →
     skipitem p_format true flags s
     = Ret (inr (String "*" f)) (set_va (va s') s)).
Proof.
  intros Hrun. split.
  - intros Hw.
    destruct (takes_convertsimple arg p_format flags bufsize Hw _ _ _ Hrun)
      as (n & Hn & -> & Hext).
    by apply skipitem_run.
  - intros Hw. destruct p_format as [|c format]; [done|].
    simpl in Hw. subst c.
    change (convertsimple arg (String "w" format) flags bufsize)
      with (convert_w arg format bufsize) in Hrun.
    destruct (takes_convert_w arg format bufsize _ _ _ Hrun)
      as (n & Hn & -> & -> & ->).
    by apply skipitem_run.
Qed.

End Agreement.

Section KeywordLookup.
Context {rt : Runtime}.

Lemma name_matches (kwname : PyObject) (key : string) :
  PyUnicode_Check kwname && _PyUnicode_EqualToASCIIString kwname key = true
  ↔ kwname = PyUnicode key.
Proof.
  split.
  - destruct kwname; try done. simpl. by intros ->%bool_decide_eq_true.
  - intros ->. simpl. by apply bool_decide_eq_true.
Qed.

(** X16. [findKeyword] returns the value that stands where the first
    name equal to the key stands, and null when no name is equal to it;
    names that are not strings are passed over.  It reads the array of
    values only at the place of the match. *)
Theorem findKeyword_first_match
    (names kwstack : list PyObject) (key : string) :
  (PyUnicode key ∉ names →
   findKeyword (PyTuple names) kwstack key = Some None)
  ∧ (∀ i v,
       names !! i = Some (PyUnicode key) →
       (∀ j, (j < i)%nat → names !! j ≠ Some (PyUnicode key)) →
       kwstack !! i = Some v →
       findKeyword (PyTuple names) kwstack key = Some (Some v)).
Proof.
  unfold findKeyword. simpl. split.
  - revert kwstack. induction names as [|n names IH]; intros kwstack Hnot;
      [done|]. simpl.
    destruct (PyUnicode_Check n && _PyUnicode_EqualToASCIIString n key)
      eqn:Hm.
    + apply name_matches in Hm as ->. exfalso. apply Hnot. by left.
    + apply IH. intros Hin. apply Hnot. by right.
  - revert kwstack.
    induction names as [|n names IH]; intros kwstack i v Hi Hfirst Hv;
      [done|]. simpl.
    destruct i as [|i].
    + injection Hi as ->.
      assert (PyUnicode_Check (PyUnicode key)
              && _PyUnicode_EqualToASCIIString (PyUnicode key) key = true)
        as -> by by apply name_matches.
      destruct kwstack; [done|]. by injection Hv as ->.
    + destruct (PyUnicode_Check n && _PyUnicode_EqualToASCIIString n key)
        eqn:Hm.
      * apply name_matches in Hm as ->.
        by destruct (Hfirst 0%nat ltac:(lia)).
      * destruct kwstack as [|w kwstack]; [done|].
        apply (IH kwstack i v); [done| |done].
        intros j Hj. apply (Hfirst (S j)). lia.
Qed.

End KeywordLookup.

Lemma trunc_short (n : nat) (t : string) :
  (String.length t ≤ n)%nat → trunc n t = t.
Proof.
  unfold trunc. revert n. induction t as [|c t IH]; intros n Hn.
  - by destruct n.
  - destruct n as [|n]; simpl in *; [lia|]. rewrite IH; [done|lia].
Qed.

Lemma set_mem_va_id s : set_mem (mem s) (set_va (va s) s) = s.
Proof. by destruct s. Qed.

Section Unpackers.
Context {rt : Runtime}.

Lemma unpackStack_loop_run (cells : list Z) :
  ∀ (i : Z) (args : list PyObject) (rest : list VaArg) (s : State),
    0 ≤ i → (Z.to_nat i + length cells ≤ length args)%nat →
    va s = object_pointers cells ++ rest →
    unpackStack_loop (length cells) i args s
    = Ret tt (set_mem (store_objects cells (drop (Z.to_nat i) args) (mem s))
                (set_va rest s)).
Proof.
  induction cells as [|c cells IH]; intros i args rest s Hi Hlen Hva.
  - simpl in *. unfold store_objects. simpl. rewrite <- Hva.
    by rewrite set_mem_va_id.
  - simpl in Hlen. cbn [length unpackStack_loop].
    rewrite (bind_va_arg_ptr _ _ _ _ Hva).
    destruct (args !! Z.to_nat i) as [it|] eqn:Hit.
    2:{ apply lookup_ge_None in Hit. lia. }
    unfold store. rewrite bind_modify.
    rewrite (IH (i + 1) args rest); [|lia|lia|done].
    rewrite (drop_S _ _ _ Hit).
    replace (Z.to_nat (i + 1)) with (S (Z.to_nat i)) by lia.
    reflexivity.
Qed.

Lemma tuple_loop_is_stack_loop (k : nat) (i : Z) (items : list PyObject)
    (s : State) :
  PyArg_UnpackTuple_loop k i (PyTuple items) s = unpackStack_loop k i items s.
Proof.
  revert i s. induction k as [|k IH]; intros i s; [done|]. simpl.
  apply bind_ext_at. intros o s1. destruct (items !! Z.to_nat i); [|done].
  apply bind_ext_at. intros _ s2. apply IH.
Qed.

(** X17. With [0 <= min <= max], [_PyArg_UnpackStack] and
    [_PyArg_CheckPositional] accept exactly the counts from [min] to
    [max].  An accepted array is handed out whole: the objects are stored
    through the caller's pointers in order, as borrowed references, and no
    exception is touched.  A refused one raises [TypeError] and writes
    through no pointer. *)
Theorem positional_unpackers_accept_min_to_max
    (args : list PyObject) (name : option string) (min max : Z)
    (cells : list Z) (rest : list VaArg) (s : State) :
  0 ≤ min ≤ max →
  let nargs := Z.of_nat (length args) in
  (min ≤ nargs ≤ max →
   length cells = length args →
   va s = object_pointers cells ++ rest →
   _PyArg_UnpackStack args nargs name min max s
   = Ret 1 (set_mem (store_objects cells args (mem s)) (set_va rest s))
   ∧ _PyArg_CheckPositional name nargs min max s = Ret 1 s)
  ∧ (nargs < min ∨ max < nargs →
     refused (_PyArg_UnpackStack args nargs name min max) s
     ∧ refused (_PyArg_CheckPositional name nargs min max) s).
Proof.
  intros Hb nargs.
  assert ((min >=? 0) = true) as Hd1 by lia.
  assert ((min <=? max) = true) as Hd2 by lia.
  unfold _PyArg_UnpackStack, unpackStack, _PyArg_CheckPositional,
    DCHECK_BOUND, DCHECK.
  rewrite Hd1, Hd2. simpl. rewrite !bind_ret_l. split.
  - intros Hin Hlen Hva.
    assert ((nargs <? min) = false) as -> by lia.
    assert ((nargs >? max) = false) as -> by lia.
    split; [|done].
    destruct (Z.eqb_spec nargs 0) as [H0|H0].
    + assert (args = []) as -> by (apply nil_length_inv; lia).
      destruct cells; [|done]. simpl in Hva. unfold store_objects. simpl.
      rewrite <- Hva. by rewrite set_mem_va_id.
    + unfold nargs. rewrite Nat2Z.id, <- Hlen.
      rewrite (bind_Ret_intro _ _ _ _ _
                 (unpackStack_loop_run cells 0 args rest s ltac:(lia)
                    ltac:(simpl; lia) Hva)).
      done.
  - intros [Hlo|Hhi].
    + assert ((nargs <? min) = true) as -> by lia.
      split; destruct name; by eexists.
    + assert ((nargs <? min) = false) as -> by lia.
      assert ((nargs =? 0) = false) as -> by lia.
      assert ((nargs >? max) = true) as -> by lia.
      split; destruct name; by eexists.
Qed.

(** X18. On a tuple, [PyArg_UnpackTuple] is [_PyArg_UnpackStack] on its
    items, for a function name of at most 200 characters: the same
    result, the same stores and the same message.  An argument list that
    is not a tuple is a [SystemError], and nothing is stored. *)
Theorem PyArg_UnpackTuple_is_UnpackStack
    (args : PyObject) (name : option string) (min max : Z) (s : State) :
  0 ≤ min ≤ max →
  (∀ n, name = Some n → (String.length n ≤ 200)%nat) →
  (∀ items, args = PyTuple items →
     PyArg_UnpackTuple args name min max s
     = _PyArg_UnpackStack items (Z.of_nat (length items)) name min max s)
  ∧ (PyTuple_Check args = false →
     PyArg_UnpackTuple args name min max s
     = Ret 0 (raised kSystemError
                "PyArg_UnpackTuple() argument list is not a tuple" s)).
Proof.
  intros Hb Hname.
  assert ((min >=? 0) = true) as Hd1 by lia.
  assert ((min <=? max) = true) as Hd2 by lia.
  split.
  - intros items ->.
    unfold PyArg_UnpackTuple, _PyArg_UnpackStack, unpackStack, DCHECK.
    rewrite Hd1, Hd2. rewrite !bind_ret_l. simpl.
    assert (∀ n, name = Some n → trunc 200 n = n) as Ht.
    { intros n Hn. apply trunc_short. by apply Hname. }
    destruct (_ <? min).
    { destruct name as [n|]; [|done]. by rewrite (Ht n eq_refl). }
    destruct (_ =? 0); [done|].
    destruct (_ >? max).
    { destruct name as [n|]; [|done]. by rewrite (Ht n eq_refl). }
    apply bind_ext_at_run. apply tuple_loop_is_stack_loop.
  - intros Hnt. unfold PyArg_UnpackTuple, DCHECK.
    rewrite Hd1, Hd2. rewrite !bind_ret_l. by rewrite Hnt.
Qed.

End Unpackers.

Section Arity.
Context {rt : Runtime}.

Lemma scan_format_pure format level max min s sc s' :
  scan_format format level max min s = Ret sc s' → s' = s.
Proof.
  revert level max min.
  induction format as [|c rest IH]; intros level max min; simpl.
  - by intros [= _ <-].
  - repeat case_decide; try (by intros [= _ <-]); try apply IH.
    + destruct (_ >=? 30); [done|apply IH].
    + destruct (level =? 0); [done|apply IH].
Qed.

(** X19. A count of positional arguments outside the bounds of the
    descriptor is refused before anything is converted: the call returns
    0 with [TypeError] (the descriptor's own message after [";"], or the
    text that names the function and the bound), and the caller's cells,
    the variadic arguments and the native blocks are as they were.  When
    the cleanup list needs a block that cannot be had, the error is
    [MemoryError] instead. *)
Theorem wrong_count_refused_before_conversion
    (compat_args : option PyObject) (stack : list PyObject) (nargs : Z)
    (format : string) (flags : Z) (sc : Scan) (s s0 : State) :
  Z.land flags FLAG_COMPAT = 0 →
  scan_format format 0 0 (-1) s = Ret sc s0 →
  scan_level sc = 0 →
  blocks_bounded s →
  nargs < arity_min sc ∨ arity_max sc < nargs →
  ∃ s',
    vGetArgs1Impl compat_args stack nargs format flags s = Ret 0 s'
    ∧ thread s'
      = (if (arity_max sc >? STATIC_FREELIST_ENTRIES)
            && bool_decide (alloc_budget s = 0%nat)
         then mkThread (Some (typeAt kMemoryError)) None
         else mkThread (Some (typeAt kTypeError))
                (Some (arity_message sc nargs)))
    ∧ mem s' = mem s ∧ va s' = va s ∧ blocks s' = blocks s
    ∧ hist s' = hist s ∧ refs s' = refs s.
Proof.
  intros Hcompat Hscan Hlevel Hbounded Hout.
  pose proof (scan_format_pure _ _ _ _ _ _ _ Hscan) as ->.
  unfold vGetArgs1Impl. cbv zeta.
  rewrite (bind_Ret_intro _ _ _ _ _ Hscan). rewrite Hlevel.
  change (negb (0 =? 0)) with false. cbv iota.
  unfold freelist_static. rewrite bind_modify.
  rewrite Hcompat. change (negb (0 =? 0)) with false. cbv iota.
  assert ((nargs <? arity_min sc) || (arity_max sc <? nargs) = true) as Harity
    by lia.
  unfold arity_message, arity_min, arity_max in *.
  unfold freelist_malloc.
  destruct (scan_max sc >? STATIC_FREELIST_ENTRIES) eqn:Hbig.
  - unfold PyMem_NEW at 1. unfold bind at 1. unfold bind at 1. simpl.
    destruct (alloc_budget s) as [|n] eqn:Hbudget.
    + eexists. split; [reflexivity|]. simpl. done.
    + simpl. rewrite Harity.
      assert (blocks s !! next_block s = None) as Hfresh.
      { apply not_elem_of_dom. intros Hin. apply Hbounded in Hin. lia. }
      unfold cleanreturn, PyErr_Format, raiseWithFmt, bind, modify, get, ret.
      destruct (scan_message sc) eqn:Hm; simpl; rewrite lookup_insert_eq;
        (eexists; split; [reflexivity|]); simpl;
        rewrite delete_insert_id by done; done.
  - rewrite bind_ret_l. simpl negb. cbv iota. rewrite Harity.
    unfold cleanreturn, PyErr_Format, raiseWithFmt, bind, modify, get, ret.
    destruct (scan_message sc) eqn:Hm; simpl;
      (eexists; split; [reflexivity|]); simpl; done.
Qed.

End Arity.

Lemma key_present_elem (keys : list PyObject) (name : string) :
  key_present keys name = true → PyUnicode name ∈ keys.
Proof.
  unfold key_present. intros (k & Hin & Hk)%existsb_exists.
  apply list_elem_of_In in Hin. by apply name_matches in Hk as ->.
Qed.

Lemma key_present_intro (keys : list PyObject) (name : string) :
  PyUnicode name ∈ keys → key_present keys name = true.
Proof.
  intros Hin. unfold key_present. apply existsb_exists.
  exists (PyUnicode name). split; [by apply list_elem_of_In|].
  by apply name_matches.
Qed.

Lemma dict_find_present (items : list (PyObject * PyObject)) (name : string) :
  is_Some (dict_find items name) → key_present items.*1 name = true.
Proof.
  intros [v Hv]. apply key_present_intro.
  induction items as [|[k w] items IH]; [done|]. simpl in Hv.
  destruct (_PyUnicode_EqualToASCIIString k name) eqn:Hk.
  - destruct k; try done. simpl in Hk.
    apply bool_decide_eq_true in Hk as ->. by left.
  - right. by apply IH.
Qed.

Lemma findKeyword_present (names kwstack : list PyObject) (key : string)
    (v : PyObject) :
  findKeyword_from names kwstack key = Some (Some v) →
  key_present names key = true.
Proof.
  revert kwstack. induction names as [|n names IH]; intros kwstack; [done|].
  cbn [findKeyword_from].
  destruct (PyUnicode_Check n && _PyUnicode_EqualToASCIIString n key) eqn:Hn.
  - intros _. apply key_present_intro. apply name_matches in Hn as ->.
    by left.
  - intros H. apply IH in H. apply key_present_elem in H.
    apply key_present_intro. by right.
Qed.

Lemma names_before_sublist (kwlist : list string) (pos i : nat) :
  drop pos (take i kwlist) `sublist_of` drop pos kwlist.
Proof.
  destruct (decide (pos ≤ i)%nat) as [Hle|Hgt].
  - replace i with (pos + (i - pos))%nat by lia.
    rewrite <- take_drop_commute. apply sublist_take.
  - rewrite drop_ge; [apply sublist_nil_l|]. rewrite length_take. lia.
Qed.

(** A key that is none of the names leaves one keyword argument over,
    however many names are looked up. *)
Lemma names_found_bound (keys : list PyObject) (kwlist : list string)
    (pos i : Z) (key : PyObject) :
  NoDup (drop (Z.to_nat pos) kwlist) →
  key ∈ keys →
  (∀ name, name ∈ drop (Z.to_nat pos) kwlist → key ≠ PyUnicode name) →
  (names_found keys kwlist pos i < length keys)%nat.
Proof.
  intros Hnd Hkey Hbad. unfold names_found.
  set (names := filter _ _).
  apply elem_of_Permutation in Hkey as [others Hperm].
  rewrite Hperm. simpl.
  assert (length names ≤ length others)%nat; [|lia].
  rewrite <- (length_fmap PyUnicode names). apply submseteq_length.
  apply NoDup_submseteq.
  - apply NoDup_fmap_2_strong; [by intros x y _ _ [= ->]|].
    apply NoDup_filter.
    eapply sublist_NoDup; [done|apply names_before_sublist].
  - intros x Hx. apply list_elem_of_fmap in Hx as (name & -> & Hname).
    apply list_elem_of_filter in Hname as [Hpresent Hin].
    apply key_present_elem in Hpresent. rewrite Hperm in Hpresent.
    apply elem_of_cons in Hpresent as [Heq|Hin']; [|done].
    exfalso. apply (Hbad name); [|done].
    eapply elem_of_sublist; [exact Hin|apply names_before_sublist].
Qed.

Lemma names_found_step (keys : list PyObject) (kwlist : list string)
    (pos i : Z) (name : string) :
  0 ≤ i → kwlist !! Z.to_nat i = Some name →
  names_found keys kwlist pos (i + 1)
  = (names_found keys kwlist pos i
     + if (i >=? pos) && key_present keys name then 1 else 0)%nat.
Proof.
  intros Hi Hname. unfold names_found.
  replace (Z.to_nat (i + 1)) with (S (Z.to_nat i)) by lia.
  pose proof (lookup_lt_Some _ _ _ Hname) as Hlen.
  destruct (Z.geb_spec i pos) as [Hge|Hlt].
  - rewrite (take_S_r _ _ _ Hname).
    rewrite drop_app_le by (rewrite length_take; lia).
    rewrite filter_app, length_app. f_equal. simpl.
    rewrite filter_cons, filter_nil.
    by case_decide; destruct (key_present keys name).
  - simpl. rewrite !drop_ge by (rewrite length_take; lia). done.
Qed.

Lemma names_found_mono (keys : list PyObject) (kwlist : list string)
    (pos i : Z) :
  0 ≤ i →
  (names_found keys kwlist pos i ≤ names_found keys kwlist pos (i + 1))%nat.
Proof.
  intros Hi. destruct (kwlist !! Z.to_nat i) as [name|] eqn:Hname.
  - rewrite (names_found_step _ _ _ _ _ Hi Hname). lia.
  - unfold names_found. apply lookup_ge_None in Hname.
    rewrite !take_ge by lia. done.
Qed.

Lemma keywords_left_next (keys : list PyObject) (kwlist : list string)
    (pos i nk : Z) :
  keywords_left keys kwlist pos i nk →
  keywords_left keys kwlist pos (i + 1) nk.
Proof.
  intros [Hi Hleft]. split; [lia|].
  pose proof (names_found_mono keys kwlist pos i Hi). lia.
Qed.

Lemma keywords_left_found (keys : list PyObject) (kwlist : list string)
    (pos i nk : Z) (name : string) :
  kwlist !! Z.to_nat i = Some name →
  (i >=? pos) = true → key_present keys name = true →
  keywords_left keys kwlist pos i nk →
  keywords_left keys kwlist pos (i + 1) (nk - 1).
Proof.
  intros Hname Hge Hpresent [Hi Hleft]. split; [lia|].
  rewrite (names_found_step _ _ _ _ _ Hi Hname), Hge, Hpresent. simpl. lia.
Qed.

Lemma keywords_left_positive (keys : list PyObject) (kwlist : list string)
    (pos i nk : Z) (key : PyObject) :
  NoDup (drop (Z.to_nat pos) kwlist) →
  key ∈ keys →
  (∀ name, name ∈ drop (Z.to_nat pos) kwlist → key ≠ PyUnicode name) →
  keywords_left keys kwlist pos i nk → 0 < nk.
Proof.
  intros Hnd Hkey Hbad [Hi Hleft].
  pose proof (names_found_bound keys kwlist pos i key Hnd Hkey Hbad). lia.
Qed.

Lemma bind_ret_l_fun {A B} (a : A) (k : A → M B) : bind (ret a) k = k a.
Proof. reflexivity. Qed.

Lemma bind_undef_fun {A B} (k : A → M B) : bind undef k = undef.
Proof. reflexivity. Qed.

Section RefusedBlocks.
Context {rt : Runtime}.

Lemma yields_cleanreturn_refused {A} (P : A → Prop) :
  yields (r <- cleanreturn 0 ;; ret (Return r)) (refused_or P).
Proof.
  eapply yields_bind_post; [apply yields_cleanreturn|].
  intros r ->. by apply yields_ret.
Qed.

Lemma yields_fail_with_refused {A} (P : A → Prop) l msg :
  yields (fail_with l msg) (refused_or P).
Proof.
  unfold fail_with. apply yields_bind. intros _.
  apply yields_cleanreturn_refused.
Qed.

End RefusedBlocks.

Ltac yk_leaf :=
  apply yields_ret; simpl; unfold same_count; simpl;
  solve [done | auto | lia].

Ltac yk_step :=
  lazymatch goal with
  | |- yields (bind (cleanreturn 0) (λ r, ret (Return r))) _ =>
    apply yields_cleanreturn_refused
  | |- yields (cleanreturn 0) _ =>
    eapply yields_weaken; [apply yields_cleanreturn|by intros ? ->]
  | |- yields (fail_with _ _) _ => apply yields_fail_with_refused
  | |- yields (bind _ _) _ => apply yields_bind; intros ?
  | |- yields (if ?b then _ else _) _ => destruct b eqn:?
  | |- yields (match ?x with _ => _ end) _ => destruct x eqn:?
  | |- yields (let _ := _ in _) _ => cbv zeta
  | |- yields (ret _) _ => yk_leaf
  | |- yields undef _ => apply yields_undef
  | |- yields (Py_FatalError _) _ => apply yields_fatal
  end.
Ltac yk := repeat yk_step.

Section UnknownKeyword.
Context {rt : Runtime}.
Context (items : list (PyObject * PyObject)) (kwlist : list string).
Context (pos : Z) (key : PyObject).
Context (Hnd : NoDup (drop (Z.to_nat pos) kwlist)).
Context (Hkey : key ∈ items.*1).
Context (Hbad : ∀ name, name ∈ drop (Z.to_nat pos) kwlist →
                        key ≠ PyUnicode name).

Lemma left_at_positive (v : KwVars) : keywords_left_at items.*1 kwlist pos v → 0 < kw_nkeywords v.
Proof. by apply keywords_left_positive with key. Qed.

Lemma left_at_same (v v' : KwVars) :
  same_count v v' → keywords_left_at items.*1 kwlist pos v → keywords_left_at items.*1 kwlist pos v'.
Proof. unfold keywords_left_at. by intros [-> ->]. Qed.

Lemma yields_kw_bar_same (v : KwVars) :
  yields (kw_bar v) (refused_or (same_count v)).
Proof. unfold kw_bar. yk. Qed.

Lemma yields_kw_dollar_same (nargs : Z) (v : KwVars) :
  yields (kw_dollar pos nargs v)
    (refused_or (λ bv : bool * KwVars, same_count v bv.2)).
Proof. unfold kw_dollar. yk. Qed.

Lemma yields_kw_convert_refused a i format flags fname custom_msg :
  yields (kw_convert a i format flags fname custom_msg)
    (refused_or (λ _, True)).
Proof. unfold kw_convert. yk. Qed.

Lemma kw_bind_keeps_keywords_left args flags fname custom_msg nargs v :
  keywords_left_at items.*1 kwlist pos v →
  kw_i v < Z.of_nat (length kwlist) →
  yields (kw_bind args (Some (PyDict items)) kwlist flags fname custom_msg
            pos nargs v)
    (refused_or (λ bv : bool * KwVars,
                   kw_i bv.2 = kw_i v
                   ∧ if bv.1 then keywords_left_at items.*1 kwlist pos (kw_next bv.2)
                     else same_count v bv.2)).
Proof.
  intros Hleft Hlen. pose proof (left_at_positive v Hleft) as Hpos.
  unfold keywords_left_at in *. pose proof Hleft as [Hi _].
  destruct (kwlist !! Z.to_nat (kw_i v)) as [name|] eqn:Hname.
  2:{ apply lookup_ge_None in Hname. lia. }
  unfold kw_bind. cbv zeta.
  assert (kw_at kwlist (kw_i v) = name) as ->
    by (unfold kw_at; by rewrite Hname).
  assert ((kw_nkeywords v =? 0) = false) as -> by lia. simpl negb.
  eapply (yields_bind_post _ _
            (refused_or (λ looked : option PyObject,
               is_Some looked →
               (kw_i v >=? pos) = true
               ∧ key_present items.*1 name = true))).
  { destruct (kw_i v >=? pos) eqn:Hge; simpl.
    - unfold PyDict_GetItemString. simpl. apply yields_bind. intros pending.
      destruct (dict_find items name) eqn:Hfind.
      + apply yields_ret. simpl. intros _. split; [done|].
        apply dict_find_present. by rewrite Hfind.
      + destruct pending; yk.
    - yk. }
  intros [r|[a|]] Hlooked; simpl in Hlooked.
  - by apply yields_ret.
  - destruct (Hlooked ltac:(by eexists)) as [Hge Hfound].
    destruct (_ <? nargs); [yk|].
    eapply yields_bind_post; [apply yields_kw_convert_refused|].
    intros [r|f] Hc; [apply yields_ret; exact Hc|]. apply yields_ret.
    simpl. split; [done|]. by eapply keywords_left_found.
  - destruct (_ <? nargs).
    + destruct (args !! _); [|yk].
      eapply yields_bind_post; [apply yields_kw_convert_refused|].
      intros [r|f] Hc; [apply yields_ret; exact Hc|]. apply yields_ret.
      simpl. split; [done|]. by apply keywords_left_next.
    + cbv zeta. destruct (_ && negb _); [yk|].
      rewrite andb_false_l. yk.
Qed.

Lemma round_keeps_keywords_left args flags fname custom_msg len nargs v :
  keywords_left_at items.*1 kwlist pos v →
  kw_i v < Z.of_nat (length kwlist) →
  yields (vgetargskeywords_round args (Some (PyDict items)) kwlist flags
            fname custom_msg pos len nargs v)
    (refused_or (λ bv : bool * KwVars,
                   kw_i bv.2 = kw_i v
                   ∧ if bv.1 then keywords_left_at items.*1 kwlist pos bv.2 else keywords_left_at items.*1 kwlist pos (kw_next bv.2))).
Proof.
  intros Hleft Hlen. unfold vgetargskeywords_round.
  eapply yields_bind_post; [apply yields_kw_bar_same|].
  intros [r|v1] H1; [by apply yields_ret|]. simpl in H1.
  eapply yields_bind_post; [apply yields_kw_dollar_same|].
  intros [r|[[|] v2]] H2; simpl in H2; [by apply yields_ret| |].
  { apply yields_ret. simpl. destruct H1 as [? ?], H2 as [? ?].
    split; [congruence|].
    eapply left_at_same; [|exact Hleft]. split; congruence. }
  assert (same_count v v2) as H12.
  { destruct H1 as [? ?], H2 as [? ?]. split; congruence. }
  pose proof (left_at_same _ _ H12 Hleft) as Hleft2.
  destruct H12 as [Hi2 Hn2].
  destruct (IS_END_OF_FORMAT _); [yk|].
  eapply (yields_bind_post _ _
            (refused_or (λ bv : bool * KwVars,
                           kw_i bv.2 = kw_i v
                           ∧ if bv.1 then keywords_left_at items.*1 kwlist pos (kw_next bv.2)
                             else same_count v bv.2))).
  { destruct (kw_skip v2).
    - apply yields_ret. simpl. done.
    - eapply yields_weaken; [apply kw_bind_keeps_keywords_left; [done|lia]|].
      intros [r|[b v3]]; simpl; [done|]. intros [Hi3 H3].
      split; [congruence|]. destruct b; [done|].
      destruct H3 as [? ?]. split; congruence. }
  intros [r|[[|] v3]] H3; simpl in H3; [by apply yields_ret| |].
  - apply yields_ret. simpl. done.
  - destruct H3 as [Hi3 [H3i H3n]].
    apply yields_bind. intros [msg|format']; [yk|].
    apply yields_ret. simpl. split; [done|].
    unfold keywords_left_at in *. simpl. rewrite H3i, H3n.
    by apply keywords_left_next.
Qed.

Lemma loop_keeps_keywords_left k args flags fname custom_msg len nargs v :
  keywords_left_at items.*1 kwlist pos v →
  kw_i v + Z.of_nat k = Z.of_nat (length kwlist) →
  yields (vgetargskeywords_loop k args (Some (PyDict items)) kwlist flags
            fname custom_msg pos len nargs v)
    (refused_or (λ v', 0 < kw_nkeywords v')).
Proof.
  revert v. induction k as [|k IH]; intros v Hleft Hk; simpl.
  - apply yields_ret. simpl. by apply left_at_positive.
  - eapply yields_bind_post; [apply round_keeps_keywords_left; [done|lia]|].
    intros [r|[[|] v']] Hr; simpl in Hr.
    + by apply yields_ret.
    + apply yields_ret. simpl. apply left_at_positive. by destruct Hr.
    + destruct Hr as [Hi Hr]. apply IH; [done|]. simpl. lia.
Qed.

End UnknownKeyword.

Section UnknownKeywordTheorem.
Context {rt : Runtime}.

Lemma yields_check_extraneous_refused (valid : PyObject → bool) shown
    (keys : list PyObject) (key : PyObject) :
  key ∈ keys →
  PyUnicode_Check key && valid key = false →
  yields (check_extraneous valid shown keys) (λ r, r = 0).
Proof.
  intros Hin Hbad.
  induction keys as [|k keys IH]; [by apply elem_of_nil in Hin|].
  simpl. destruct (negb (PyUnicode_Check k)) eqn:Hu; [yk|].
  destruct (negb (valid k)) eqn:Hv; [yk|].
  apply IH. apply elem_of_cons in Hin as [->|Hin]; [|done].
  apply negb_false_iff in Hu, Hv. by rewrite Hu, Hv in Hbad.
Qed.

Lemma not_a_name_kwlist (kwlist : list string) (key : PyObject) :
  (∀ name, name ∈ kwlist → key ≠ PyUnicode name) →
  PyUnicode_Check key && kwlist_match kwlist key = false.
Proof.
  intros Hbad. apply not_true_is_false. intros [Hu Hm]%andb_true_iff.
  unfold kwlist_match in Hm.
  apply existsb_exists in Hm as (name & Hin & Hname).
  apply andb_true_iff in Hname as [_ Hname]. destruct key; try done.
  simpl in Hname. apply bool_decide_eq_true in Hname as ->.
  apply (Hbad name); [by apply list_elem_of_In|done].
Qed.

(** X20. A keyword argument that no parameter takes makes the call fail:
    when the dictionary of keywords holds a key that is not the name of a
    parameter (a key that is no string among them), [vgetargskeywords]
    returns 0, whatever else was supplied and however the conversions
    went.  The names that can be given by keyword are supposed to be
    distinct. *)
Theorem unknown_keyword_is_refused
    (args : PyObject) (items : list (PyObject * PyObject)) (format : string)
    (kwlist : list string) (flags : Z) (key : PyObject) (s : State) (r : Z)
    (s' : State) :
  NoDup (drop (Z.to_nat (count_positional_only kwlist)) kwlist) →
  key ∈ items.*1 →
  (∀ name, name ∈ kwlist → key ≠ PyUnicode name) →
  vgetargskeywords args (Some (PyDict items)) format kwlist flags s
  = Ret r s' →
  r = 0.
Proof.
  intros Hnd Hkey Hbad. revert s r s'.
  change (yields (vgetargskeywords args (Some (PyDict items)) format kwlist
                    flags) (λ r, r = 0)).
  assert (∀ name,
            name ∈ drop (Z.to_nat (count_positional_only kwlist)) kwlist →
            key ≠ PyUnicode name) as Hbad'.
  { intros name Hin. apply Hbad. by eapply subseteq_drop. }
  unfold vgetargskeywords. apply yields_bind. intros _. cbv zeta.
  destruct (has_empty_name kwlist) eqn:Hempty; [yk|].
  apply yields_bind. intros ok. destruct (negb ok); [yk|].
  yk_step; [yk|].
  eapply yields_bind_post.
  { eapply (loop_keeps_keywords_left items kwlist _ key Hnd Hkey Hbad').
    - unfold keywords_left_at, keywords_left, names_found. simpl.
      split; [done|].
      unfold PyDict_Size. simpl. rewrite length_fmap. lia.
    - simpl. lia. }
  intros [r|v] Hv; simpl in Hv; [by apply yields_ret|].
  destruct (kw_skip v); [yk|]. cbv zeta. yk_step; [yk|].
  assert ((kw_nkeywords v >? 0) = true) as -> by lia.
  eapply yields_check_extraneous_refused; [exact Hkey|].
  by apply not_a_name_kwlist.
Qed.

End UnknownKeywordTheorem.

Ltac yp_step :=
  lazymatch goal with
  | |- yields (bind _ _) _ => apply yields_bind; intros ?
  | |- yields (if ?b then _ else _) _ => destruct b
  | |- yields (match ?x with _ => _ end) _ => destruct x
  | |- yields (let _ := _ in _) _ => cbv zeta
  | |- yields (ret _) _ =>
    apply yields_ret; simpl; repeat split;
    solve [done | intros ? [= <-]; done]
  | |- yields undef _ => apply yields_undef
  end.

Section FastUnknownKeyword.
Context {rt : Runtime}.

Lemma yields_parserInit (parser : _PyArg_Parser) :
  yields (parserInit parser)
    (λ init,
       parser_keywords init.1 = parser_keywords parser
       ∧ parser_pos init.1 = count_positional_only (parser_keywords parser)
       ∧ ∀ kc, init.2 = Some kc →
               kc = Z.of_nat (length (parser_keywords parser))
                    - count_positional_only (parser_keywords parser)).
Proof. unfold parserInit. cbv zeta. repeat yp_step. Qed.

Lemma not_a_name_parser (parser : _PyArg_Parser) (kc : Z) (key : PyObject) :
  (∀ name, name ∈ parser_keywords parser → key ≠ PyUnicode name) →
  PyUnicode_Check key && isValidKeyword parser kc key = false.
Proof.
  intros Hbad. apply not_true_is_false. intros [Hu Hm]%andb_true_iff.
  unfold isValidKeyword in Hm.
  apply existsb_exists in Hm as (name & Hin & Hname).
  destruct key; try done. simpl in Hname.
  apply bool_decide_eq_true in Hname as ->.
  apply (Hbad name); [|done]. apply list_elem_of_In in Hin.
  by eapply subseteq_drop, subseteq_take.
Qed.

Lemma fast_loop_keeps_keywords_left
    (args : list PyObject) (nargs : Z) (keywords kwnames : option PyObject)
    (parser : _PyArg_Parser) (flags : Z) (key : PyObject) (k : nat) :
  NoDup (drop (Z.to_nat (parser_pos parser)) (parser_keywords parser)) →
  key ∈ supplied_keys keywords kwnames →
  (∀ name,
     name ∈ drop (Z.to_nat (parser_pos parser)) (parser_keywords parser) →
     key ≠ PyUnicode name) →
  ∀ (i : Z) (format : string) (nk : Z),
    keywords_left (supplied_keys keywords kwnames) (parser_keywords parser)
      (parser_pos parser) i nk →
    i + Z.of_nat k = Z.of_nat (length (parser_keywords parser)) →
    yields (vGetArgsKeywordsFastImpl_loop k i args nargs keywords kwnames
              parser flags format nk)
      (refused_or (λ fn : string * Z, 0 < fn.2)).
Proof.
  intros Hnd Hkey Hbad.
  induction k as [|k IH]; intros i format nk Hleft Hk.
  { apply yields_ret. simpl.
    by eapply keywords_left_positive. }
  pose proof (keywords_left_positive _ _ _ _ _ _ Hnd Hkey Hbad Hleft) as Hpos.
  pose proof Hleft as [Hi _].
  destruct (parser_keywords parser !! Z.to_nat i) as [name|] eqn:Hname.
  2:{ apply lookup_ge_None in Hname. lia. }
  cbn [vGetArgsKeywordsFastImpl_loop]. cbv zeta.
  assert (kw_at (parser_keywords parser) i = name) as ->
    by (unfold kw_at; by rewrite Hname).
  assert ((nk =? 0) = false) as -> by lia. simpl negb.
  eapply (yields_bind_post _ _
            (refused_or (λ found : option PyObject,
               is_Some found →
               (i >=? parser_pos parser) = true
               ∧ key_present (supplied_keys keywords kwnames) name = true))).
  { destruct (i >=? parser_pos parser) eqn:Hge; simpl; [|yk].
    destruct keywords as [d|].
    - unfold PyDict_GetItemString. apply yields_bind. intros pending.
      destruct (dict_find (dict_items d) name) eqn:Hfind.
      + apply yields_ret. simpl. intros _. split; [done|].
        apply dict_find_present. by rewrite Hfind.
      + destruct pending; yk.
    - destruct kwnames as [names|]; [|yk].
      unfold findKeyword.
      destruct (findKeyword_from _ _ _) as [[v|]|] eqn:Hfind; [| |yk].
      + apply yields_ret. simpl. intros _. split; [done|].
        by eapply findKeyword_present.
      + apply yields_ret. simpl. by intros [? ?]. }
  intros [r|found] Hfound; simpl in Hfound; [by apply yields_ret|].
  set (format1 := if decide (peek format = "|"%char) then _ else _).
  set (format2 := if decide (peek format1 = "$"%char) then _ else _).
  destruct found as [a|].
  - destruct (Hfound ltac:(by eexists)) as [Hge Hpresent].
    pose proof (keywords_left_found _ _ _ _ _ _ Hname Hge Hpresent Hleft)
      as Hnext.
    destruct (i <? nargs).
    + eapply (yields_bind_post _ _ (refused_or (λ _, False)));
        [apply yields_fail_with_refused|].
      intros [r|cur] Hr; [by apply yields_ret|]. destruct Hr.
    + rewrite (bind_ret_l_fun (Next (Some a))). cbv iota beta.
      eapply yields_bind_post; [apply yields_kw_convert_refused|].
      intros [r|f] Hc; [apply yields_ret; exact Hc|].
      apply IH; [done|lia].
  - pose proof (keywords_left_next _ _ _ _ _ Hleft) as Hnext.
    destruct (i <? nargs).
    + destruct (args !! Z.to_nat i) as [a|];
        [|rewrite bind_undef_fun; apply yields_undef].
      rewrite (bind_ret_l_fun (Next (Some a))). cbv iota beta.
      eapply yields_bind_post; [apply yields_kw_convert_refused|].
      intros [r|f] Hc; [apply yields_ret; exact Hc|].
      apply IH; [done|lia].
    + rewrite (bind_ret_l_fun (Next None)). cbv iota beta.
      destruct (i <? parser_min parser); [yk|].
      assert ((nk =? 0) = false) as -> by lia.
      apply yields_bind. intros sk. apply IH; [done|lia].
Qed.

(** X24. The same holds for the binder with a cached parser, whether the
    keyword arguments come in a dictionary or as a tuple of names with
    their values on the stack: a supplied key that is not the name of a
    parameter makes [vGetArgsKeywordsFastImpl] return 0.  The names that
    can be given by keyword are supposed to be distinct. *)
Theorem unknown_keyword_is_refused_fast
    (args : list PyObject) (nargs : Z) (keywords kwnames : option PyObject)
    (parser : _PyArg_Parser) (flags : Z) (key : PyObject) (s : State)
    (r : Z * _PyArg_Parser) (s' : State) :
  NoDup (drop (Z.to_nat (count_positional_only (parser_keywords parser)))
           (parser_keywords parser)) →
  key ∈ supplied_keys keywords kwnames →
  (∀ name, name ∈ parser_keywords parser → key ≠ PyUnicode name) →
  vGetArgsKeywordsFastImpl args nargs keywords kwnames parser flags s
  = Ret r s' →
  r.1 = 0.
Proof.
  intros Hnd Hkey Hbad. revert s r s'.
  change (yields (vGetArgsKeywordsFastImpl args nargs keywords kwnames parser
                    flags) (λ r, r.1 = 0)).
  unfold vGetArgsKeywordsFastImpl. apply yields_bind. intros _.
  eapply yields_bind_post; [apply yields_parserInit|].
  intros [parser' [kc|]] (Hkws & Hpos & Hkc); simpl in *;
    [|by apply yields_ret].
  specialize (Hkc kc eq_refl).
  apply yields_bind. intros ok. destruct (negb ok); [by apply yields_ret|].
  eapply (yields_bind_post _ _ (λ r, r = 0));
    [|intros r0 ->; by apply yields_ret].
  yk_step; [yk|]. yk_step; [yk|].
  destruct (parser_format parser'); [|yk].
  assert (∀ name,
            name ∈ drop (Z.to_nat (parser_pos parser'))
                     (parser_keywords parser') →
            key ≠ PyUnicode name) as Hbad'.
  { intros name Hin. apply Hbad. rewrite <- Hkws. by eapply subseteq_drop. }
  eapply yields_bind_post.
  { eapply (fast_loop_keeps_keywords_left args nargs keywords kwnames parser'
              flags key).
    - by rewrite Hkws, Hpos.
    - exact Hkey.
    - exact Hbad'.
    - split; [done|]. unfold names_found. simpl.
      destruct keywords as [d|]; [unfold PyDict_Size; simpl;
                                  rewrite length_fmap; lia|].
      destruct kwnames; simpl; lia.
    - rewrite Hkws, Hpos, Hkc. lia. }
  intros [r0|[f nk]] Hnk; simpl in Hnk; [by apply yields_ret|].
  assert ((nk >? 0) = true) as -> by lia.
  assert (PyUnicode_Check key && isValidKeyword parser' kc key = false)
    as Hinvalid.
  { apply not_a_name_parser. by rewrite Hkws. }
  destruct keywords as [d|].
  - by eapply yields_check_extraneous_refused.
  - destruct kwnames as [names|]; [|yk].
    by eapply yields_check_extraneous_refused.
Qed.

End FastUnknownKeyword.

Section LengthHintProofs.
Context {rt : Runtime} {rx : RuntimeExt}.

Lemma objectLength_no_len o s :
  invokeMethod1 o "__len__" (thread s) = (ErrorNotFound, thread s) →
  objectLength (Some o) s = Ret (-1) (raised kTypeError "object has no len()" s).
Proof.
  intros H. unfold objectLength.
  rewrite (bind_liftT _ _ _ _ _ H). by rewrite set_thread_id.
Qed.

(** X21. [PyObject_LengthHint] returns the length when [__len__] gives
    one, whatever the default.  For an object without [__len__] the
    [TypeError] is caught and [__length_hint__] decides: without one, or
    when it returns [NotImplemented], the result is the default and no
    exception is left pending; an [int] hint is returned when it is a
    non-negative small integer, is a [ValueError] when it is a negative
    small integer and an [OverflowError] when it is no small integer, even
    when it fits a machine word; a [bool] hint is an [OverflowError] too,
    because a [bool] is no small integer; any other object is a
    [TypeError]. *)
Theorem PyObject_LengthHint_cases
    (o : PyObject) (default_value : Z) (s : State) :
  (∀ n s1, 0 ≤ n → objectLength (Some o) s = Ret n s1 →
     PyObject_LengthHint (Some o) default_value s = Ret n s1)
  ∧ (no_len o s →
     ∀ hint t,
       invokeMethod1 o "__length_hint__" (mkThread None None) = (hint, t) →
       PyObject_LengthHint (Some o) default_value s
       = match hint with
         | ErrorNotFound => Ret default_value (set_thread t s)
         | ErrorException => Ret (-1) (set_thread t s)
         | Obj lh =>
           if isNotImplementedType lh then Ret default_value (set_thread t s)
           else
             match lh with
             | PyLong h =>
               if (0 <=? h) && (h <=? SmallInt_kMaxValue) then
                 Ret h (set_thread t s)
               else if (SmallInt_kMinValue <=? h) && (h <? 0) then
                 Ret (-1) (raised kValueError "__len__() should return >= 0" s)
               else
                 Ret (-1)
                   (raised kOverflowError
                      "cannot fit 'int' into an index-sized integer" s)
             | PyBool _ =>
               Ret (-1)
                 (raised kOverflowError
                    "cannot fit 'bool' into an index-sized integer" s)
             | _ =>
               Ret (-1)
                 (raised kTypeError
                    ("__length_hint__ must be an integer, not " +:+
                     typeName lh) s)
             end
         end).
Proof.
  split.
  - intros n s1 Hn Hlen. unfold PyObject_LengthHint.
    rewrite (bind_Ret_intro _ _ _ _ _ Hlen), bind_get.
    by assert ((n <? 0) = false) as -> by lia.
  - intros [Hlen Hmatch] hint t Hhint. unfold PyObject_LengthHint.
    rewrite (bind_Ret_intro _ _ _ _ _ (objectLength_no_len o s Hlen)).
    rewrite bind_get. simpl.
    rewrite (bind_liftT _ _ _ _ _ (Hmatch _)). simpl.
    unfold PyErr_Clear. rewrite bind_modify.
    erewrite bind_liftT; [|exact Hhint]. simpl.
    destruct hint as [lh| |]; [|done|done].
    destruct (isNotImplementedType lh); [done|].
    destruct lh as [|b|h| | | | | | | | | | | | |]; try done.
    simpl. unfold SmallInt_isValid, isNegative.
    destruct (Z.leb_spec SmallInt_kMinValue h),
      (Z.leb_spec h SmallInt_kMaxValue), (Z.ltb_spec h 0),
      (Z.leb_spec 0 h); simpl; try done;
      unfold SmallInt_kMinValue, SmallInt_kMaxValue in *; try lia.
    rewrite asWord_in_range; [done|].
    unfold kMinWord, kMaxWord in *. lia.
Qed.

End LengthHintProofs.

Section CharpArrayProofs.
Context {rt : Runtime} {rx : RuntimeExt}.

Lemma blocks_bounded_owned s s' :
  owned_part s' = owned_part s → blocks_bounded s → blocks_bounded s'.
Proof.
  unfold owned_part, blocks_bounded. intros [= _ _ Hd Hn] H b.
  rewrite Hd, Hn. apply H.
Qed.

Lemma objectLength_refs o s n s' :
  objectLength o s = Ret n s' → refs s' = refs s.
Proof.
  intros H. destruct o as [o|].
  - unfold objectLength in H. unfold_monad H.
    run_cases H; by injection H as <- <-.
  - unfold objectLength, bind in H. rewrite nullError_run in H.
    injection H as <- <-. unfold after_nullError.
    by destruct (hasPendingException _).
Qed.

(** Freeing an array that was built gives everything back, and it
    returns. *)
Lemma free_built d0 r0 b bs s :
  array_built d0 r0 b bs s →
  ∃ s', _Py_FreeCharPArray (PBlock b) ((PBlock <$> bs) ++ [PNull]) s
        = Ret tt s'
        ∧ nothing_left d0 r0 s' ∧ thread s' = thread s.
Proof.
  revert s. induction bs as [|c bs IH]; intros s (Hb & Hnd & Hdom & Hdis & Hr).
  - unfold _Py_FreeCharPArray. simpl. rewrite bind_ret_l.
    assert (is_Some (blocks s !! b)) as [x Hx].
    { apply elem_of_dom. rewrite Hdom. set_solver. }
    rewrite Hx. eexists. split; [reflexivity|]. split; [|done].
    split; [|split; [|done]].
    + intros z Hz. simpl in Hz. apply Hb. rewrite dom_delete_L in Hz.
      set_solver.
    + simpl. rewrite dom_delete_L, Hdom. set_solver.
  - assert (is_Some (blocks s !! c)) as [x Hx].
    { apply elem_of_dom. rewrite Hdom. set_solver. }
    apply NoDup_cons in Hnd as [Hbn Hnd].
    apply NoDup_cons in Hnd as [Hcn Hnd].
    destruct (IH (set_blocks (delete c (blocks s)) s)) as (s' & Hrun & Hleft & Ht).
    { split; [|split; [|split; [|split]]]; simpl.
      - intros z Hz. simpl in Hz. apply Hb. rewrite dom_delete_L in Hz.
        set_solver.
      - apply NoDup_cons. split; [set_solver|done].
      - rewrite dom_delete_L, Hdom.
        apply set_eq. intros z. rewrite !elem_of_difference, !elem_of_union.
        rewrite elem_of_list_to_set, elem_of_cons, elem_of_singleton.
        rewrite !elem_of_list_to_set, !elem_of_singleton.
        split.
        + intros [[[?|?]|[?|?]] ?]; try tauto.
        + intros [[?|?]|?]; (split; [tauto|]); intros ->.
          * apply (Hdis c); set_solver.
          * set_solver.
          * done.
      - set_solver.
      - done. }
    exists s'. split; [|done].
    unfold _Py_FreeCharPArray in *. cbn [fmap list_fmap app _Py_FreeCharPArray_loop].
    rewrite bind_assoc_at. unfold bind at 1. simpl. rewrite Hx.
    exact Hrun.
Qed.

Lemma array_built_thread d0 r0 b bs t s :
  array_built d0 r0 b bs s → array_built d0 r0 b bs (set_thread t s).
Proof. by intros (? & ? & ? & ? & ?). Qed.

Lemma array_built_refs d0 r0 b bs r s :
  array_built d0 r0 b bs s → array_built d0 r b bs (set_refs r s).
Proof. by intros (? & ? & ? & ? & ?). Qed.

Lemma array_built_GetItem d0 r0 b bs self i s item s1 :
  array_built d0 r0 b bs s →
  PySequence_GetItem self i s = Ret item s1 →
  array_built d0 (r0 + if item is Some _ then 1 else 0) b bs s1.
Proof.
  intros (Hb & Hnd & Hdom & Hdis & Hr) Hrun.
  pose proof (frame_PySequence_GetItem _ _ _ _ _ Hrun) as Hown.
  destruct (new_reference_PySequence_GetItem _ _ _ _ _ Hrun)
    as (Hrefs & _ & Hbl & _).
  split; [by eapply blocks_bounded_owned|].
  split; [done|]. rewrite Hbl, Hrefs, Hr. done.
Qed.

Lemma array_built_alloc d0 r0 b bs s :
  array_built d0 r0 b bs s →
  array_built d0 r0 b (bs ++ [next_block s])
    (set_next_block (next_block s + 1)
       (set_blocks (<[next_block s := EmptyString]> (blocks s)) s)).
Proof.
  intros (Hb & Hnd & Hdom & Hdis & Hr).
  assert (next_block s ∉ dom (blocks s)) as Hfresh.
  { intros Hin. apply Hb in Hin. lia. }
  split; [|split; [|split; [|split]]]; simpl.
  - unfold blocks_bounded. simpl. intros z Hz. rewrite dom_insert_L in Hz.
    apply elem_of_union in Hz as [->%elem_of_singleton|Hz]; [lia|].
    apply Hb in Hz. lia.
  - rewrite Hdom in Hfresh.
    apply NoDup_cons in Hnd as [Hbn Hnd]. apply NoDup_cons. split.
    + rewrite elem_of_app, list_elem_of_singleton. set_solver.
    + apply NoDup_app. split; [done|]. split; [|apply NoDup_singleton].
      intros z Hz ->%list_elem_of_singleton. set_solver.
  - rewrite dom_insert_L, Hdom, list_to_set_app_L. simpl. set_solver.
  - rewrite Hdom in Hfresh. rewrite list_to_set_app_L. simpl. set_solver.
  - done.
Qed.

Lemma array_built_memcpy d0 r0 b bs c d s :
  array_built d0 r0 b bs s → c ∈ bs →
  memcpy (PBlock c) d s
  = Ret tt (set_blocks (<[c := d]> (blocks s)) s)
  ∧ array_built d0 r0 b bs (set_blocks (<[c := d]> (blocks s)) s).
Proof.
  intros (Hb & Hnd & Hdom & Hdis & Hr) Hc.
  assert (c ∈ dom (blocks s)) as Hin by (rewrite Hdom; set_solver).
  pose proof Hin as [x Hx]%elem_of_dom. simpl. rewrite Hx.
  split; [done|].
  assert (dom (<[c := d]> (blocks s)) = dom (blocks s)) as Hd.
  { rewrite dom_insert_L. set_solver. }
  split; [|simpl; by rewrite Hd].
  intros z Hz. simpl in Hz. rewrite Hd in Hz. by apply Hb.
Qed.

Lemma loop_built d0 r0 b self (k : nat) :
  ∀ (i : Z) (bs : list Z) (s : State) r s',
    array_built d0 r0 b bs s →
    _PySequence_BytesToCharpArray_loop k i self (PBlock b) (PBlock <$> bs) s
    = Ret r s' →
    match r with
    | None => nothing_left d0 r0 s'
    | Some cells =>
      ∃ bs', cells = PBlock <$> bs'
             ∧ length bs' = (length bs + k)%nat
             ∧ array_built d0 r0 b bs' s'
    end.
Proof.
  induction k as [|k IH]; intros i bs s r s' Hbuilt Hrun.
  - simpl in Hrun. injection Hrun as <- <-. exists bs.
    split; [done|]. split; [lia|done].
  - simpl in Hrun. apply bind_Ret in Hrun as (item & s1 & Hitem & Hrun).
    pose proof (array_built_GetItem _ _ _ _ _ _ _ _ _ Hbuilt Hitem) as H1.
    destruct item as [it|].
    2:{ rewrite Z.add_0_r in H1.
        destruct (free_built _ _ _ _ _ H1) as (s2 & Hfree & Hleft & _).
        rewrite (bind_Ret_intro _ _ _ _ _ Hfree) in Hrun.
        by injection Hrun as <- <-. }
    apply bind_Ret in Hrun as (data & s2 & Hdata & Hrun).
    apply liftT_Ret in Hdata as [_ Hs2].
    assert (array_built d0 (r0 + 1) b bs s2) as H2.
    { rewrite Hs2. by apply array_built_thread. }
    clear Hs2. destruct data as [d|].
    2:{ unfold Py_DECREF in Hrun. rewrite bind_modify in Hrun.
        pose proof (array_built_refs _ _ _ _ (refs s2 - 1) _ H2) as H3.
        assert (refs s2 - 1 = r0) as Hr
          by (destruct H2 as (_ & _ & _ & _ & ->); lia).
        rewrite Hr in H3 at 1.
        destruct (free_built _ _ _ _ _ H3) as (s3 & Hfree & Hleft & _).
        rewrite (bind_Ret_intro _ _ _ _ _ Hfree) in Hrun.
        by injection Hrun as <- <-. }
    assert (refs s2 - 1 = r0) as Hr
      by (destruct H2 as (_ & _ & _ & _ & ->); lia).
    unfold PyMem_NEW at 1 in Hrun. unfold bind at 1 in Hrun.
    destruct (alloc_budget s2) as [|n] eqn:Hbudget.
    + unfold PyErr_NoMemory, Py_DECREF in Hrun.
      rewrite !bind_modify in Hrun.
      pose proof (array_built_refs _ _ _ _ (refs s2 - 1) _
                    (array_built_thread _ _ _ _
                       (mkThread (Some (typeAt kMemoryError)) None) _ H2))
        as H3.
      rewrite Hr in H3 at 1.
      destruct (free_built _ _ _ _ _ H3) as (s3 & Hfree & Hleft & _).
      simpl in Hrun.
      rewrite (bind_Ret_intro _ _ _ _ _ Hfree) in Hrun.
      by injection Hrun as <- <-.
    + pose proof (array_built_alloc _ _ _ _ _ H2) as H3.
      set (s3 := set_next_block _ _) in H3.
      assert (array_built d0 (r0 + 1) b (bs ++ [next_block s2])
                (set_alloc_budget n s3)) as H4 by exact H3.
      destruct (array_built_memcpy _ _ _ _ (next_block s2) d _ H4)
        as [Hcpy H5]; [set_solver|].
      change (Ret (PBlock (next_block s2)) _)
        with (Ret (A := Ptr) (PBlock (next_block s2)) (set_alloc_budget n s3))
        in Hrun.
      cbv iota beta in Hrun.
      rewrite (bind_Ret_intro _ _ _ _ _ Hcpy) in Hrun.
      unfold Py_DECREF in Hrun. rewrite bind_modify in Hrun.
      apply (array_built_refs _ _ _ _ r0) in H5.
      replace ((PBlock <$> bs) ++ [PBlock (next_block s2)])
        with (PBlock <$> (bs ++ [next_block s2])) in Hrun
        by (by rewrite fmap_app).
      change (refs (set_blocks _ _)) with (refs s2) in Hrun.
      rewrite Hr in Hrun.
      apply (IH _ _ _ _ _ H5) in Hrun.
      destruct r as [cells|]; [|done].
      destruct Hrun as (bs' & -> & Hlen & Hb').
      exists bs'. split; [done|]. split; [|done].
      rewrite length_app in Hlen. simpl in Hlen. lia.
Qed.

(** X22. [_PySequence_BytesToCharpArray] leaks nothing.  When it returns
    null, whether the sequence, an item or an allocation failed, every
    block it had allocated has been freed and every item reference
    released.  When it returns an array, the array and one string for each
    item of the sequence are fresh live blocks, distinct from each other,
    the array ends in a null pointer, no reference is held, and
    [_Py_FreeCharPArray] on it returns and frees exactly these blocks. *)
Theorem PySequence_BytesToCharpArray_no_leak
    (self : option PyObject) (s : State)
    (r : option (Ptr * list Ptr)) (s' : State) :
  blocks_bounded s →
  _PySequence_BytesToCharpArray self s = Ret r s' →
  match r with
  | None => dom (blocks s') = dom (blocks s) ∧ refs s' = refs s
  | Some (array, cells) =>
    ∃ b bs,
      array = PBlock b ∧ cells = (PBlock <$> bs) ++ [PNull]
      ∧ (∃ s1, PySequence_Size self s = Ret (Z.of_nat (length bs)) s1)
      ∧ NoDup (b :: bs)
      ∧ dom (blocks s') = dom (blocks s) ∪ {[b]} ∪ list_to_set bs
      ∧ dom (blocks s) ## {[b]} ∪ list_to_set bs
      ∧ refs s' = refs s
      ∧ ∃ s'', _Py_FreeCharPArray array cells s' = Ret tt s''
               ∧ dom (blocks s'') = dom (blocks s) ∧ refs s'' = refs s
  end.
Proof.
  intros Hb Hrun. unfold _PySequence_BytesToCharpArray in Hrun.
  apply bind_Ret in Hrun as (argc & s1 & Hsize & Hrun).
  pose proof (frame_PySequence_Size _ _ _ _ Hsize) as Hown.
  pose proof (objectLength_refs _ _ _ _ Hsize) as Hrefs.
  pose proof (blocks_bounded_owned _ _ Hown Hb) as Hb1.
  assert (dom (blocks s1) = dom (blocks s)) as Hdom
    by (by injection Hown).
  destruct (argc <? 0) eqn:Hneg.
  { apply bind_Ret in Hrun as (? & s2 & Hd & Hrun). injection Hrun as <- <-.
    unfold DCHECK in Hd. destruct (argc =? -1); [|done].
    by injection Hd as _ <-. }
  destruct (argc >? _).
  { unfold PyErr_NoMemory in Hrun. rewrite bind_modify in Hrun.
    by injection Hrun as <- <-. }
  unfold PyMem_NEW at 1 in Hrun. unfold bind at 1 in Hrun.
  destruct (alloc_budget s1) as [|n] eqn:Hbudget.
  { unfold PyErr_NoMemory in Hrun. rewrite bind_modify in Hrun.
    by injection Hrun as <- <-. }
  cbv iota beta in Hrun.
  apply bind_Ret in Hrun as (r1 & s2 & Hloop & Hrun).
  assert (array_built (dom (blocks s)) (refs s) (next_block s1) []
            (set_alloc_budget n
               (set_next_block (next_block s1 + 1)
                  (set_blocks (<[next_block s1 := EmptyString]> (blocks s1))
                     s1)))) as Hbuilt.
  { assert (next_block s1 ∉ dom (blocks s1)) as Hfresh.
    { intros Hin. apply Hb1 in Hin. lia. }
    split; [|split; [|split; [|split]]]; simpl.
    - unfold blocks_bounded. simpl. intros z Hz. rewrite dom_insert_L in Hz.
      apply elem_of_union in Hz as [->%elem_of_singleton|Hz]; [lia|].
      apply Hb1 in Hz. lia.
    - apply NoDup_singleton.
    - rewrite dom_insert_L, Hdom. set_solver.
    - rewrite Hdom in Hfresh. set_solver.
    - done. }
  apply (loop_built _ _ _ _ _ _ [] _ _ _ Hbuilt) in Hloop.
  destruct r1 as [cells|].
  - destruct Hloop as (bs & -> & Hlen & Hb2). injection Hrun as <- <-.
    exists (next_block s1), bs. split; [done|]. split; [done|].
    simpl in Hlen. split.
    { exists s1. rewrite Hlen, Z2Nat.id by lia. done. }
    pose proof Hb2 as (_ & Hnd & Hd2 & Hdis & Hr2).
    do 4 (split; [done|]).
    destruct (free_built _ _ _ _ _ Hb2) as (s3 & Hfree & (_ & ? & ?) & _).
    by exists s3.
  - injection Hrun as <- <-. by destruct Hloop as (_ & ? & ?).
Qed.

End CharpArrayProofs.

Section Composition.
Context {rt : Runtime}.

Lemma convertitem_simple arg c fmt flags depth bufsize s :
  c ≠ "("%char →
  convertitem arg (String c fmt) flags depth bufsize s
  = (r <- convertsimple arg (String c fmt) flags bufsize ;;
     match r with
     | Failed msg => check_level depth ;;; ret (FailedAt msg [0])
     | Converted format => ret (Done format)
     end) s.
Proof.
  intros Hc. unfold convertitem. cbn [convertitem_fuel String.length].
  simpl peek. by rewrite decide_False.
Qed.

(** X23. An integer that does not fit the C type of its code fails the
    whole call with the converter's [OverflowError]: [PyArg_ParseTuple]
    returns 0, the error is not replaced by a message about the argument,
    and the caller's cell is not written. *)
Theorem overflow_reaches_the_caller
    (c : ascii) (name : string) (lo hi : Z) (arg : PyObject) (a : Z)
    (rest : list VaArg) (v : Z) (t' : Thread) (s : State) :
  ranged_code c = Some (name, lo, hi) →
  PyFloat_Check arg = false →
  va s = VaPtr (PCell a) :: rest →
  PyLong_AsLong arg (thread s) = (v, t') →
  (v = -1 → hasPendingException t' = false) →
  v < lo ∨ hi < v →
  ∃ s',
    PyArg_ParseTuple (Some (PyTuple [arg])) (String c EmptyString) s
    = Ret 0 s'
    ∧ thread s'
      = mkThread (Some (typeAt kOverflowError))
          (Some (name +:+ (if v <? lo then " is less than minimum"
                           else " is greater than maximum")))
    ∧ mem s' = mem s ∧ blocks s' = blocks s ∧ refs s' = refs s.
Proof.
  intros Hc Hf Hva Hl Hp Hout.
  pose proof (ranged_integer_codes c name lo hi arg EmptyString 0 256 a rest
                v t' (static_freelist s) Hc Hf Hva Hl Hp) as Hconv.
  assert ((lo <=? v) && (v <=? hi) = false) as Hr by lia.
  rewrite Hr in Hconv.
  assert (c ≠ "("%char ∧ c ≠ "|"%char
          ∧ scan_format (String c EmptyString) 0 0 (-1) s
            = Ret (mkScan 0 1 (-1) None None) s) as (Hparen & Hbar & Hscan).
  { unfold ranged_code in Hc. repeat case_decide; simplify_eq; done. }
  exists (raised kOverflowError
            (name +:+ (if v <? lo then " is less than minimum"
                       else " is greater than maximum"))
            (set_va rest (static_freelist s))).
  split; [|done].
  unfold PyArg_ParseTuple, vgetargs1. simpl.
  unfold vGetArgs1Impl. cbv zeta.
  rewrite (bind_Ret_intro _ _ _ _ _ Hscan). simpl.
  unfold freelist_static. rewrite bind_modify.
  unfold freelist_malloc.
  change (1 >? STATIC_FREELIST_ENTRIES) with false. cbv iota.
  rewrite bind_ret_l. simpl.
  rewrite decide_False by done.
  rewrite bind_assoc_at.
  rewrite (bind_ext_at_run _ _ _ _
             (convertitem_simple arg c EmptyString _ 0 256 _ Hparen)).
  rewrite bind_assoc_at.
  change (set_freelist _ s) with (static_freelist s).
  change (Z.land 0 (Z.lnot FLAG_COMPAT)) with 0.
  rewrite (bind_Ret_intro _ _ _ _ _ Hconv). simpl.
  reflexivity.
Qed.

End Composition.

Lemma successful_call_hands_over_its_blocks_witness :
  ∃ s',
    run_binder two_blocks_then_success two_blocks_state = Ret 1 s'
    ∧ (1 = 0 ∨ 1 = 1)
    ∧ (1 = 1 →
       new_events two_blocks_state s'
       = Registered <$> registered (new_events two_blocks_state s')
       ∧ invoked (new_events two_blocks_state s') = []
       ∧ dom (blocks s')
         = dom (blocks two_blocks_state)
           ∪ owned (registered (new_events two_blocks_state s'))).
Proof.
  eexists. split; [vm_compute; reflexivity|].
  apply (successful_call_hands_over_its_blocks two_blocks_then_success
           two_blocks_state).
  - exact two_blocks_state_bounded.
  - vm_compute. reflexivity.
Defined.

Lemma ranged_integer_codes_witness :
  convertsimple (PyLong 300) "b" 0 256 one_cell
  = Ret (Failed MsgBuf)
      (raised kOverflowError "unsigned byte integer is greater than maximum"
         (set_va [] one_cell)).
Proof.
  apply (ranged_integer_codes "b" "unsigned byte integer" 0 UCHAR_MAX
           (PyLong 300) "" 0 256 1 [] 300 (mkThread None None) one_cell);
    first [reflexivity | done].
Defined.

Lemma mask_integer_codes_witness :
  convertsimple (PyLong 300) "B" 0 256 one_cell
  = Ret (Converted "")
      (stored 1 (CInt (300 `mod` 2 ^ 8)) []
         (set_thread (mkThread None None) one_cell)).
Proof.
  apply (mask_integer_codes "B" 8 (PyLong 300) "" 0 256 1 [] 300
           (mkThread None None) one_cell); reflexivity.
Defined.

Lemma integer_codes_refuse_float_witness :
  convertsimple (PyFloat 2) "n" 0 256 one_cell
  = Ret (Failed MsgBuf)
      (raised kTypeError "integer argument expected, got float"
         (set_va [] one_cell)).
Proof.
  apply (integer_codes_refuse_float "n" 2 "" 0 256 (PCell 1) [] one_cell);
    [|reflexivity].
  refine (bool_decide_unpack _ _). vm_compute. exact I.
Defined.

Lemma text_codes_and_embedded_nul_witness :
  convertsimple (PyUnicode "ab") "s" 0 256 one_cell
  = (if strlen "ab" =? slen "ab" then
       Ret (Converted "")
         (stored 1 (CPtr (PData "ab")) []
            (set_thread (mkThread None None) one_cell))
     else
       Ret (Failed MsgBuf)
         (raised kValueError "embedded null character" (set_va [] one_cell))).
Proof.
  destruct (text_codes_and_embedded_nul "s" "ab" "ab" "" 0 256 1
              (mkThread None None) one_cell) as [H _];
    [by left|reflexivity|].
  apply (H []); [discriminate|discriminate|reflexivity].
Defined.

Lemma w_star_refuses_builtin_sources_witness :
  ∃ s',
    convertsimple (PyByteArray "ab") "w*" 0 256 one_cell
    = Ret (Failed (converterr "read-write bytes-like object"
                     (PyByteArray "ab") 256)) s'
    ∧ thread s' = mkThread None None
    ∧ mem s' = mem one_cell ∧ refs s' = refs one_cell
    ∧ blocks s' = blocks one_cell
    ∧ hist s' = hist one_cell ∧ freelist s' = freelist one_cell
    ∧ va s' = [].
Proof.
  apply (w_star_refuses_builtin_sources (PyByteArray "ab") "" 0 256
           (PCell 1) [] one_cell);
    reflexivity.
Defined.

Lemma skipitem_passes_what_convertsimple_takes_witness :
  ∃ s',
    convertsimple (PyUnicode "ab") "s#i" FLAG_SIZE_T 256 three_cells
    = Ret (Converted "i") s'
    ∧ skipitem "s#i" true FLAG_SIZE_T three_cells
      = Ret (inr "i") (set_va (va s') three_cells).
Proof.
  eexists. split; [vm_compute; reflexivity|].
  refine (proj1 (skipitem_passes_what_convertsimple_takes
                   (rt := ref_runtime) (PyUnicode "ab") "s#i" FLAG_SIZE_T 256
                   three_cells "i" _ _) _);
    [vm_compute; reflexivity|discriminate].
Defined.

Lemma findKeyword_first_match_witness :
  findKeyword (PyTuple [PyUnicode "a"; PyLong 1; PyUnicode "b"])
    [PyLong 10; PyLong 20; PyLong 30] "b"
  = Some (Some (PyLong 30)).
Proof.
  destruct (findKeyword_first_match [PyUnicode "a"; PyLong 1; PyUnicode "b"]
              [PyLong 10; PyLong 20; PyLong 30] "b") as [_ H].
  apply (H 2%nat (PyLong 30)); [reflexivity| |reflexivity].
  intros [|[|j]] Hj; [discriminate|discriminate|lia].
Defined.

Lemma positional_unpackers_accept_min_to_max_witness :
  _PyArg_UnpackStack [PyLong 1; PyNone] 2 (Some "f") 1 3
    (start (object_pointers [1; 2]))
  = Ret 1 (set_mem (store_objects [1; 2] [PyLong 1; PyNone]
                      (mem (start (object_pointers [1; 2]))))
             (set_va [] (start (object_pointers [1; 2]))))
  ∧ _PyArg_CheckPositional (Some "f") 2 1 3 (start (object_pointers [1; 2]))
    = Ret 1 (start (object_pointers [1; 2])).
Proof.
  destruct (positional_unpackers_accept_min_to_max [PyLong 1; PyNone]
              (Some "f") 1 3 [1; 2] [] (start (object_pointers [1; 2]))
              ltac:(lia)) as [H _].
  apply H; [simpl; lia|reflexivity|reflexivity].
Defined.

Lemma PyArg_UnpackTuple_is_UnpackStack_witness :
  PyArg_UnpackTuple (PyTuple [PyLong 1]) (Some "f") 1 1
    (start (object_pointers [1]))
  = _PyArg_UnpackStack [PyLong 1] 1 (Some "f") 1 1
      (start (object_pointers [1])).
Proof.
  destruct (PyArg_UnpackTuple_is_UnpackStack (PyTuple [PyLong 1]) (Some "f")
              1 1 (start (object_pointers [1])) ltac:(lia)) as [H _].
  - intros n [= <-]. simpl. lia.
  - apply (H [PyLong 1] eq_refl).
Defined.

Lemma start_bounded (args : list VaArg) : blocks_bounded (start args).
Proof. intros b Hb. simpl in Hb. rewrite dom_empty_L in Hb. set_solver. Qed.

Lemma wrong_count_refused_before_conversion_witness :
  ∃ s',
    vGetArgs1Impl None [PyLong 1] 1 "ii" 0 (start []) = Ret 0 s'
    ∧ thread s'
      = mkThread (Some (typeAt kTypeError))
          (Some "function takes exactly 2 arguments (1 given)")
    ∧ mem s' = mem (start []) ∧ va s' = va (start [])
    ∧ blocks s' = blocks (start [])
    ∧ hist s' = hist (start []) ∧ refs s' = refs (start []).
Proof.
  apply (wrong_count_refused_before_conversion None [PyLong 1] 1 "ii" 0
           (mkScan 0 2 (-1) None None) (start []) (start []));
    [reflexivity|reflexivity|reflexivity|apply start_bounded|].
  left. vm_compute. reflexivity.
Defined.

Lemma not_a_b (name : string) :
  name ∈ ["a"; "b"] → PyUnicode "zzz" ≠ PyUnicode name.
Proof.
  intros Hin Heq. injection Heq as <-.
  apply elem_of_cons in Hin as [Hin|Hin]; [discriminate|].
  apply elem_of_cons in Hin as [Hin|Hin]; [discriminate|].
  by apply elem_of_nil in Hin.
Qed.

Lemma unknown_keyword_is_refused_witness :
  ∃ s',
    vgetargskeywords (PyTuple []) (Some one_unknown_keyword) "i|i"
      ["a"; "b"] 0 three_cells = Ret 0 s'
    ∧ 0 = 0.
Proof.
  eexists. split; [vm_compute; reflexivity|].
  eapply (unknown_keyword_is_refused (PyTuple [])
            [(PyUnicode "a", PyLong 1); (PyUnicode "zzz", PyLong 2)] "i|i"
            ["a"; "b"] 0 (PyUnicode "zzz") three_cells 0).
  - refine (bool_decide_unpack _ _). vm_compute. exact I.
  - simpl. set_solver.
  - exact not_a_b.
  - vm_compute. reflexivity.
Defined.

Lemma unknown_keyword_is_refused_fast_witness :
  ∃ s',
    vGetArgsKeywordsFastImpl [PyLong 1; PyLong 2] 0 None
      (Some (PyTuple [PyUnicode "a"; PyUnicode "zzz"])) a_or_b_parser 0
      three_cells
    = Ret (0, a_or_b_parser) s'
    ∧ (0, a_or_b_parser).1 = 0.
Proof.
  eexists. split; [vm_compute; reflexivity|].
  eapply (unknown_keyword_is_refused_fast [PyLong 1; PyLong 2] 0 None
            (Some (PyTuple [PyUnicode "a"; PyUnicode "zzz"])) a_or_b_parser
            0 (PyUnicode "zzz") three_cells).
  - refine (bool_decide_unpack _ _). vm_compute. exact I.
  - simpl. set_solver.
  - exact not_a_b.
  - vm_compute. reflexivity.
Defined.

Lemma PyObject_LengthHint_cases_witness :
  PyObject_LengthHint (Some hint_only) 7 (start [])
  = Ret 7 (set_thread (mkThread None None) (start []))
  ∧ PyObject_LengthHint (Some bool_hint) 7 (start [])
    = Ret (-1)
        (raised kOverflowError
           "cannot fit 'bool' into an index-sized integer" (start [])).
Proof.
  split.
  - destruct (PyObject_LengthHint_cases hint_only 7 (start [])) as [_ H].
    apply (H (conj eq_refl (λ t, eq_refl)) ErrorNotFound
             (mkThread None None)).
    reflexivity.
  - destruct (PyObject_LengthHint_cases bool_hint 7 (start [])) as [_ H].
    apply (H (conj eq_refl (λ t, eq_refl)) (Obj (PyBool true))
             (mkThread None None)).
    reflexivity.
Defined.

Lemma PySequence_BytesToCharpArray_no_leak_witness :
  ∃ s',
    _PySequence_BytesToCharpArray (Some two_byte_strings) (start [])
    = Ret (Some (PBlock 1, [PBlock 2; PBlock 3; PNull])) s'
    ∧ ∃ b bs,
        PBlock 1 = PBlock b
        ∧ [PBlock 2; PBlock 3; PNull] = (PBlock <$> bs) ++ [PNull]
        ∧ (∃ s1, PySequence_Size (Some two_byte_strings) (start [])
                 = Ret (Z.of_nat (length bs)) s1)
        ∧ NoDup (b :: bs)
        ∧ dom (blocks s') = dom (blocks (start [])) ∪ {[b]} ∪ list_to_set bs
        ∧ dom (blocks (start [])) ## {[b]} ∪ list_to_set bs
        ∧ refs s' = refs (start [])
        ∧ ∃ s'', _Py_FreeCharPArray (PBlock 1) [PBlock 2; PBlock 3; PNull] s'
                 = Ret tt s''
                 ∧ dom (blocks s'') = dom (blocks (start []))
                 ∧ refs s'' = refs (start []).
Proof.
  eexists. split; [vm_compute; reflexivity|].
  apply (PySequence_BytesToCharpArray_no_leak (Some two_byte_strings)
           (start []) (Some (PBlock 1, [PBlock 2; PBlock 3; PNull])) _
           (start_bounded [])).
  vm_compute. reflexivity.
Defined.

Lemma overflow_reaches_the_caller_witness :
  ∃ s',
    PyArg_ParseTuple (Some (PyTuple [PyLong 300])) "b" one_cell = Ret 0 s'
    ∧ thread s'
      = mkThread (Some (typeAt kOverflowError))
          (Some "unsigned byte integer is greater than maximum")
    ∧ mem s' = mem one_cell ∧ blocks s' = blocks one_cell
    ∧ refs s' = refs one_cell.
Proof.
  apply (overflow_reaches_the_caller "b" "unsigned byte integer" 0 UCHAR_MAX
           (PyLong 300) 1 [] 300 (mkThread None None) one_cell);
    [reflexivity|reflexivity|reflexivity|reflexivity|done|].
  right. vm_compute. reflexivity.
Defined.

(** ** What can abort *)



Lemma never_aborts_fn {A} (m : M A) :
  (∀ s, match m s with Fatal _ _ => False | _ => True end) →
  never_aborts m.
Proof. intros H s msg s' E. specialize (H s). by rewrite E in H. Qed.

Lemma never_aborts_PyMem_NEW init : never_aborts (PyMem_NEW init).
Proof.
  apply never_aborts_fn. intros s. unfold PyMem_NEW.
  by destruct (alloc_budget s).
Qed.

Lemma never_aborts_memcpy p d : never_aborts (memcpy p d).
Proof.
  apply never_aborts_fn. intros s. destruct p; simpl; try done.
  by destruct (blocks s !! b).
Qed.

Lemma never_aborts_strlen_at p : never_aborts (strlen_at p).
Proof.
  apply never_aborts_fn. intros s. destruct p; simpl; try done.
  by destruct (blocks s !! b).
Qed.

Lemma never_aborts_step_over f : never_aborts (step_over f).
Proof. apply never_aborts_fn. intros s. by destruct f. Qed.

Section AbortsOnly.
Context {rt : Runtime}.

Lemma never_aborts_va_arg : never_aborts va_arg.
Proof.
  apply never_aborts_fn. intros s. unfold va_arg. by destruct (va s).
Qed.

Lemma never_aborts_call_converter c a p : never_aborts (call_converter c a p).
Proof.
  apply never_aborts_fn. intros s. unfold call_converter.
  by destruct (conv_call c a p (thread s) (mem s)) as [[? ?] ?].
Qed.

End AbortsOnly.

Create HintDb ao discriminated.
#[export] Hint Resolve never_aborts_ret never_aborts_undef never_aborts_get
  never_aborts_modify never_aborts_liftT never_aborts_load never_aborts_store
  never_aborts_PyMem_FREE never_aborts_PyMem_NEW never_aborts_memcpy
  never_aborts_strlen_at never_aborts_step_over never_aborts_va_arg
  never_aborts_call_converter never_aborts_PyBuffer_Release
  never_aborts_cleanreturn : ao.

Create HintDb aou discriminated.
#[export] Hint Unfold raiseWithFmt PyErr_Format PyErr_Occurred PyErr_Clear
  PyErr_NoMemory nullError Py_INCREF Py_DECREF newReference
  setPendingExceptionType setPendingExceptionValue : aou.



Section AbortsOnlyProofs.
Context {rt : Runtime}.


#[local] Hint Unfold doUnaryOp doBinaryOp objectLength PySequence_Size
  PyBuffer_FillInfo raiseBufferError PyObject_GetBuffer PyNumber_Index
  PySequence_GetItem va_arg_ptr va_arg_type va_arg_converter va_arg_str
  float_argument_error seterror load_view is_contiguous getbuffer
  convertbuffer STORE_SIZE BUFFER_LEN RETURN_ERR_OCCURRED convert_ranged
  convert_b convert_h convert_i convert_l convert_mask convert_n convert_k
  convert_L convert_fd convert_D convert_c convert_C convert_p convert_y
  convert_s convert_u convert_e_write convert_kind convert_U convert_O
  convert_w check_level addcleanup record_event skip_va skip_string_code
  fail_with kw_bar kw_dollar kw_convert freelist_static freelist_malloc : aou.


















(** ** Nesting *)

Lemma deepest_nesting_ge format opened :
  (opened ≤ deepest_nesting format opened)%nat.
Proof.
  revert opened. induction format as [|c rest IH]; intros opened; simpl;
    [lia|].
  repeat case_decide.
  - specialize (IH (S opened)). lia.
  - destruct opened; lia.
  - destruct (IS_END_OF_FORMAT c); [lia|apply IH].
Qed.



End AbortsOnlyProofs.

Section ReachingProofs.
Context {rt : Runtime}.






End ReachingProofs.

(** ** The slots that are filled by position *)




Section PositionalSlots.
Context {rt : Runtime}.










End PositionalSlots.

(** ** The binder with a cached parser *)


Section FastSlots.
Context {rt : Runtime}.









End FastSlots.

Section Failure.
Context {rt : Runtime}.




End Failure.





Section FailedCallsMore.
Context {rt : Runtime}.


End FailedCallsMore.


